(** * IPv6 Neighbour Discovery (net/ipv6/ndisc.c): a shallow embedding

    The development follows the layout of the C file: the option codec,
    the emitter, the reachability driver and the receive pipeline.  Pointers
    into a packet are offsets from its transport header, C integers are [Z]
    with their wrap-around written out, and the state owned by the
    collaborators of the NDP core (neighbour cache, default-router list,
    per-interface configuration) is threaded explicitly as a [world]. *)

From Stdlib Require Import ZArith Lia.
From Stdlib.Strings Require Import Byte.
From stdpp Require Import gmap strings list.

Open Scope Z_scope.

(** ** Machine integers and bytes *)

#[global] Instance byte_eq_dec : EqDecision byte := Byte.byte_eq_dec.

Definition u8 (b : byte) : Z := Z.of_N (Byte.to_N b).

(** The byte holding the low eight bits of [z] (a store through a [u8]
    lvalue). *)
Definition to_byte (z : Z) : byte :=
  match Byte.of_N (Z.to_N (z mod 256)) with
  | Some b => b
  | None => Byte.x00
  end.

Definition to_u16 (z : Z) : Z := z mod 65536.
Definition to_u32 (z : Z) : Z := z mod 4294967296.
Definition to_int (z : Z) : Z := (z + 2147483648) mod 4294967296 - 2147483648.

(** Big-endian value of a byte string ([ntohs], [ntohl] and the 128-bit
    value of an address). *)
Definition be_value (bs : list byte) : Z :=
  fold_left (fun acc b => acc * 256 + u8 b) bs 0.

(** Big-endian encoding of [z] on [n] bytes. *)
Fixpoint be_bytes (n : nat) (z : Z) : list byte :=
  match n with
  | O => []
  | S n' => to_byte (Z.shiftr z (8 * Z.of_nat n')) :: be_bytes n' z
  end.

(** Memory is a list of bytes; a pointer is an offset.  Loads outside the
    list read zero: every load of the model is preceded, as in the C code, by
    the length test that keeps it inside the packet. *)
Definition load8 (mem : list byte) (p : Z) : Z :=
  if p <? 0 then 0 else
  match mem !! Z.to_nat p with
  | Some b => u8 b
  | None => 0
  end.

Definition load_bytes (mem : list byte) (p : Z) (n : nat) : list byte :=
  take n (drop (Z.to_nat p) mem).

Definition store8 (mem : list byte) (p : Z) (v : Z) : list byte :=
  <[Z.to_nat p := to_byte v]> mem.

Fixpoint memset (mem : list byte) (p : Z) (c : Z) (n : nat) : list byte :=
  match n with
  | O => mem
  | S n' => memset (store8 mem p c) (p + 1) c n'
  end.

Fixpoint memcpy (mem : list byte) (p : Z) (src : list byte) (n : nat)
  : list byte :=
  match n, src with
  | S n', b :: src' => memcpy (<[Z.to_nat p := b]> mem) (p + 1) src' n'
  | _, _ => mem
  end.

(** ** Build configuration

    The preprocessor symbols the file tests.  [MTK_IPV6_TETHER_NDP_MODE] is
    not among them: the block it guards calls [ndisc_fill_addr_option] with
    five arguments and cannot be compiled against the three-argument
    definition of this file, so the model is the build without it. *)

Record kconfig := {
  CONFIG_IPV6_ROUTE_INFO : bool;
  CONFIG_IPV6_ROUTER_PREF : bool;
  CONFIG_IPV6_NDISC_NODETYPE : bool;
  CONFIG_IPV6_OPTIMISTIC_DAD : bool;
  CONFIG_ARPD : bool;
  MTK_DHCPV6C_WIFI : bool;
  HZ : Z;
  BITS_PER_LONG : Z;
}.

Definition to_ulong (cfg : kconfig) (z : Z) : Z := z mod 2 ^ BITS_PER_LONG cfg.

(** ** Devices *)

Record net_device := {
  ifindex : Z;
  name : string;
  dev_type : Z;
  addr_len : Z;
  dev_addr : list byte;
  broadcast : list byte;
  dev_flags : Z;
  dev_mtu : Z;
  header_ops : bool;
  header_ops_cache : bool;
  ll_reserved_space : Z;
  needed_tailroom : Z;
}.

(** ** Option codec *)

Definition ND_OPT_SOURCE_LL_ADDR : Z := 1.
Definition ND_OPT_TARGET_LL_ADDR : Z := 2.
Definition ND_OPT_PREFIX_INFO : Z := 3.
Definition ND_OPT_REDIRECT_HDR : Z := 4.
Definition ND_OPT_MTU : Z := 5.
Definition ND_OPT_ROUTE_INFO : Z := 24.
Definition ND_OPT_RDNSS : Z := 25.
Definition ND_OPT_DNSSL : Z := 31.
Definition ND_OPT_PREFIX_INFO_END : Z := 0.
Definition ND_OPT_ARRAY_MAX : nat := 6.

(** [struct nd_opt_hdr]: a type byte and a length byte in units of eight. *)
Definition nd_opt_type (mem : list byte) (p : Z) : Z := load8 mem p.
Definition nd_opt_len (mem : list byte) (p : Z) : Z := load8 mem (p + 1).

(** [struct ndisc_options]: a NULL pointer is [None]. *)
Record ndisc_options := {
  nd_opt_array : list (option Z);
  nd_opts_ri : option Z;
  nd_opts_ri_end : option Z;
  nd_useropts : option Z;
  nd_useropts_end : option Z;
}.

Definition nd_slot (nd : ndisc_options) (ty : Z) : option Z :=
  mjoin (nd_opt_array nd !! Z.to_nat ty).

Definition nd_opts_pi := fun nd => nd_slot nd ND_OPT_PREFIX_INFO.
Definition nd_opts_pi_end := fun nd => nd_slot nd ND_OPT_PREFIX_INFO_END.
Definition nd_opts_src_lladdr := fun nd => nd_slot nd ND_OPT_SOURCE_LL_ADDR.
Definition nd_opts_tgt_lladdr := fun nd => nd_slot nd ND_OPT_TARGET_LL_ADDR.
Definition nd_opts_rh := fun nd => nd_slot nd ND_OPT_REDIRECT_HDR.
Definition nd_opts_mtu := fun nd => nd_slot nd ND_OPT_MTU.

Definition set_nd_slot (nd : ndisc_options) (ty : Z) (p : Z) : ndisc_options :=
  {| nd_opt_array := <[Z.to_nat ty := Some p]> (nd_opt_array nd);
     nd_opts_ri := nd_opts_ri nd;
     nd_opts_ri_end := nd_opts_ri_end nd;
     nd_useropts := nd_useropts nd;
     nd_useropts_end := nd_useropts_end nd |}.

(** The cleared option set the parser starts from. *)
Definition ndopts_zero : ndisc_options :=
  {| nd_opt_array := replicate ND_OPT_ARRAY_MAX None;
     nd_opts_ri := None; nd_opts_ri_end := None;
     nd_useropts := None; nd_useropts_end := None |}.

Definition ndisc_is_useropt (mem : list byte) (opt : Z) : bool :=
  (nd_opt_type mem opt =? ND_OPT_RDNSS) || (nd_opt_type mem opt =? ND_OPT_DNSSL).

Definition is_singleton_opt (ty : Z) : bool :=
  (ty =? ND_OPT_SOURCE_LL_ADDR) || (ty =? ND_OPT_TARGET_LL_ADDR)
  || (ty =? ND_OPT_MTU) || (ty =? ND_OPT_REDIRECT_HDR).

(** The [switch] of [ndisc_parse_options] on the option at [nd_opt]. *)
Definition ndisc_parse_record (cfg : kconfig) (mem : list byte) (nd_opt : Z)
    (ndopts : ndisc_options) : ndisc_options :=
  let ty := nd_opt_type mem nd_opt in
  if is_singleton_opt ty then
    match nd_slot ndopts ty with
    | Some _ => ndopts
    | None => set_nd_slot ndopts ty nd_opt
    end
  else if ty =? ND_OPT_PREFIX_INFO then
    let ndopts := set_nd_slot ndopts ND_OPT_PREFIX_INFO_END nd_opt in
    match nd_slot ndopts ty with
    | Some _ => ndopts
    | None => set_nd_slot ndopts ty nd_opt
    end
  else if CONFIG_IPV6_ROUTE_INFO cfg && (ty =? ND_OPT_ROUTE_INFO) then
    {| nd_opt_array := nd_opt_array ndopts;
       nd_opts_ri := match nd_opts_ri ndopts with
                     | Some p => Some p
                     | None => Some nd_opt
                     end;
       nd_opts_ri_end := Some nd_opt;
       nd_useropts := nd_useropts ndopts;
       nd_useropts_end := nd_useropts_end ndopts |}
  else if ndisc_is_useropt mem nd_opt then
    {| nd_opt_array := nd_opt_array ndopts;
       nd_opts_ri := nd_opts_ri ndopts;
       nd_opts_ri_end := nd_opts_ri_end ndopts;
       nd_useropts := match nd_useropts ndopts with
                      | Some p => Some p
                      | None => Some nd_opt
                      end;
       nd_useropts_end := Some nd_opt |}
  else ndopts.

(** The [while (opt_len)] loop.  Every turn consumes at least eight bytes, so
    [opt_len] turns are enough; the outer [None] is the loop running out of
    [fuel], the inner one the NULL result. *)
Fixpoint ndisc_parse_loop (cfg : kconfig) (fuel : nat) (mem : list byte)
    (nd_opt : Z) (opt_len : Z) (ndopts : ndisc_options)
  : option (option ndisc_options) :=
  if opt_len =? 0 then Some (Some ndopts) else
  match fuel with
  | O => None
  | S fuel' =>
      if opt_len <? 2 then Some None else
      let l := Z.shiftl (nd_opt_len mem nd_opt) 3 in
      if (opt_len <? l) || (l =? 0) then Some None else
      ndisc_parse_loop cfg fuel' mem (nd_opt + l) (opt_len - l)
        (ndisc_parse_record cfg mem nd_opt ndopts)
  end.

(** [ndisc_parse_options(opt, opt_len, ndopts)].  Both pointers are never
    NULL at the call sites of the file ([opt] points into the packet and
    [ndopts] at a local variable), which leaves the test on [opt_len]. *)
Definition ndisc_parse_options (cfg : kconfig) (mem : list byte) (opt : Z)
    (opt_len : Z) : option ndisc_options :=
  if opt_len <? 0 then None else
  match ndisc_parse_loop cfg (Z.to_nat opt_len) mem opt opt_len ndopts_zero with
  | Some r => r
  | None => None
  end.

(** Iteration over the repeated options.  [ndisc_next_option] and
    [ndisc_next_useropt] share their [do ... while] loop, which differs only
    in the test [same] applied to the option under the cursor.  The outer
    [None] is again the loop running out of [fuel]. *)
Fixpoint nd_opt_skip (fuel : nat) (mem : list byte) (same : Z -> bool)
    (cur end_ : Z) : option Z :=
  match fuel with
  | O => None
  | S fuel' =>
      let cur := cur + Z.shiftl (nd_opt_len mem cur) 3 in
      if (cur <? end_) && negb (same cur)
      then nd_opt_skip fuel' mem same cur end_
      else Some cur
  end.

Definition ndisc_next_option (fuel : nat) (mem : list byte)
    (cur end_ : option Z) : option (option Z) :=
  match cur, end_ with
  | Some cur, Some end_ =>
      if end_ <=? cur then Some None else
      let type := nd_opt_type mem cur in
      match nd_opt_skip fuel mem (fun p => nd_opt_type mem p =? type) cur end_ with
      | None => None
      | Some cur =>
          Some (if (cur <=? end_) && (nd_opt_type mem cur =? type)
                then Some cur else None)
      end
  | _, _ => Some None
  end.

Definition ndisc_next_useropt (fuel : nat) (mem : list byte)
    (cur end_ : option Z) : option (option Z) :=
  match cur, end_ with
  | Some cur, Some end_ =>
      if end_ <=? cur then Some None else
      match nd_opt_skip fuel mem (ndisc_is_useropt mem) cur end_ with
      | None => None
      | Some cur =>
          Some (if (cur <=? end_) && ndisc_is_useropt mem cur
                then Some cur else None)
      end
  | _, _ => Some None
  end.

(** The [for (p = first; p; p = next(p, end))] loops of the RA handler: the
    options visited, in order; [None] when the loop runs out of [fuel]. *)
Fixpoint nd_opt_visit (fuel : nat) (next : option Z -> option (option Z))
    (p : option Z) : option (list Z) :=
  match p with
  | None => Some []
  | Some q =>
      match fuel with
      | O => None
      | S fuel' =>
          match next p with
          | Some p' => cons q <$> nd_opt_visit fuel' next p'
          | None => None
          end
      end
  end.

(** ** Addresses

    An [in6_addr] is the 128-bit number its sixteen bytes spell in network
    order. *)

Abbreviation in6_addr := Z (only parsing).

Definition in6addr_linklocal_allnodes : in6_addr :=
  0xff020000000000000000000000000001.

(** Modelled from the spec: the address tests of include/net/ipv6.h and
    include/net/addrconf.h, which are not among the sources.  The unspecified
    address is [::], a multicast address starts with the byte [ff], and the
    solicited-node multicast address of a target is [ff02::1:ffxx:xxxx] with
    the low 24 bits of the target. *)
Definition ipv6_addr_any (a : in6_addr) : bool := a =? 0.

Definition ipv6_addr_is_multicast (a : in6_addr) : bool :=
  Z.shiftr a 120 =? 0xff.

Definition ipv6_addr_is_solict_mult (a : in6_addr) : bool :=
  Z.shiftr a 24 =? 0xff0200000000000000000001ff.

Definition addrconf_addr_solict_mult (a : in6_addr) : in6_addr :=
  Z.lor 0xff0200000000000000000001ff000000 (Z.land a 0xffffff).

Definition ipv6_addr_equal (a b : in6_addr) : bool := a =? b.

Definition IPV6_ADDR_UNICAST : Z := 0x0001.
Definition IPV6_ADDR_LINKLOCAL : Z := 0x0020.

(** ** Neighbour cache, interfaces, routers *)

Definition NUD_INCOMPLETE : Z := 0x01.
Definition NUD_REACHABLE : Z := 0x02.
Definition NUD_STALE : Z := 0x04.
Definition NUD_DELAY : Z := 0x08.
Definition NUD_PROBE : Z := 0x10.
Definition NUD_FAILED : Z := 0x20.
Definition NUD_NOARP : Z := 0x40.
Definition NUD_PERMANENT : Z := 0x80.
Definition NUD_NONE : Z := 0x00.
Definition NUD_VALID : Z :=
  Z.lor NUD_PERMANENT (Z.lor NUD_NOARP (Z.lor NUD_REACHABLE
    (Z.lor NUD_PROBE (Z.lor NUD_STALE NUD_DELAY)))).

Definition NTF_PROXY : Z := 0x08.
Definition NTF_ROUTER : Z := 0x80.

Definition NEIGH_UPDATE_F_OVERRIDE : Z := 0x00000001.
Definition NEIGH_UPDATE_F_WEAK_OVERRIDE : Z := 0x00000002.
Definition NEIGH_UPDATE_F_OVERRIDE_ISROUTER : Z := 0x00000004.
Definition NEIGH_UPDATE_F_ISROUTER : Z := 0x40000000.

Definition RTN_UNICAST : Z := 1.
Definition RTN_LOCAL : Z := 2.
Definition RTN_MULTICAST : Z := 5.

Definition IFF_LOOPBACK : Z := 0x8.
Definition IFF_POINTOPOINT : Z := 0x10.
Definition IFF_NOARP : Z := 0x80.

Definition ARPHRD_ETHER : Z := 1.
Definition ARPHRD_IEEE802 : Z := 6.
Definition ARPHRD_ARCNET : Z := 7.
Definition ARPHRD_INFINIBAND : Z := 32.
Definition ARPHRD_FDDI : Z := 774.
Definition ARPHRD_IPGRE : Z := 778.

Definition IFA_F_OPTIMISTIC : Z := 0x04.
Definition IFA_F_TENTATIVE : Z := 0x40.

Definition IF_RS_SENT : Z := 0x10.
Definition IF_RA_RCVD : Z := 0x20.
Definition IF_RA_MANAGED : Z := 0x40.
Definition IF_RA_OTHERCONF : Z := 0x80.

Definition PACKET_HOST : Z := 0.
Definition PACKET_LOOPBACK : Z := 5.
Definition LOCALLY_ENQUEUED : Z := 0x1.

Definition NDISC_NODETYPE_UNSPEC : Z := 0.
Definition NDISC_NODETYPE_HOST : Z := 1.
Definition NDISC_NODETYPE_NODEFAULT : Z := 2.

Definition NDISC_ROUTER_SOLICITATION : Z := 133.
Definition NDISC_ROUTER_ADVERTISEMENT : Z := 134.
Definition NDISC_NEIGHBOUR_SOLICITATION : Z := 135.
Definition NDISC_NEIGHBOUR_ADVERTISEMENT : Z := 136.
Definition NDISC_REDIRECT : Z := 137.

Definition IPPROTO_ICMPV6 : Z := 58.
Definition IPV6_MIN_MTU : Z := 1280.
Definition MAX_ADDR_LEN : nat := 32.
Definition LONG_MAX (cfg : kconfig) : Z := 2 ^ (BITS_PER_LONG cfg - 1) - 1.
Definition MAX_SCHEDULE_TIMEOUT (cfg : kconfig) : Z := LONG_MAX cfg.

Definition EINVAL : Z := 22.
Definition EMSGSIZE : Z := 90.
Definition ENOBUFS : Z := 105.

Definition ICMPV6_ROUTER_PREF_LOW : Z := 0x3.
Definition ICMPV6_ROUTER_PREF_MEDIUM : Z := 0x0.
Definition ICMPV6_ROUTER_PREF_HIGH : Z := 0x1.
Definition ICMPV6_ROUTER_PREF_INVALID : Z := 0x2.

Definition RTF_UP : Z := 0x0001.
Definition RTF_GATEWAY : Z := 0x0002.
Definition RTF_DEFAULT : Z := 0x00010000.
Definition RTF_ADDRCONF : Z := 0x00040000.
Definition RTF_EXPIRES : Z := 0x00400000.
Definition RTF_PREF_MASK : Z := 0x18000000.
Definition RTF_PREF (pref : Z) : Z := Z.shiftl pref 27.

(** C truth of an integer, and bit tests. *)
Definition nonzero (z : Z) : bool := negb (z =? 0).
Definition has_flag (v mask : Z) : bool := nonzero (Z.land v mask).

Record neigh_parms := {
  base_reachable_time : Z;
  retrans_time : Z;
  gc_staletime : Z;
  reachable_time : Z;
  delay_probe_time : Z;
  queue_len_bytes : Z;
  ucast_probes : Z;
  app_probes : Z;
  mcast_probes : Z;
  anycast_delay : Z;
  proxy_delay : Z;
  proxy_qlen : Z;
}.

Inductive neigh_ops := ndisc_generic_ops | ndisc_hh_ops | ndisc_direct_ops.

Inductive neigh_output :=
  neigh_blackhole | neigh_resolve_output | neigh_connected_output
  | neigh_direct_output.

Definition ops_output (o : neigh_ops) : neigh_output :=
  match o with
  | ndisc_generic_ops => neigh_resolve_output
  | ndisc_hh_ops => neigh_resolve_output
  | ndisc_direct_ops => neigh_direct_output
  end.

Definition ops_connected_output (o : neigh_ops) : neigh_output :=
  match o with
  | ndisc_generic_ops => neigh_connected_output
  | ndisc_hh_ops => neigh_resolve_output
  | ndisc_direct_ops => neigh_direct_output
  end.

(** A neighbour entry.  [n_parms] is the pointer [neigh->parms]: [None] for
    the parameters of the table, [Some i] for those of the interface [i],
    which the entry shares with the interface. *)
Record neighbour := {
  primary_key : in6_addr;
  n_dev : net_device;
  ha : list byte;
  nud_state : Z;
  n_flags : Z;
  n_type : Z;
  n_probes : Z;
  n_parms : option Z;
  n_ops : option neigh_ops;
  n_output : neigh_output;
}.

Record pneigh_entry := {
  pn_key : in6_addr;
  pn_dev : option Z;
  pn_flags : Z;
}.

Record inet6_ifaddr := {
  ifa_addr : in6_addr;
  ifa_flags : Z;
}.

Record ipv6_devconf := {
  forwarding : Z;
  hop_limit : Z;
  mtu6 : Z;
  accept_ra : Z;
  accept_ra_defrtr : Z;
  accept_ra_pinfo : Z;
  accept_ra_rtr_pref : Z;
  accept_ra_rt_info_max_plen : Z;
  proxy_ndp : Z;
  force_tllao : Z;
  ndisc_notify : Z;
  ra_info_flag : Z;
}.

(** [struct inet6_dev].  [nd_parms] is allocated with the structure and is
    never NULL, so the test [if (in6_dev->nd_parms)] of the RA handler always
    succeeds. *)
Record inet6_dev := {
  cnf : ipv6_devconf;
  if_flags : Z;
  nd_parms : neigh_parms;
  tstamp : Z;
  addr_list : list inet6_ifaddr;
}.

Record rt6_info := {
  rt6i_gateway : in6_addr;
  rt6i_dev : Z;
  rt6i_flags : Z;
  rt6i_expires : Z;
  rt6i_hoplimit : Z;
  rt6i_mtu : Z;
}.

(** [struct ipv6_pinfo] of the control socket. *)
Record ipv6_pinfo := {
  sk_hop_limit : Z;
  sk_mc_loop : Z;
  sk_srcprefs : Z;
}.

(** A packet.  [skb_data] holds the bytes from the network header to the
    tail; [transport_header] is the offset of the ICMPv6 header in it. *)
Record sk_buff := {
  skb_dev : net_device;
  skb_data : list byte;
  transport_header : Z;
  pkt_type : Z;
  ndisc_nodetype : Z;
  cb_flags : Z;
}.

(** What the NDP core hands to its collaborators: packets given to the output
    path, requests to the address-configuration, routing and notification
    subsystems, and statistics. *)
Inductive mib :=
  | IPSTATS_MIB_OUT (len : Z)
  | ICMP6_MIB_OUTMSGS
  | ICMP6MSGOUT (type : Z)
  | rcv_probes_mcast
  | rcv_probes_ucast.

Inductive event :=
  | EvOutput (pkt : sk_buff)
  | EvDadFailure (ifindex : Z) (ifp : inet6_ifaddr)
  | EvPneighEnqueue (ifindex : Z) (skb : sk_buff)
  | EvIfinfoNotify (ifindex : Z)
  | EvPrefixRcv (ifindex : Z) (opt : list byte) (len : Z) (sllao : bool)
  | EvRouteRcv (ifindex : Z) (opt : list byte) (len : Z) (gwaddr : in6_addr)
  | EvMtuChange (ifindex : Z) (mtu : Z)
  | EvUseropt (ifindex : Z) (type code : Z) (opt : list byte) (saddr : in6_addr)
  | EvUseroptErr (err : Z)
  | EvIcmpv6Notify (skb : sk_buff) (data : Z) (type : Z)
  | EvNeighChangeaddr (ifindex : Z)
  | EvNeighIfdown (ifindex : Z)
  | EvFib6RunGc
  | EvNeighAppNs (key : in6_addr) (ifindex : Z)
  | EvLinkFailure (skb : sk_buff)
  | EvStat (counter : mib).

(** The state of one network namespace, as far as the file reads or writes
    it.  Reference counts are left out. *)
Record world := {
  jiffies : Z;
  ndisc_sk : ipv6_pinfo;
  devconf_all : ipv6_devconf;
  idevs : gmap Z inet6_dev;
  ac_list : list (Z * in6_addr);
  nd_tbl : gmap (in6_addr * Z) neighbour;
  pneigh : list pneigh_entry;
  rt6_dflt : gmap (in6_addr * Z) rt6_info;
  events : list event;
}.

(** Outcomes the environment decides: allocation and lookup failures, the
    verdict of the output path, and the contents of fresh memory. *)
Record faults := {
  skb_linearize_fails : bool;
  alloc_skb_fails : bool;
  skb_clone_fails : bool;
  icmp6_dst_alloc_fails : bool;
  neigh_create_fails : bool;
  rt6_add_fails : bool;
  output_err : bool;
  nlmsg_new_fails : bool;
  nlmsg_put_fails : bool;
  nla_put_fails : bool;
  route_output_fails : bool;
  xfrm_lookup_fails : bool;
  rt_is_gateway : bool;
  xrlim_allow : bool;
  sock_create_err : Z;
  heap : nat -> byte;
}.

(** The parameters of [nd_tbl], from its initialiser. *)
Definition ND_REACHABLE_TIME (cfg : kconfig) : Z := 30 * HZ cfg.
Definition ND_RETRANS_TIMER (cfg : kconfig) : Z := HZ cfg.

Definition nd_tbl_parms (cfg : kconfig) : neigh_parms :=
  {| base_reachable_time := ND_REACHABLE_TIME cfg;
     retrans_time := ND_RETRANS_TIMER cfg;
     gc_staletime := 60 * HZ cfg;
     reachable_time := ND_REACHABLE_TIME cfg;
     delay_probe_time := 5 * HZ cfg;
     queue_len_bytes := 64 * 1024;
     ucast_probes := 3;
     app_probes := 0;
     mcast_probes := 3;
     anycast_delay := 1 * HZ cfg;
     proxy_delay := (8 * HZ cfg) / 10;
     proxy_qlen := 64 |}.

(** Functions of the kernel that the file calls and whose code is elsewhere.
    The model is parametric in them. *)
Class Collaborators := {
  (** include/net/ipv6.h: the type bits of an address *)
  ipv6_addr_type : in6_addr -> Z;
  (** include/net/ndisc.h: padding of a link-layer address option *)
  ndisc_addr_option_pad : Z -> Z;
  (** include/net/ipv6.h: does the interface accept RAs *)
  ipv6_accept_ra : inet6_dev -> bool;
  (** net/core/neighbour.c: the generic update of an entry *)
  neigh_update : neighbour -> option (list byte) -> Z -> Z -> neighbour;
  neigh_rand_reach_time : Z -> Z;
  (** net/ipv6/addrconf.c: source address selection *)
  ipv6_dev_get_saddr : world -> net_device -> in6_addr -> Z -> option in6_addr;
  (** checksums *)
  csum_partial : list byte -> Z -> Z -> Z;
  csum_ipv6_magic : in6_addr -> in6_addr -> Z -> Z -> Z -> Z;
  (** include/net/if_inet6.h: link-specific multicast mappings *)
  ipv6_ib_mc_map : in6_addr -> list byte -> list byte -> list byte;
  ipv6_ipgre_mc_map : in6_addr -> list byte -> list byte -> Z * list byte;
}.

(** Field updates. *)
Definition set_events (w : world) (e : list event) : world :=
  {| jiffies := jiffies w; ndisc_sk := ndisc_sk w;
     devconf_all := devconf_all w; idevs := idevs w; ac_list := ac_list w;
     nd_tbl := nd_tbl w; pneigh := pneigh w; rt6_dflt := rt6_dflt w;
     events := e |}.

Definition set_idevs (w : world) (m : gmap Z inet6_dev) : world :=
  {| jiffies := jiffies w; ndisc_sk := ndisc_sk w;
     devconf_all := devconf_all w; idevs := m; ac_list := ac_list w;
     nd_tbl := nd_tbl w; pneigh := pneigh w; rt6_dflt := rt6_dflt w;
     events := events w |}.

Definition set_nd_tbl (w : world) (m : gmap (in6_addr * Z) neighbour) : world :=
  {| jiffies := jiffies w; ndisc_sk := ndisc_sk w;
     devconf_all := devconf_all w; idevs := idevs w; ac_list := ac_list w;
     nd_tbl := m; pneigh := pneigh w; rt6_dflt := rt6_dflt w;
     events := events w |}.

Definition set_rt6_dflt (w : world) (m : gmap (in6_addr * Z) rt6_info) : world :=
  {| jiffies := jiffies w; ndisc_sk := ndisc_sk w;
     devconf_all := devconf_all w; idevs := idevs w; ac_list := ac_list w;
     nd_tbl := nd_tbl w; pneigh := pneigh w; rt6_dflt := m;
     events := events w |}.

Definition set_ndisc_sk (w : world) (sk : ipv6_pinfo) : world :=
  {| jiffies := jiffies w; ndisc_sk := sk;
     devconf_all := devconf_all w; idevs := idevs w; ac_list := ac_list w;
     nd_tbl := nd_tbl w; pneigh := pneigh w; rt6_dflt := rt6_dflt w;
     events := events w |}.

Definition emit (w : world) (e : event) : world := set_events w (e :: events w).

Definition set_cnf (d : inet6_dev) (c : ipv6_devconf) : inet6_dev :=
  {| cnf := c; if_flags := if_flags d; nd_parms := nd_parms d;
     tstamp := tstamp d; addr_list := addr_list d |}.

Definition set_if_flags (d : inet6_dev) (v : Z) : inet6_dev :=
  {| cnf := cnf d; if_flags := v; nd_parms := nd_parms d;
     tstamp := tstamp d; addr_list := addr_list d |}.

Definition set_nd_parms (d : inet6_dev) (p : neigh_parms) : inet6_dev :=
  {| cnf := cnf d; if_flags := if_flags d; nd_parms := p;
     tstamp := tstamp d; addr_list := addr_list d |}.

Definition set_tstamp (d : inet6_dev) (v : Z) : inet6_dev :=
  {| cnf := cnf d; if_flags := if_flags d; nd_parms := nd_parms d;
     tstamp := v; addr_list := addr_list d |}.

Definition set_accept_ra_defrtr (c : ipv6_devconf) (v : Z) : ipv6_devconf :=
  {| forwarding := forwarding c; hop_limit := hop_limit c; mtu6 := mtu6 c;
     accept_ra := accept_ra c; accept_ra_defrtr := v;
     accept_ra_pinfo := accept_ra_pinfo c;
     accept_ra_rtr_pref := accept_ra_rtr_pref c;
     accept_ra_rt_info_max_plen := accept_ra_rt_info_max_plen c;
     proxy_ndp := proxy_ndp c; force_tllao := force_tllao c;
     ndisc_notify := ndisc_notify c; ra_info_flag := ra_info_flag c |}.

Definition set_hop_limit (c : ipv6_devconf) (v : Z) : ipv6_devconf :=
  {| forwarding := forwarding c; hop_limit := v; mtu6 := mtu6 c;
     accept_ra := accept_ra c; accept_ra_defrtr := accept_ra_defrtr c;
     accept_ra_pinfo := accept_ra_pinfo c;
     accept_ra_rtr_pref := accept_ra_rtr_pref c;
     accept_ra_rt_info_max_plen := accept_ra_rt_info_max_plen c;
     proxy_ndp := proxy_ndp c; force_tllao := force_tllao c;
     ndisc_notify := ndisc_notify c; ra_info_flag := ra_info_flag c |}.

Definition set_mtu6 (c : ipv6_devconf) (v : Z) : ipv6_devconf :=
  {| forwarding := forwarding c; hop_limit := hop_limit c; mtu6 := v;
     accept_ra := accept_ra c; accept_ra_defrtr := accept_ra_defrtr c;
     accept_ra_pinfo := accept_ra_pinfo c;
     accept_ra_rtr_pref := accept_ra_rtr_pref c;
     accept_ra_rt_info_max_plen := accept_ra_rt_info_max_plen c;
     proxy_ndp := proxy_ndp c; force_tllao := force_tllao c;
     ndisc_notify := ndisc_notify c; ra_info_flag := ra_info_flag c |}.

Definition set_ra_info_flag (c : ipv6_devconf) (v : Z) : ipv6_devconf :=
  {| forwarding := forwarding c; hop_limit := hop_limit c; mtu6 := mtu6 c;
     accept_ra := accept_ra c; accept_ra_defrtr := accept_ra_defrtr c;
     accept_ra_pinfo := accept_ra_pinfo c;
     accept_ra_rtr_pref := accept_ra_rtr_pref c;
     accept_ra_rt_info_max_plen := accept_ra_rt_info_max_plen c;
     proxy_ndp := proxy_ndp c; force_tllao := force_tllao c;
     ndisc_notify := ndisc_notify c; ra_info_flag := v |}.

Definition set_retrans_time (p : neigh_parms) (v : Z) : neigh_parms :=
  {| base_reachable_time := base_reachable_time p; retrans_time := v;
     gc_staletime := gc_staletime p; reachable_time := reachable_time p;
     delay_probe_time := delay_probe_time p;
     queue_len_bytes := queue_len_bytes p; ucast_probes := ucast_probes p;
     app_probes := app_probes p; mcast_probes := mcast_probes p;
     anycast_delay := anycast_delay p; proxy_delay := proxy_delay p;
     proxy_qlen := proxy_qlen p |}.

Definition set_reachable (p : neigh_parms) (base stale reach : Z) : neigh_parms :=
  {| base_reachable_time := base; retrans_time := retrans_time p;
     gc_staletime := stale; reachable_time := reach;
     delay_probe_time := delay_probe_time p;
     queue_len_bytes := queue_len_bytes p; ucast_probes := ucast_probes p;
     app_probes := app_probes p; mcast_probes := mcast_probes p;
     anycast_delay := anycast_delay p; proxy_delay := proxy_delay p;
     proxy_qlen := proxy_qlen p |}.

Definition set_cb_flags (skb : sk_buff) (v : Z) : sk_buff :=
  {| skb_dev := skb_dev skb; skb_data := skb_data skb;
     transport_header := transport_header skb; pkt_type := pkt_type skb;
     ndisc_nodetype := ndisc_nodetype skb; cb_flags := v |}.

Definition set_n_flags (n : neighbour) (v : Z) : neighbour :=
  {| primary_key := primary_key n; n_dev := n_dev n; ha := ha n;
     nud_state := nud_state n; n_flags := v; n_type := n_type n;
     n_probes := n_probes n; n_parms := n_parms n; n_ops := n_ops n;
     n_output := n_output n |}.

Definition set_rt_flags (r : rt6_info) (v : Z) : rt6_info :=
  {| rt6i_gateway := rt6i_gateway r; rt6i_dev := rt6i_dev r; rt6i_flags := v;
     rt6i_expires := rt6i_expires r; rt6i_hoplimit := rt6i_hoplimit r;
     rt6i_mtu := rt6i_mtu r |}.

Definition set_rt_hoplimit (r : rt6_info) (v : Z) : rt6_info :=
  {| rt6i_gateway := rt6i_gateway r; rt6i_dev := rt6i_dev r;
     rt6i_flags := rt6i_flags r; rt6i_expires := rt6i_expires r;
     rt6i_hoplimit := v; rt6i_mtu := rt6i_mtu r |}.

Definition set_rt_mtu (r : rt6_info) (v : Z) : rt6_info :=
  {| rt6i_gateway := rt6i_gateway r; rt6i_dev := rt6i_dev r;
     rt6i_flags := rt6i_flags r; rt6i_expires := rt6i_expires r;
     rt6i_hoplimit := rt6i_hoplimit r; rt6i_mtu := v |}.

(** include/net/ip6_fib.h: [rt6_set_expires] stores the time and marks the
    route as expiring. *)
Definition rt6_set_expires (r : rt6_info) (expires : Z) : rt6_info :=
  {| rt6i_gateway := rt6i_gateway r; rt6i_dev := rt6i_dev r;
     rt6i_flags := Z.lor (rt6i_flags r) RTF_EXPIRES; rt6i_expires := expires;
     rt6i_hoplimit := rt6i_hoplimit r; rt6i_mtu := rt6i_mtu r |}.

(** ** Packets on the wire

    Modelled from the spec: the layout of the IPv6 header and of the NDP
    messages (RFC 4861 and RFC 4191); the structure declarations of
    include/uapi/linux/ipv6.h, icmpv6.h and include/net/ndisc.h are not among
    the sources. *)

Definition skb_tail (skb : sk_buff) : Z := Z.of_nat (length (skb_data skb)).

(** [skb->len] in the receive handlers, where [ndisc_rcv] has pushed the data
    pointer back to the transport header of the linear packet. *)
Definition skb_len (skb : sk_buff) : Z := skb_tail skb - transport_header skb.

Definition ipv6_hdr_hop_limit (skb : sk_buff) : Z := load8 (skb_data skb) 7.
Definition ipv6_hdr_saddr (skb : sk_buff) : in6_addr :=
  be_value (load_bytes (skb_data skb) 8 16).
Definition ipv6_hdr_daddr (skb : sk_buff) : in6_addr :=
  be_value (load_bytes (skb_data skb) 24 16).

Definition icmp6_type (skb : sk_buff) : Z :=
  load8 (skb_data skb) (transport_header skb).
Definition icmp6_code (skb : sk_buff) : Z :=
  load8 (skb_data skb) (transport_header skb + 1).

(** Neighbour advertisement flags *)
Definition icmp6_router (skb : sk_buff) : bool :=
  has_flag (load8 (skb_data skb) (transport_header skb + 4)) 0x80.
Definition icmp6_solicited (skb : sk_buff) : bool :=
  has_flag (load8 (skb_data skb) (transport_header skb + 4)) 0x40.
Definition icmp6_override (skb : sk_buff) : bool :=
  has_flag (load8 (skb_data skb) (transport_header skb + 4)) 0x20.

(** Router advertisement fields *)
Definition icmp6_hop_limit (skb : sk_buff) : Z :=
  load8 (skb_data skb) (transport_header skb + 4).
Definition icmp6_addrconf_managed (skb : sk_buff) : bool :=
  has_flag (load8 (skb_data skb) (transport_header skb + 5)) 0x80.
Definition icmp6_addrconf_other (skb : sk_buff) : bool :=
  has_flag (load8 (skb_data skb) (transport_header skb + 5)) 0x40.
Definition icmp6_router_pref (skb : sk_buff) : Z :=
  Z.land (Z.shiftr (load8 (skb_data skb) (transport_header skb + 5)) 3) 0x3.
Definition icmp6_rt_lifetime (skb : sk_buff) : Z :=
  be_value (load_bytes (skb_data skb) (transport_header skb + 6) 2).
Definition ra_reachable_time (skb : sk_buff) : Z :=
  be_value (load_bytes (skb_data skb) (transport_header skb + 8) 4).
Definition ra_retrans_timer (skb : sk_buff) : Z :=
  be_value (load_bytes (skb_data skb) (transport_header skb + 12) 4).

(** Target of an NS, NA or Redirect, destination of a Redirect *)
Definition nd_msg_target (skb : sk_buff) : in6_addr :=
  be_value (load_bytes (skb_data skb) (transport_header skb + 8) 16).
Definition rd_msg_dest (skb : sk_buff) : in6_addr :=
  be_value (load_bytes (skb_data skb) (transport_header skb + 24) 16).

Definition sizeof_icmp6hdr : Z := 8.
Definition sizeof_ipv6hdr : Z := 40.
Definition sizeof_nd_opt_hdr : Z := 2.
Definition sizeof_rs_msg : Z := 8.
Definition sizeof_ra_msg : Z := 16.
Definition sizeof_nd_msg : Z := 24.
Definition sizeof_rd_msg : Z := 40.

(** A packet under construction by the emitter: the bytes put so far, from
    the transport header on, the room left behind them with whatever the
    allocator left there, and whether a route is attached. *)
Record tx_skb := {
  tx_dev : net_device;
  tx_data : list byte;
  tx_room : list byte;
  tx_dst : bool;
}.

(** [skb_put]: the pointer to the added area and the grown packet. *)
Definition skb_put (skb : tx_skb) (len : Z) : Z * tx_skb :=
  (Z.of_nat (length (tx_data skb)),
   {| tx_dev := tx_dev skb;
      tx_data := tx_data skb ++ take (Z.to_nat len) (tx_room skb);
      tx_room := drop (Z.to_nat len) (tx_room skb);
      tx_dst := tx_dst skb |}).

Definition set_tx_data (skb : tx_skb) (d : list byte) : tx_skb :=
  {| tx_dev := tx_dev skb; tx_data := d; tx_room := tx_room skb;
     tx_dst := tx_dst skb |}.

Definition skb_dst_set (skb : tx_skb) : tx_skb :=
  {| tx_dev := tx_dev skb; tx_data := tx_data skb; tx_room := tx_room skb;
     tx_dst := true |}.

(** [msg = skb_put(skb, sizeof(msg))] followed by the assignment of a
    structure value to it. *)
Definition skb_put_struct (skb : tx_skb) (msg : list byte) : tx_skb :=
  let '(p, skb) := skb_put skb (Z.of_nat (length msg)) in
  set_tx_data skb (memcpy (tx_data skb) p msg (length msg)).

Definition bool_bit (b : bool) (n : Z) : Z := if b then Z.shiftl 1 n else 0.

Definition nd_msg_bytes (type : Z) (router solicited override : bool)
    (target : in6_addr) : list byte :=
  [to_byte type; to_byte 0; to_byte 0; to_byte 0;
   to_byte (Z.lor (bool_bit router 7)
              (Z.lor (bool_bit solicited 6) (bool_bit override 5)));
   to_byte 0; to_byte 0; to_byte 0] ++ be_bytes 16 target.

Definition rs_msg_bytes (type : Z) : list byte :=
  [to_byte type; to_byte 0; to_byte 0; to_byte 0;
   to_byte 0; to_byte 0; to_byte 0; to_byte 0].

Definition rd_msg_bytes (type : Z) (target dest : in6_addr) : list byte :=
  [to_byte type; to_byte 0; to_byte 0; to_byte 0;
   to_byte 0; to_byte 0; to_byte 0; to_byte 0]
  ++ be_bytes 16 target ++ be_bytes 16 dest.

(** [strncmp] on NUL-terminated strings: the difference of the first
    characters that differ among the first [n], the end of a string counting
    as the character 0. *)
Fixpoint strncmp (s1 s2 : string) (n : nat) : Z :=
  match n with
  | O => 0
  | S n' =>
      match s1, s2 with
      | EmptyString, EmptyString => 0
      | EmptyString, String c2 _ => - Z.of_nat (Ascii.nat_of_ascii c2)
      | String c1 _, EmptyString => Z.of_nat (Ascii.nat_of_ascii c1)
      | String c1 r1, String c2 r2 =>
          if Ascii.eqb c1 c2 then strncmp r1 r2 n'
          else Z.of_nat (Ascii.nat_of_ascii c1) - Z.of_nat (Ascii.nat_of_ascii c2)
      end
  end.

Section Ndisc.
Context (cfg : kconfig) {K : Collaborators}.

(** Modelled from the spec: [NDISC_OPT_SPACE], [ndisc_opt_addr_space] and
    [ndisc_opt_addr_data] of include/net/ndisc.h, which is not among the
    sources.  An address option takes [ceil((2 + pad + addr_len) / 8)] units
    of eight bytes, and the address of a received option is read only when
    the option has exactly that length. *)
Definition NDISC_OPT_SPACE (len : Z) : Z := 8 * ((len + 2 + 7) / 8).

Definition ndisc_opt_addr_space (dev : net_device) : Z :=
  NDISC_OPT_SPACE (addr_len dev + ndisc_addr_option_pad (dev_type dev)).

Definition ndisc_opt_addr_data (mem : list byte) (p : Z) (dev : net_device)
  : option Z :=
  let lladdrlen := Z.shiftl (nd_opt_len mem p) 3 in
  let prepad := ndisc_addr_option_pad (dev_type dev) in
  if negb (lladdrlen =? ndisc_opt_addr_space dev) then None
  else Some (p + sizeof_nd_opt_hdr + prepad).

(** The link-layer address an option pointer designates. *)
Definition lladdr_at (mem : list byte) (p : Z) (dev : net_device) : list byte :=
  load_bytes mem p (Z.to_nat (addr_len dev)).

Definition ndisc_fill_addr_option (skb : tx_skb) (type : Z) (data : list byte)
  : tx_skb :=
  let pad := ndisc_addr_option_pad (dev_type (tx_dev skb)) in
  let data_len := addr_len (tx_dev skb) in
  let space := ndisc_opt_addr_space (tx_dev skb) in
  let '(opt, skb) := skb_put skb space in
  let mem := tx_data skb in
  let mem := store8 mem opt type in
  let mem := store8 mem (opt + 1) (Z.shiftr space 3) in
  let mem := memset mem (opt + 2) 0 (Z.to_nat pad) in
  let opt := opt + pad in
  let space := space - pad in
  let mem := memcpy mem (opt + 2) data (Z.to_nat data_len) in
  let data_len := data_len + 2 in
  let opt := opt + data_len in
  let space := space - data_len in
  let mem := if 0 <? space then memset mem opt 0 (Z.to_nat space) else mem in
  set_tx_data skb mem.

(** ** Emitter *)

Definition ndisc_alloc_skb (f : faults) (dev : net_device) (len : Z)
  : option tx_skb :=
  let tlen := needed_tailroom dev in
  if alloc_skb_fails f then None
  else Some {| tx_dev := dev; tx_data := [];
               tx_room := map (heap f) (seq 0 (Z.to_nat (len + tlen)));
               tx_dst := false |}.

(** [ip6_nd_hdr]: the IPv6 header pushed in front of the message. *)
Definition ip6_nd_hdr (skb : tx_skb) (saddr daddr : in6_addr)
    (hop_limit len : Z) : sk_buff :=
  {| skb_dev := tx_dev skb;
     skb_data := [to_byte 0x60; to_byte 0; to_byte 0; to_byte 0]
                 ++ be_bytes 2 len
                 ++ [to_byte IPPROTO_ICMPV6; to_byte hop_limit]
                 ++ be_bytes 16 saddr ++ be_bytes 16 daddr
                 ++ tx_data skb;
     transport_header := sizeof_ipv6hdr;
     pkt_type := PACKET_HOST;
     ndisc_nodetype := NDISC_NODETYPE_UNSPEC;
     cb_flags := 0 |}.

Definition ndisc_send_skb (f : faults) (w : world) (skb : tx_skb)
    (daddr saddr : in6_addr) : world :=
  let type := load8 (tx_data skb) 0 in
  if negb (tx_dst skb) && icmp6_dst_alloc_fails f then w else
  let len := Z.of_nat (length (tx_data skb)) in
  let cksum := csum_ipv6_magic saddr daddr len IPPROTO_ICMPV6
                 (csum_partial (tx_data skb) len 0) in
  let skb := set_tx_data skb (memcpy (tx_data skb) 2 (be_bytes 2 cksum) 2) in
  let pkt := ip6_nd_hdr skb saddr daddr (sk_hop_limit (ndisc_sk w)) len in
  let w := emit w (EvStat (IPSTATS_MIB_OUT (skb_tail pkt))) in
  let w := emit w (EvOutput pkt) in
  if output_err f then w
  else emit (emit w (EvStat (ICMP6MSGOUT type))) (EvStat ICMP6_MIB_OUTMSGS).

(** Modelled from the spec: the lookups of net/ipv6/addrconf.c in the local
    addresses (the file is not among the sources).  [ipv6_get_ifaddr] finds
    the address on the given interface, tentative or not; [ipv6_chk_addr]
    tells whether an address is ours and no longer tentative, on one
    interface or on any; [ipv6_get_lladdr] picks a link-local address of the
    interface none of whose flags is banned; [ipv6_chk_acast_addr] tells
    whether we own an anycast address. *)
Definition ipv6_get_ifaddr (w : world) (addr : in6_addr) (dev : net_device)
  : option (inet6_ifaddr * inet6_dev) :=
  match idevs w !! ifindex dev with
  | None => None
  | Some idev =>
      match find (fun a => ifa_addr a =? addr) (addr_list idev) with
      | Some ifp => Some (ifp, idev)
      | None => None
      end
  end.

Definition ifa_usable (addr : in6_addr) (a : inet6_ifaddr) : bool :=
  (ifa_addr a =? addr) && negb (has_flag (ifa_flags a) IFA_F_TENTATIVE).

Definition ipv6_chk_addr (w : world) (addr : in6_addr) (dev : option net_device)
  : bool :=
  match dev with
  | Some dev =>
      match idevs w !! ifindex dev with
      | Some idev => existsb (ifa_usable addr) (addr_list idev)
      | None => false
      end
  | None =>
      existsb (fun kv => existsb (ifa_usable addr) (addr_list kv.2))
        (map_to_list (idevs w))
  end.

Definition ipv6_get_lladdr (w : world) (dev : net_device) (banned_flags : Z)
  : option in6_addr :=
  match idevs w !! ifindex dev with
  | None => None
  | Some idev =>
      ifa_addr <$>
        find (fun a => has_flag (ipv6_addr_type (ifa_addr a)) IPV6_ADDR_LINKLOCAL
                       && negb (has_flag (ifa_flags a) banned_flags))
          (addr_list idev)
  end.

Definition ipv6_chk_acast_addr (w : world) (dev : net_device) (addr : in6_addr)
  : bool :=
  existsb (fun e => (e.1 =? ifindex dev) && (e.2 =? addr)) (ac_list w).

Definition ndisc_send_na (f : faults) (w : world) (dev : net_device)
    (daddr solicited_addr : in6_addr)
    (router solicited override inc_opt : bool) : world :=
  let ifp := ipv6_get_ifaddr w solicited_addr dev in
  let src :=
    match ifp with
    | Some (ifp, idev) =>
        Some (solicited_addr,
              if has_flag (ifa_flags ifp) IFA_F_OPTIMISTIC then false
              else override,
              inc_opt || nonzero (force_tllao (cnf idev)))
    | None =>
        match ipv6_dev_get_saddr w dev daddr (sk_srcprefs (ndisc_sk w)) with
        | None => None
        | Some tmpaddr => Some (tmpaddr, override, inc_opt)
        end
    end in
  match src with
  | None => w
  | Some (src_addr, override, inc_opt) =>
      let inc_opt := if addr_len dev =? 0 then false else inc_opt in
      let optlen := if inc_opt then ndisc_opt_addr_space dev else 0 in
      match ndisc_alloc_skb f dev (sizeof_nd_msg + optlen) with
      | None => w
      | Some skb =>
          let skb := skb_put_struct skb
                       (nd_msg_bytes NDISC_NEIGHBOUR_ADVERTISEMENT
                          router solicited override solicited_addr) in
          let skb := if inc_opt
                     then ndisc_fill_addr_option skb ND_OPT_TARGET_LL_ADDR
                            (dev_addr dev)
                     else skb in
          ndisc_send_skb f w skb daddr src_addr
      end
  end.

Definition ndisc_send_unsol_na (f : faults) (w : world) (dev : net_device)
  : world :=
  match idevs w !! ifindex dev with
  | None => w
  | Some idev =>
      fold_left
        (fun w ifa =>
           ndisc_send_na f w dev in6addr_linklocal_allnodes (ifa_addr ifa)
             (nonzero (forwarding (cnf idev))) false true true)
        (addr_list idev) w
  end.

Definition ndisc_send_ns (f : faults) (w : world) (dev : net_device)
    (solicit daddr : in6_addr) (saddr : option in6_addr) : world :=
  let saddr :=
    match saddr with
    | Some a => Some a
    | None => ipv6_get_lladdr w dev (Z.lor IFA_F_TENTATIVE IFA_F_OPTIMISTIC)
    end in
  match saddr with
  | None => w
  | Some saddr =>
      let inc_opt := if ipv6_addr_any saddr then false
                     else nonzero (addr_len dev) in
      let optlen := if inc_opt then ndisc_opt_addr_space dev else 0 in
      match ndisc_alloc_skb f dev (sizeof_nd_msg + optlen) with
      | None => w
      | Some skb =>
          let skb := skb_put_struct skb
                       (nd_msg_bytes NDISC_NEIGHBOUR_SOLICITATION
                          false false false solicit) in
          let skb := if inc_opt
                     then ndisc_fill_addr_option skb ND_OPT_SOURCE_LL_ADDR
                            (dev_addr dev)
                     else skb in
          ndisc_send_skb f w skb daddr saddr
      end
  end.

Definition ndisc_send_rs (f : faults) (w : world) (dev : net_device)
    (saddr daddr : in6_addr) : world :=
  let send_sllao := nonzero (addr_len dev) in
  let send_sllao :=
    if CONFIG_IPV6_OPTIMISTIC_DAD cfg && send_sllao then
      match ipv6_get_ifaddr w saddr dev with
      | Some (ifp, _) =>
          if has_flag (ifa_flags ifp) IFA_F_OPTIMISTIC then false
          else send_sllao
      | None => false
      end
    else send_sllao in
  let optlen := if send_sllao then ndisc_opt_addr_space dev else 0 in
  match ndisc_alloc_skb f dev (sizeof_rs_msg + optlen) with
  | None => w
  | Some skb =>
      let skb := skb_put_struct skb (rs_msg_bytes NDISC_ROUTER_SOLICITATION) in
      let skb := if send_sllao
                 then ndisc_fill_addr_option skb ND_OPT_SOURCE_LL_ADDR
                        (dev_addr dev)
                 else skb in
      ndisc_send_skb f w skb daddr saddr
  end.

Definition ndisc_fill_redirect_hdr_option (skb : tx_skb) (orig_skb : sk_buff)
    (rd_len : Z) : tx_skb :=
  let '(opt, skb) := skb_put skb rd_len in
  let mem := memset (tx_data skb) opt 0 8 in
  let mem := store8 mem opt ND_OPT_REDIRECT_HDR in
  let mem := store8 mem (opt + 1) (Z.shiftr rd_len 3) in
  let opt := opt + 2 + 6 in
  set_tx_data skb
    (memcpy mem opt (skb_data orig_skb) (Z.to_nat (rd_len - 8))).

(** ** Address-family policy *)

(** Modelled from the spec: the Ethernet and ARCnet mappings of
    include/net/if_inet6.h, [33:33] followed by the last 32 bits of the
    address, and the constant [0x00]. *)
Definition ipv6_eth_mc_map (addr : in6_addr) (buf : list byte) : list byte :=
  memcpy (store8 (store8 buf 0 0x33) 1 0x33) 2
    (be_bytes 4 (Z.land addr 0xffffffff)) 4.

Definition ipv6_arcnet_mc_map (addr : in6_addr) (buf : list byte) : list byte :=
  store8 buf 0 0.

Definition ndisc_mc_map (addr : in6_addr) (buf : list byte) (dev : net_device)
    (dir : Z) : Z * list byte :=
  if (dev_type dev =? ARPHRD_ETHER) || (dev_type dev =? ARPHRD_IEEE802)
     || (dev_type dev =? ARPHRD_FDDI)
  then (0, ipv6_eth_mc_map addr buf)
  else if dev_type dev =? ARPHRD_ARCNET then (0, ipv6_arcnet_mc_map addr buf)
  else if dev_type dev =? ARPHRD_INFINIBAND
  then (0, ipv6_ib_mc_map addr (broadcast dev) buf)
  else if dev_type dev =? ARPHRD_IPGRE
  then ipv6_ipgre_mc_map addr (broadcast dev) buf
  else if nonzero dir
  then (0, memcpy buf 0 (broadcast dev) (Z.to_nat (addr_len dev)))
  else (- EINVAL, buf).

Definition ndisc_constructor (w : world) (neigh : neighbour) : Z * neighbour :=
  let addr := primary_key neigh in
  let dev := n_dev neigh in
  let is_multicast := ipv6_addr_is_multicast addr in
  match idevs w !! ifindex dev with
  | None => (- EINVAL, neigh)
  | Some in6_dev =>
      let parms := Some (ifindex dev) in
      let type := if is_multicast then RTN_MULTICAST else RTN_UNICAST in
      if negb (header_ops dev) then
        (0, {| primary_key := addr; n_dev := dev; ha := ha neigh;
               nud_state := NUD_NOARP; n_flags := n_flags neigh;
               n_type := type; n_probes := n_probes neigh; n_parms := parms;
               n_ops := Some ndisc_direct_ops;
               n_output := neigh_direct_output |})
      else
        let '(state, ha', type) :=
          if is_multicast then
            (NUD_NOARP, (ndisc_mc_map addr (ha neigh) dev 1).2, type)
          else if has_flag (dev_flags dev) (Z.lor IFF_NOARP IFF_LOOPBACK) then
            (NUD_NOARP,
             memcpy (ha neigh) 0 (dev_addr dev) (Z.to_nat (addr_len dev)),
             if has_flag (dev_flags dev) IFF_LOOPBACK then RTN_LOCAL else type)
          else if has_flag (dev_flags dev) IFF_POINTOPOINT then
            (NUD_NOARP,
             memcpy (ha neigh) 0 (broadcast dev) (Z.to_nat (addr_len dev)),
             type)
          else (nud_state neigh, ha neigh, type) in
        let ops := if header_ops_cache dev then ndisc_hh_ops
                   else ndisc_generic_ops in
        (0, {| primary_key := addr; n_dev := dev; ha := ha';
               nud_state := state; n_flags := n_flags neigh;
               n_type := type; n_probes := n_probes neigh; n_parms := parms;
               n_ops := Some ops;
               n_output := if has_flag state NUD_VALID
                           then ops_connected_output ops
                           else ops_output ops |})
  end.

(** Modelled from the spec: the generic operations [lookup] and [create] of
    the neighbour cache (net/core/neighbour.c is not among the sources).  The
    cache is keyed by address and interface; [create] allocates a cleared
    entry that points at the parameters of the table, runs the constructor of
    the table on it and inserts it, or fails. *)
Definition neigh_lookup (w : world) (pkey : in6_addr) (dev : net_device)
  : option neighbour :=
  nd_tbl w !! (pkey, ifindex dev).

Definition neigh_alloc (pkey : in6_addr) (dev : net_device) : neighbour :=
  {| primary_key := pkey; n_dev := dev;
     ha := replicate MAX_ADDR_LEN Byte.x00;
     nud_state := NUD_NONE; n_flags := 0; n_type := 0; n_probes := 0;
     n_parms := None; n_ops := None; n_output := neigh_blackhole |}.

(** A pointer to an entry is the key it was found under; the entry behind
    the pointer is written in place. *)
Definition neigh_store (w : world) (pkey : in6_addr) (dev : net_device)
    (n : neighbour) : world :=
  set_nd_tbl w (<[(pkey, ifindex dev) := n]> (nd_tbl w)).

Definition neigh_create (f : faults) (w : world) (pkey : in6_addr)
    (dev : net_device) : world * option neighbour :=
  if neigh_create_fails f then (w, None) else
  let '(err, n) := ndisc_constructor w (neigh_alloc pkey dev) in
  if err <? 0 then (w, None) else (neigh_store w pkey dev n, Some n).

Definition __neigh_lookup (f : faults) (w : world) (pkey : in6_addr)
    (dev : net_device) (creat : bool) : world * option neighbour :=
  match neigh_lookup w pkey dev with
  | Some n => (w, Some n)
  | None => if creat then neigh_create f w pkey dev else (w, None)
  end.

(** [dst_neigh_lookup] on a route through [dev]: the entry of the address,
    created when there is none. *)
Definition dst_neigh_lookup (f : faults) (w : world) (dev : net_device)
    (daddr : in6_addr) : world * option neighbour :=
  __neigh_lookup f w daddr dev true.

Definition __pneigh_lookup (w : world) (pkey : in6_addr) (dev : net_device)
  : option pneigh_entry :=
  find (fun n => (pn_key n =? pkey)
                 && match pn_dev n with
                    | Some i => i =? ifindex dev
                    | None => true
                    end)
    (pneigh w).

(** The parameters [neigh->parms] points at. *)
Definition neigh_parms_of (w : world) (neigh : neighbour) : neigh_parms :=
  match n_parms neigh with
  | None => nd_tbl_parms cfg
  | Some i =>
      match idevs w !! i with
      | Some idev => nd_parms idev
      | None => nd_tbl_parms cfg
      end
  end.

(** Modelled from the spec: the default-router list of the routing
    collaborator (net/ipv6/route.c is not among the sources), keyed by the
    router address and the interface: [DefaultRouterGet], [DefaultRouterAdd]
    with a preference, and the removal of an entry. *)
Definition rt6_get_dflt_router (w : world) (addr : in6_addr) (dev : net_device)
  : option rt6_info :=
  rt6_dflt w !! (addr, ifindex dev).

Definition rt6_add_dflt_router (f : faults) (w : world) (gwaddr : in6_addr)
    (dev : net_device) (pref : Z) : world * option rt6_info :=
  if rt6_add_fails f then (w, None) else
  let rt := {| rt6i_gateway := gwaddr; rt6i_dev := ifindex dev;
               rt6i_flags :=
                 Z.lor RTF_GATEWAY (Z.lor RTF_ADDRCONF (Z.lor RTF_DEFAULT
                   (Z.lor RTF_UP (Z.lor RTF_EXPIRES (RTF_PREF pref)))));
               rt6i_expires := 0; rt6i_hoplimit := 0; rt6i_mtu := 0 |} in
  (set_rt6_dflt w (<[(gwaddr, ifindex dev) := rt]> (rt6_dflt w)), Some rt).

(** A pointer to a route is likewise the key it was found under. *)
Definition ip6_del_rt (w : world) (addr : in6_addr) (dev : net_device) : world :=
  set_rt6_dflt w (delete (addr, ifindex dev) (rt6_dflt w)).

Definition rt6_store (w : world) (addr : in6_addr) (dev : net_device)
    (rt : rt6_info) : world :=
  set_rt6_dflt w (<[(addr, ifindex dev) := rt]> (rt6_dflt w)).

Definition idev_store (w : world) (dev : net_device) (idev : inet6_dev) : world :=
  set_idevs w (<[ifindex dev := idev]> (idevs w)).

(** ** Reachability driver *)

Definition ndisc_solicit (f : faults) (w : world) (neigh : neighbour)
    (skb : option sk_buff) : world :=
  let dev := n_dev neigh in
  let target := primary_key neigh in
  let probes := n_probes neigh in
  let saddr :=
    match skb with
    | Some skb =>
        if ipv6_chk_addr w (ipv6_hdr_saddr skb) (Some dev)
        then Some (ipv6_hdr_saddr skb) else None
    | None => None
    end in
  let probes := to_int (probes - ucast_probes (neigh_parms_of w neigh)) in
  if probes <? 0 then
    ndisc_send_ns f w dev target target saddr
  else
    let probes := to_int (probes - app_probes (neigh_parms_of w neigh)) in
    if probes <? 0 then
      if CONFIG_ARPD cfg then emit w (EvNeighAppNs target (ifindex dev)) else w
    else
      let mcaddr := addrconf_addr_solict_mult target in
      ndisc_send_ns f w dev target mcaddr saddr.

Definition ndisc_error_report (w : world) (skb : sk_buff) : world :=
  emit w (EvLinkFailure skb).

Definition pndisc_is_router (w : world) (pkey : in6_addr) (dev : net_device) : Z :=
  match __pneigh_lookup w pkey dev with
  | Some n => if has_flag (pn_flags n) NTF_ROUTER then 1 else 0
  | None => -1
  end.

(** ** Receive pipeline *)

(** The bytes of a link-layer address option the handlers pass on. *)
Definition lladdr_bytes (skb : sk_buff) (lladdr : option Z) : option (list byte) :=
  (fun p => lladdr_at (skb_data skb) p (skb_dev skb)) <$> lladdr.

(** [ndisc_recv_ns] from the point where the reply is prepared: [ifp] is the
    local address found for the target, [idev] the interface data,
    [is_router] the value set by the proxy lookup or -1. *)
Definition ndisc_recv_ns_reply (f : faults) (w : world) (skb : sk_buff)
    (lladdr : option Z) (ifp : option inet6_ifaddr) (idev : inet6_dev)
    (is_router : Z) : world :=
  let saddr := ipv6_hdr_saddr skb in
  let daddr := ipv6_hdr_daddr skb in
  let dev := skb_dev skb in
  let target := nd_msg_target skb in
  let dad := ipv6_addr_any saddr in
  let inc := ipv6_addr_is_multicast daddr in
  let is_router := if is_router <? 0 then forwarding (cnf idev) else is_router in
  if dad then
    ndisc_send_na f w dev in6addr_linklocal_allnodes target
      (nonzero is_router) false (bool_decide (is_Some ifp)) true
  else
    let w := emit w (EvStat (if inc then rcv_probes_mcast else rcv_probes_ucast)) in
    let '(w, neigh) :=
      __neigh_lookup f w saddr dev
        (negb inc || bool_decide (is_Some lladdr) || (addr_len dev =? 0)) in
    let w :=
      match neigh with
      | Some n =>
          neigh_store w saddr dev
            (neigh_update n (lladdr_bytes skb lladdr) NUD_STALE
               (Z.lor NEIGH_UPDATE_F_WEAK_OVERRIDE NEIGH_UPDATE_F_OVERRIDE))
      | None => w
      end in
    if bool_decide (is_Some neigh) || negb (header_ops dev) then
      ndisc_send_na f w dev saddr target (nonzero is_router) true
        (bool_decide (is_Some ifp) && inc) inc
    else w.

(** [ndisc_recv_ns] from the lookup of the target in the local addresses. *)
Definition ndisc_recv_ns_target (f : faults) (w : world) (skb : sk_buff)
    (lladdr : option Z) : world :=
  let saddr := ipv6_hdr_saddr skb in
  let daddr := ipv6_hdr_daddr skb in
  let dev := skb_dev skb in
  let target := nd_msg_target skb in
  let dad := ipv6_addr_any saddr in
  let inc := ipv6_addr_is_multicast daddr in
  match ipv6_get_ifaddr w target dev with
  | Some (ifp, idev) =>
      if has_flag (ifa_flags ifp) (Z.lor IFA_F_TENTATIVE IFA_F_OPTIMISTIC) then
        if dad then emit w (EvDadFailure (ifindex dev) ifp)
        else if negb (has_flag (ifa_flags ifp) IFA_F_OPTIMISTIC) then w
        else ndisc_recv_ns_reply f w skb lladdr (Some ifp) idev (-1)
      else ndisc_recv_ns_reply f w skb lladdr (Some ifp) idev (-1)
  | None =>
      match idevs w !! ifindex dev with
      | None => w
      | Some idev =>
          let acast := ipv6_chk_acast_addr w dev target in
          let proxy :=
            nonzero (forwarding (cnf idev))
            && (nonzero (proxy_ndp (devconf_all w))
                || nonzero (proxy_ndp (cnf idev))) in
          let is_router :=
            if negb acast && proxy then pndisc_is_router w target dev
            else -1 in
          if acast || (proxy && (0 <=? is_router)) then
            if negb (has_flag (cb_flags skb) LOCALLY_ENQUEUED)
               && negb (pkt_type skb =? PACKET_HOST)
               && inc
               && nonzero (proxy_delay (nd_parms idev))
            then
              if skb_clone_fails f then w
              else emit w (EvPneighEnqueue (ifindex dev) skb)
            else ndisc_recv_ns_reply f w skb lladdr None idev is_router
          else w
      end
  end.

Definition ndisc_recv_ns (f : faults) (w : world) (skb : sk_buff) : world :=
  let msg := transport_header skb in
  let saddr := ipv6_hdr_saddr skb in
  let daddr := ipv6_hdr_daddr skb in
  let ndoptlen := to_u32 (skb_tail skb - (transport_header skb + sizeof_nd_msg)) in
  let dev := skb_dev skb in
  let dad := ipv6_addr_any saddr in
  if skb_len skb <? sizeof_nd_msg then w else
  if ipv6_addr_is_multicast (nd_msg_target skb) then w else
  if dad && negb (ipv6_addr_is_solict_mult daddr) then w else
  match ndisc_parse_options cfg (skb_data skb) (msg + sizeof_nd_msg)
          (to_int ndoptlen) with
  | None => w
  | Some ndopts =>
      match nd_opts_src_lladdr ndopts with
      | Some p =>
          match ndisc_opt_addr_data (skb_data skb) p dev with
          | None => w
          | Some lladdr =>
              if dad then w
              else ndisc_recv_ns_target f w skb (Some lladdr)
          end
      | None => ndisc_recv_ns_target f w skb None
      end
  end.

(** The link-layer address of a parsed message: no option, or an option of
    the right length; [None] when the option has another length and the
    message is dropped. *)
Definition ndisc_opt_lladdr (skb : sk_buff) (slot : option Z)
  : option (option Z) :=
  match slot with
  | Some p =>
      match ndisc_opt_addr_data (skb_data skb) p (skb_dev skb) with
      | None => None
      | Some lladdr => Some (Some lladdr)
      end
  | None => Some None
  end.

(** The test of [ndisc_recv_na] for a proxy NA of our own: it carries our
    link-layer address, we forward and proxy, and we hold a proxy entry for
    the target. *)
Definition ndisc_na_own_proxy (w : world) (skb : sk_buff) (lladdr : option Z)
  : bool :=
  bool_decide (is_Some lladdr)
  && bool_decide
       (lladdr_bytes skb lladdr
        = Some (take (Z.to_nat (addr_len (skb_dev skb))) (dev_addr (skb_dev skb))))
  && nonzero (forwarding (devconf_all w))
  && nonzero (proxy_ndp (devconf_all w))
  && bool_decide (is_Some (__pneigh_lookup w (nd_msg_target skb) (skb_dev skb))).

(** The flags [ndisc_recv_na] passes to [neigh_update]. *)
Definition na_update_flags (skb : sk_buff) : Z :=
  Z.lor NEIGH_UPDATE_F_WEAK_OVERRIDE
    (Z.lor (if icmp6_override skb then NEIGH_UPDATE_F_OVERRIDE else 0)
       (Z.lor NEIGH_UPDATE_F_OVERRIDE_ISROUTER
          (if icmp6_router skb then NEIGH_UPDATE_F_ISROUTER else 0))).

(** [ndisc_recv_na] from the lookup of the target in the neighbour cache. *)
Definition ndisc_recv_na_neigh (w : world) (skb : sk_buff) (lladdr : option Z)
  : world :=
  let saddr := ipv6_hdr_saddr skb in
  let dev := skb_dev skb in
  let target := nd_msg_target skb in
  match neigh_lookup w target dev with
  | None => w
  | Some neigh =>
      let old_flags := Z.land (n_flags neigh) 0xff in
      if has_flag (nud_state neigh) NUD_FAILED then w else
      if ndisc_na_own_proxy w skb lladdr then w else
      let neigh :=
        neigh_update neigh (lladdr_bytes skb lladdr)
          (if icmp6_solicited skb then NUD_REACHABLE else NUD_STALE)
          (na_update_flags skb) in
      let w := neigh_store w target dev neigh in
      if has_flag (Z.land old_flags (Z.lnot (n_flags neigh))) NTF_ROUTER then
        match rt6_get_dflt_router w saddr dev with
        | Some rt => ip6_del_rt w saddr dev
        | None => w
        end
      else w
  end.

Definition ndisc_recv_na (f : faults) (w : world) (skb : sk_buff) : world :=
  let msg := transport_header skb in
  let daddr := ipv6_hdr_daddr skb in
  let ndoptlen := to_u32 (skb_tail skb - (transport_header skb + sizeof_nd_msg)) in
  let dev := skb_dev skb in
  if skb_len skb <? sizeof_nd_msg then w else
  if ipv6_addr_is_multicast (nd_msg_target skb) then w else
  if ipv6_addr_is_multicast daddr && icmp6_solicited skb then w else
  match ndisc_parse_options cfg (skb_data skb) (msg + sizeof_nd_msg)
          (to_int ndoptlen) with
  | None => w
  | Some ndopts =>
      match ndisc_opt_lladdr skb (nd_opts_tgt_lladdr ndopts) with
      | None => w
      | Some lladdr =>
          match ipv6_get_ifaddr w (nd_msg_target skb) dev with
          | Some (ifp, _) =>
              if negb (pkt_type skb =? PACKET_LOOPBACK)
                 && has_flag (ifa_flags ifp) IFA_F_TENTATIVE
              then emit w (EvDadFailure (ifindex dev) ifp)
              else w
          | None => ndisc_recv_na_neigh w skb lladdr
          end
      end
  end.

Definition ndisc_recv_rs (f : faults) (w : world) (skb : sk_buff) : world :=
  let rs_msg := transport_header skb in
  let ndoptlen := skb_len skb - sizeof_rs_msg in
  let saddr := ipv6_hdr_saddr skb in
  let dev := skb_dev skb in
  if skb_len skb <? sizeof_rs_msg then w else
  match idevs w !! ifindex dev with
  | None => w
  | Some idev =>
      if negb (nonzero (forwarding (cnf idev))) then w else
      if ipv6_addr_any saddr then w else
      match ndisc_parse_options cfg (skb_data skb) (rs_msg + sizeof_rs_msg)
              (to_int ndoptlen) with
      | None => w
      | Some ndopts =>
          match ndisc_opt_lladdr skb (nd_opts_src_lladdr ndopts) with
          | None => w
          | Some lladdr =>
              let '(w, neigh) := __neigh_lookup f w saddr dev true in
              match neigh with
              | Some n =>
                  neigh_store w saddr dev
                    (neigh_update n (lladdr_bytes skb lladdr) NUD_STALE
                       (Z.lor NEIGH_UPDATE_F_WEAK_OVERRIDE
                          (Z.lor NEIGH_UPDATE_F_OVERRIDE
                             NEIGH_UPDATE_F_OVERRIDE_ISROUTER)))
              | None => w
              end
          end
      end
  end.

Definition ndisc_ra_useropt (f : faults) (w : world) (ra : sk_buff) (opt : Z)
  : world :=
  let len := Z.shiftl (nd_opt_len (skb_data ra) opt) 3 in
  if nlmsg_new_fails f then emit w (EvUseroptErr (- ENOBUFS)) else
  if nlmsg_put_fails f then emit w (EvUseroptErr (- EMSGSIZE)) else
  if nla_put_fails f then emit w (EvUseroptErr (- EMSGSIZE)) else
  emit w (EvUseropt (ifindex (skb_dev ra)) (icmp6_type ra) (icmp6_code ra)
            (load_bytes (skb_data ra) opt (Z.to_nat len))
            (ipv6_hdr_saddr ra)).

Definition ndisc_redirect_rcv (f : faults) (w : world) (skb : sk_buff) : world :=
  let msg := transport_header skb in
  let ndoptlen := to_u32 (skb_tail skb - (transport_header skb + sizeof_rd_msg)) in
  if CONFIG_IPV6_NDISC_NODETYPE cfg
     && ((ndisc_nodetype skb =? NDISC_NODETYPE_HOST)
         || (ndisc_nodetype skb =? NDISC_NODETYPE_NODEFAULT))
  then w else
  if negb (has_flag (ipv6_addr_type (ipv6_hdr_saddr skb)) IPV6_ADDR_LINKLOCAL)
  then w else
  match ndisc_parse_options cfg (skb_data skb) (msg + sizeof_rd_msg)
          (to_int ndoptlen) with
  | None => w
  | Some ndopts =>
      match nd_opts_rh ndopts with
      | None => w
      | Some rh =>
          let hdr := rh + 8 in
          (* pskb_pull fails when asked for more than the packet holds *)
          if skb_len skb <? hdr - transport_header skb then w
          else emit w (EvIcmpv6Notify skb hdr NDISC_REDIRECT)
      end
  end.

(** *** Router advertisements

    [ndisc_router_discovery] is cut at its labels and at the blocks that
    handle one kind of option; the pieces pass on the state of the world and
    what the local variables [in6_dev], [rt] and [neigh] point at. *)

Definition NEIGH_UPDATE_RA : Z :=
  Z.lor NEIGH_UPDATE_F_WEAK_OVERRIDE
    (Z.lor NEIGH_UPDATE_F_OVERRIDE
       (Z.lor NEIGH_UPDATE_F_OVERRIDE_ISROUTER NEIGH_UPDATE_F_ISROUTER)).

(** The options of one kind, from the first to the last recorded. *)
Definition nd_opts_of_type (mem : list byte) (first end_ : option Z) : list Z :=
  default [] (nd_opt_visit (length mem)
                (fun p => ndisc_next_option (length mem) mem p end_) first).

Definition nd_useropts_list (mem : list byte) (first end_ : option Z) : list Z :=
  default [] (nd_opt_visit (length mem)
                (fun p => ndisc_next_useropt (length mem) mem p end_) first).

(** At [skip_linkparms]: the cache entry of the router is looked up, created
    when there is none, and updated.  The boolean is false on the [goto out]
    taken for a source link-layer address option of the wrong length. *)
Definition ndisc_ra_neigh (f : faults) (w : world) (skb : sk_buff)
    (ndopts : ndisc_options) (neigh : option neighbour) : world * bool :=
  let dev := skb_dev skb in
  let saddr := ipv6_hdr_saddr skb in
  let '(w, neigh) :=
    match neigh with
    | Some n => (w, Some n)
    | None => __neigh_lookup f w saddr dev true
    end in
  match neigh with
  | Some n =>
      match ndisc_opt_lladdr skb (nd_opts_src_lladdr ndopts) with
      | None => (w, false)
      | Some lladdr =>
          (neigh_store w saddr dev
             (neigh_update n (lladdr_bytes skb lladdr) NUD_STALE NEIGH_UPDATE_RA),
           true)
      end
  | None => (w, true)
  end.

(** Route information options (RFC 4191). *)
Definition ndisc_ra_route_info (w : world) (skb : sk_buff)
    (ndopts : ndisc_options) (in6_dev : inet6_dev) : world :=
  let mem := skb_data skb in
  let dev := skb_dev skb in
  let saddr := ipv6_hdr_saddr skb in
  if ipv6_chk_addr w saddr None then w
  else if nonzero (accept_ra_rtr_pref (cnf in6_dev))
          && bool_decide (is_Some (nd_opts_ri ndopts))
  then
    fold_left
      (fun w p =>
         let prefix_len := load8 mem (p + 2) in
         if CONFIG_IPV6_NDISC_NODETYPE cfg
            && (ndisc_nodetype skb =? NDISC_NODETYPE_NODEFAULT)
            && (prefix_len =? 0)
         then w
         else if accept_ra_rt_info_max_plen (cnf in6_dev) <? prefix_len
         then w
         else
           let len := Z.shiftl (nd_opt_len mem p) 3 in
           emit w (EvRouteRcv (ifindex dev)
                     (load_bytes mem p (Z.to_nat len)) len saddr))
      (nd_opts_of_type mem (nd_opts_ri ndopts) (nd_opts_ri_end ndopts))
      w
  else w.

(** Prefix information options. *)
Definition ndisc_ra_prefix_info (w : world) (skb : sk_buff)
    (ndopts : ndisc_options) (in6_dev : inet6_dev) : world :=
  let mem := skb_data skb in
  let dev := skb_dev skb in
  if nonzero (accept_ra_pinfo (cnf in6_dev))
     && bool_decide (is_Some (nd_opts_pi ndopts))
  then
    fold_left
      (fun w p =>
         let len := Z.shiftl (nd_opt_len mem p) 3 in
         emit w (EvPrefixRcv (ifindex dev)
                   (load_bytes mem p (Z.to_nat len)) len
                   (bool_decide (is_Some (nd_opts_src_lladdr ndopts)))))
      (nd_opts_of_type mem (nd_opts_pi ndopts) (nd_opts_pi_end ndopts))
      w
  else w.

(** The MTU option. *)
Definition ndisc_ra_mtu (w : world) (skb : sk_buff) (ndopts : ndisc_options)
    (in6_dev : inet6_dev) (rt : option rt6_info) : world * inet6_dev :=
  let mem := skb_data skb in
  let dev := skb_dev skb in
  let saddr := ipv6_hdr_saddr skb in
  match nd_opts_mtu ndopts with
  | Some p =>
      let mtu := be_value (load_bytes mem (p + 4) 4) in
      if (mtu <? IPV6_MIN_MTU) || (dev_mtu dev <? mtu) then (w, in6_dev)
      else if negb (to_u32 (mtu6 (cnf in6_dev)) =? mtu) then
        let in6_dev := set_cnf in6_dev (set_mtu6 (cnf in6_dev) (to_int mtu)) in
        let w := idev_store w dev in6_dev in
        let w := match rt with
                 | Some r => rt6_store w saddr dev (set_rt_mtu r mtu)
                 | None => w
                 end in
        (emit w (EvMtuChange (ifindex dev) mtu), in6_dev)
      else (w, in6_dev)
  | None => (w, in6_dev)
  end.

(** The block under [MTK_DHCPV6C_WIFI] that records the M and O bits. *)
Definition ndisc_ra_info_flag (w : world) (skb : sk_buff) (in6_dev : inet6_dev)
  : world * inet6_dev :=
  let d := in6_dev in
  let d := if has_flag (if_flags d) IF_RA_OTHERCONF
           then set_cnf d (set_ra_info_flag (cnf d) 1) else d in
  let d := if has_flag (if_flags d) IF_RA_MANAGED
           then set_cnf d (set_ra_info_flag (cnf d) 2) else d in
  let d := if ra_info_flag (cnf d) =? 0
           then set_cnf d (set_ra_info_flag (cnf d) 4) else d in
  (idev_store w (skb_dev skb) d, d).

(** RDNSS and DNSSL options, passed to user space. *)
Definition ndisc_ra_useropts (f : faults) (w : world) (skb : sk_buff)
    (ndopts : ndisc_options) (in6_dev : inet6_dev) : world * inet6_dev :=
  let mem := skb_data skb in
  let dev := skb_dev skb in
  fold_left
    (fun '(w, d) p =>
       let w := ndisc_ra_useropt f w skb p in
       if MTK_DHCPV6C_WIFI cfg
          && (nd_opt_type mem p =? ND_OPT_RDNSS)
          && has_flag (if_flags d) IF_RA_OTHERCONF
       then
         let d := set_cnf d (set_ra_info_flag (cnf d) 0) in
         (idev_store w dev d, d)
       else (w, d))
    (nd_useropts_list mem (nd_useropts ndopts) (nd_useropts_end ndopts))
    (w, in6_dev).

(** From the label [skip_linkparms] to the end. *)
Definition ndisc_ra_options (f : faults) (w : world) (skb : sk_buff)
    (ndopts : ndisc_options) (in6_dev : inet6_dev) (rt : option rt6_info)
    (neigh : option neighbour) : world :=
  let '(w, go_on) := ndisc_ra_neigh f w skb ndopts neigh in
  if negb go_on then w else
  if negb (ipv6_accept_ra in6_dev) then w else
  let w := if CONFIG_IPV6_ROUTE_INFO cfg
           then ndisc_ra_route_info w skb ndopts in6_dev else w in
  if CONFIG_IPV6_NDISC_NODETYPE cfg
     && (ndisc_nodetype skb =? NDISC_NODETYPE_NODEFAULT)
  then w else
  let w := ndisc_ra_prefix_info w skb ndopts in6_dev in
  let '(w, in6_dev) := ndisc_ra_mtu w skb ndopts in6_dev rt in
  let '(w, in6_dev) := if MTK_DHCPV6C_WIFI cfg
                       then ndisc_ra_info_flag w skb in6_dev
                       else (w, in6_dev) in
  (ndisc_ra_useropts f w skb ndopts in6_dev).1.

(** The retransmission timer and the reachable time. *)
Definition ndisc_ra_retrans (w : world) (skb : sk_buff) (in6_dev : inet6_dev)
  : world * inet6_dev :=
  let dev := skb_dev skb in
  let rtime := ra_retrans_timer skb in
  if nonzero rtime && (rtime / 1000 <? MAX_SCHEDULE_TIMEOUT cfg / HZ cfg) then
    let rtime := to_ulong cfg (rtime * HZ cfg) / 1000 in
    let rtime := if rtime <? HZ cfg / 10 then HZ cfg / 10 else rtime in
    let d := set_nd_parms in6_dev
               (set_retrans_time (nd_parms in6_dev) (to_int rtime)) in
    let d := set_tstamp d (jiffies w) in
    (emit (idev_store w dev d) (EvIfinfoNotify (ifindex dev)), d)
  else (w, in6_dev).

Definition ndisc_ra_reachable (w : world) (skb : sk_buff) (in6_dev : inet6_dev)
  : world * inet6_dev :=
  let dev := skb_dev skb in
  let rtime := ra_reachable_time skb in
  if nonzero rtime
     && (rtime / 1000 <? MAX_SCHEDULE_TIMEOUT cfg / (3 * HZ cfg)) then
    let rtime := to_ulong cfg (rtime * HZ cfg) / 1000 in
    let rtime := if rtime <? HZ cfg / 10 then HZ cfg / 10 else rtime in
    if negb (rtime =? to_ulong cfg (base_reachable_time (nd_parms in6_dev)))
    then
      let d := set_nd_parms in6_dev
                 (set_reachable (nd_parms in6_dev) (to_int rtime)
                    (to_int (3 * rtime))
                    (to_int (neigh_rand_reach_time rtime))) in
      let d := set_tstamp d (jiffies w) in
      (emit (idev_store w dev d) (EvIfinfoNotify (ifindex dev)), d)
    else (w, in6_dev)
  else (w, in6_dev).

(** From the label [skip_defrtr] to the end. *)
Definition ndisc_ra_timers (f : faults) (w : world) (skb : sk_buff)
    (ndopts : ndisc_options) (in6_dev : inet6_dev) (rt : option rt6_info)
    (neigh : option neighbour) : world :=
  let '(w, in6_dev) := ndisc_ra_retrans w skb in6_dev in
  let '(w, in6_dev) := ndisc_ra_reachable w skb in6_dev in
  ndisc_ra_options f w skb ndopts in6_dev rt neigh.

(** The preference of the advertised router. *)
Definition ra_router_pref (in6_dev : inet6_dev) (skb : sk_buff) : Z :=
  if CONFIG_IPV6_ROUTER_PREF cfg then
    let pref := icmp6_router_pref skb in
    if (pref =? ICMPV6_ROUTER_PREF_INVALID)
       || negb (nonzero (accept_ra_rtr_pref (cnf in6_dev)))
    then ICMPV6_ROUTER_PREF_MEDIUM
    else pref
  else 0.

(** Default-router processing, up to the label [skip_defrtr]: a world on the
    left is an early [return], on the right the state carried on. *)
Definition ndisc_ra_defrtr (f : faults) (w : world) (skb : sk_buff)
    (in6_dev : inet6_dev)
  : world + world * inet6_dev * option rt6_info * option neighbour :=
  let dev := skb_dev skb in
  let saddr := ipv6_hdr_saddr skb in
  let lifetime := icmp6_rt_lifetime skb in
  let pref := ra_router_pref in6_dev skb in
  let rt := rt6_get_dflt_router w saddr dev in
  let '(w, neigh) :=
    match rt with
    | Some _ => dst_neigh_lookup f w dev saddr
    | None => (w, None)
    end in
  if bool_decide (is_Some rt) && negb (bool_decide (is_Some neigh))
  then inl w else
  let '(w, rt) :=
    match rt with
    | Some r =>
        if lifetime =? 0 then (ip6_del_rt w saddr dev, None) else (w, Some r)
    | None => (w, None)
    end in
  let added :=
    match rt with
    | None =>
        if nonzero lifetime then
          match rt6_add_dflt_router f w saddr dev pref with
          | (w, None) => inl w
          | (w, Some r) =>
              match dst_neigh_lookup f w dev saddr with
              | (w, None) => inl w
              | (w, Some n) =>
                  let n := set_n_flags n (Z.lor (n_flags n) NTF_ROUTER) in
                  inr (neigh_store w saddr dev n, Some r, Some n)
              end
          end
        else inr (w, None, neigh)
    | Some r =>
        let r := set_rt_flags r
                   (Z.lor (Z.land (rt6i_flags r) (Z.lnot RTF_PREF_MASK))
                      (RTF_PREF pref)) in
        inr (rt6_store w saddr dev r, Some r, neigh)
    end in
  match added with
  | inl w => inl w
  | inr (w, rt, neigh) =>
      let '(w, rt) :=
        match rt with
        | Some r =>
            let r := rt6_set_expires r
                       (to_ulong cfg (jiffies w + HZ cfg * lifetime)) in
            (rt6_store w saddr dev r, Some r)
        | None => (w, None)
        end in
      if nonzero (icmp6_hop_limit skb) then
        let d := set_cnf in6_dev
                   (set_hop_limit (cnf in6_dev) (icmp6_hop_limit skb)) in
        let w := idev_store w dev d in
        match rt with
        | Some r =>
            let r := set_rt_hoplimit r (icmp6_hop_limit skb) in
            inr (rt6_store w saddr dev r, d, Some r, neigh)
        | None => inr (w, d, None, neigh)
        end
      else inr (w, in6_dev, rt, neigh)
  end.

(** The flags of the interface and the vendor check on its name, once the
    interface is known to accept the RA. *)
Definition ndisc_ra_if_flags (skb : sk_buff) (in6_dev : inet6_dev) : inet6_dev :=
  let d := in6_dev in
  let d := if has_flag (if_flags d) IF_RS_SENT
           then set_if_flags d (Z.lor (if_flags d) IF_RA_RCVD) else d in
  let d := set_if_flags d
             (Z.lor
                (Z.lor
                   (Z.land (if_flags d)
                      (Z.lnot (Z.lor IF_RA_MANAGED IF_RA_OTHERCONF)))
                   (if icmp6_addrconf_managed skb then IF_RA_MANAGED else 0))
                (if icmp6_addrconf_other skb then IF_RA_OTHERCONF else 0)) in
  if strncmp (name (skb_dev skb)) "ccmni" 2 =? 0
  then set_cnf d (set_accept_ra_defrtr (cnf d) 0) else d.

Definition ndisc_ra_linkparms (f : faults) (w : world) (skb : sk_buff)
    (ndopts : ndisc_options) (in6_dev : inet6_dev) : world :=
  let dev := skb_dev skb in
  let saddr := ipv6_hdr_saddr skb in
  let d := ndisc_ra_if_flags skb in6_dev in
  let w := idev_store w dev d in
  if negb (nonzero (accept_ra_defrtr (cnf d)))
  then ndisc_ra_timers f w skb ndopts d None None
  else if ipv6_chk_addr w saddr None
  then ndisc_ra_timers f w skb ndopts d None None
  else
    match ndisc_ra_defrtr f w skb d with
    | inl w => w
    | inr (w, d, rt, neigh) => ndisc_ra_timers f w skb ndopts d rt neigh
    end.

Definition ndisc_router_discovery (f : faults) (w : world) (skb : sk_buff)
  : world :=
  let ra_msg := transport_header skb in
  let dev := skb_dev skb in
  let opt := ra_msg + sizeof_ra_msg in
  let optlen := to_int (skb_len skb - sizeof_ra_msg) in
  if negb (has_flag (ipv6_addr_type (ipv6_hdr_saddr skb)) IPV6_ADDR_LINKLOCAL)
  then w else
  if optlen <? 0 then w else
  if CONFIG_IPV6_NDISC_NODETYPE cfg
     && (ndisc_nodetype skb =? NDISC_NODETYPE_HOST)
  then w else
  match idevs w !! ifindex dev with
  | None => w
  | Some in6_dev =>
      match ndisc_parse_options cfg (skb_data skb) opt optlen with
      | None => w
      | Some ndopts =>
          if negb (ipv6_accept_ra in6_dev)
          then ndisc_ra_options f w skb ndopts in6_dev None None
          else if CONFIG_IPV6_NDISC_NODETYPE cfg
                  && (ndisc_nodetype skb =? NDISC_NODETYPE_NODEFAULT)
          then ndisc_ra_options f w skb ndopts in6_dev None None
          else ndisc_ra_linkparms f w skb ndopts in6_dev
      end
  end.

(** *** Redirects sent on behalf of the forwarding path

    Here [skb] is the packet being forwarded: its data starts at the network
    header and [skb->len] is the length of the whole packet. *)
Definition ndisc_send_redirect (f : faults) (w : world) (skb : sk_buff)
    (target : in6_addr) : world :=
  let dev := skb_dev skb in
  match ipv6_get_lladdr w dev IFA_F_TENTATIVE with
  | None => w
  | Some saddr_buf =>
      if negb (ipv6_addr_equal (ipv6_hdr_daddr skb) target)
         && negb (ipv6_addr_type target
                  =? Z.lor IPV6_ADDR_UNICAST IPV6_ADDR_LINKLOCAL)
      then w else
      if route_output_fails f then w else
      if xfrm_lookup_fails f then w else
      if rt_is_gateway f then w else
      if negb (xrlim_allow f) then w else
      let found :=
        if nonzero (addr_len dev) then
          match dst_neigh_lookup f w dev target with
          | (w, None) => inl w
          | (w, Some neigh) =>
              if has_flag (nud_state neigh) NUD_VALID
              then inr (w, Some (take (Z.to_nat (addr_len dev)) (ha neigh)),
                        ndisc_opt_addr_space dev)
              else inr (w, None, 0)
          end
        else inr (w, None, 0) in
      match found with
      | inl w => w
      | inr (w, ha, optlen) =>
          let rd_len :=
            Z.min (to_u32 (IPV6_MIN_MTU - sizeof_ipv6hdr - sizeof_rd_msg - optlen))
                  (to_u32 (skb_tail skb + 8)) in
          let rd_len := Z.land (to_int rd_len) (Z.lnot 0x7) in
          let optlen := optlen + rd_len in
          match ndisc_alloc_skb f dev (sizeof_rd_msg + optlen) with
          | None => w
          | Some buff =>
              let buff := skb_put_struct buff
                            (rd_msg_bytes NDISC_REDIRECT target
                               (ipv6_hdr_daddr skb)) in
              let buff := match ha with
                          | Some ha =>
                              ndisc_fill_addr_option buff ND_OPT_TARGET_LL_ADDR ha
                          | None => buff
                          end in
              let buff := if nonzero rd_len
                          then ndisc_fill_redirect_hdr_option buff skb rd_len
                          else buff in
              let buff := skb_dst_set buff in
              ndisc_send_skb f w buff (ipv6_hdr_saddr skb) saddr_buf
          end
      end
  end.

Definition pndisc_redo (f : faults) (w : world) (skb : sk_buff) : world :=
  ndisc_recv_ns f w skb.

(** *** The receive entry point *)

Definition ndisc_rcv (f : faults) (w : world) (skb : sk_buff) : Z * world :=
  if skb_linearize_fails f then (0, w) else
  if negb (ipv6_hdr_hop_limit skb =? 255) then (0, w) else
  if negb (icmp6_code skb =? 0) then (0, w) else
  let skb := set_cb_flags skb 0 in
  let type := icmp6_type skb in
  if type =? NDISC_NEIGHBOUR_SOLICITATION then (0, ndisc_recv_ns f w skb)
  else if type =? NDISC_NEIGHBOUR_ADVERTISEMENT then (0, ndisc_recv_na f w skb)
  else if type =? NDISC_ROUTER_SOLICITATION then (0, ndisc_recv_rs f w skb)
  else if type =? NDISC_ROUTER_ADVERTISEMENT
  then (0, ndisc_router_discovery f w skb)
  else if type =? NDISC_REDIRECT then (0, ndisc_redirect_rcv f w skb)
  else (0, w).

(** ** Device events and initialisation *)

Inductive netdev_event :=
  NETDEV_CHANGEADDR | NETDEV_DOWN | NETDEV_NOTIFY_PEERS | NETDEV_OTHER.

Definition NOTIFY_DONE : Z := 0.

Definition ndisc_netdev_event (f : faults) (w : world) (event : netdev_event)
    (dev : net_device) : Z * world :=
  match event with
  | NETDEV_CHANGEADDR =>
      let w := emit w (EvNeighChangeaddr (ifindex dev)) in
      let w := emit w EvFib6RunGc in
      match idevs w !! ifindex dev with
      | None => (NOTIFY_DONE, w)
      | Some idev =>
          if nonzero (ndisc_notify (cnf idev))
          then (NOTIFY_DONE, ndisc_send_unsol_na f w dev)
          else (NOTIFY_DONE, w)
      end
  | NETDEV_DOWN =>
      (NOTIFY_DONE, emit (emit w (EvNeighIfdown (ifindex dev))) EvFib6RunGc)
  | NETDEV_NOTIFY_PEERS => (NOTIFY_DONE, ndisc_send_unsol_na f w dev)
  | NETDEV_OTHER => (NOTIFY_DONE, w)
  end.

(** [ndisc_net_init]: the control socket of the namespace, created with the
    preferences [srcprefs] of a fresh socket. *)
Definition ndisc_net_init (f : faults) (w : world) (srcprefs : Z) : Z * world :=
  if sock_create_err f <? 0 then (sock_create_err f, w) else
  (0, set_ndisc_sk w {| sk_hop_limit := 255; sk_mc_loop := 0;
                        sk_srcprefs := srcprefs |}).

End Ndisc.

(** ** Start and end of the protocol, and the sysctl warning *)

(** What [ndisc_init] registers with the rest of the kernel: the
    per-namespace operations, the neighbour table, the sysctl entries of the
    table and the notifier of device events. *)
Record nd_registry := {
  pernet_subsys : bool;
  neigh_table : bool;
  neigh_sysctl : bool;
  netdevice_notifier : bool;
}.

(** The error codes the three registrations that can fail answer with; zero
    is success. *)
Record init_faults := {
  register_pernet_subsys_err : Z;
  neigh_sysctl_register_err : Z;
  register_netdevice_notifier_err : Z;
}.

Definition set_pernet_subsys (r : nd_registry) (b : bool) : nd_registry :=
  {| pernet_subsys := b; neigh_table := neigh_table r;
     neigh_sysctl := neigh_sysctl r;
     netdevice_notifier := netdevice_notifier r |}.

Definition set_neigh_table (r : nd_registry) (b : bool) : nd_registry :=
  {| pernet_subsys := pernet_subsys r; neigh_table := b;
     neigh_sysctl := neigh_sysctl r;
     netdevice_notifier := netdevice_notifier r |}.

Definition set_neigh_sysctl (r : nd_registry) (b : bool) : nd_registry :=
  {| pernet_subsys := pernet_subsys r; neigh_table := neigh_table r;
     neigh_sysctl := b; netdevice_notifier := netdevice_notifier r |}.

Definition set_netdevice_notifier (r : nd_registry) (b : bool) : nd_registry :=
  {| pernet_subsys := pernet_subsys r; neigh_table := neigh_table r;
     neigh_sysctl := neigh_sysctl r; netdevice_notifier := b |}.

(** [ndisc_init], in a kernel built with or without [CONFIG_SYSCTL]; a
    registration that fails registers nothing. *)
Definition ndisc_init (CONFIG_SYSCTL : bool) (e : init_faults)
    (r : nd_registry) : Z * nd_registry :=
  let err := register_pernet_subsys_err e in
  if nonzero err then (err, r) else
  let r := set_pernet_subsys r true in
  let r := set_neigh_table r true in
  let out_unregister_pernet (err : Z) (r : nd_registry) :=
    (err, set_pernet_subsys r false) in
  let out_unregister_sysctl (err : Z) (r : nd_registry) :=
    if CONFIG_SYSCTL
    then out_unregister_pernet err (set_neigh_sysctl r false)
    else out_unregister_pernet err r in
  let with_notifier (r : nd_registry) :=
    let err := register_netdevice_notifier_err e in
    if nonzero err then out_unregister_sysctl err r
    else (err, set_netdevice_notifier r true) in
  if CONFIG_SYSCTL then
    let err := neigh_sysctl_register_err e in
    if nonzero err then out_unregister_pernet err r
    else with_notifier (set_neigh_sysctl r true)
  else with_notifier r.

Definition ndisc_cleanup (CONFIG_SYSCTL : bool) (r : nd_registry)
  : nd_registry :=
  let r := set_netdevice_notifier r false in
  let r := if CONFIG_SYSCTL then set_neigh_sysctl r false else r in
  let r := set_neigh_table r false in
  set_pernet_subsys r false.

(** Nothing registered yet. *)
Definition nd_registry_none : nd_registry :=
  {| pernet_subsys := false; neigh_table := false; neigh_sysctl := false;
     netdevice_notifier := false |}.

(** [strcmp] on NUL-terminated strings, the end of a string counting as the
    character 0. *)
Fixpoint strcmp (s1 s2 : string) : Z :=
  match s1, s2 with
  | EmptyString, EmptyString => 0
  | EmptyString, String c2 _ => - Z.of_nat (Ascii.nat_of_ascii c2)
  | String c1 _, EmptyString => Z.of_nat (Ascii.nat_of_ascii c1)
  | String c1 r1, String c2 r2 =>
      if Ascii.eqb c1 c2 then strcmp r1 r2
      else Z.of_nat (Ascii.nat_of_ascii c1) - Z.of_nat (Ascii.nat_of_ascii c2)
  end.

(** The static variables of [ndisc_warn_deprecated_sysctl]: the name of the
    process warned last, and the number of warnings so far. *)
Record sysctl_warn := {
  warncomm : string;
  warned : Z;
}.

Definition sysctl_warn_init : sysctl_warn :=
  {| warncomm := EmptyString; warned := 0 |}.

(** The arguments of the warning printed. *)
Record deprecated_warning := {
  dw_comm : string;
  dw_func : string;
  dw_dev_name : string;
  dw_procname : string;
}.

(** [ndisc_warn_deprecated_sysctl] called by the process [comm]: the static
    variables after the call, and the warning printed, if any. *)
Definition ndisc_warn_deprecated_sysctl (st : sysctl_warn)
    (comm procname func dev_name : string)
  : sysctl_warn * option deprecated_warning :=
  if nonzero (strcmp (warncomm st) comm) && (warned st <? 5) then
    ({| warncomm := comm; warned := to_int (warned st + 1) |},
     Some {| dw_comm := comm; dw_func := func; dw_dev_name := dev_name;
             dw_procname := procname |})
  else (st, None).

(** A sequence of calls, each with the name of the calling process and the
    other three arguments: the static variables at the end, and the warnings
    printed, the first one first. *)
Fixpoint ndisc_warn_calls (st : sysctl_warn)
    (calls : list (string * string * string * string))
  : sysctl_warn * list deprecated_warning :=
  match calls with
  | [] => (st, [])
  | (comm, procname, func, dev_name) :: rest =>
      let '(st, msg) :=
        ndisc_warn_deprecated_sysctl st comm procname func dev_name in
      let '(st, msgs) := ndisc_warn_calls st rest in
      (st, match msg with Some m => m :: msgs | None => msgs end)
  end.

(** ** Vocabulary of the statements *)

(** The option area of [len] bytes at [p] is exactly covered by options, each
    with a header, a non-zero length and a body inside what remains. *)
Inductive nd_opts_tiled (mem : list byte) : Z -> Z -> Prop :=
  | tiled_end p : nd_opts_tiled mem p 0
  | tiled_opt p len :
      sizeof_nd_opt_hdr <= len ->
      0 < 8 * nd_opt_len mem p <= len ->
      nd_opts_tiled mem (p + 8 * nd_opt_len mem p) (len - 8 * nd_opt_len mem p) ->
      nd_opts_tiled mem p len.

(** Somewhere along the walk, what remains cannot hold an option header, or
    an option declares the length zero or more than what remains. *)
Inductive nd_opts_broken (mem : list byte) : Z -> Z -> Prop :=
  | broken_hdr p len :
      0 < len < sizeof_nd_opt_hdr -> nd_opts_broken mem p len
  | broken_zero p len :
      sizeof_nd_opt_hdr <= len -> 8 * nd_opt_len mem p = 0 ->
      nd_opts_broken mem p len
  | broken_long p len :
      sizeof_nd_opt_hdr <= len -> len < 8 * nd_opt_len mem p ->
      nd_opts_broken mem p len
  | broken_later p len :
      sizeof_nd_opt_hdr <= len ->
      0 < 8 * nd_opt_len mem p <= len ->
      nd_opts_broken mem (p + 8 * nd_opt_len mem p) (len - 8 * nd_opt_len mem p) ->
      nd_opts_broken mem p len.

(** The option area carries an option of type [ty]. *)
Inductive nd_opt_present (mem : list byte) (ty : Z) : Z -> Z -> Prop :=
  | present_here p len :
      sizeof_nd_opt_hdr <= len ->
      0 < 8 * nd_opt_len mem p <= len ->
      nd_opt_type mem p = ty ->
      nd_opt_present mem ty p len
  | present_later p len :
      sizeof_nd_opt_hdr <= len ->
      0 < 8 * nd_opt_len mem p <= len ->
      nd_opt_present mem ty (p + 8 * nd_opt_len mem p) (len - 8 * nd_opt_len mem p) ->
      nd_opt_present mem ty p len.

(** The address option as the specification words it: type, length in units
    of eight bytes, padding, the address, zeros up to the end. *)
Definition nd_addr_option (type pad : Z) (data : list byte) (space : Z)
  : list byte :=
  [to_byte type; to_byte (space / 8)]
  ++ replicate (Z.to_nat pad) (to_byte 0)
  ++ data
  ++ replicate (Z.to_nat (space - 2 - pad - Z.of_nat (length data))) (to_byte 0).

(** The fields of a packet buffer hold an [unsigned int] length and an
    offset inside the data. *)
Definition skb_wf (skb : sk_buff) : Prop :=
  0 <= transport_header skb /\ skb_tail skb < 4294967296.

(** The packets handed to the output path so far, latest first. *)
Definition output_of (e : event) : option sk_buff :=
  match e with
  | EvOutput pkt => Some pkt
  | _ => None
  end.

Definition emitted (w : world) : list sk_buff := omap output_of (events w).

(** The preference recorded in the flags of a route. *)
Definition rt6_pref (rt : rt6_info) : Z :=
  Z.shiftr (Z.land (rt6i_flags rt) RTF_PREF_MASK) 27.

(** One activation of the NDP core: a packet delivered to the receive entry
    point, a replay from the proxy queue, a probe requested by the neighbour
    cache, a message requested by another subsystem, or a device event. *)
Inductive ndisc_step (cfg : kconfig) {K : Collaborators} : world -> world -> Prop :=
  | step_rcv f w skb :
      ndisc_step cfg w (ndisc_rcv cfg f w skb).2
  | step_redo f w skb :
      ndisc_step cfg w (pndisc_redo cfg f w skb)
  | step_solicit f w neigh skb :
      ndisc_step cfg w (ndisc_solicit cfg f w neigh skb)
  | step_error_report w skb :
      ndisc_step cfg w (ndisc_error_report w skb)
  | step_send_ns f w dev solicit daddr saddr :
      ndisc_step cfg w (ndisc_send_ns f w dev solicit daddr saddr)
  | step_send_rs f w dev saddr daddr :
      ndisc_step cfg w (ndisc_send_rs cfg f w dev saddr daddr)
  | step_send_redirect f w skb target :
      ndisc_step cfg w (ndisc_send_redirect f w skb target)
  | step_netdev_event f w event dev :
      ndisc_step cfg w (ndisc_netdev_event f w event dev).2.


(** From the option at [p], stepping over options of non-zero length leads
    to the option at [q]. *)
Inductive nd_chain (mem : list byte) : Z -> Z -> Prop :=
  | chain_refl p : nd_chain mem p p
  | chain_step p q :
      0 < nd_opt_len mem p ->
      nd_chain mem (p + 8 * nd_opt_len mem p) q ->
      nd_chain mem p q.

(** A pair of pointers to the first and the last option of a kind, while the
    parser stands at [p]: both NULL, or the first leads to the last, which is
    an option of non-zero length that leads to [p]. *)
Definition nd_range_ok (mem : list byte) (first end_ : option Z) (p : Z) : Prop :=
  match first, end_ with
  | None, None => True
  | Some a, Some b =>
      nd_chain mem a b /\ 0 < nd_opt_len mem b
      /\ nd_chain mem (b + 8 * nd_opt_len mem b) p
  | _, _ => False
  end.

Definition nd_ranges_ok (mem : list byte) (nd : ndisc_options) (p : Z) : Prop :=
  length (nd_opt_array nd) = ND_OPT_ARRAY_MAX
  /\ nd_range_ok mem (nd_opts_ri nd) (nd_opts_ri_end nd) p
  /\ nd_range_ok mem (nd_opts_pi nd) (nd_opts_pi_end nd) p
  /\ nd_range_ok mem (nd_useropts nd) (nd_useropts_end nd) p.

(** ** Vocabulary of the router advertisement and emission proofs *)

(** A property of the world that survives the requests handed to
    collaborators, the writes to the neighbour cache, the writes of the
    interface data that keep [accept_ra_defrtr] at [v], and the writes of
    [rt] that change its metrics only. *)
Record ra_stable (P : world -> Prop) (skb : sk_buff) (v : Z)
    (rt : option rt6_info) : Prop := {
  st_emit : forall w e, output_of e = None -> P w -> P (emit w e);
  st_nd_tbl : forall w m, P w -> P (set_nd_tbl w m);
  st_idev : forall w d,
    accept_ra_defrtr (cnf d) = v -> P w -> P (idev_store w (skb_dev skb) d);
  st_rt_metric : forall w r mtu,
    rt = Some r -> P w ->
    P (rt6_store w (ipv6_hdr_saddr skb) (skb_dev skb) (set_rt_mtu r mtu));
}.

(** A property that moreover survives any write to the router list, and the
    writes of the interface data that keep [accept_ra_defrtr] or clear it. *)
Record ra_stable_all (P : world -> Prop) (skb : sk_buff) (v : Z) : Prop := {
  sa_emit : forall w e, output_of e = None -> P w -> P (emit w e);
  sa_nd_tbl : forall w m, P w -> P (set_nd_tbl w m);
  sa_idev : forall w d,
    accept_ra_defrtr (cnf d) = v \/ accept_ra_defrtr (cnf d) = 0 ->
    P w -> P (idev_store w (skb_dev skb) d);
  sa_rt6 : forall w m, P w -> P (set_rt6_dflt w m);
}.

(** Default-router processing is switched off on interface [i]. *)
Definition defrtr_off (i : Z) (w : world) : Prop :=
  exists d, idevs w !! i = Some d /\ accept_ra_defrtr (cnf d) = 0.

(** The ICMPv6 code of a message under construction is its second byte. *)
Definition code_ok (mem : list byte) : Prop := mem !! 1%nat = Some (to_byte 0).

(** Either the code byte is there and zero, or the buffer was too short for
    it and has no room left. *)
Definition tx_ok (skb : tx_skb) : Prop :=
  code_ok (tx_data skb) \/ (tx_data skb !! 1%nat = None /\ tx_room skb = []).

(** What the link has to see of an emitted message. *)
Definition on_link_format (pkt : sk_buff) : Prop :=
  ipv6_hdr_hop_limit pkt = 255 /\ icmp6_code pkt = 0.

(** The control socket sends with hop limit 255, and everything emitted
    since [base] has the on-link format. *)
Definition tx_inv (base : list sk_buff) (w : world) : Prop :=
  sk_hop_limit (ndisc_sk w) = 255
  /\ exists new, emitted w = new ++ base /\ Forall on_link_format new.

(** ** Vocabulary of the further properties *)

(** The size of the fixed part of a message, by ICMPv6 type: what the
    handlers subtract from the length to get the option area. *)
Definition nd_hdr_size (type : Z) : Z :=
  if type =? NDISC_NEIGHBOUR_SOLICITATION then sizeof_nd_msg
  else if type =? NDISC_NEIGHBOUR_ADVERTISEMENT then sizeof_nd_msg
  else if type =? NDISC_ROUTER_SOLICITATION then sizeof_rs_msg
  else if type =? NDISC_ROUTER_ADVERTISEMENT then sizeof_ra_msg
  else sizeof_rd_msg.

(** The packet on the wire for an ICMPv6 message [msg] built with a zero
    checksum field: the IPv6 header of [ip6_nd_hdr] in front of the message,
    with the checksum of the message stored in its bytes 2 and 3. *)
Definition nd_wire {K : Collaborators} (dev : net_device) (hop_limit : Z)
    (saddr daddr : in6_addr) (msg : list byte) : sk_buff :=
  let len := Z.of_nat (length msg) in
  let cksum := csum_ipv6_magic saddr daddr len IPPROTO_ICMPV6
                 (csum_partial msg len 0) in
  {| skb_dev := dev;
     skb_data := [to_byte 0x60; to_byte 0; to_byte 0; to_byte 0]
                 ++ be_bytes 2 len
                 ++ [to_byte IPPROTO_ICMPV6; to_byte hop_limit]
                 ++ be_bytes 16 saddr ++ be_bytes 16 daddr
                 ++ take 2 msg ++ be_bytes 2 cksum ++ drop 4 msg;
     transport_header := sizeof_ipv6hdr;
     pkt_type := PACKET_HOST;
     ndisc_nodetype := NDISC_NODETYPE_UNSPEC;
     cb_flags := 0 |}.

(** The redirected header option as the emitter lays it out: type, length
    in units of eight bytes, six reserved bytes, and the start of the packet
    that caused the Redirect. *)
Definition nd_redirect_hdr_option (rd_len : Z) (orig : list byte) : list byte :=
  [to_byte ND_OPT_REDIRECT_HDR; to_byte (rd_len / 8)]
  ++ replicate 6 (to_byte 0)
  ++ take (Z.to_nat (rd_len - 8)) orig.

(** The options of an option area, by position, in the order of the area. *)
Inductive nd_opts_at (mem : list byte) : Z -> Z -> list Z -> Prop :=
  | opts_at_nil p : nd_opts_at mem p 0 []
  | opts_at_cons p len l :
      sizeof_nd_opt_hdr <= len ->
      0 < 8 * nd_opt_len mem p <= len ->
      nd_opts_at mem (p + 8 * nd_opt_len mem p) (len - 8 * nd_opt_len mem p) l ->
      nd_opts_at mem p len (p :: l).

(** The three kinds of option the parser keeps a first and a last pointer
    for. *)
Definition nd_opt_is_pi (mem : list byte) (q : Z) : bool :=
  nd_opt_type mem q =? ND_OPT_PREFIX_INFO.

Definition nd_opt_is_ri (cfg : kconfig) (mem : list byte) (q : Z) : bool :=
  CONFIG_IPV6_ROUTE_INFO cfg && (nd_opt_type mem q =? ND_OPT_ROUTE_INFO).

(** The update of a pair of pointers (first, last) by an option of the
    kind [sel]. *)
Definition nd_range_step (sel : Z -> bool) (pr : option Z * option Z) (q : Z)
  : option Z * option Z :=
  if sel q
  then (match pr.1 with Some a => Some a | None => Some q end, Some q)
  else pr.

(** What a router advertisement received in [skb] may have made of the data
    [d0] of the receiving interface: the addresses and the switches of the
    configuration are as they were, default-router processing is as it was
    or switched off, the MTU is as it was or one the option may carry, the
    hop limit is as it was or the non-zero one advertised. *)
Definition ra_idev_ok (skb : sk_buff) (d0 d : inet6_dev) : Prop :=
  addr_list d = addr_list d0
  /\ forwarding (cnf d) = forwarding (cnf d0)
  /\ accept_ra (cnf d) = accept_ra (cnf d0)
  /\ accept_ra_pinfo (cnf d) = accept_ra_pinfo (cnf d0)
  /\ accept_ra_rtr_pref (cnf d) = accept_ra_rtr_pref (cnf d0)
  /\ accept_ra_rt_info_max_plen (cnf d) = accept_ra_rt_info_max_plen (cnf d0)
  /\ proxy_ndp (cnf d) = proxy_ndp (cnf d0)
  /\ force_tllao (cnf d) = force_tllao (cnf d0)
  /\ ndisc_notify (cnf d) = ndisc_notify (cnf d0)
  /\ (accept_ra_defrtr (cnf d) = accept_ra_defrtr (cnf d0)
      \/ accept_ra_defrtr (cnf d) = 0)
  /\ (mtu6 (cnf d) = mtu6 (cnf d0)
      \/ IPV6_MIN_MTU <= to_u32 (mtu6 (cnf d)) <= dev_mtu (skb_dev skb))
  /\ (hop_limit (cnf d) = hop_limit (cnf d0)
      \/ (hop_limit (cnf d) = icmp6_hop_limit skb /\ icmp6_hop_limit skb <> 0)).

(** The receiving interface has data, and they are such. *)
Definition ra_idev_kept (skb : sk_buff) (d0 : inet6_dev) (w : world) : Prop :=
  exists d, idevs w !! ifindex (skb_dev skb) = Some d /\ ra_idev_ok skb d0 d.

(** The packet [pkt] as the interface [dev] of another host on the link
    hands it to the receive path: the same bytes, on the receiving device,
    with the packet type the link layer gave it. *)
Definition nd_received (dev : net_device) (ptype : Z) (pkt : sk_buff) : sk_buff :=
  {| skb_dev := dev; skb_data := skb_data pkt;
     transport_header := transport_header pkt; pkt_type := ptype;
     ndisc_nodetype := NDISC_NODETYPE_UNSPEC; cb_flags := 0 |}.

(** ** A concrete host

    A build, two interfaces, reference collaborators and a few packets, on
    which the handlers can be run. *)
Module Scenario.

Definition cfg : kconfig :=
  {| CONFIG_IPV6_ROUTE_INFO := true;
     CONFIG_IPV6_ROUTER_PREF := true;
     CONFIG_IPV6_NDISC_NODETYPE := false;
     CONFIG_IPV6_OPTIMISTIC_DAD := true;
     CONFIG_ARPD := false;
     MTK_DHCPV6C_WIFI := false;
     HZ := 100;
     BITS_PER_LONG := 32 |}.

(** Modelled from the spec: collaborators whose code is not among the
    sources.  Link-local addresses are [fe80::/10]; the padding of an address
    option is 6 bytes on Infiniband and 0 elsewhere; [accept_ra] is the master
    switch of RA processing; the cache update stores the new state and the
    address and, when asked to override the router flag, sets it as told;
    the random reachable time is taken at the base; source selection returns
    the first usable address of the interface. *)
Definition reference : Collaborators :=
  {| ipv6_addr_type := fun a =>
       if a =? 0 then 0
       else if Z.shiftr a 120 =? 0xff then 0x0002
       else if Z.shiftr a 118 =? 0x3fa
       then Z.lor IPV6_ADDR_LINKLOCAL IPV6_ADDR_UNICAST
       else IPV6_ADDR_UNICAST;
     ndisc_addr_option_pad := fun t => if t =? ARPHRD_INFINIBAND then 6 else 0;
     ipv6_accept_ra := fun idev => nonzero (accept_ra (cnf idev));
     neigh_update := fun n lladdr new flags =>
       {| primary_key := primary_key n; n_dev := n_dev n;
          ha := match lladdr with
                | Some a => a ++ drop (length a) (ha n)
                | None => ha n
                end;
          nud_state := new;
          n_flags :=
            if has_flag flags NEIGH_UPDATE_F_OVERRIDE_ISROUTER then
              if has_flag flags NEIGH_UPDATE_F_ISROUTER
              then Z.lor (n_flags n) NTF_ROUTER
              else Z.land (n_flags n) (Z.lnot NTF_ROUTER)
            else n_flags n;
          n_type := n_type n; n_probes := n_probes n; n_parms := n_parms n;
          n_ops := n_ops n; n_output := n_output n |};
     neigh_rand_reach_time := fun base => base;
     ipv6_dev_get_saddr := fun w dev daddr prefs =>
       match idevs w !! ifindex dev with
       | Some idev =>
           ifa_addr <$>
             find (fun a => negb (has_flag (ifa_flags a) IFA_F_TENTATIVE))
               (addr_list idev)
       | None => None
       end;
     csum_partial := fun _ _ sum => sum;
     csum_ipv6_magic := fun _ _ _ _ sum => sum;
     ipv6_ib_mc_map := fun _ _ buf => buf;
     ipv6_ipgre_mc_map := fun _ _ buf => (0, buf) |}.

Definition bytes (l : list Z) : list byte := map to_byte l.

Definition eth0 : net_device :=
  {| ifindex := 2; name := "eth0"; dev_type := ARPHRD_ETHER; addr_len := 6;
     dev_addr := bytes [0x02; 0x00; 0x00; 0x00; 0x00; 0x01];
     broadcast := bytes [0xff; 0xff; 0xff; 0xff; 0xff; 0xff];
     dev_flags := 0x1043; dev_mtu := 1500;
     header_ops := true; header_ops_cache := true;
     ll_reserved_space := 16; needed_tailroom := 0 |}.

Definition ccmni0 : net_device :=
  {| ifindex := 3; name := "ccmni0"; dev_type := ARPHRD_ETHER; addr_len := 6;
     dev_addr := bytes [0x02; 0x00; 0x00; 0x00; 0x00; 0x02];
     broadcast := bytes [0xff; 0xff; 0xff; 0xff; 0xff; 0xff];
     dev_flags := 0x1043; dev_mtu := 1500;
     header_ops := true; header_ops_cache := true;
     ll_reserved_space := 16; needed_tailroom := 0 |}.

Definition host_cnf (ra : Z) : ipv6_devconf :=
  {| forwarding := 0; hop_limit := 64; mtu6 := 1500; accept_ra := ra;
     accept_ra_defrtr := 1; accept_ra_pinfo := 1; accept_ra_rtr_pref := 1;
     accept_ra_rt_info_max_plen := 0; proxy_ndp := 0; force_tllao := 0;
     ndisc_notify := 0; ra_info_flag := 0 |}.

Definition our_lladdr : in6_addr := 0xfe800000000000000000000000001234.
Definition router : in6_addr := 0xfe800000000000000000000000000001.
Definition peer : in6_addr := 0xfe800000000000000000000000000002.
Definition tentative : in6_addr := 0x20010db8000000000000000000000001.

Definition host_idev (ra : Z) : inet6_dev :=
  {| cnf := host_cnf ra; if_flags := 0; nd_parms := nd_tbl_parms cfg;
     tstamp := 0;
     addr_list := [ {| ifa_addr := our_lladdr; ifa_flags := 0 |};
                    {| ifa_addr := tentative; ifa_flags := IFA_F_TENTATIVE |} ] |}.

(** The host with RA processing switched to [ra] on both interfaces. *)
Definition host (ra : Z) : world :=
  {| jiffies := 5000;
     ndisc_sk := {| sk_hop_limit := 255; sk_mc_loop := 0; sk_srcprefs := 0 |};
     devconf_all := host_cnf ra;
     idevs := <[2 := host_idev ra]> (<[3 := host_idev ra]> ∅);
     ac_list := [];
     nd_tbl := ∅;
     pneigh := [];
     rt6_dflt := ∅;
     events := [] |}.

Definition no_faults : faults :=
  {| skb_linearize_fails := false; alloc_skb_fails := false;
     skb_clone_fails := false; icmp6_dst_alloc_fails := false;
     neigh_create_fails := false; rt6_add_fails := false;
     output_err := false; nlmsg_new_fails := false; nlmsg_put_fails := false;
     nla_put_fails := false; route_output_fails := false;
     xfrm_lookup_fails := false; rt_is_gateway := false; xrlim_allow := true;
     sock_create_err := 0; heap := fun _ => to_byte 0xa5 |}.

(** An IPv6 packet carrying an ICMPv6 message. *)
Definition packet (dev : net_device) (hop : Z) (saddr daddr : in6_addr)
    (icmp : list byte) : sk_buff :=
  {| skb_dev := dev;
     skb_data := bytes [0x60; 0; 0; 0] ++ be_bytes 2 (Z.of_nat (length icmp))
                 ++ bytes [IPPROTO_ICMPV6; hop]
                 ++ be_bytes 16 saddr ++ be_bytes 16 daddr ++ icmp;
     transport_header := 40; pkt_type := PACKET_HOST;
     ndisc_nodetype := NDISC_NODETYPE_UNSPEC; cb_flags := 0 |}.

Definition sllao (mac : list Z) : list byte :=
  bytes ([ND_OPT_SOURCE_LL_ADDR; 1] ++ mac).
Definition tllao (mac : list Z) : list byte :=
  bytes ([ND_OPT_TARGET_LL_ADDR; 1] ++ mac).

Definition router_mac : list Z := [0x11; 0x22; 0x33; 0x44; 0x55; 0x66].
Definition peer_mac : list Z := [0xaa; 0xbb; 0xcc; 0xdd; 0xee; 0xff].

(** A router advertisement from [router]: current hop limit 64, preference
    bits [prf], the given lifetime, and a source link-layer address option. *)
Definition ra_from (dev : net_device) (hop code prf lifetime : Z) : sk_buff :=
  packet dev hop router in6addr_linklocal_allnodes
    (bytes [NDISC_ROUTER_ADVERTISEMENT; code; 0; 0; 64; Z.shiftl prf 3]
     ++ be_bytes 2 lifetime ++ be_bytes 4 0 ++ be_bytes 4 0
     ++ sllao router_mac).

(** A neighbour solicitation from [saddr] to [daddr] for [target]. *)
Definition ns_from (saddr daddr target : in6_addr) (opts : list byte) : sk_buff :=
  packet eth0 255 saddr daddr
    (bytes [NDISC_NEIGHBOUR_SOLICITATION; 0; 0; 0; 0; 0; 0; 0]
     ++ be_bytes 16 target ++ opts).

(** A neighbour advertisement from [peer] for its own address, with the
    flags byte [flags] and a target link-layer address option. *)
Definition na_from_peer (flags : Z) : sk_buff :=
  packet eth0 255 peer our_lladdr
    (bytes [NDISC_NEIGHBOUR_ADVERTISEMENT; 0; 0; 0; flags; 0; 0; 0]
     ++ be_bytes 16 peer ++ tllao peer_mac).

(** The cache entry of [peer], probing, marked as a router. *)
Definition peer_entry (probes : Z) : neighbour :=
  {| primary_key := peer; n_dev := eth0;
     ha := replicate MAX_ADDR_LEN Byte.x00;
     nud_state := NUD_INCOMPLETE; n_flags := NTF_ROUTER; n_type := RTN_UNICAST;
     n_probes := probes; n_parms := Some 2; n_ops := Some ndisc_hh_ops;
     n_output := neigh_resolve_output |}.

Definition peer_route : rt6_info :=
  {| rt6i_gateway := peer; rt6i_dev := 2;
     rt6i_flags := Z.lor RTF_GATEWAY (Z.lor RTF_ADDRCONF (Z.lor RTF_DEFAULT RTF_UP));
     rt6i_expires := 0; rt6i_hoplimit := 0; rt6i_mtu := 0 |}.

(** The host knowing [peer] as a neighbour and as a default router. *)
Definition host_with_peer (probes : Z) : world :=
  set_rt6_dflt
    (set_nd_tbl (host 1) (<[(peer, 2) := peer_entry probes]> ∅))
    (<[(peer, 2) := peer_route]> ∅).

(** An option area with seven options of eight bytes each: two source
    link-layer addresses, two prefix informations, an RDNSS, a route
    information and a DNSSL option. *)
Definition ra_option_area : list byte :=
  sllao router_mac
  ++ bytes [ND_OPT_PREFIX_INFO; 1; 64; 0xc0; 0; 0; 0; 1]
  ++ sllao peer_mac
  ++ bytes [ND_OPT_RDNSS; 1; 0; 0; 0; 0; 0; 60]
  ++ bytes [ND_OPT_PREFIX_INFO; 1; 64; 0xc0; 0; 0; 0; 2]
  ++ bytes [ND_OPT_ROUTE_INFO; 1; 0; 0; 0; 0; 0; 30]
  ++ bytes [ND_OPT_DNSSL; 1; 0; 0; 0; 0; 0; 60].

(** A router advertisement from [router] with the given lifetime that
    carries [opts] behind its source link-layer address option. *)
Definition ra_with (dev : net_device) (lifetime : Z) (opts : list byte)
  : sk_buff :=
  packet dev 255 router in6addr_linklocal_allnodes
    (bytes [NDISC_ROUTER_ADVERTISEMENT; 0; 0; 0; 64; 0]
     ++ be_bytes 2 lifetime ++ be_bytes 4 0 ++ be_bytes 4 0
     ++ sllao router_mac ++ opts).

(** A route information option for the prefix [::/0], the default route,
    with a lifetime of 1800 seconds. *)
Definition default_route_info : list byte :=
  bytes [ND_OPT_ROUTE_INFO; 1; 0; 0] ++ be_bytes 4 1800.

(** A neighbour advertisement sent from [saddr] about [target], with the
    flags byte [flags] and a target link-layer address option. *)
Definition na_from (saddr target : in6_addr) (flags : Z) : sk_buff :=
  packet eth0 255 saddr our_lladdr
    (bytes [NDISC_NEIGHBOUR_ADVERTISEMENT; 0; 0; 0; flags; 0; 0; 0]
     ++ be_bytes 16 target ++ tllao peer_mac).

Definition router_route : rt6_info :=
  {| rt6i_gateway := router; rt6i_dev := 2;
     rt6i_flags := Z.lor RTF_GATEWAY (Z.lor RTF_ADDRCONF (Z.lor RTF_DEFAULT RTF_UP));
     rt6i_expires := 0; rt6i_hoplimit := 0; rt6i_mtu := 0 |}.

(** The host knowing [peer] as a neighbour marked as a router, and both
    [peer] and [router] as default routers. *)
Definition host_with_routers : world :=
  set_rt6_dflt (host_with_peer 0)
    (<[(router, 2) := router_route]> (<[(peer, 2) := peer_route]> ∅)).

(** A cache entry for an address of the host itself. *)
Definition own_entry : neighbour :=
  {| primary_key := our_lladdr; n_dev := eth0;
     ha := replicate MAX_ADDR_LEN Byte.x00;
     nud_state := NUD_INCOMPLETE; n_flags := 0; n_type := RTN_UNICAST;
     n_probes := 0; n_parms := Some 2; n_ops := Some ndisc_hh_ops;
     n_output := neigh_resolve_output |}.

(** The host with that entry in its cache. *)
Definition host_with_own_entry : world :=
  set_nd_tbl (host 1) (<[(our_lladdr, 2) := own_entry]> ∅).

End Scenario.

(** * Properties *)

(** ** Bytes and memory *)

Lemma u8_range b : 0 <= u8 b < 256.
Proof.
  unfold u8. pose proof (Byte.to_N_bounded b). lia.
Qed.

Lemma u8_to_byte z : u8 (to_byte z) = z mod 256.
Proof.
  unfold u8, to_byte.
  assert (Hr : 0 <= z mod 256 < 256) by (apply Z.mod_pos_bound; lia).
  destruct (Byte.of_N (Z.to_N (z mod 256))) as [b|] eqn:E.
  - apply Byte.to_of_N in E. rewrite E. lia.
  - apply Byte.of_N_None_iff in E. lia.
Qed.

Lemma load8_range mem p : 0 <= load8 mem p < 256.
Proof.
  unfold load8. destruct (p <? 0); [lia|].
  destruct (mem !! Z.to_nat p); [apply u8_range | lia].
Qed.

Lemma shiftl3 z : Z.shiftl z 3 = 8 * z.
Proof. rewrite Z.shiftl_mul_pow2 by lia. lia. Qed.

Lemma load8_head (x : byte) l : load8 (x :: l) 0 = u8 x.
Proof. reflexivity. Qed.

Lemma load8_second (x y : byte) l : load8 (x :: y :: l) 1 = u8 y.
Proof. reflexivity. Qed.

Lemma load8_app_r (l1 l2 : list byte) p i :
  0 <= i -> p = Z.of_nat (length l1) ->
  load8 (l1 ++ l2) (p + i) = load8 l2 i.
Proof.
  intros Hi ->. unfold load8.
  destruct (Z.ltb_spec (Z.of_nat (length l1) + i) 0); [lia|].
  destruct (Z.ltb_spec i 0); [lia|].
  rewrite lookup_app_r by lia.
  replace (Z.to_nat (Z.of_nat (length l1) + i) - length l1)%nat
    with (Z.to_nat i) by lia.
  reflexivity.
Qed.

Lemma load_bytes_app (l1 l2 l3 : list byte) p n :
  p = Z.of_nat (length l1) -> n = length l2 ->
  load_bytes (l1 ++ l2 ++ l3) p n = l2.
Proof.
  intros -> ->. unfold load_bytes.
  rewrite Nat2Z.id, drop_app_length, take_app_length. reflexivity.
Qed.

Lemma store8_app (l1 l2 : list byte) x p v :
  0 <= p -> length l1 = Z.to_nat p ->
  store8 (l1 ++ x :: l2) p v = l1 ++ to_byte v :: l2.
Proof.
  intros Hp Hl. unfold store8. rewrite <- Hl.
  rewrite insert_app_r_alt by lia. rewrite Nat.sub_diag. reflexivity.
Qed.

Lemma memset_app n : forall (l1 l2 l3 : list byte) p c,
  0 <= p -> length l1 = Z.to_nat p -> length l2 = n ->
  memset (l1 ++ l2 ++ l3) p c n = l1 ++ replicate n (to_byte c) ++ l3.
Proof.
  induction n as [|n IH]; intros l1 l2 l3 p c Hp H1 H2.
  - destruct l2; [reflexivity | discriminate].
  - destruct l2 as [|x l2]; [discriminate|]. cbn [memset].
    change ((x :: l2) ++ l3) with (x :: (l2 ++ l3)).
    rewrite store8_app by assumption.
    change (l1 ++ to_byte c :: l2 ++ l3) with (l1 ++ [to_byte c] ++ l2 ++ l3).
    rewrite (app_assoc l1 [to_byte c]).
    rewrite IH; [| lia | rewrite length_app; cbn; lia | cbn in H2; lia].
    rewrite <- app_assoc. reflexivity.
Qed.

Lemma memcpy_app n : forall (l1 l2 l3 src : list byte) p,
  0 <= p -> length l1 = Z.to_nat p -> length l2 = n -> (n <= length src)%nat ->
  memcpy (l1 ++ l2 ++ l3) p src n = l1 ++ take n src ++ l3.
Proof.
  induction n as [|n IH]; intros l1 l2 l3 src p Hp H1 H2 Hs.
  - destruct l2; [destruct src; reflexivity | discriminate].
  - destruct l2 as [|x l2]; [discriminate|].
    destruct src as [|b src]; [cbn in Hs; lia|]. cbn [memcpy].
    change ((x :: l2) ++ l3) with (x :: (l2 ++ l3)).
    rewrite <- H1 at 1. rewrite insert_app_r_alt by lia. rewrite Nat.sub_diag.
    cbn [list_insert insert].
    change (l1 ++ b :: l2 ++ l3) with (l1 ++ [b] ++ l2 ++ l3).
    rewrite (app_assoc l1 [b]).
    rewrite IH;
      [| lia | rewrite length_app; cbn; lia | cbn in H2; lia | cbn in Hs; lia].
    rewrite <- app_assoc. reflexivity.
Qed.

(** ** Option codec *)

(** The parsing loop never runs out of fuel, and its two outcomes are the
    two shapes of an option area. *)
Lemma ndisc_parse_loop_spec cfg fuel : forall mem p len nd,
  0 <= len -> (Z.to_nat len <= fuel)%nat ->
  (exists nd', ndisc_parse_loop cfg fuel mem p len nd = Some (Some nd')
               /\ nd_opts_tiled mem p len)
  \/ (ndisc_parse_loop cfg fuel mem p len nd = Some None
      /\ nd_opts_broken mem p len).
Proof.
  induction fuel as [|fuel IH]; intros mem p len nd Hlen Hfuel.
  - assert (len = 0) by lia. subst. left. exists nd.
    split; [reflexivity | constructor].
  - cbn [ndisc_parse_loop].
    destruct (Z.eqb_spec len 0) as [->|Hne].
    { left. exists nd. split; [reflexivity | constructor]. }
    destruct (Z.ltb_spec len 2) as [Hlt|Hge].
    { right. split; [reflexivity|]. apply broken_hdr.
      unfold sizeof_nd_opt_hdr. lia. }
    rewrite shiftl3.
    pose proof (load8_range mem (p + 1)) as Hr. fold (nd_opt_len mem p) in Hr.
    destruct (Z.ltb_spec len (8 * nd_opt_len mem p)) as [Hlong|Hfit]; cbn [orb].
    { right. split; [reflexivity|].
      apply broken_long; unfold sizeof_nd_opt_hdr; lia. }
    destruct (Z.eqb_spec (8 * nd_opt_len mem p) 0) as [Hz|Hnz].
    { right. split; [reflexivity|].
      apply broken_zero; unfold sizeof_nd_opt_hdr; lia. }
    destruct (IH mem (p + 8 * nd_opt_len mem p) (len - 8 * nd_opt_len mem p)
                (ndisc_parse_record cfg mem p nd)) as [(nd' & E & T)|(E & B)];
      [lia | lia | |].
    + left. exists nd'. split; [exact E|].
      apply tiled_opt; unfold sizeof_nd_opt_hdr; try lia. exact T.
    + right. split; [exact E|].
      apply broken_later; unfold sizeof_nd_opt_hdr; try lia. exact B.
Qed.

Lemma ndisc_parse_loop_terminates cfg mem p len nd :
  0 <= len -> is_Some (ndisc_parse_loop cfg (Z.to_nat len) mem p len nd).
Proof.
  intros H.
  destruct (ndisc_parse_loop_spec cfg (Z.to_nat len) mem p len nd H (le_n _))
    as [(nd' & E & _)|(E & _)]; rewrite E; eauto.
Qed.

Lemma nd_opts_tiled_nonneg mem p len : nd_opts_tiled mem p len -> 0 <= len.
Proof. induction 1; unfold sizeof_nd_opt_hdr in *; lia. Qed.

Lemma nd_opts_tiled_not_broken mem p len :
  nd_opts_tiled mem p len -> nd_opts_broken mem p len -> False.
Proof.
  induction 1 as [p|p len H2 Hl T IH]; intros B.
  - inversion B; unfold sizeof_nd_opt_hdr in *; lia.
  - inversion B; subst; unfold sizeof_nd_opt_hdr in *; try lia. auto.
Qed.

(** C2.  Parsing succeeds exactly on an option area that the options cover
    from its first to its last byte, and returns NULL exactly when, somewhere
    along the walk, what remains cannot hold an option header or an option
    declares a length of zero or of more than what remains (or when the
    caller passes a negative length).  Nothing in between is accepted. *)
Theorem ndisc_parse_options_all_or_nothing cfg mem opt opt_len :
  (is_Some (ndisc_parse_options cfg mem opt opt_len)
   <-> nd_opts_tiled mem opt opt_len)
  /\ (ndisc_parse_options cfg mem opt opt_len = None
      <-> opt_len < 0 \/ nd_opts_broken mem opt opt_len).
Proof.
  unfold ndisc_parse_options.
  destruct (Z.ltb_spec opt_len 0) as [Hneg|Hpos].
  - split; split.
    + intros [? ?]; discriminate.
    + intros T. apply nd_opts_tiled_nonneg in T. lia.
    + auto.
    + reflexivity.
  - destruct (ndisc_parse_loop_spec cfg (Z.to_nat opt_len) mem opt opt_len
                ndopts_zero Hpos (le_n _)) as [(nd' & E & T)|(E & B)];
      rewrite E; split; split; eauto.
    + discriminate.
    + intros [?|Bk]; [lia|]. destruct (nd_opts_tiled_not_broken _ _ _ T Bk).
    + intros [? ?]; discriminate.
    + intros T. destruct (nd_opts_tiled_not_broken _ _ _ T B).
Qed.

Lemma nd_slot_set nd ty p :
  (Z.to_nat ty < length (nd_opt_array nd))%nat ->
  nd_slot (set_nd_slot nd ty p) ty = Some p.
Proof.
  intros H. unfold nd_slot, set_nd_slot. cbn [nd_opt_array].
  rewrite list_lookup_insert_eq by assumption. reflexivity.
Qed.

Lemma nd_slot_set_ne nd ty ty' p :
  Z.to_nat ty <> Z.to_nat ty' ->
  nd_slot (set_nd_slot nd ty p) ty' = nd_slot nd ty'.
Proof.
  intros H. unfold nd_slot, set_nd_slot. cbn [nd_opt_array].
  rewrite list_lookup_insert_ne by assumption. reflexivity.
Qed.

Lemma NDISC_OPT_SPACE_bounds len :
  0 <= len ->
  len + 2 <= NDISC_OPT_SPACE len < len + 10 /\ NDISC_OPT_SPACE len mod 8 = 0.
Proof.
  intros H. unfold NDISC_OPT_SPACE.
  pose proof (Z.div_mod (len + 2 + 7) 8 ltac:(lia)).
  pose proof (Z.mod_pos_bound (len + 2 + 7) 8 ltac:(lia)).
  split; [lia|]. rewrite Z.mul_comm. apply Z.mod_mul. lia.
Qed.

Section Codec.
Context (cfg : kconfig) {K : Collaborators}.

(** What [ndisc_fill_addr_option] appends is the option of the
    specification, whatever the added area held before. *)
Lemma ndisc_fill_addr_option_bytes (skb : tx_skb) (type : Z) (data : list byte) :
  0 <= ndisc_addr_option_pad (dev_type (tx_dev skb)) ->
  Z.of_nat (length data) = addr_len (tx_dev skb) ->
  ndisc_opt_addr_space (tx_dev skb) <= Z.of_nat (length (tx_room skb)) ->
  tx_data (ndisc_fill_addr_option skb type data)
  = tx_data skb
    ++ nd_addr_option type (ndisc_addr_option_pad (dev_type (tx_dev skb))) data
         (ndisc_opt_addr_space (tx_dev skb)).
Proof.
  intros Hpad Hdata Hroom.
  unfold ndisc_fill_addr_option, nd_addr_option, skb_put.
  cbn [tx_data tx_dev set_tx_data].
  set (pad := ndisc_addr_option_pad (dev_type (tx_dev skb))) in *.
  set (space := ndisc_opt_addr_space (tx_dev skb)) in *.
  set (d0 := tx_data skb).
  assert (Hsp : addr_len (tx_dev skb) + pad + 2 <= space
                < addr_len (tx_dev skb) + pad + 10
                /\ space mod 8 = 0).
  { subst space. unfold ndisc_opt_addr_space. fold pad.
    apply NDISC_OPT_SPACE_bounds. lia. }
  destruct Hsp as [Hsp Hmod].
  assert (HR : length (take (Z.to_nat space) (tx_room skb)) = Z.to_nat space).
  { rewrite length_take. lia. }
  destruct (take (Z.to_nat space) (tx_room skb)) as [|r0 [|r1 R]];
    [cbn in HR; lia | cbn in HR; lia |].
  cbn [length] in HR.
  rewrite <- (take_drop (Z.to_nat pad) R).
  rewrite <- (take_drop (length data) (drop (Z.to_nat pad) R)).
  set (Rp := take (Z.to_nat pad) R).
  set (Rd := take (length data) (drop (Z.to_nat pad) R)).
  set (Rt := drop (length data) (drop (Z.to_nat pad) R)).
  assert (HRp : length Rp = Z.to_nat pad) by (subst Rp; rewrite length_take; lia).
  assert (HRd : length Rd = length data).
  { subst Rd. rewrite length_take, length_drop. lia. }
  assert (HRt : length Rt = Z.to_nat (space - 2 - pad - Z.of_nat (length data))).
  { subst Rt. rewrite !length_drop. lia. }
  rewrite store8_app by lia.
  change (d0 ++ to_byte type :: r1 :: Rp ++ Rd ++ Rt)
    with (d0 ++ [to_byte type] ++ r1 :: Rp ++ Rd ++ Rt).
  rewrite (app_assoc d0 [to_byte type]).
  rewrite store8_app by (rewrite ?length_app; cbn; lia).
  change ((d0 ++ [to_byte type]) ++ to_byte (Z.shiftr space 3) :: Rp ++ Rd ++ Rt)
    with ((d0 ++ [to_byte type])
          ++ [to_byte (Z.shiftr space 3)] ++ Rp ++ Rd ++ Rt).
  rewrite (app_assoc (d0 ++ [to_byte type])).
  rewrite memset_app by (rewrite ?length_app; cbn; lia).
  rewrite (app_assoc _ (replicate _ _)).
  rewrite memcpy_app
    by (rewrite ?length_app, ?length_replicate; cbn; lia).
  replace (Z.to_nat (addr_len (tx_dev skb))) with (length data) by lia.
  rewrite firstn_all.
  destruct (Z.ltb_spec 0 (space - pad - (addr_len (tx_dev skb) + 2)))
    as [Hpos|Hneg].
  - rewrite (app_assoc _ data).
    rewrite <- (app_nil_r Rt) at 1.
    rewrite memset_app
      by (rewrite ?length_app, ?length_replicate; cbn; lia).
    rewrite app_nil_r.
    rewrite Z.shiftr_div_pow2 by lia. change (2 ^ 3) with 8.
    rewrite <- !app_assoc. cbn [app].
    replace (space - pad - (addr_len (tx_dev skb) + 2))
      with (space - 2 - pad - Z.of_nat (length data)) by lia.
    reflexivity.
  - assert (Rt = []) as -> by (destruct Rt; [reflexivity | cbn in HRt; lia]).
    rewrite Z.shiftr_div_pow2 by lia. change (2 ^ 3) with 8.
    rewrite <- !app_assoc. cbn [app].
    replace (Z.to_nat (space - 2 - pad - Z.of_nat (length data)))
      with 0%nat by lia.
    reflexivity.
Qed.

(** C8.  An address option written by [ndisc_fill_addr_option] (type,
    length in units of eight bytes, padding, address, zeros) is read back by
    the parser: parsing the area just written succeeds, records the option in
    the slot of its type and in no other, and the address the receive path
    extracts from that slot is the address that was written. *)
Theorem ndisc_fill_addr_option_roundtrip (skb : tx_skb) (type : Z)
    (data : list byte) :
  type = ND_OPT_SOURCE_LL_ADDR \/ type = ND_OPT_TARGET_LL_ADDR ->
  0 <= ndisc_addr_option_pad (dev_type (tx_dev skb)) ->
  Z.of_nat (length data) = addr_len (tx_dev skb) ->
  ndisc_opt_addr_space (tx_dev skb) / 8 < 256 ->
  ndisc_opt_addr_space (tx_dev skb) <= Z.of_nat (length (tx_room skb)) ->
  tx_data (ndisc_fill_addr_option skb type data)
  = tx_data skb
    ++ nd_addr_option type (ndisc_addr_option_pad (dev_type (tx_dev skb))) data
         (ndisc_opt_addr_space (tx_dev skb))
  /\ ndisc_parse_options cfg (tx_data (ndisc_fill_addr_option skb type data))
       (Z.of_nat (length (tx_data skb))) (ndisc_opt_addr_space (tx_dev skb))
     = Some (set_nd_slot ndopts_zero type (Z.of_nat (length (tx_data skb))))
  /\ nd_slot (set_nd_slot ndopts_zero type (Z.of_nat (length (tx_data skb)))) type
     = Some (Z.of_nat (length (tx_data skb)))
  /\ nd_opt_type (tx_data (ndisc_fill_addr_option skb type data))
       (Z.of_nat (length (tx_data skb))) = type
  /\ ndisc_opt_addr_data (tx_data (ndisc_fill_addr_option skb type data))
       (Z.of_nat (length (tx_data skb))) (tx_dev skb)
     = Some (Z.of_nat (length (tx_data skb)) + sizeof_nd_opt_hdr
             + ndisc_addr_option_pad (dev_type (tx_dev skb)))
  /\ lladdr_at (tx_data (ndisc_fill_addr_option skb type data))
       (Z.of_nat (length (tx_data skb)) + sizeof_nd_opt_hdr
        + ndisc_addr_option_pad (dev_type (tx_dev skb)))
       (tx_dev skb)
     = data.
Proof.
  set (dev := tx_dev skb).
  set (pad := ndisc_addr_option_pad (dev_type dev)).
  set (space := ndisc_opt_addr_space dev).
  set (opt := Z.of_nat (length (tx_data skb))).
  set (mem := tx_data (ndisc_fill_addr_option skb type data)).
  intros Hty Hpad Hdata Hfit Hroom.
  assert (Hmem : mem = tx_data skb ++ nd_addr_option type pad data space)
    by (apply ndisc_fill_addr_option_bytes; assumption).
  assert (Hsp : addr_len dev + pad + 2 <= space < addr_len dev + pad + 10
                /\ space mod 8 = 0).
  { subst space. unfold ndisc_opt_addr_space. fold pad.
    apply NDISC_OPT_SPACE_bounds. lia. }
  destruct Hsp as [Hsp Hmod].
  assert (Hsp8 : 8 * (space / 8) = space).
  { pose proof (Z.div_mod space 8 ltac:(lia)). lia. }
  assert (Htype : nd_opt_type mem opt = type).
  { rewrite Hmem. unfold nd_opt_type.
    rewrite <- (Z.add_0_r opt). rewrite load8_app_r by (subst opt; lia).
    unfold nd_addr_option. cbn [app]. rewrite load8_head, u8_to_byte.
    destruct Hty as [-> | ->]; reflexivity. }
  assert (Hlen : nd_opt_len mem opt = space / 8).
  { rewrite Hmem. unfold nd_opt_len.
    rewrite load8_app_r by (subst opt; lia).
    unfold nd_addr_option. cbn [app]. rewrite load8_second, u8_to_byte.
    apply Z.mod_small. split; [apply Z.div_pos; lia | lia]. }
  assert (Hl : Z.shiftl (nd_opt_len mem opt) 3 = space).
  { rewrite shiftl3, Hlen. exact Hsp8. }
  assert (Hparse : ndisc_parse_options cfg mem opt space
                   = Some (set_nd_slot ndopts_zero type opt)).
  { unfold ndisc_parse_options.
    destruct (Z.ltb_spec space 0); [lia|].
    destruct (Z.to_nat space) as [|fuel] eqn:Ef; [lia|].
    cbn [ndisc_parse_loop].
    destruct (Z.eqb_spec space 0); [lia|].
    destruct (Z.ltb_spec space 2); [lia|].
    rewrite Hl. rewrite Z.ltb_irrefl. cbn [orb].
    destruct (Z.eqb_spec space 0); [lia|].
    rewrite Z.sub_diag.
    destruct fuel; cbn [ndisc_parse_loop Z.eqb];
      unfold ndisc_parse_record; rewrite Htype;
      destruct Hty as [-> | ->]; reflexivity. }
  repeat split; try assumption.
  - apply nd_slot_set. destruct Hty as [-> | ->]; vm_compute; lia.
  - unfold ndisc_opt_addr_data. rewrite Hl. fold space.
    rewrite Z.eqb_refl. reflexivity.
  - rewrite Hmem. unfold lladdr_at, nd_addr_option.
    change ([to_byte type; to_byte (space / 8)]
            ++ replicate (Z.to_nat pad) (to_byte 0) ++ data ++
            replicate (Z.to_nat (space - 2 - pad - Z.of_nat (length data)))
              (to_byte 0))
      with (([to_byte type; to_byte (space / 8)]
            ++ replicate (Z.to_nat pad) (to_byte 0)) ++ data ++
            replicate (Z.to_nat (space - 2 - pad - Z.of_nat (length data)))
              (to_byte 0)).
    rewrite (app_assoc (tx_data skb)).
    apply load_bytes_app.
    + rewrite !length_app, length_replicate. cbn.
      unfold sizeof_nd_opt_hdr. subst opt. lia.
    + fold dev. lia.
Qed.

End Codec.

(** The neighbour solicitation header followed by room for one option, as the
    emitter has it when it appends our address on [eth0]. *)
Lemma ndisc_fill_addr_option_roundtrip_witness :
  ndisc_parse_options Scenario.cfg
    (tx_data
       (ndisc_fill_addr_option (K := Scenario.reference)
          {| tx_dev := Scenario.eth0;
             tx_data := nd_msg_bytes NDISC_NEIGHBOUR_SOLICITATION
                          false false false Scenario.peer;
             tx_room := replicate 8 (to_byte 0xa5);
             tx_dst := false |}
          ND_OPT_SOURCE_LL_ADDR (dev_addr Scenario.eth0)))
    24 8
  = Some (set_nd_slot ndopts_zero ND_OPT_SOURCE_LL_ADDR 24).
Proof.
  apply (ndisc_fill_addr_option_roundtrip Scenario.cfg (K := Scenario.reference)
           {| tx_dev := Scenario.eth0;
              tx_data := nd_msg_bytes NDISC_NEIGHBOUR_SOLICITATION
                           false false false Scenario.peer;
              tx_room := replicate 8 (to_byte 0xa5);
              tx_dst := false |}
           ND_OPT_SOURCE_LL_ADDR (dev_addr Scenario.eth0)).
  - left. reflexivity.
  - vm_compute. discriminate.
  - reflexivity.
  - vm_compute. reflexivity.
  - vm_compute. discriminate.
Defined.

Lemma is_singleton_opt_cases ty :
  is_singleton_opt ty = true ->
  ty = ND_OPT_SOURCE_LL_ADDR \/ ty = ND_OPT_TARGET_LL_ADDR
  \/ ty = ND_OPT_MTU \/ ty = ND_OPT_REDIRECT_HDR.
Proof.
  unfold is_singleton_opt. rewrite !orb_true_iff, !Z.eqb_eq. tauto.
Qed.

Lemma ndisc_parse_record_length cfg mem p nd :
  length (nd_opt_array (ndisc_parse_record cfg mem p nd))
  = length (nd_opt_array nd).
Proof.
  unfold ndisc_parse_record.
  repeat case_match; cbn [nd_opt_array set_nd_slot];
    rewrite ?length_insert; reflexivity.
Qed.

(** Once a singleton slot is filled it stays so, and the option under the
    cursor fills the slot of its type. *)
Lemma ndisc_parse_record_keeps cfg mem p nd ty :
  is_singleton_opt ty = true ->
  is_Some (nd_slot nd ty) ->
  is_Some (nd_slot (ndisc_parse_record cfg mem p nd) ty).
Proof.
  intros Hs Hsome. unfold ndisc_parse_record.
  destruct (is_singleton_opt (nd_opt_type mem p)) eqn:E1.
  { destruct (nd_slot nd (nd_opt_type mem p)) eqn:E2; [assumption|].
    destruct (Z.eq_dec (nd_opt_type mem p) ty) as [Heq|Hne].
    - rewrite Heq in E2. rewrite E2 in Hsome. destruct Hsome; discriminate.
    - rewrite nd_slot_set_ne; [assumption|].
      apply is_singleton_opt_cases in Hs, E1.
      unfold ND_OPT_SOURCE_LL_ADDR, ND_OPT_TARGET_LL_ADDR, ND_OPT_MTU,
        ND_OPT_REDIRECT_HDR in *. lia. }
  destruct (nd_opt_type mem p =? ND_OPT_PREFIX_INFO) eqn:E2.
  { apply Z.eqb_eq in E2. rewrite E2.
    apply is_singleton_opt_cases in Hs.
    assert (H0 : nd_slot (set_nd_slot nd ND_OPT_PREFIX_INFO_END p) ty
                 = nd_slot nd ty).
    { apply nd_slot_set_ne.
      unfold ND_OPT_SOURCE_LL_ADDR, ND_OPT_TARGET_LL_ADDR, ND_OPT_MTU,
        ND_OPT_REDIRECT_HDR, ND_OPT_PREFIX_INFO_END in *. lia. }
    destruct (nd_slot (set_nd_slot nd ND_OPT_PREFIX_INFO_END p)
                ND_OPT_PREFIX_INFO).
    - rewrite H0. assumption.
    - rewrite nd_slot_set_ne; [rewrite H0; assumption|].
      unfold ND_OPT_SOURCE_LL_ADDR, ND_OPT_TARGET_LL_ADDR, ND_OPT_MTU,
        ND_OPT_REDIRECT_HDR, ND_OPT_PREFIX_INFO in *. lia. }
  repeat case_match; assumption.
Qed.

Lemma ndisc_parse_record_fills cfg mem p nd :
  is_singleton_opt (nd_opt_type mem p) = true ->
  length (nd_opt_array nd) = ND_OPT_ARRAY_MAX ->
  is_Some (nd_slot (ndisc_parse_record cfg mem p nd) (nd_opt_type mem p)).
Proof.
  intros Hs Hlen. unfold ndisc_parse_record. rewrite Hs.
  destruct (nd_slot nd (nd_opt_type mem p)) eqn:E; [rewrite E; eauto|].
  rewrite nd_slot_set; [eauto|].
  rewrite Hlen. apply is_singleton_opt_cases in Hs.
  unfold ND_OPT_SOURCE_LL_ADDR, ND_OPT_TARGET_LL_ADDR, ND_OPT_MTU,
    ND_OPT_REDIRECT_HDR, ND_OPT_ARRAY_MAX in *. lia.
Qed.

Lemma ndisc_parse_loop_present cfg ty fuel : forall mem p len nd nd',
  is_singleton_opt ty = true ->
  length (nd_opt_array nd) = ND_OPT_ARRAY_MAX ->
  ndisc_parse_loop cfg fuel mem p len nd = Some (Some nd') ->
  is_Some (nd_slot nd ty) \/ nd_opt_present mem ty p len ->
  is_Some (nd_slot nd' ty).
Proof.
  induction fuel as [|fuel IH]; intros mem p len nd nd' Hs Hlen Hrun Hpre.
  - cbn in Hrun. destruct (Z.eqb_spec len 0) as [->|]; [|discriminate].
    injection Hrun as <-. destruct Hpre as [H|H]; [assumption|].
    inversion H; unfold sizeof_nd_opt_hdr in *; lia.
  - cbn [ndisc_parse_loop] in Hrun.
    destruct (Z.eqb_spec len 0) as [->|Hne].
    { injection Hrun as <-. destruct Hpre as [H|H]; [assumption|].
      inversion H; unfold sizeof_nd_opt_hdr in *; lia. }
    destruct (len <? 2); [discriminate|].
    rewrite shiftl3 in Hrun.
    destruct ((len <? 8 * nd_opt_len mem p) || (8 * nd_opt_len mem p =? 0));
      [discriminate|].
    eapply IH; [exact Hs | | exact Hrun |].
    + rewrite ndisc_parse_record_length. exact Hlen.
    + destruct Hpre as [H|H].
      * left. apply ndisc_parse_record_keeps; assumption.
      * inversion H; subst.
        -- left. apply ndisc_parse_record_fills; assumption.
        -- right. assumption.
Qed.

Lemma ndisc_parse_options_present cfg mem opt opt_len ty nd :
  is_singleton_opt ty = true ->
  ndisc_parse_options cfg mem opt opt_len = Some nd ->
  nd_opt_present mem ty opt opt_len ->
  is_Some (nd_slot nd ty).
Proof.
  intros Hs Hp Hpre. unfold ndisc_parse_options in Hp.
  destruct (opt_len <? 0); [discriminate|].
  destruct (ndisc_parse_loop cfg (Z.to_nat opt_len) mem opt opt_len ndopts_zero)
    as [[nd0|]|] eqn:E; try discriminate.
  injection Hp as ->.
  assert (H0 : length (nd_opt_array ndopts_zero) = ND_OPT_ARRAY_MAX)
    by reflexivity.
  apply (ndisc_parse_loop_present cfg ty _ _ _ _ _ _ Hs H0 E).
  right. exact Hpre.
Qed.

Lemma to_int_to_u32 z :
  0 <= z < 4294967296 ->
  to_int (to_u32 z) = z \/ to_int (to_u32 z) < 0.
Proof.
  intros H. unfold to_int, to_u32.
  rewrite (Z.mod_small z) by lia.
  destruct (Z_lt_dec z 2147483648).
  - left. rewrite Z.mod_small by lia. lia.
  - right.
    replace (z + 2147483648) with (z - 2147483648 + 1 * 4294967296) by lia.
    rewrite Z.mod_add by lia. rewrite Z.mod_small by lia. lia.
Qed.

Section Receive.
Context (cfg : kconfig) {K : Collaborators}.

(** C1.  A packet delivered to the receive entry point whose IPv6 hop limit
    is not 255, or whose ICMPv6 code is not 0, is dropped before the dispatch
    on its type: the entry point returns 0 and the state is what it was. *)
Theorem ndisc_rcv_hop_limit_code_gate (f : faults) (w : world) (skb : sk_buff) :
  ipv6_hdr_hop_limit skb <> 255 \/ icmp6_code skb <> 0 ->
  ndisc_rcv cfg f w skb = (0, w).
Proof.
  intros H. unfold ndisc_rcv.
  destruct (skb_linearize_fails f); [reflexivity|].
  destruct (Z.eqb_spec (ipv6_hdr_hop_limit skb) 255); [|reflexivity].
  destruct (Z.eqb_spec (icmp6_code skb) 0); [|reflexivity].
  tauto.
Qed.

(** C3.  A neighbour solicitation sent from the unspecified address (a DAD
    probe) whose destination is not a solicited-node multicast address, or
    that carries a source link-layer address option, is dropped: the handler
    leaves the state as it was, and so sends no reply. *)
Theorem ndisc_recv_ns_bad_dad_dropped (f : faults) (w : world) (skb : sk_buff) :
  skb_wf skb ->
  ipv6_addr_any (ipv6_hdr_saddr skb) = true ->
  ipv6_addr_is_solict_mult (ipv6_hdr_daddr skb) = false
  \/ nd_opt_present (skb_data skb) ND_OPT_SOURCE_LL_ADDR
       (transport_header skb + sizeof_nd_msg) (skb_len skb - sizeof_nd_msg) ->
  ndisc_recv_ns cfg f w skb = w.
Proof.
  intros [Hth Htail] Hdad Hbad. unfold ndisc_recv_ns. rewrite Hdad.
  destruct (Z.ltb_spec (skb_len skb) sizeof_nd_msg) as [|Hlen]; [reflexivity|].
  destruct (ipv6_addr_is_multicast (nd_msg_target skb)); [reflexivity|].
  destruct (ipv6_addr_is_solict_mult (ipv6_hdr_daddr skb)) eqn:Esol;
    [|reflexivity].
  destruct Hbad as [|Hpre]; [discriminate|]. cbn [negb andb].
  destruct (ndisc_parse_options cfg (skb_data skb)
              (transport_header skb + sizeof_nd_msg)
              (to_int (to_u32 (skb_tail skb
                               - (transport_header skb + sizeof_nd_msg)))))
    as [ndopts|] eqn:Ep; [|reflexivity].
  assert (Hopt : is_Some (nd_opts_src_lladdr ndopts)).
  { unfold skb_len in *.
    destruct (to_int_to_u32
                (skb_tail skb - (transport_header skb + sizeof_nd_msg)))
      as [Heq|Hneg]; [unfold sizeof_nd_msg in *; lia | |].
    - rewrite Heq in Ep.
      eapply ndisc_parse_options_present; [reflexivity | exact Ep |].
      replace (skb_tail skb - (transport_header skb + sizeof_nd_msg))
        with (skb_tail skb - transport_header skb - sizeof_nd_msg) by lia.
      exact Hpre.
    - unfold ndisc_parse_options in Ep.
      destruct (Z.ltb_spec (to_int (to_u32 (skb_tail skb
                  - (transport_header skb + sizeof_nd_msg)))) 0);
        [discriminate | lia]. }
  destruct Hopt as [p Hp]. rewrite Hp.
  destruct (ndisc_opt_addr_data (skb_data skb) p (skb_dev skb)); reflexivity.
Qed.

End Receive.

Lemma ndisc_rcv_hop_limit_code_gate_witness :
  ndisc_rcv Scenario.cfg (K := Scenario.reference) Scenario.no_faults
    (Scenario.host 1) (Scenario.ra_from Scenario.eth0 64 0 1 1800)
  = (0, Scenario.host 1).
Proof.
  apply (ndisc_rcv_hop_limit_code_gate Scenario.cfg (K := Scenario.reference)).
  left. vm_compute. discriminate.
Defined.

Lemma ndisc_recv_ns_bad_dad_dropped_witness :
  ndisc_recv_ns Scenario.cfg (K := Scenario.reference) Scenario.no_faults
    (Scenario.host 1)
    (Scenario.ns_from 0 (addrconf_addr_solict_mult Scenario.tentative)
       Scenario.tentative (Scenario.sllao Scenario.peer_mac))
  = Scenario.host 1.
Proof.
  apply (ndisc_recv_ns_bad_dad_dropped Scenario.cfg (K := Scenario.reference)).
  - split; vm_compute; [discriminate | reflexivity].
  - vm_compute. reflexivity.
  - right. apply present_here.
    + vm_compute. discriminate.
    + split; vm_compute; [reflexivity | discriminate].
    + vm_compute. reflexivity.
Defined.


Lemma set_rt6_dflt_id w : set_rt6_dflt w (rt6_dflt w) = w.
Proof. destruct w; reflexivity. Qed.

Lemma ip6_del_rt_absent w addr dev :
  rt6_dflt w !! (addr, ifindex dev) = None -> ip6_del_rt w addr dev = w.
Proof.
  intros H. unfold ip6_del_rt. rewrite delete_id by exact H.
  apply set_rt6_dflt_id.
Qed.

Lemma na_update_flags_override skb :
  has_flag (na_update_flags skb) NEIGH_UPDATE_F_OVERRIDE = icmp6_override skb.
Proof.
  unfold na_update_flags.
  destruct (icmp6_override skb), (icmp6_router skb); reflexivity.
Qed.

Lemma na_update_flags_isrouter skb :
  has_flag (na_update_flags skb) NEIGH_UPDATE_F_ISROUTER = icmp6_router skb.
Proof.
  unfold na_update_flags.
  destruct (icmp6_override skb), (icmp6_router skb); reflexivity.
Qed.

Lemma na_update_flags_override_isrouter skb :
  has_flag (na_update_flags skb) NEIGH_UPDATE_F_OVERRIDE_ISROUTER = true.
Proof.
  unfold na_update_flags.
  destruct (icmp6_override skb), (icmp6_router skb); reflexivity.
Qed.

Section Advertisement.
Context (cfg : kconfig) {K : Collaborators}.

(** C6, as the code has it.  A valid neighbour advertisement whose target
    is not an address of the receiving interface, has an entry in the cache
    that is not FAILED, and that is not a proxy advertisement of our own,
    updates that entry through [neigh_update] with the new state REACHABLE
    when the solicited flag is set and STALE otherwise, and with flags that
    hold OVERRIDE exactly when the override bit is set, ISROUTER exactly when
    the router bit is set, and OVERRIDE_ISROUTER always.  When the update
    clears a ROUTER flag that was set, the default-router entry that is
    removed is the one of the source address of the packet on the receiving
    interface, which need not be the target whose entry was updated;
    otherwise the router list is left alone.  Nothing else changes: the
    interfaces and the events are the same. *)
Theorem ndisc_recv_na_updates_entry (f : faults) (w : world) (skb : sk_buff)
    (ndopts : ndisc_options) (lladdr : option Z) (neigh : neighbour) :
  sizeof_nd_msg <= skb_len skb ->
  ipv6_addr_is_multicast (nd_msg_target skb) = false ->
  ipv6_addr_is_multicast (ipv6_hdr_daddr skb) && icmp6_solicited skb = false ->
  ndisc_parse_options cfg (skb_data skb) (transport_header skb + sizeof_nd_msg)
    (to_int (to_u32 (skb_tail skb - (transport_header skb + sizeof_nd_msg))))
  = Some ndopts ->
  ndisc_opt_lladdr skb (nd_opts_tgt_lladdr ndopts) = Some lladdr ->
  ipv6_get_ifaddr w (nd_msg_target skb) (skb_dev skb) = None ->
  neigh_lookup w (nd_msg_target skb) (skb_dev skb) = Some neigh ->
  has_flag (nud_state neigh) NUD_FAILED = false ->
  ndisc_na_own_proxy w skb lladdr = false ->
  has_flag (na_update_flags skb) NEIGH_UPDATE_F_OVERRIDE = icmp6_override skb
  /\ has_flag (na_update_flags skb) NEIGH_UPDATE_F_ISROUTER = icmp6_router skb
  /\ has_flag (na_update_flags skb) NEIGH_UPDATE_F_OVERRIDE_ISROUTER = true
  /\ nd_tbl (ndisc_recv_na cfg f w skb)
     = <[(nd_msg_target skb, ifindex (skb_dev skb)) :=
           neigh_update neigh (lladdr_bytes skb lladdr)
             (if icmp6_solicited skb then NUD_REACHABLE else NUD_STALE)
             (na_update_flags skb)]> (nd_tbl w)
  /\ rt6_dflt (ndisc_recv_na cfg f w skb)
     = (if has_flag
             (Z.land (Z.land (n_flags neigh) 0xff)
                (Z.lnot
                   (n_flags
                      (neigh_update neigh (lladdr_bytes skb lladdr)
                         (if icmp6_solicited skb then NUD_REACHABLE
                          else NUD_STALE)
                         (na_update_flags skb)))))
             NTF_ROUTER
        then delete (ipv6_hdr_saddr skb, ifindex (skb_dev skb)) (rt6_dflt w)
        else rt6_dflt w)
  /\ idevs (ndisc_recv_na cfg f w skb) = idevs w
  /\ events (ndisc_recv_na cfg f w skb) = events w.
Proof.
  intros Hlen Htgt Hsol Hparse Hll Hifp Hneigh Hfailed Hproxy.
  split; [apply na_update_flags_override|].
  split; [apply na_update_flags_isrouter|].
  split; [apply na_update_flags_override_isrouter|].
  unfold ndisc_recv_na.
  destruct (Z.ltb_spec (skb_len skb) sizeof_nd_msg); [lia|].
  rewrite Htgt, Hsol, Hparse, Hll, Hifp.
  unfold ndisc_recv_na_neigh. rewrite Hneigh, Hfailed, Hproxy.
  destruct (has_flag _ NTF_ROUTER); [|repeat split; reflexivity].
  unfold rt6_get_dflt_router. cbn [neigh_store rt6_dflt set_nd_tbl].
  destruct (rt6_dflt w !! _) eqn:E; [repeat split; reflexivity|].
  rewrite (delete_id _ _ E). repeat split; reflexivity.
Qed.


End Advertisement.

(** C6 as stated fails in two ways.  An advertisement about [peer] that
    comes from [router], solicited and overriding but without the router
    bit, reaches the host that has [peer] in its cache marked as a router
    and both of them in its router list: the ROUTER flag of the entry of
    [peer] goes from set to clear, yet the default router [peer] stays and
    it is the default router [router], the source of the packet, that is
    removed.  And an advertisement whose target is an address of the host
    itself, with an entry for that address in the cache that is not FAILED,
    is dropped without any update. *)
Lemma ndisc_recv_na_updates_entry_counterexample :
  (let w := Scenario.host_with_routers in
   let skb := Scenario.na_from Scenario.router Scenario.peer 0x60 in
   let w' := ndisc_recv_na Scenario.cfg (K := Scenario.reference)
               Scenario.no_faults w skb in
   nd_msg_target skb = Scenario.peer
   /\ ipv6_hdr_saddr skb = Scenario.router
   /\ (n_flags <$> nd_tbl w !! (Scenario.peer, 2)) = Some NTF_ROUTER
   /\ (n_flags <$> nd_tbl w' !! (Scenario.peer, 2)) = Some 0
   /\ rt6_dflt w !! (Scenario.peer, 2) = Some Scenario.peer_route
   /\ rt6_dflt w' !! (Scenario.peer, 2) = Some Scenario.peer_route
   /\ rt6_dflt w !! (Scenario.router, 2) = Some Scenario.router_route
   /\ rt6_dflt w' !! (Scenario.router, 2) = None)
  /\ (let w := Scenario.host_with_own_entry in
      let skb := Scenario.na_from Scenario.peer Scenario.our_lladdr 0x60 in
      nd_msg_target skb = Scenario.our_lladdr
      /\ icmp6_solicited skb = true
      /\ nd_tbl w !! (Scenario.our_lladdr, 2) = Some Scenario.own_entry
      /\ has_flag (nud_state Scenario.own_entry) NUD_FAILED = false
      /\ ndisc_recv_na Scenario.cfg (K := Scenario.reference)
           Scenario.no_faults w skb = w).
Proof.
  cbv zeta. repeat split; vm_compute; reflexivity.
Qed.

(** An advertisement about [peer] sent by [router], solicited and overriding
    but without the router bit, reaches the host that knows both as default
    routers: the route that goes is the one of [router]. *)
Lemma ndisc_recv_na_updates_entry_witness :
  rt6_dflt
    (ndisc_recv_na Scenario.cfg (K := Scenario.reference) Scenario.no_faults
       Scenario.host_with_routers
       (Scenario.na_from Scenario.router Scenario.peer 0x60))
  = delete (Scenario.router, 2) (rt6_dflt Scenario.host_with_routers).
Proof.
  apply (ndisc_recv_na_updates_entry Scenario.cfg (K := Scenario.reference)
           Scenario.no_faults Scenario.host_with_routers
           (Scenario.na_from Scenario.router Scenario.peer 0x60)
           (set_nd_slot ndopts_zero ND_OPT_TARGET_LL_ADDR 64) (Some 66)
           (Scenario.peer_entry 0)).
  - vm_compute. discriminate.
  - vm_compute. reflexivity.
  - vm_compute. reflexivity.
  - vm_compute. reflexivity.
  - vm_compute. reflexivity.
  - vm_compute. reflexivity.
  - vm_compute. reflexivity.
  - vm_compute. reflexivity.
  - vm_compute. reflexivity.
Defined.

(** ** Router advertisements: what the pieces of the handler preserve *)

Lemma fold_left_inv {A B} (P : A -> Prop) (g : A -> B -> A) (l : list B) (a : A) :
  P a -> (forall a b, P a -> P (g a b)) -> P (fold_left g l a).
Proof.
  revert a. induction l as [|b l IH]; intros a Ha Hg; cbn; [exact Ha|].
  apply IH; [apply Hg; exact Ha | exact Hg].
Qed.

Section Frame.
Context (cfg : kconfig) {K : Collaborators}.


Variables (P : world -> Prop) (skb : sk_buff) (v : Z) (rt : option rt6_info).
Hypothesis HP : ra_stable P skb v rt.

Lemma neigh_create_inv f w pkey dev :
  P w -> P (neigh_create f w pkey dev).1.
Proof.
  intros Hw. unfold neigh_create.
  destruct (neigh_create_fails f); [exact Hw|].
  destruct (ndisc_constructor w (neigh_alloc pkey dev)) as [err n].
  destruct (err <? 0); [exact Hw|]. apply (st_nd_tbl _ _ _ _ HP). exact Hw.
Qed.

Lemma __neigh_lookup_inv f w pkey dev creat :
  P w -> P (__neigh_lookup f w pkey dev creat).1.
Proof.
  intros Hw. unfold __neigh_lookup.
  destruct (neigh_lookup w pkey dev); [exact Hw|].
  destruct creat; [apply neigh_create_inv; exact Hw | exact Hw].
Qed.

Lemma ndisc_ra_neigh_inv f w ndopts neigh :
  P w -> P (ndisc_ra_neigh f w skb ndopts neigh).1.
Proof.
  intros Hw. unfold ndisc_ra_neigh.
  destruct neigh as [n|].
  - destruct (ndisc_opt_lladdr skb (nd_opts_src_lladdr ndopts)); cbn;
      [apply (st_nd_tbl _ _ _ _ HP)|]; exact Hw.
  - pose proof (__neigh_lookup_inv f w (ipv6_hdr_saddr skb) (skb_dev skb) true Hw)
      as H1.
    destruct (__neigh_lookup f w (ipv6_hdr_saddr skb) (skb_dev skb) true)
      as [w1 [n|]]; cbn in *; [|exact H1].
    destruct (ndisc_opt_lladdr skb (nd_opts_src_lladdr ndopts)); cbn;
      [apply (st_nd_tbl _ _ _ _ HP)|]; exact H1.
Qed.

Lemma ndisc_ra_route_info_inv w ndopts d :
  P w -> P (ndisc_ra_route_info cfg w skb ndopts d).
Proof.
  intros Hw. unfold ndisc_ra_route_info.
  repeat case_match; try exact Hw.
  apply fold_left_inv; [exact Hw|].
  intros a b Ha. repeat case_match; try exact Ha.
  apply (st_emit _ _ _ _ HP); [reflexivity | exact Ha].
Qed.

Lemma ndisc_ra_prefix_info_inv w ndopts d :
  P w -> P (ndisc_ra_prefix_info w skb ndopts d).
Proof.
  intros Hw. unfold ndisc_ra_prefix_info.
  repeat case_match; try exact Hw.
  apply fold_left_inv; [exact Hw|].
  intros a b Ha. apply (st_emit _ _ _ _ HP); [reflexivity | exact Ha].
Qed.

Lemma ndisc_ra_mtu_inv w ndopts d :
  accept_ra_defrtr (cnf d) = v -> P w ->
  P (ndisc_ra_mtu w skb ndopts d rt).1
  /\ accept_ra_defrtr (cnf (ndisc_ra_mtu w skb ndopts d rt).2) = v.
Proof.
  intros Hd Hw. unfold ndisc_ra_mtu.
  repeat case_match; cbn [fst snd]; split; try exact Hd; try exact Hw.
  - apply (st_emit _ _ _ _ HP); [reflexivity|].
    eapply (st_rt_metric _ _ _ _ HP); [reflexivity|].
    apply (st_idev _ _ _ _ HP); assumption.
  - apply (st_emit _ _ _ _ HP); [reflexivity|].
    apply (st_idev _ _ _ _ HP); assumption.
Qed.

Lemma ndisc_ra_info_flag_inv w d :
  accept_ra_defrtr (cnf d) = v -> P w ->
  P (ndisc_ra_info_flag w skb d).1
  /\ accept_ra_defrtr (cnf (ndisc_ra_info_flag w skb d).2) = v.
Proof.
  intros Hd Hw. unfold ndisc_ra_info_flag. cbn [fst snd].
  assert (accept_ra_defrtr
            (cnf (let d0 := d in
                  let d1 := if has_flag (if_flags d0) IF_RA_OTHERCONF
                            then set_cnf d0 (set_ra_info_flag (cnf d0) 1) else d0 in
                  let d2 := if has_flag (if_flags d1) IF_RA_MANAGED
                            then set_cnf d1 (set_ra_info_flag (cnf d1) 2) else d1 in
                  if ra_info_flag (cnf d2) =? 0
                  then set_cnf d2 (set_ra_info_flag (cnf d2) 4) else d2)) = v)
    as Hd'.
  { cbv zeta. repeat case_match; exact Hd. }
  split; [|exact Hd'].
  apply (st_idev _ _ _ _ HP); [exact Hd' | exact Hw].
Qed.

Lemma ndisc_ra_useropt_inv f w p :
  P w -> P (ndisc_ra_useropt f w skb p).
Proof.
  intros Hw. unfold ndisc_ra_useropt.
  repeat case_match; apply (st_emit _ _ _ _ HP); try reflexivity; exact Hw.
Qed.

Lemma ndisc_ra_useropts_inv f w ndopts d :
  accept_ra_defrtr (cnf d) = v -> P w ->
  P (ndisc_ra_useropts cfg f w skb ndopts d).1
  /\ accept_ra_defrtr (cnf (ndisc_ra_useropts cfg f w skb ndopts d).2) = v.
Proof.
  intros Hd Hw. unfold ndisc_ra_useropts.
  apply (fold_left_inv
           (fun s : world * inet6_dev =>
              P s.1 /\ accept_ra_defrtr (cnf s.2) = v)).
  - split; assumption.
  - intros [w1 d1] p [H1 H2]. cbn [fst snd] in *.
    case_match; cbn [fst snd]; split; try exact H2.
    + apply (st_idev _ _ _ _ HP); [exact H2|].
      apply ndisc_ra_useropt_inv. exact H1.
    + apply ndisc_ra_useropt_inv. exact H1.
Qed.

Lemma ndisc_ra_options_inv f w ndopts d neigh :
  accept_ra_defrtr (cnf d) = v -> P w ->
  P (ndisc_ra_options cfg f w skb ndopts d rt neigh).
Proof.
  intros Hd Hw. unfold ndisc_ra_options.
  pose proof (ndisc_ra_neigh_inv f w ndopts neigh Hw) as H1.
  destruct (ndisc_ra_neigh f w skb ndopts neigh) as [w1 go]. cbn [fst] in H1.
  destruct go; cbn [negb]; [|exact H1].
  destruct (ipv6_accept_ra d); cbn [negb]; [|exact H1].
  assert (H2 : P (if CONFIG_IPV6_ROUTE_INFO cfg
                  then ndisc_ra_route_info cfg w1 skb ndopts d else w1)).
  { destruct (CONFIG_IPV6_ROUTE_INFO cfg);
      [apply ndisc_ra_route_info_inv|]; exact H1. }
  destruct (CONFIG_IPV6_NDISC_NODETYPE cfg
            && (ndisc_nodetype skb =? NDISC_NODETYPE_NODEFAULT)); [exact H2|].
  apply ndisc_ra_prefix_info_inv with (ndopts := ndopts) (d := d) in H2.
  destruct (ndisc_ra_mtu_inv _ ndopts d Hd H2) as [H3 Hd3].
  destruct (ndisc_ra_mtu _ skb ndopts d rt) as [w3 d3]. cbn [fst snd] in *.
  assert (H4 : P (if MTK_DHCPV6C_WIFI cfg then ndisc_ra_info_flag w3 skb d3
                  else (w3, d3)).1
               /\ accept_ra_defrtr
                    (cnf (if MTK_DHCPV6C_WIFI cfg
                          then ndisc_ra_info_flag w3 skb d3
                          else (w3, d3)).2) = v).
  { destruct (MTK_DHCPV6C_WIFI cfg);
      [apply ndisc_ra_info_flag_inv; assumption | split; assumption]. }
  destruct (if MTK_DHCPV6C_WIFI cfg then ndisc_ra_info_flag w3 skb d3
            else (w3, d3)) as [w4 d4].
  cbn [fst snd] in H4. destruct H4 as [H4 Hd4].
  apply ndisc_ra_useropts_inv; assumption.
Qed.

Lemma ndisc_ra_retrans_inv w d :
  accept_ra_defrtr (cnf d) = v -> P w ->
  P (ndisc_ra_retrans cfg w skb d).1
  /\ accept_ra_defrtr (cnf (ndisc_ra_retrans cfg w skb d).2) = v.
Proof.
  intros Hd Hw. unfold ndisc_ra_retrans.
  case_match; cbn [fst snd]; split; try exact Hd; try exact Hw.
  apply (st_emit _ _ _ _ HP); [reflexivity|].
  apply (st_idev _ _ _ _ HP); [exact Hd | exact Hw].
Qed.

Lemma ndisc_ra_reachable_inv w d :
  accept_ra_defrtr (cnf d) = v -> P w ->
  P (ndisc_ra_reachable cfg w skb d).1
  /\ accept_ra_defrtr (cnf (ndisc_ra_reachable cfg w skb d).2) = v.
Proof.
  intros Hd Hw. unfold ndisc_ra_reachable.
  repeat case_match; cbn [fst snd]; split; try exact Hd; try exact Hw.
  all: apply (st_emit _ _ _ _ HP); [reflexivity|];
    apply (st_idev _ _ _ _ HP); [exact Hd | exact Hw].
Qed.

Lemma ndisc_ra_timers_inv f w ndopts d neigh :
  accept_ra_defrtr (cnf d) = v -> P w ->
  P (ndisc_ra_timers cfg f w skb ndopts d rt neigh).
Proof.
  intros Hd Hw. unfold ndisc_ra_timers.
  destruct (ndisc_ra_retrans_inv w d Hd Hw) as [H1 Hd1].
  destruct (ndisc_ra_retrans cfg w skb d) as [w1 d1]. cbn [fst snd] in *.
  destruct (ndisc_ra_reachable_inv w1 d1 Hd1 H1) as [H2 Hd2].
  destruct (ndisc_ra_reachable cfg w1 skb d1) as [w2 d2]. cbn [fst snd] in *.
  apply ndisc_ra_options_inv; assumption.
Qed.

End Frame.

(** ** Router advertisements: the default-router list *)

Lemma testbit_shiftl_small p k n :
  0 <= p < 4 -> 0 <= k -> 0 <= n -> n <> k -> n <> k + 1 ->
  Z.testbit (Z.shiftl p k) n = false.
Proof.
  intros Hp Hk Hn H1 H2. rewrite Z.shiftl_spec by lia.
  destruct (Z_lt_dec (n - k) 0); [apply Z.testbit_neg_r; lia|].
  assert (Hc : p = 0 \/ p = 1 \/ p = 2 \/ p = 3) by lia.
  destruct Hc as [Hc|[Hc|[Hc|Hc]]]; subst p.
  - apply Z.bits_0.
  - apply Z.bits_above_log2; cbn; lia.
  - apply Z.bits_above_log2; cbn; lia.
  - apply Z.bits_above_log2; cbn; lia.
Qed.

(** Writing the preference into the flags of a route and marking the route
    as expiring leaves the preference readable. *)
Lemma rt6_pref_written flags pref :
  0 <= pref < 4 ->
  Z.shiftr
    (Z.land
       (Z.lor (Z.lor (Z.land flags (Z.lnot RTF_PREF_MASK)) (RTF_PREF pref))
          RTF_EXPIRES)
       RTF_PREF_MASK) 27
  = pref.
Proof.
  intros Hp.
  assert (E : Z.land
                (Z.lor (Z.lor (Z.land flags (Z.lnot RTF_PREF_MASK)) (RTF_PREF pref))
                   RTF_EXPIRES)
                RTF_PREF_MASK
              = Z.shiftl pref 27).
  { apply Z.bits_inj'. intros n Hn.
    rewrite Z.land_spec, !Z.lor_spec, Z.land_spec, Z.lnot_spec by lia.
    unfold RTF_PREF.
    change RTF_PREF_MASK with (Z.shiftl 3 27).
    change RTF_EXPIRES with (Z.shiftl 1 22).
    destruct (Z.eq_dec n 27) as [->|N27].
    { rewrite !Z.shiftl_spec by lia.
      change (27 - 27) with 0. change (27 - 22) with 5.
      change (Z.testbit 3 0) with true. change (Z.testbit 1 5) with false.
      destruct (Z.testbit flags 27), (Z.testbit pref 0); reflexivity. }
    destruct (Z.eq_dec n 28) as [->|N28].
    { rewrite !Z.shiftl_spec by lia.
      change (28 - 27) with 1. change (28 - 22) with 6.
      change (Z.testbit 3 1) with true. change (Z.testbit 1 6) with false.
      destruct (Z.testbit flags 28), (Z.testbit pref 1); reflexivity. }
    rewrite (testbit_shiftl_small 3 27 n) by lia.
    rewrite (testbit_shiftl_small pref 27 n) by lia.
    rewrite andb_false_r. reflexivity. }
  rewrite E. rewrite Z.shiftr_shiftl_l by lia. reflexivity.
Qed.

Lemma ra_router_pref_range cfg idev skb :
  0 <= ra_router_pref cfg idev skb < 4.
Proof.
  unfold ra_router_pref, icmp6_router_pref.
  destruct (CONFIG_IPV6_ROUTER_PREF cfg); [|lia].
  case_match; [unfold ICMPV6_ROUTER_PREF_MEDIUM; lia|].
  change 3 with (Z.ones 2). rewrite Z.land_ones by lia.
  apply Z.mod_pos_bound. lia.
Qed.

Lemma ipv6_chk_addr_any_spec {K : Collaborators} w a :
  ipv6_chk_addr w a None = true
  <-> exists i idev, idevs w !! i = Some idev
                     /\ existsb (ifa_usable a) (addr_list idev) = true.
Proof.
  unfold ipv6_chk_addr. rewrite existsb_exists. split.
  - intros [[i idev] [Hin Hex]]. exists i, idev. split; [|exact Hex].
    apply elem_of_map_to_list. apply list_elem_of_In. exact Hin.
  - intros (i & idev & Hl & Hex). exists (i, idev). split; [|exact Hex].
    apply list_elem_of_In. apply elem_of_map_to_list. exact Hl.
Qed.

Lemma ipv6_chk_addr_idev_store {K : Collaborators} w dev d d0 a :
  idevs w !! ifindex dev = Some d0 ->
  addr_list d = addr_list d0 ->
  ipv6_chk_addr (idev_store w dev d) a None = ipv6_chk_addr w a None.
Proof.
  intros Hd0 Hal. apply eq_true_iff_eq.
  rewrite !ipv6_chk_addr_any_spec. cbn [idev_store idevs set_idevs].
  split; intros (i & idev & Hl & Hex).
  - destruct (Z.eq_dec (ifindex dev) i) as [<-|Hne].
    + rewrite lookup_insert_eq in Hl. injection Hl as <-.
      exists (ifindex dev), d0. rewrite <- Hal. auto.
    + rewrite lookup_insert_ne in Hl by exact Hne. eauto.
  - destruct (Z.eq_dec (ifindex dev) i) as [<-|Hne].
    + exists (ifindex dev), d. rewrite lookup_insert_eq.
      rewrite Hd0 in Hl. injection Hl as <-. rewrite Hal. auto.
    + exists i, idev. rewrite lookup_insert_ne by exact Hne. auto.
Qed.

Lemma ndisc_ra_if_flags_addr_list skb d :
  addr_list (ndisc_ra_if_flags skb d) = addr_list d.
Proof. unfold ndisc_ra_if_flags. repeat case_match; reflexivity. Qed.

Lemma ndisc_ra_if_flags_defrtr skb d :
  accept_ra_defrtr (cnf (ndisc_ra_if_flags skb d))
  = if strncmp (name (skb_dev skb)) "ccmni" 2 =? 0 then 0
    else accept_ra_defrtr (cnf d).
Proof. unfold ndisc_ra_if_flags. repeat case_match; reflexivity. Qed.

Section DefaultRouter.
Context (cfg : kconfig) {K : Collaborators}.

Lemma ndisc_constructor_ok w n idev :
  idevs w !! ifindex (n_dev n) = Some idev -> (ndisc_constructor w n).1 = 0.
Proof.
  intros H. unfold ndisc_constructor. rewrite H.
  repeat case_match; reflexivity.
Qed.

(** With an interface and memory at hand, the lookup of a route's neighbour
    yields an entry, and touches the neighbour cache only. *)
Lemma dst_neigh_lookup_ok f w dev a idev :
  neigh_create_fails f = false ->
  idevs w !! ifindex dev = Some idev ->
  exists m n, dst_neigh_lookup f w dev a = (set_nd_tbl w m, Some n).
Proof.
  intros Hf Hi. unfold dst_neigh_lookup, __neigh_lookup.
  destruct (neigh_lookup w a dev) as [n|].
  - exists (nd_tbl w), n. destruct w; reflexivity.
  - unfold neigh_create. rewrite Hf.
    pose proof (ndisc_constructor_ok w (neigh_alloc a dev) idev Hi) as Hc.
    destruct (ndisc_constructor w (neigh_alloc a dev)) as [err n].
    cbn in Hc. subst err. cbn. eauto.
Qed.

End DefaultRouter.

Lemma rt6_pref_added pref :
  0 <= pref < 4 ->
  Z.shiftr
    (Z.land
       (Z.lor
          (Z.lor RTF_GATEWAY (Z.lor RTF_ADDRCONF (Z.lor RTF_DEFAULT
             (Z.lor RTF_UP (Z.lor RTF_EXPIRES (RTF_PREF pref))))))
          RTF_EXPIRES)
       RTF_PREF_MASK) 27
  = pref.
Proof.
  intros Hp.
  assert (Hc : pref = 0 \/ pref = 1 \/ pref = 2 \/ pref = 3) by lia.
  destruct Hc as [Hc|[Hc|[Hc|Hc]]]; subst pref; reflexivity.
Qed.

Section DefaultRouterStep.
Context (cfg : kconfig) {K : Collaborators}.

(** What default-router processing does to the router list when neither the
    routing table nor the neighbour cache runs out of memory. *)
Lemma ndisc_ra_defrtr_spec f w skb d idev :
  neigh_create_fails f = false ->
  rt6_add_fails f = false ->
  idevs w !! ifindex (skb_dev skb) = Some idev ->
  exists w' d' rt' neigh',
    ndisc_ra_defrtr cfg f w skb d = inr (w', d', rt', neigh')
    /\ accept_ra_defrtr (cnf d') = accept_ra_defrtr (cnf d)
    /\ (forall k, k <> (ipv6_hdr_saddr skb, ifindex (skb_dev skb)) ->
        rt6_dflt w' !! k = rt6_dflt w !! k)
    /\ rt6_dflt w' !! (ipv6_hdr_saddr skb, ifindex (skb_dev skb)) = rt'
    /\ (icmp6_rt_lifetime skb = 0 -> rt' = None)
    /\ (icmp6_rt_lifetime skb <> 0 ->
        exists r', rt' = Some r'
          /\ rt6_pref r' = ra_router_pref cfg d skb
          /\ rt6i_expires r'
             = to_ulong cfg (jiffies w + HZ cfg * icmp6_rt_lifetime skb)).
Proof.
  intros Hc Hr Hi.
  pose proof (ra_router_pref_range cfg d skb) as Hpref.
  unfold ndisc_ra_defrtr, rt6_get_dflt_router.
  set (key := (ipv6_hdr_saddr skb, ifindex (skb_dev skb))).
  destruct (rt6_dflt w !! key) as [r|] eqn:Ert.
  - destruct (dst_neigh_lookup_ok f w (skb_dev skb) (ipv6_hdr_saddr skb) idev Hc Hi)
      as (m & n & ->).
    cbn [bool_decide andb negb].
    replace (bool_decide (is_Some (Some r))) with true
      by (symmetry; apply bool_decide_eq_true; eauto).
    replace (bool_decide (is_Some (Some n))) with true
      by (symmetry; apply bool_decide_eq_true; eauto).
    cbn [andb negb].
    destruct (Z.eqb_spec (icmp6_rt_lifetime skb) 0) as [E0|E0].
    + rewrite E0. cbn [nonzero Z.eqb negb].
      destruct (nonzero (icmp6_hop_limit skb));
        (do 4 eexists; split; [reflexivity|]);
        cbn [rt6_dflt ip6_del_rt idev_store set_idevs set_rt6_dflt set_nd_tbl
             cnf set_cnf set_hop_limit accept_ra_defrtr];
        fold key;
        (repeat split;
         [ intros k Hk; apply lookup_delete_ne; congruence
         | apply lookup_delete_eq
         | congruence ]).
    + destruct (nonzero (icmp6_hop_limit skb));
        (do 4 eexists; split; [reflexivity|]);
        cbn [rt6_dflt rt6_store idev_store set_idevs set_rt6_dflt set_nd_tbl
             cnf set_cnf set_hop_limit accept_ra_defrtr jiffies];
        fold key;
        (repeat split;
         [ intros k Hk; rewrite ?lookup_insert_ne by congruence; reflexivity
         | apply lookup_insert_eq
         | congruence
         | intros _; eexists; split; [reflexivity|]; split;
           [ unfold rt6_pref; cbn [rt6i_flags set_rt_hoplimit rt6_set_expires
                                   set_rt_flags];
             apply rt6_pref_written; exact Hpref
           | reflexivity ] ]).
  - cbn [bool_decide andb negb].
    replace (bool_decide (is_Some (@None rt6_info))) with false
      by (symmetry; apply bool_decide_eq_false; intros [? ?]; discriminate).
    cbn [andb].
    destruct (Z.eqb_spec (icmp6_rt_lifetime skb) 0) as [E0|E0].
    + rewrite E0. cbn [nonzero Z.eqb negb].
      destruct (nonzero (icmp6_hop_limit skb));
        (do 4 eexists; split; [reflexivity|]);
        cbn [rt6_dflt idev_store set_idevs set_rt6_dflt set_nd_tbl
             cnf set_cnf set_hop_limit accept_ra_defrtr];
        fold key;
        (repeat split; [ exact Ert | congruence ]).
    + unfold nonzero at 1.
      destruct (Z.eqb_spec (icmp6_rt_lifetime skb) 0) as [|_]; [contradiction|].
      cbn [negb]. unfold rt6_add_dflt_router. rewrite Hr.
      match goal with
      | |- context [dst_neigh_lookup f ?w1 _ _] =>
          destruct (dst_neigh_lookup_ok f w1 (skb_dev skb) (ipv6_hdr_saddr skb)
                      idev Hc Hi) as (m & n & ->)
      end.
      destruct (nonzero (icmp6_hop_limit skb));
        (do 4 eexists; split; [reflexivity|]);
        cbn [rt6_dflt rt6_store idev_store set_idevs set_rt6_dflt set_nd_tbl
             neigh_store cnf set_cnf set_hop_limit accept_ra_defrtr jiffies];
        fold key;
        (repeat split;
         [ intros k Hk; rewrite ?lookup_insert_ne by congruence; reflexivity
         | apply lookup_insert_eq
         | congruence
         | intros _; eexists; split; [reflexivity|]; split;
           [ unfold rt6_pref; cbn [rt6i_flags set_rt_hoplimit rt6_set_expires];
             apply rt6_pref_added; exact Hpref
           | reflexivity ] ]).
Qed.

End DefaultRouterStep.

Lemma set_nd_tbl_id w : set_nd_tbl w (nd_tbl w) = w.
Proof. destruct w; reflexivity. Qed.

Section WholeHandler.
Context (cfg : kconfig) {K : Collaborators}.


Lemma ra_stable_of_all P skb v v' rt :
  ra_stable_all P skb v -> v' = v \/ v' = 0 -> ra_stable P skb v' rt.
Proof.
  intros H Hv. split.
  - apply (sa_emit _ _ _ H).
  - apply (sa_nd_tbl _ _ _ H).
  - intros w d Hd. apply (sa_idev _ _ _ H). rewrite Hd. exact Hv.
  - intros w r mtu _. apply (sa_rt6 _ _ _ H).
Qed.

Variables (P : world -> Prop) (skb : sk_buff) (v : Z).
Hypothesis HP : ra_stable_all P skb v.

Lemma dst_neigh_lookup_inv f w dev a :
  P w -> P (dst_neigh_lookup f w dev a).1.
Proof.
  intros Hw. unfold dst_neigh_lookup.
  apply (__neigh_lookup_inv P skb v None
           (ra_stable_of_all P skb v v None HP (or_introl eq_refl))).
  exact Hw.
Qed.

Lemma ndisc_ra_defrtr_inv f w d v' :
  v' = v \/ v' = 0 -> accept_ra_defrtr (cnf d) = v' -> P w ->
  match ndisc_ra_defrtr cfg f w skb d with
  | inl w' => P w'
  | inr (w', d', _, _) => P w' /\ accept_ra_defrtr (cnf d') = v'
  end.
Proof.
  intros Hv Hd Hw. unfold ndisc_ra_defrtr.
  assert (Hn : forall w0, P w0 ->
            P (dst_neigh_lookup f w0 (skb_dev skb) (ipv6_hdr_saddr skb)).1)
    by (intros; apply dst_neigh_lookup_inv; assumption).
  assert (H1 : P (match rt6_get_dflt_router w (ipv6_hdr_saddr skb) (skb_dev skb) with
                  | Some _ => dst_neigh_lookup f w (skb_dev skb) (ipv6_hdr_saddr skb)
                  | None => (w, None)
                  end).1).
  { destruct (rt6_get_dflt_router w _ _); [apply Hn|]; exact Hw. }
  destruct (match rt6_get_dflt_router w (ipv6_hdr_saddr skb) (skb_dev skb) with
            | Some _ => dst_neigh_lookup f w (skb_dev skb) (ipv6_hdr_saddr skb)
            | None => (w, None)
            end) as [w1 neigh1].
  cbn [fst] in H1.
  destruct (bool_decide (is_Some (rt6_get_dflt_router w _ _))
            && negb (bool_decide (is_Some neigh1))); [exact H1|].
  assert (Hidev : forall w0 d0, accept_ra_defrtr (cnf d0) = v' -> P w0 ->
            P (idev_store w0 (skb_dev skb) d0)).
  { intros w0 d0 E. apply (sa_idev _ _ _ HP). rewrite E. exact Hv. }
  destruct (rt6_get_dflt_router w _ _) as [r|].
  - destruct (icmp6_rt_lifetime skb =? 0).
    + cbn [nonzero]. 
      destruct (nonzero (icmp6_rt_lifetime skb)).
      * unfold rt6_add_dflt_router.
        destruct (rt6_add_fails f); [apply (sa_rt6 _ _ _ HP); exact H1|].
        match goal with
        | |- context [dst_neigh_lookup f ?w2 _ _] =>
            pose proof (Hn w2 (sa_rt6 _ _ _ HP _ _ (sa_rt6 _ _ _ HP _ _ H1))) as H2;
            destruct (dst_neigh_lookup f w2 (skb_dev skb) (ipv6_hdr_saddr skb))
              as [w3 [n3|]]
        end; cbn [fst] in H2; [|exact H2].
        destruct (nonzero (icmp6_hop_limit skb)); (split; [|exact Hd]);
          repeat first [ apply (sa_rt6 _ _ _ HP) | apply (sa_nd_tbl _ _ _ HP)
                       | apply Hidev; [exact Hd|] | exact H2 ].
      * destruct (nonzero (icmp6_hop_limit skb)); (split; [|exact Hd]);
          repeat first [ apply (sa_rt6 _ _ _ HP) | apply (sa_nd_tbl _ _ _ HP)
                       | apply Hidev; [exact Hd|] | exact H1 ].
    + destruct (nonzero (icmp6_hop_limit skb)); (split; [|exact Hd]);
        repeat first [ apply (sa_rt6 _ _ _ HP) | apply (sa_nd_tbl _ _ _ HP)
                     | apply Hidev; [exact Hd|] | exact H1 ].
  - destruct (nonzero (icmp6_rt_lifetime skb)).
    + unfold rt6_add_dflt_router.
      destruct (rt6_add_fails f); [exact H1|].
      match goal with
      | |- context [dst_neigh_lookup f ?w2 _ _] =>
          pose proof (Hn w2 (sa_rt6 _ _ _ HP _ _ H1)) as H2;
          destruct (dst_neigh_lookup f w2 (skb_dev skb) (ipv6_hdr_saddr skb))
            as [w3 [n3|]]
      end; cbn [fst] in H2; [|exact H2].
      destruct (nonzero (icmp6_hop_limit skb)); (split; [|exact Hd]);
        repeat first [ apply (sa_rt6 _ _ _ HP) | apply (sa_nd_tbl _ _ _ HP)
                     | apply Hidev; [exact Hd|] | exact H2 ].
    + destruct (nonzero (icmp6_hop_limit skb)); (split; [|exact Hd]);
        repeat first [ apply (sa_rt6 _ _ _ HP) | apply (sa_nd_tbl _ _ _ HP)
                     | apply Hidev; [exact Hd|] | exact H1 ].
Qed.

Lemma ndisc_ra_linkparms_inv f w ndopts d :
  accept_ra_defrtr (cnf d) = v -> P w ->
  P (ndisc_ra_linkparms cfg f w skb ndopts d).
Proof.
  intros Hd Hw. unfold ndisc_ra_linkparms.
  assert (Hv : accept_ra_defrtr (cnf (ndisc_ra_if_flags skb d)) = v
               \/ accept_ra_defrtr (cnf (ndisc_ra_if_flags skb d)) = 0).
  { rewrite ndisc_ra_if_flags_defrtr. destruct (_ =? 0); auto. }
  set (d1 := ndisc_ra_if_flags skb d) in *.
  assert (H1 : P (idev_store w (skb_dev skb) d1))
    by (apply (sa_idev _ _ _ HP); assumption).
  assert (Hst : forall rt, ra_stable P skb (accept_ra_defrtr (cnf d1)) rt).
  { intros rt. apply (ra_stable_of_all P skb v); [exact HP|].
    destruct Hv as [-> | ->]; auto. }
  destruct (negb (nonzero (accept_ra_defrtr (cnf d1)))).
  { apply (ndisc_ra_timers_inv cfg P skb _ None (Hst None)); auto. }
  destruct (ipv6_chk_addr _ _ None).
  { apply (ndisc_ra_timers_inv cfg P skb _ None (Hst None)); auto. }
  pose proof (ndisc_ra_defrtr_inv f (idev_store w (skb_dev skb) d1) d1
                (accept_ra_defrtr (cnf d1))) as H2.
  destruct (ndisc_ra_defrtr cfg f (idev_store w (skb_dev skb) d1) skb d1)
    as [w2|[[[w2 d2] rt2] neigh2]].
  - apply H2; [exact Hv | reflexivity | exact H1].
  - destruct H2 as [H2 Hd2]; [exact Hv | reflexivity | exact H1 |].
    apply (ndisc_ra_timers_inv cfg P skb _ rt2 (Hst rt2)); auto.
Qed.

End WholeHandler.

Section WholeHandler2.
Context (cfg : kconfig) {K : Collaborators}.

Lemma ndisc_router_discovery_inv (P : world -> Prop) f w skb :
  (forall idev, idevs w !! ifindex (skb_dev skb) = Some idev ->
                ra_stable_all P skb (accept_ra_defrtr (cnf idev))) ->
  P w -> P (ndisc_router_discovery cfg f w skb).
Proof.
  intros HP Hw. unfold ndisc_router_discovery.
  repeat case_match; try exact Hw.
  - apply (ndisc_ra_options_inv cfg P skb (accept_ra_defrtr (cnf i)) None); auto.
    apply (ra_stable_of_all P skb (accept_ra_defrtr (cnf i))); auto.
  - apply (ndisc_ra_options_inv cfg P skb (accept_ra_defrtr (cnf i)) None); auto.
    apply (ra_stable_of_all P skb (accept_ra_defrtr (cnf i))); auto.
  - apply (ndisc_ra_linkparms_inv cfg P skb (accept_ra_defrtr (cnf i))); auto.
Qed.

End WholeHandler2.

Lemma ascii_diff_zero (c1 c2 : Ascii.ascii) :
  Z.of_nat (Ascii.nat_of_ascii c1) - Z.of_nat (Ascii.nat_of_ascii c2) = 0 ->
  c1 = c2.
Proof.
  intros H.
  rewrite <- (Ascii.ascii_nat_embedding c1), <- (Ascii.ascii_nat_embedding c2).
  f_equal. lia.
Qed.

(** The vendor check looks at two characters only. *)
Lemma strncmp_ccmni_2 (s : string) :
  strncmp s "ccmni" 2 = 0 <-> exists rest, s = String.append "cc" rest.
Proof.
  split.
  - destruct s as [|c1 [|c2 rest]]; cbn [strncmp].
    + discriminate.
    + destruct (Ascii.eqb c1 _) eqn:E1; [discriminate|].
      intros H. apply ascii_diff_zero in H. apply Ascii.eqb_neq in E1.
      contradiction.
    + destruct (Ascii.eqb c1 _) eqn:E1.
      * destruct (Ascii.eqb c2 _) eqn:E2.
        -- apply Ascii.eqb_eq in E1, E2. subst. exists rest. unfold String.append. reflexivity.
        -- intros H. apply ascii_diff_zero in H. apply Ascii.eqb_neq in E2.
           contradiction.
      * intros H. apply ascii_diff_zero in H. apply Ascii.eqb_neq in E1.
        contradiction.
  - intros [rest ->]. unfold String.append. destruct rest; reflexivity.
Qed.

Section RouterAdvertisement.
Context (cfg : kconfig) {K : Collaborators}.

Lemma nd_tbl_frame_refl (w : world) (key : Z * Z) :
  exists m, w = set_nd_tbl w m
            /\ forall k, k <> key -> m !! k = nd_tbl w !! k.
Proof.
  exists (nd_tbl w). split; [symmetry; apply set_nd_tbl_id | reflexivity].
Qed.

Lemma nd_tbl_frame_store (w : world) pkey dev n m :
  (forall k, k <> (pkey, ifindex dev) -> m !! k = nd_tbl w !! k) ->
  exists m',
    neigh_store (set_nd_tbl w m) pkey dev n = set_nd_tbl w m'
    /\ forall k, k <> (pkey, ifindex dev) -> m' !! k = nd_tbl w !! k.
Proof.
  intros Hm. eexists. split; [reflexivity|].
  intros k Hk. cbn [nd_tbl set_nd_tbl].
  rewrite lookup_insert_ne by congruence. apply Hm, Hk.
Qed.

Lemma neigh_lookup_create_nd_tbl f w pkey dev creat :
  exists m,
    (__neigh_lookup f w pkey dev creat).1 = set_nd_tbl w m
    /\ forall k, k <> (pkey, ifindex dev) -> m !! k = nd_tbl w !! k.
Proof.
  unfold __neigh_lookup, neigh_create.
  destruct (neigh_lookup w pkey dev); [apply nd_tbl_frame_refl|].
  destruct creat; [|apply nd_tbl_frame_refl].
  destruct (neigh_create_fails f); [apply nd_tbl_frame_refl|].
  destruct (ndisc_constructor w (neigh_alloc pkey dev)) as [err n].
  destruct (err <? 0); [apply nd_tbl_frame_refl|].
  cbn [fst]. eexists. split; [reflexivity|].
  intros k Hk. apply lookup_insert_ne. congruence.
Qed.

Lemma ndisc_ra_neigh_nd_tbl f w skb ndopts :
  exists m,
    (ndisc_ra_neigh f w skb ndopts None).1 = set_nd_tbl w m
    /\ forall k, k <> (ipv6_hdr_saddr skb, ifindex (skb_dev skb)) ->
                 m !! k = nd_tbl w !! k.
Proof.
  unfold ndisc_ra_neigh.
  destruct (neigh_lookup_create_nd_tbl f w (ipv6_hdr_saddr skb) (skb_dev skb)
              true) as (m & Em & Hm).
  destruct (__neigh_lookup f w (ipv6_hdr_saddr skb) (skb_dev skb) true)
    as [w1 neigh].
  cbn [fst] in Em. subst w1.
  destruct neigh as [n|]; [|exists m; split; [reflexivity | exact Hm]].
  destruct (ndisc_opt_lladdr skb (nd_opts_src_lladdr ndopts));
    [|exists m; split; [reflexivity | exact Hm]].
  cbn [fst]. apply nd_tbl_frame_store, Hm.
Qed.

(** C4, as the code has it.  A router advertisement whose source address is
    not link-local changes nothing.  One received on an interface that is
    not configured to accept RAs changes no router, no interface parameter
    and hands nothing to any collaborator: what it may change is the entry of
    its source on the receiving interface in the neighbour cache. *)
Theorem ndisc_router_discovery_gates (f : faults) (w : world) (skb : sk_buff) :
  (has_flag (ipv6_addr_type (ipv6_hdr_saddr skb)) IPV6_ADDR_LINKLOCAL = false ->
   ndisc_router_discovery cfg f w skb = w)
  /\ ((forall idev, idevs w !! ifindex (skb_dev skb) = Some idev ->
                    ipv6_accept_ra idev = false) ->
      exists m,
        ndisc_router_discovery cfg f w skb = set_nd_tbl w m
        /\ forall k, k <> (ipv6_hdr_saddr skb, ifindex (skb_dev skb)) ->
                     m !! k = nd_tbl w !! k).
Proof.
  split.
  - intros H. unfold ndisc_router_discovery. rewrite H. reflexivity.
  - intros Hra. unfold ndisc_router_discovery.
    assert (Hid : exists m, w = set_nd_tbl w m
                    /\ forall k, k <> (ipv6_hdr_saddr skb, ifindex (skb_dev skb)) ->
                                 m !! k = nd_tbl w !! k).
    { exists (nd_tbl w). split; [symmetry; apply set_nd_tbl_id | reflexivity]. }
    destruct (negb (has_flag _ IPV6_ADDR_LINKLOCAL)); [exact Hid|].
    destruct (_ <? 0); [exact Hid|].
    destruct (CONFIG_IPV6_NDISC_NODETYPE cfg && _); [exact Hid|].
    destruct (idevs w !! ifindex (skb_dev skb)) as [in6_dev|] eqn:Ei; [|exact Hid].
    destruct (ndisc_parse_options _ _ _ _) as [ndopts|]; [|exact Hid].
    rewrite (Hra in6_dev eq_refl). cbn [negb].
    unfold ndisc_ra_options.
    destruct (ndisc_ra_neigh_nd_tbl f w skb ndopts) as (m & Em & Hm).
    destruct (ndisc_ra_neigh f w skb ndopts None) as [w1 go].
    cbn [fst] in Em. subst w1.
    rewrite (Hra in6_dev eq_refl). cbn [negb].
    exists m. split; [|exact Hm]. destruct go; reflexivity.
Qed.

Lemma ndisc_ra_if_flags_rtr_pref skb d :
  accept_ra_rtr_pref (cnf (ndisc_ra_if_flags skb d))
  = accept_ra_rtr_pref (cnf d).
Proof.
  unfold ndisc_ra_if_flags.
  destruct (strncmp _ _ _ =? 0), (has_flag (if_flags d) IF_RS_SENT);
    destruct d as [[]]; reflexivity.
Qed.

Lemma ra_router_pref_if_flags skb d :
  ra_router_pref cfg (ndisc_ra_if_flags skb d) skb = ra_router_pref cfg d skb.
Proof.
  unfold ra_router_pref. rewrite ndisc_ra_if_flags_rtr_pref. reflexivity.
Qed.

(** C5, as the code has it.  For a router advertisement that is accepted
    (link-local source that is not an address of ours, long enough for the
    fixed header, options that parse, the receiving interface configured
    for IPv6 with RA processing and default-router processing enabled, and,
    in a kernel built with [CONFIG_IPV6_NDISC_NODETYPE], a packet not
    classified as from a host or as no-default), received on an interface
    whose name does not begin with "cc", and with memory for a route and a
    cache entry: the other entries of the router list are left alone; with a
    lifetime of zero the entry of the source on the receiving interface is
    absent afterwards; with a positive lifetime it is present afterwards,
    added or refreshed, its preference is the preference of the
    advertisement and it expires at the current time plus the lifetime in
    seconds.  The preference of the advertisement is the two-bit field of
    the message in a kernel built with [CONFIG_IPV6_ROUTER_PREF], when the
    field does not hold the reserved value and [accept_ra_rtr_pref] is on,
    and MEDIUM in every other case, a kernel built without router
    preferences included.  The list is the one this handler keeps through
    [rt6_add_dflt_router] and [ip6_del_rt]; what [rt6_route_rcv] does with a
    route information option is not part of it. *)
Theorem ndisc_router_discovery_default_router (f : faults) (w : world)
    (skb : sk_buff) (in6_dev : inet6_dev) (ndopts : ndisc_options) :
  has_flag (ipv6_addr_type (ipv6_hdr_saddr skb)) IPV6_ADDR_LINKLOCAL = true ->
  0 <= to_int (skb_len skb - sizeof_ra_msg) ->
  CONFIG_IPV6_NDISC_NODETYPE cfg
  && ((ndisc_nodetype skb =? NDISC_NODETYPE_HOST)
      || (ndisc_nodetype skb =? NDISC_NODETYPE_NODEFAULT)) = false ->
  idevs w !! ifindex (skb_dev skb) = Some in6_dev ->
  ndisc_parse_options cfg (skb_data skb) (transport_header skb + sizeof_ra_msg)
    (to_int (skb_len skb - sizeof_ra_msg)) = Some ndopts ->
  ipv6_accept_ra in6_dev = true ->
  accept_ra_defrtr (cnf in6_dev) <> 0 ->
  ipv6_chk_addr w (ipv6_hdr_saddr skb) None = false ->
  strncmp (name (skb_dev skb)) "ccmni" 2 <> 0 ->
  neigh_create_fails f = false ->
  rt6_add_fails f = false ->
  (forall k, k <> (ipv6_hdr_saddr skb, ifindex (skb_dev skb)) ->
     rt6_dflt (ndisc_router_discovery cfg f w skb) !! k = rt6_dflt w !! k)
  /\ (icmp6_rt_lifetime skb = 0 ->
      rt6_dflt (ndisc_router_discovery cfg f w skb)
        !! (ipv6_hdr_saddr skb, ifindex (skb_dev skb)) = None)
  /\ (icmp6_rt_lifetime skb <> 0 ->
      exists rt,
        rt6_dflt (ndisc_router_discovery cfg f w skb)
          !! (ipv6_hdr_saddr skb, ifindex (skb_dev skb)) = Some rt
        /\ rt6_pref rt = ra_router_pref cfg in6_dev skb
        /\ rt6i_expires rt
           = to_ulong cfg (jiffies w + HZ cfg * icmp6_rt_lifetime skb))
  /\ ra_router_pref cfg in6_dev skb
     = if CONFIG_IPV6_ROUTER_PREF cfg
          && negb ((icmp6_router_pref skb =? ICMPV6_ROUTER_PREF_INVALID)
                   || (accept_ra_rtr_pref (cnf in6_dev) =? 0))
       then icmp6_router_pref skb
       else ICMPV6_ROUTER_PREF_MEDIUM.
Proof.
  intros Hll Hlen Hnt Hi Hparse Hra Hdef Hchk Hcc Hnc Hrf.
  set (key := (ipv6_hdr_saddr skb, ifindex (skb_dev skb))).
  assert (Hpref : ra_router_pref cfg in6_dev skb
            = if CONFIG_IPV6_ROUTER_PREF cfg
                 && negb ((icmp6_router_pref skb =? ICMPV6_ROUTER_PREF_INVALID)
                          || (accept_ra_rtr_pref (cnf in6_dev) =? 0))
              then icmp6_router_pref skb
              else ICMPV6_ROUTER_PREF_MEDIUM).
  { unfold ra_router_pref, nonzero. rewrite negb_involutive.
    destruct (CONFIG_IPV6_ROUTER_PREF cfg); [|reflexivity].
    destruct ((icmp6_router_pref skb =? ICMPV6_ROUTER_PREF_INVALID)
              || (accept_ra_rtr_pref (cnf in6_dev) =? 0)); reflexivity. }
  cut ((forall k, k <> key ->
          rt6_dflt (ndisc_router_discovery cfg f w skb) !! k = rt6_dflt w !! k)
       /\ match icmp6_rt_lifetime skb =? 0 with
          | true => rt6_dflt (ndisc_router_discovery cfg f w skb) !! key = None
          | false =>
              exists rt,
                rt6_dflt (ndisc_router_discovery cfg f w skb) !! key = Some rt
                /\ rt6_pref rt = ra_router_pref cfg in6_dev skb
                /\ rt6i_expires rt
                   = to_ulong cfg (jiffies w + HZ cfg * icmp6_rt_lifetime skb)
          end).
  { intros [H1 H2]. split; [exact H1|].
    destruct (Z.eqb_spec (icmp6_rt_lifetime skb) 0) as [E|E];
      (split; [|split; [|exact Hpref]]); intros E'; try contradiction;
      assumption. }
  unfold ndisc_router_discovery. rewrite Hll. cbn [negb].
  destruct (Z.ltb_spec (to_int (skb_len skb - sizeof_ra_msg)) 0); [lia|].
  apply andb_false_iff in Hnt.
  assert (Hnt1 : CONFIG_IPV6_NDISC_NODETYPE cfg
                 && (ndisc_nodetype skb =? NDISC_NODETYPE_HOST) = false).
  { destruct Hnt as [->|Hnt]; [reflexivity|].
    apply orb_false_iff in Hnt. destruct Hnt as [-> _]. apply andb_false_r. }
  assert (Hnt2 : CONFIG_IPV6_NDISC_NODETYPE cfg
                 && (ndisc_nodetype skb =? NDISC_NODETYPE_NODEFAULT) = false).
  { destruct Hnt as [->|Hnt]; [reflexivity|].
    apply orb_false_iff in Hnt. destruct Hnt as [_ ->]. apply andb_false_r. }
  rewrite Hnt1, Hi, Hparse, Hra, Hnt2. cbn [negb].
  unfold ndisc_ra_linkparms.
  set (d := ndisc_ra_if_flags skb in6_dev).
  assert (Hd : accept_ra_defrtr (cnf d) = accept_ra_defrtr (cnf in6_dev)).
  { subst d. rewrite ndisc_ra_if_flags_defrtr.
    destruct (Z.eqb_spec (strncmp (name (skb_dev skb)) "ccmni" 2) 0);
      [contradiction | reflexivity]. }
  assert (Hnz : nonzero (accept_ra_defrtr (cnf in6_dev)) = true).
  { unfold nonzero. apply negb_true_iff, Z.eqb_neq, Hdef. }
  rewrite Hd, Hnz. cbn [negb].
  rewrite (ipv6_chk_addr_idev_store w (skb_dev skb) d in6_dev _ Hi)
    by apply ndisc_ra_if_flags_addr_list.
  rewrite Hchk.
  destruct (ndisc_ra_defrtr_spec cfg f (idev_store w (skb_dev skb) d) skb d d
              Hnc Hrf)
    as (w1 & d1 & rt1 & neigh1 & E & Hd1 & Hoff & Hkey & Hzero & Hpos).
  { cbn [idev_store idevs set_idevs]. apply lookup_insert_eq. }
  rewrite E. fold key in Hoff, Hkey.
  cbn [idev_store rt6_dflt set_idevs] in Hoff.
  set (Q := fun w' : world =>
              (forall k, k <> key -> rt6_dflt w' !! k = rt6_dflt w !! k)
              /\ match rt1 with
                 | None => rt6_dflt w' !! key = None
                 | Some r =>
                     exists r', rt6_dflt w' !! key = Some r'
                                /\ rt6i_flags r' = rt6i_flags r
                                /\ rt6i_expires r' = rt6i_expires r
                 end).
  assert (HQ : Q (ndisc_ra_timers cfg f w1 skb ndopts d1 rt1 neigh1)).
  { apply (ndisc_ra_timers_inv cfg Q skb (accept_ra_defrtr (cnf d1)) rt1);
      [|reflexivity|].
    - subst Q. split.
      + intros w0 e _ H0. exact H0.
      + intros w0 m H0. exact H0.
      + intros w0 d0 _ H0. exact H0.
      + intros w0 r mtu Er H0. cbn beta in H0 |- *.
        destruct H0 as [H0 H0']. rewrite Er in H0' |- *. split.
        * intros k Hk. cbn [rt6_store rt6_dflt set_rt6_dflt]. fold key.
          rewrite lookup_insert_ne by congruence. apply H0. exact Hk.
        * cbn [rt6_store rt6_dflt set_rt6_dflt]. fold key.
          rewrite lookup_insert_eq. eexists. split; [reflexivity|].
          split; reflexivity.
    - subst Q. cbn beta. split; [exact Hoff|].
      destruct rt1 as [r|]; [|exact Hkey].
      exists r. split; [exact Hkey|]. split; reflexivity. }
  subst Q. cbn beta in HQ. destruct HQ as [HQ1 HQ2]. split; [exact HQ1|].
  destruct (Z.eqb_spec (icmp6_rt_lifetime skb) 0) as [E0|E0].
  - rewrite (Hzero E0) in HQ2 |- *. exact HQ2.
  - destruct (Hpos E0) as (r' & Er' & Hp & He). rewrite Er' in HQ2 |- *.
    destruct HQ2 as (r'' & Hl & Hf & Hx). exists r''.
    split; [exact Hl|]. split.
    + unfold rt6_pref in *. rewrite Hf, Hp.
      apply ra_router_pref_if_flags.
    + rewrite Hx, He. reflexivity.
Qed.

End RouterAdvertisement.

Section CellularInterfaces.
Context (cfg : kconfig) {K : Collaborators}.

Lemma defrtr_off_idev_store i w dev d :
  (ifindex dev = i -> accept_ra_defrtr (cnf d) = 0) ->
  defrtr_off i w -> defrtr_off i (idev_store w dev d).
Proof.
  intros Hd (d0 & E & H0). unfold defrtr_off.
  cbn [idev_store idevs set_idevs].
  destruct (Z.eq_dec (ifindex dev) i) as [Ei|Ei].
  - exists d. rewrite Ei, lookup_insert_eq. split; [reflexivity | exact (Hd Ei)].
  - exists d0. rewrite lookup_insert_ne by exact Ei. split; assumption.
Qed.

Lemma defrtr_off_stable_all i skb v :
  (ifindex (skb_dev skb) = i -> v = 0) ->
  ra_stable_all (defrtr_off i) skb v.
Proof.
  intros Hv. split.
  - intros w e _ H. exact H.
  - intros w m H. exact H.
  - intros w d Hd H. apply defrtr_off_idev_store; [|exact H].
    intros Ei. destruct Hd as [Hd|Hd]; [rewrite Hd; exact (Hv Ei) | exact Hd].
  - intros w m H. exact H.
Qed.

(** Once switched off, default-router processing stays off across router
    advertisements, whatever the interface they come in on. *)
Lemma ndisc_router_discovery_defrtr_off i f w skb :
  defrtr_off i w -> defrtr_off i (ndisc_router_discovery cfg f w skb).
Proof.
  intros H. apply ndisc_router_discovery_inv; [|exact H].
  intros idev Ei. apply defrtr_off_stable_all. intros E.
  destruct H as (d & Ed & H0). rewrite E in Ei. congruence.
Qed.

Lemma ndisc_ra_if_flags_cc skb d rest :
  name (skb_dev skb) = String.append "cc" rest ->
  accept_ra_defrtr (cnf (ndisc_ra_if_flags skb d)) = 0.
Proof.
  intros Hn. rewrite ndisc_ra_if_flags_defrtr.
  replace (strncmp (name (skb_dev skb)) "ccmni" 2) with 0; [reflexivity|].
  symmetry. apply strncmp_ccmni_2. eauto.
Qed.

Lemma rt6_same_stable (w0 : world) skb v :
  ra_stable (fun w' => rt6_dflt w' = rt6_dflt w0) skb v None.
Proof.
  split.
  - intros w e _ H. exact H.
  - intros w m H. exact H.
  - intros w d _ H. exact H.
  - intros w r mtu Hr. discriminate.
Qed.

(** C10, as the code has it.  On an interface whose name begins with "cc",
    a router advertisement never changes the list of default routers this
    handler keeps through [rt6_add_dflt_router] and [ip6_del_rt]; one that
    gets as far as the vendor check (link-local source, long enough for the
    fixed header, options that parse, the interface configured for IPv6 with
    RA processing enabled and, in a kernel built with
    [CONFIG_IPV6_NDISC_NODETYPE], a packet not classified as from a host or
    as no-default) leaves [accept_ra_defrtr] of the interface at 0, and it
    is still 0 after any further router advertisements.  The route
    information options of the advertisement are not covered by the switch:
    what the handler does with them is the same whatever [accept_ra_defrtr]
    holds, so they are still handed to [rt6_route_rcv]. *)
Theorem ndisc_router_discovery_cc_interface (f : faults) (w : world)
    (skb : sk_buff) (rest : string) :
  name (skb_dev skb) = String.append "cc" rest ->
  rt6_dflt (ndisc_router_discovery cfg f w skb) = rt6_dflt w
  /\ (forall in6_dev ndopts (later : list (faults * sk_buff)),
        has_flag (ipv6_addr_type (ipv6_hdr_saddr skb)) IPV6_ADDR_LINKLOCAL = true ->
        0 <= to_int (skb_len skb - sizeof_ra_msg) ->
        CONFIG_IPV6_NDISC_NODETYPE cfg
        && ((ndisc_nodetype skb =? NDISC_NODETYPE_HOST)
            || (ndisc_nodetype skb =? NDISC_NODETYPE_NODEFAULT)) = false ->
        idevs w !! ifindex (skb_dev skb) = Some in6_dev ->
        ndisc_parse_options cfg (skb_data skb)
          (transport_header skb + sizeof_ra_msg)
          (to_int (skb_len skb - sizeof_ra_msg)) = Some ndopts ->
        ipv6_accept_ra in6_dev = true ->
        defrtr_off (ifindex (skb_dev skb))
          (fold_left (fun w' ra => ndisc_router_discovery cfg ra.1 w' ra.2)
             later (ndisc_router_discovery cfg f w skb)))
  /\ (forall w' ndopts in6_dev v,
        ndisc_ra_route_info cfg w' skb ndopts
          (set_cnf in6_dev (set_accept_ra_defrtr (cnf in6_dev) v))
        = ndisc_ra_route_info cfg w' skb ndopts in6_dev).
Proof.
  intros Hn. split; [|split].
  - unfold ndisc_router_discovery.
    repeat case_match; try reflexivity.
    + apply (ndisc_ra_options_inv cfg (fun w' => rt6_dflt w' = rt6_dflt w)
               skb (accept_ra_defrtr (cnf i)) None (rt6_same_stable w skb _));
        reflexivity.
    + apply (ndisc_ra_options_inv cfg (fun w' => rt6_dflt w' = rt6_dflt w)
               skb (accept_ra_defrtr (cnf i)) None (rt6_same_stable w skb _));
        reflexivity.
    + unfold ndisc_ra_linkparms.
      rewrite (ndisc_ra_if_flags_cc skb i rest Hn). cbn [nonzero Z.eqb negb].
      apply (ndisc_ra_timers_inv cfg (fun w' => rt6_dflt w' = rt6_dflt w)
               skb 0 None (rt6_same_stable w skb _));
        [apply (ndisc_ra_if_flags_cc skb i rest Hn) | reflexivity].
  - intros in6_dev ndopts later Hll Hlen Hnt Hi Hparse Hra.
    assert (H1 : defrtr_off (ifindex (skb_dev skb))
                   (ndisc_router_discovery cfg f w skb)).
    { unfold ndisc_router_discovery. rewrite Hll. cbn [negb].
      destruct (Z.ltb_spec (to_int (skb_len skb - sizeof_ra_msg)) 0); [lia|].
      apply andb_false_iff in Hnt.
      assert (Hnt1 : CONFIG_IPV6_NDISC_NODETYPE cfg
                     && (ndisc_nodetype skb =? NDISC_NODETYPE_HOST) = false).
      { destruct Hnt as [->|Hnt]; [reflexivity|].
        apply orb_false_iff in Hnt. destruct Hnt as [-> _]. apply andb_false_r. }
      assert (Hnt2 : CONFIG_IPV6_NDISC_NODETYPE cfg
                     && (ndisc_nodetype skb =? NDISC_NODETYPE_NODEFAULT) = false).
      { destruct Hnt as [->|Hnt]; [reflexivity|].
        apply orb_false_iff in Hnt. destruct Hnt as [_ ->]. apply andb_false_r. }
      rewrite Hnt1, Hi, Hparse, Hra, Hnt2. cbn [negb].
      unfold ndisc_ra_linkparms.
      pose proof (ndisc_ra_if_flags_cc skb in6_dev rest Hn) as H0.
      rewrite H0. cbn [nonzero Z.eqb negb].
      apply (ndisc_ra_timers_inv cfg (defrtr_off (ifindex (skb_dev skb))) skb 0
               None).
      - apply (ra_stable_of_all (defrtr_off (ifindex (skb_dev skb))) skb 0);
          [|left; reflexivity].
        apply defrtr_off_stable_all. reflexivity.
      - exact H0.
      - eexists. split; [|exact H0].
        cbn [idev_store idevs set_idevs]. apply lookup_insert_eq. }
    revert H1. generalize (ndisc_router_discovery cfg f w skb).
    induction later as [|[f' skb'] later IH]; intros w1 H1; [exact H1|].
    cbn [fold_left fst snd]. apply IH.
    apply ndisc_router_discovery_defrtr_off. exact H1.
  - intros w' ndopts in6_dev v. reflexivity.
Qed.

End CellularInterfaces.

(** C4 as stated fails: with RA processing switched off on the receiving
    interface, a router advertisement carrying a source link-layer address
    option still enters its sender into the neighbour cache. *)
Lemma ndisc_router_discovery_accept_ra_off_counterexample :
  let w := Scenario.host 0 in
  let skb := Scenario.ra_from Scenario.eth0 255 0 1 1800 in
  idevs w !! ifindex (skb_dev skb) = Some (Scenario.host_idev 0)
  /\ ipv6_accept_ra (Collaborators := Scenario.reference)
       (Scenario.host_idev 0) = false
  /\ nd_tbl w !! (Scenario.router, 2) = None
  /\ (nud_state <$>
      nd_tbl (ndisc_router_discovery Scenario.cfg (K := Scenario.reference)
                Scenario.no_faults w skb) !! (Scenario.router, 2))
     = Some NUD_STALE.
Proof.
  cbv zeta. repeat split; vm_compute; reflexivity.
Qed.

(** An advertisement from a global address, and one received with RA
    processing switched off. *)
Lemma ndisc_router_discovery_gates_witness :
  ndisc_router_discovery Scenario.cfg (K := Scenario.reference)
    Scenario.no_faults (Scenario.host 1)
    (Scenario.packet Scenario.eth0 255 Scenario.tentative
       in6addr_linklocal_allnodes
       (drop 40 (skb_data (Scenario.ra_from Scenario.eth0 255 0 1 1800))))
  = Scenario.host 1
  /\ exists m,
       ndisc_router_discovery Scenario.cfg (K := Scenario.reference)
         Scenario.no_faults (Scenario.host 0)
         (Scenario.ra_from Scenario.eth0 255 0 1 1800)
       = set_nd_tbl (Scenario.host 0) m
       /\ forall k,
            k <> (ipv6_hdr_saddr (Scenario.ra_from Scenario.eth0 255 0 1 1800),
                  ifindex (skb_dev (Scenario.ra_from Scenario.eth0 255 0 1 1800))) ->
            m !! k = nd_tbl (Scenario.host 0) !! k.
Proof.
  split.
  - apply (proj1 (ndisc_router_discovery_gates Scenario.cfg
                    (K := Scenario.reference) Scenario.no_faults
                    (Scenario.host 1) _)).
    vm_compute. reflexivity.
  - apply (proj2 (ndisc_router_discovery_gates Scenario.cfg
                    (K := Scenario.reference) Scenario.no_faults
                    (Scenario.host 0) _)).
    intros idev H. vm_compute in H. injection H as <-. vm_compute. reflexivity.
Defined.

(** C5 as stated fails: on an interface called ccmni0 an accepted router
    advertisement with a positive lifetime, from a router not yet in the
    list, adds no default router. *)
Lemma ndisc_router_discovery_default_router_counterexample :
  let w := Scenario.host 1 in
  let skb := Scenario.ra_from Scenario.ccmni0 255 0 1 1800 in
  has_flag (ipv6_addr_type (Collaborators := Scenario.reference)
              (ipv6_hdr_saddr skb)) IPV6_ADDR_LINKLOCAL = true
  /\ idevs w !! ifindex (skb_dev skb) = Some (Scenario.host_idev 1)
  /\ ipv6_accept_ra (Collaborators := Scenario.reference)
       (Scenario.host_idev 1) = true
  /\ accept_ra_defrtr (cnf (Scenario.host_idev 1)) = 1
  /\ ipv6_chk_addr w (ipv6_hdr_saddr skb) None = false
  /\ icmp6_rt_lifetime skb = 1800
  /\ rt6_dflt w !! (ipv6_hdr_saddr skb, ifindex (skb_dev skb)) = None
  /\ rt6_dflt (ndisc_router_discovery Scenario.cfg (K := Scenario.reference)
                 Scenario.no_faults w skb)
       !! (ipv6_hdr_saddr skb, ifindex (skb_dev skb)) = None.
Proof.
  cbv zeta. repeat split; vm_compute; reflexivity.
Qed.

(** A first advertisement of [router] on eth0, lifetime 1800 seconds at
    [HZ = 100] and [jiffies = 5000]. *)
Lemma ndisc_router_discovery_default_router_witness :
  exists rt,
    rt6_dflt (ndisc_router_discovery Scenario.cfg (K := Scenario.reference)
                Scenario.no_faults (Scenario.host 1)
                (Scenario.ra_from Scenario.eth0 255 0 1 1800))
      !! (Scenario.router, 2) = Some rt
    /\ rt6_pref rt = 1
    /\ rt6i_expires rt = 185000.
Proof.
  apply (ndisc_router_discovery_default_router Scenario.cfg
           (K := Scenario.reference) Scenario.no_faults (Scenario.host 1)
           (Scenario.ra_from Scenario.eth0 255 0 1 1800)
           (Scenario.host_idev 1)
           (set_nd_slot ndopts_zero ND_OPT_SOURCE_LL_ADDR 56)).
  - vm_compute. reflexivity.
  - vm_compute. discriminate.
  - vm_compute. reflexivity.
  - vm_compute. reflexivity.
  - vm_compute. reflexivity.
  - vm_compute. reflexivity.
  - vm_compute. discriminate.
  - vm_compute. reflexivity.
  - vm_compute. discriminate.
  - vm_compute. reflexivity.
  - vm_compute. reflexivity.
  - vm_compute. discriminate.
Defined.

(** C10 as stated fails in two ways.  An advertisement on ccmni0 that
    carries a route information option for the prefix of length 0 has
    [accept_ra_defrtr] set to 0 and all the same the option, a default
    route, is handed to [rt6_route_rcv].  And with RA processing switched
    off on ccmni0 the advertisement does not reach the vendor check:
    [accept_ra_defrtr] is still 1 afterwards. *)
Lemma ndisc_router_discovery_cc_interface_counterexample :
  let skb := Scenario.ra_with Scenario.ccmni0 1800 Scenario.default_route_info in
  let on := ndisc_router_discovery Scenario.cfg (K := Scenario.reference)
              Scenario.no_faults (Scenario.host 1) skb in
  let off := ndisc_router_discovery Scenario.cfg (K := Scenario.reference)
               Scenario.no_faults (Scenario.host 0) skb in
  name (skb_dev skb) = "ccmni0"
  /\ ifindex (skb_dev skb) = 3
  /\ load8 Scenario.default_route_info 2 = 0
  /\ ((fun d => accept_ra_defrtr (cnf d)) <$> idevs on !! 3) = Some 0
  /\ events (Scenario.host 1) = []
  /\ events on
     = [EvRouteRcv 3 Scenario.default_route_info 8 Scenario.router]
  /\ ((fun d => accept_ra_defrtr (cnf d)) <$> idevs (Scenario.host 0) !! 3)
     = Some 1
  /\ ((fun d => accept_ra_defrtr (cnf d)) <$> idevs off !! 3) = Some 1.
Proof.
  cbv zeta. repeat split; vm_compute; reflexivity.
Qed.

(** An advertisement of [router] on ccmni0, followed by a second one. *)
Lemma ndisc_router_discovery_cc_interface_witness :
  rt6_dflt (ndisc_router_discovery Scenario.cfg (K := Scenario.reference)
              Scenario.no_faults (Scenario.host 1)
              (Scenario.ra_from Scenario.ccmni0 255 0 1 1800))
  = rt6_dflt (Scenario.host 1)
  /\ defrtr_off 3
       (fold_left
          (fun w' ra =>
             ndisc_router_discovery Scenario.cfg (K := Scenario.reference)
               ra.1 w' ra.2)
          [(Scenario.no_faults, Scenario.ra_from Scenario.ccmni0 255 0 1 600)]
          (ndisc_router_discovery Scenario.cfg (K := Scenario.reference)
             Scenario.no_faults (Scenario.host 1)
             (Scenario.ra_from Scenario.ccmni0 255 0 1 1800))).
Proof.
  destruct (ndisc_router_discovery_cc_interface Scenario.cfg
              (K := Scenario.reference) Scenario.no_faults (Scenario.host 1)
              (Scenario.ra_from Scenario.ccmni0 255 0 1 1800) "mni0" eq_refl)
    as (H1 & H2 & _).
  split; [exact H1|].
  apply (H2 (Scenario.host_idev 1)
            (set_nd_slot ndopts_zero ND_OPT_SOURCE_LL_ADDR 56)).
  - vm_compute. reflexivity.
  - vm_compute. discriminate.
  - vm_compute. reflexivity.
  - vm_compute. reflexivity.
  - vm_compute. reflexivity.
  - vm_compute. reflexivity.
Defined.

(** ** The option walks of the RA handler never run out of fuel *)

Lemma nd_chain_le mem p q : nd_chain mem p q -> p <= q.
Proof. induction 1; lia. Qed.

Lemma nd_chain_trans mem p q r :
  nd_chain mem p q -> nd_chain mem q r -> nd_chain mem p r.
Proof.
  induction 1; intros H2; [exact H2|].
  eapply chain_step; [assumption|]. auto.
Qed.

Lemma nd_chain_next mem p q :
  nd_chain mem p q -> p < q ->
  0 < nd_opt_len mem p /\ nd_chain mem (p + 8 * nd_opt_len mem p) q.
Proof. intros H Hlt. destruct H; [lia|]. split; assumption. Qed.

Lemma nd_opt_len_inside mem p :
  0 < nd_opt_len mem p -> -1 <= p /\ p + 1 < Z.of_nat (length mem).
Proof.
  unfold nd_opt_len, load8. intros H.
  destruct (Z.ltb_spec (p + 1) 0); [lia|].
  destruct (mem !! Z.to_nat (p + 1)) eqn:E; [|lia].
  apply lookup_lt_Some in E. lia.
Qed.

Lemma nd_opt_skip_some mem same e : forall fuel cur,
  nd_chain mem cur e -> cur < e -> (Z.to_nat (e - cur) <= fuel)%nat ->
  exists q, nd_opt_skip fuel mem same cur e = Some q
            /\ cur < q <= e /\ nd_chain mem q e.
Proof.
  induction fuel as [|fuel IH]; intros cur Hc Hlt Hf; [lia|].
  cbn [nd_opt_skip]. rewrite shiftl3.
  destruct (nd_chain_next mem cur e Hc Hlt) as [Hl Hc'].
  pose proof (nd_chain_le _ _ _ Hc') as Hle.
  destruct (Z.ltb_spec (cur + 8 * nd_opt_len mem cur) e) as [Hlt'|Hge].
  - destruct (same _); cbn [negb andb].
    + eexists. split; [reflexivity|]. split; [lia | exact Hc'].
    + destruct (IH _ Hc' Hlt') as (q & E & Hq & Hcq); [lia|].
      exists q. split; [exact E|]. split; [lia | exact Hcq].
  - cbn [andb]. eexists. split; [reflexivity|]. split; [lia | exact Hc'].
Qed.

Lemma ndisc_next_option_ok mem e first n :
  nd_chain mem first e -> (Z.to_nat (e - first) <= n)%nat ->
  forall q, first <= q ->
    nd_chain mem q e ->
    exists r, ndisc_next_option n mem (Some q) (Some e) = Some r
              /\ match r with
                 | None => True
                 | Some q' => q < q' /\ nd_chain mem q' e
                 end.
Proof.
  intros _ Hn q Hq Hc. unfold ndisc_next_option.
  destruct (Z.leb_spec e q) as [Hle|Hlt]; [exists None; split; auto|].
  destruct (nd_opt_skip_some mem (fun p => nd_opt_type mem p =? nd_opt_type mem q)
              e n q Hc Hlt) as (q' & -> & Hq' & Hc'); [lia|].
  eexists. split; [reflexivity|].
  destruct (_ && _); [split; [lia | exact Hc'] | exact I].
Qed.

Lemma ndisc_next_useropt_ok mem e first n :
  nd_chain mem first e -> (Z.to_nat (e - first) <= n)%nat ->
  forall q, first <= q ->
    nd_chain mem q e ->
    exists r, ndisc_next_useropt n mem (Some q) (Some e) = Some r
              /\ match r with
                 | None => True
                 | Some q' => q < q' /\ nd_chain mem q' e
                 end.
Proof.
  intros _ Hn q Hq Hc. unfold ndisc_next_useropt.
  destruct (Z.leb_spec e q) as [Hle|Hlt]; [exists None; split; auto|].
  destruct (nd_opt_skip_some mem (ndisc_is_useropt mem) e n q Hc Hlt)
    as (q' & -> & Hq' & Hc'); [lia|].
  eexists. split; [reflexivity|].
  destruct (_ && _); [split; [lia | exact Hc'] | exact I].
Qed.

Lemma nd_opt_visit_some mem e first next :
  (forall q, first <= q -> nd_chain mem q e ->
     exists r, next (Some q) = Some r
               /\ match r with
                  | None => True
                  | Some q' => q < q' /\ nd_chain mem q' e
                  end) ->
  forall fuel q,
    first <= q -> nd_chain mem q e -> (Z.to_nat (e - q) + 1 <= fuel)%nat ->
    is_Some (nd_opt_visit fuel next (Some q)).
Proof.
  intros Hnext. induction fuel as [|fuel IH]; intros q Hq Hc Hf; [lia|].
  cbn [nd_opt_visit].
  destruct (Hnext q Hq Hc) as (r & -> & Hr).
  destruct r as [q'|].
  - destruct Hr as [Hlt Hc'].
    pose proof (nd_chain_le _ _ _ Hc').
    destruct (IH q') as [l El]; [lia | exact Hc' | lia |].
    rewrite El. eauto.
  - destruct fuel; cbn; eauto.
Qed.

Lemma nd_range_ok_walks mem first end_ p :
  nd_range_ok mem first end_ p ->
  is_Some (nd_opt_visit (length mem)
             (fun q => ndisc_next_option (length mem) mem q end_) first)
  /\ is_Some (nd_opt_visit (length mem)
                (fun q => ndisc_next_useropt (length mem) mem q end_) first).
Proof.
  unfold nd_range_ok.
  destruct first as [a|], end_ as [b|]; try tauto.
  - intros (Hc & Hl & _).
    pose proof (nd_chain_le _ _ _ Hc) as Hle.
    pose proof (nd_opt_len_inside mem b Hl) as Hb.
    assert (Ha : -1 <= a).
    { destruct Hc; [lia|]. apply nd_opt_len_inside in H. lia. }
    split.
    + apply (nd_opt_visit_some mem b a); [| lia | exact Hc | lia].
      apply (ndisc_next_option_ok mem b a); [exact Hc | lia].
    + apply (nd_opt_visit_some mem b a); [| lia | exact Hc | lia].
      apply (ndisc_next_useropt_ok mem b a); [exact Hc | lia].
  - intros _. destruct (length mem); cbn; eauto.
Qed.

Lemma nd_range_ok_skip mem first end_ p :
  nd_range_ok mem first end_ p -> 0 < nd_opt_len mem p ->
  nd_range_ok mem first end_ (p + 8 * nd_opt_len mem p).
Proof.
  unfold nd_range_ok. destruct first, end_; try tauto.
  intros (H1 & H2 & H3) Hl. repeat split; try assumption.
  eapply nd_chain_trans; [exact H3|].
  eapply chain_step; [exact Hl | apply chain_refl].
Qed.

Lemma nd_range_ok_record mem first end_ p :
  nd_range_ok mem first end_ p -> 0 < nd_opt_len mem p ->
  nd_range_ok mem (match first with Some a => Some a | None => Some p end)
    (Some p) (p + 8 * nd_opt_len mem p).
Proof.
  unfold nd_range_ok. destruct first as [a|], end_ as [b|]; try tauto.
  - intros (H1 & H2 & H3) Hl. repeat split; [|exact Hl | apply chain_refl].
    eapply nd_chain_trans; [exact H1|].
    eapply chain_step; [exact H2 | exact H3].
  - intros _ Hl. repeat split; [apply chain_refl | exact Hl | apply chain_refl].
Qed.

Lemma ndisc_parse_record_ranges cfg mem p nd :
  nd_ranges_ok mem nd p -> 0 < nd_opt_len mem p ->
  nd_ranges_ok mem (ndisc_parse_record cfg mem p nd) (p + 8 * nd_opt_len mem p).
Proof.
  intros (Hlen & Hri & Hpi & Hus) Hl.
  pose proof (nd_range_ok_skip _ _ _ _ Hri Hl) as Hri'.
  pose proof (nd_range_ok_skip _ _ _ _ Hpi Hl) as Hpi'.
  pose proof (nd_range_ok_skip _ _ _ _ Hus Hl) as Hus'.
  split; [rewrite ndisc_parse_record_length; exact Hlen|].
  unfold ndisc_parse_record.
  destruct (is_singleton_opt (nd_opt_type mem p)) eqn:Es.
  - destruct (nd_slot nd (nd_opt_type mem p)); [tauto|].
    split; [exact Hri'|]. split; [|exact Hus'].
    unfold nd_opts_pi, nd_opts_pi_end.
    apply is_singleton_opt_cases in Es.
    rewrite !nd_slot_set_ne
      by (destruct Es as [E1|[E1|[E1|E1]]]; rewrite E1; vm_compute; lia).
    exact Hpi'.
  - destruct (Z.eqb_spec (nd_opt_type mem p) ND_OPT_PREFIX_INFO) as [Et|Et].
    + rewrite Et.
      rewrite (nd_slot_set_ne nd ND_OPT_PREFIX_INFO_END ND_OPT_PREFIX_INFO)
        by (vm_compute; lia).
      pose proof (nd_range_ok_record _ _ _ _ Hpi Hl) as Hrec.
      unfold nd_opts_pi, nd_opts_pi_end in *.
      destruct (nd_slot nd ND_OPT_PREFIX_INFO) as [a|] eqn:Ea.
      * split; [exact Hri'|]. split; [|exact Hus'].
        rewrite nd_slot_set_ne by (vm_compute; lia).
        rewrite nd_slot_set by (rewrite Hlen; vm_compute; lia).
        rewrite Ea. exact Hrec.
      * split; [exact Hri'|]. split; [|exact Hus'].
        rewrite nd_slot_set
          by (unfold set_nd_slot; cbn [nd_opt_array];
              rewrite length_insert, Hlen; vm_compute; lia).
        rewrite nd_slot_set_ne by (vm_compute; lia).
        rewrite nd_slot_set by (rewrite Hlen; vm_compute; lia).
        exact Hrec.
    + destruct (CONFIG_IPV6_ROUTE_INFO cfg && _).
      * split; [|split; assumption].
        cbn [nd_opts_ri nd_opts_ri_end].
        apply (nd_range_ok_record _ _ _ _ Hri Hl).
      * destruct (ndisc_is_useropt mem p).
        -- split; [exact Hri'|]. split; [exact Hpi'|].
           cbn [nd_useropts nd_useropts_end].
           apply (nd_range_ok_record _ _ _ _ Hus Hl).
        -- tauto.
Qed.

Lemma ndisc_parse_loop_ranges cfg mem : forall fuel p len nd nd',
  nd_ranges_ok mem nd p ->
  ndisc_parse_loop cfg fuel mem p len nd = Some (Some nd') ->
  exists p', nd_ranges_ok mem nd' p'.
Proof.
  induction fuel as [|fuel IH]; intros p len nd nd' Hok E; cbn [ndisc_parse_loop] in E.
  - destruct (len =? 0); [|discriminate]. injection E as <-. eauto.
  - destruct (len =? 0); [injection E as <-; eauto|].
    destruct (len <? 2); [discriminate|].
    rewrite shiftl3 in E.
    destruct (Z.eqb_spec (8 * nd_opt_len mem p) 0) as [Hz|Hnz];
      [rewrite orb_true_r in E; discriminate|].
    destruct (len <? _); [discriminate|]. cbn [orb] in E.
    pose proof (load8_range mem (p + 1)) as Hr. fold (nd_opt_len mem p) in Hr.
    eapply IH; [|exact E]. apply ndisc_parse_record_ranges; [exact Hok | lia].
Qed.

Lemma nd_ranges_ok_zero mem p : nd_ranges_ok mem ndopts_zero p.
Proof. repeat split. Qed.

(** After a successful parse, the loops of the RA handler over the route
    information, prefix information and user options visit their options
    within [length mem] turns: the lists [nd_opts_of_type] and
    [nd_useropts_list] are what the loops of the C code go through. *)
Lemma ndisc_parse_options_walks cfg mem opt opt_len ndopts :
  ndisc_parse_options cfg mem opt opt_len = Some ndopts ->
  is_Some (nd_opt_visit (length mem)
             (fun q => ndisc_next_option (length mem) mem q (nd_opts_ri_end ndopts))
             (nd_opts_ri ndopts))
  /\ is_Some (nd_opt_visit (length mem)
                (fun q => ndisc_next_option (length mem) mem q
                            (nd_opts_pi_end ndopts))
                (nd_opts_pi ndopts))
  /\ is_Some (nd_opt_visit (length mem)
                (fun q => ndisc_next_useropt (length mem) mem q
                            (nd_useropts_end ndopts))
                (nd_useropts ndopts)).
Proof.
  unfold ndisc_parse_options. intros E.
  destruct (opt_len <? 0); [discriminate|].
  destruct (ndisc_parse_loop cfg (Z.to_nat opt_len) mem opt opt_len ndopts_zero)
    as [r|] eqn:El; [|discriminate]. subst r.
  destruct (ndisc_parse_loop_ranges cfg mem _ _ _ _ _ (nd_ranges_ok_zero mem opt) El)
    as (p' & _ & Hri & Hpi & Hus).
  split; [|split].
  - apply (nd_range_ok_walks _ _ _ _ Hri).
  - apply (nd_range_ok_walks _ _ _ _ Hpi).
  - apply (nd_range_ok_walks _ _ _ _ Hus).
Qed.

(** ** Emitted messages *)

Lemma store8_length mem p v : length (store8 mem p v) = length mem.
Proof. apply length_insert. Qed.

Lemma memset_length n : forall mem p c, length (memset mem p c n) = length mem.
Proof.
  induction n as [|n IH]; intros mem p c; cbn [memset]; [reflexivity|].
  rewrite IH. apply store8_length.
Qed.

Lemma memcpy_length n : forall mem p src, length (memcpy mem p src n) = length mem.
Proof.
  induction n as [|n IH]; intros mem p src; destruct src as [|b src];
    cbn [memcpy]; try reflexivity.
  rewrite IH. apply length_insert.
Qed.

Lemma store8_lookup_ne mem p v (i : nat) :
  Z.to_nat p <> i -> store8 mem p v !! i = mem !! i.
Proof. intros H. apply list_lookup_insert_ne. exact H. Qed.

Lemma memset_lookup_lt n : forall mem p c (i : nat),
  (i < Z.to_nat p)%nat -> memset mem p c n !! i = mem !! i.
Proof.
  induction n as [|n IH]; intros mem p c i Hi; cbn [memset]; [reflexivity|].
  rewrite IH by lia. apply store8_lookup_ne. lia.
Qed.

Lemma memcpy_lookup_lt n : forall mem p src (i : nat),
  (i < Z.to_nat p)%nat -> memcpy mem p src n !! i = mem !! i.
Proof.
  induction n as [|n IH]; intros mem p src i Hi; destruct src as [|b src];
    cbn [memcpy]; try reflexivity.
  rewrite IH by lia. apply list_lookup_insert_ne. lia.
Qed.

Lemma memset_zero_code n : forall mem p,
  code_ok mem -> code_ok (memset mem p 0 n).
Proof.
  induction n as [|n IH]; intros mem p H; cbn [memset]; [exact H|].
  apply IH. unfold code_ok, store8.
  destruct (Nat.eq_dec (Z.to_nat p) 1%nat) as [E|E].
  - rewrite E. apply list_lookup_insert_eq. apply lookup_lt_Some in H. exact H.
  - rewrite list_lookup_insert_ne by exact E. exact H.
Qed.

Lemma memcpy_code mem src n :
  (2 <= n)%nat -> (2 <= length mem)%nat -> code_ok src ->
  code_ok (memcpy mem 0 src n).
Proof.
  intros Hn Hm Hs. unfold code_ok in *.
  destruct src as [|a [|b src]]; try discriminate.
  destruct n as [|[|n]]; try lia. cbn [memcpy].
  rewrite memcpy_lookup_lt by (cbn; lia).
  cbn in Hs. injection Hs as ->.
  change (Z.to_nat (0 + 1)) with 1%nat.
  apply list_lookup_insert_eq. rewrite length_insert. lia.
Qed.

Lemma lookup_1_None (mem : list byte) : mem !! 1%nat = None <-> (length mem <= 1)%nat.
Proof. apply lookup_ge_None. Qed.

Lemma code_ok_length mem : code_ok mem -> (2 <= length mem)%nat.
Proof. intros H. apply lookup_lt_Some in H. lia. Qed.

(** [skb_put] on a buffer in order: the area starts behind the code byte,
    or nothing is added. *)
Lemma skb_put_ok skb len :
  tx_ok skb ->
  let r := skb_put skb len in
  (code_ok (tx_data r.2) /\ 2 <= r.1)
  \/ (tx_data r.2 !! 1%nat = None /\ tx_room r.2 = []).
Proof.
  intros [H|[H1 H2]]; cbn [skb_put fst snd tx_data tx_room].
  - left. split.
    + unfold code_ok. rewrite lookup_app_l by (apply code_ok_length, H). exact H.
    + apply code_ok_length in H. lia.
  - right. rewrite H2, take_nil, drop_nil, app_nil_r. split; [exact H1 | reflexivity].
Qed.

Lemma skb_put_struct_ok f dev len skb msg :
  ndisc_alloc_skb f dev len = Some skb ->
  code_ok msg ->
  tx_ok (skb_put_struct skb msg).
Proof.
  unfold ndisc_alloc_skb. intros Ha Hm.
  destruct (alloc_skb_fails f); [discriminate|]. injection Ha as <-.
  unfold skb_put_struct, skb_put, set_tx_data, tx_ok.
  cbn [tx_data tx_room tx_dev tx_dst app length].
  set (room := map (heap f) _). rewrite Nat2Z.id.
  pose proof (code_ok_length msg Hm) as Hl.
  destruct (Nat.le_gt_cases 2 (length room)) as [Hr|Hr].
  - left. apply memcpy_code; [lia | | exact Hm].
    rewrite length_take. lia.
  - right. split.
    + apply lookup_1_None. rewrite memcpy_length, length_take. lia.
    + apply drop_ge. lia.
Qed.

Section Emission.
Context (cfg : kconfig) {K : Collaborators}.
Hypothesis pad_nonneg : forall t, 0 <= ndisc_addr_option_pad t.

Lemma ndisc_fill_addr_option_ok skb type data :
  tx_ok skb -> tx_ok (ndisc_fill_addr_option skb type data).
Proof.
  intros H. unfold ndisc_fill_addr_option.
  pose proof (skb_put_ok skb (ndisc_opt_addr_space (tx_dev skb)) H) as Hp.
  destruct (skb_put skb (ndisc_opt_addr_space (tx_dev skb))) as [opt skb1].
  cbn [fst snd] in Hp.
  unfold tx_ok, set_tx_data. cbn [tx_data tx_room].
  destruct Hp as [[Hc Ho]|[Hn Hr]].
  - left.
    pose proof (pad_nonneg (dev_type (tx_dev skb))) as Hpad.
    match goal with
    | |- code_ok (if _ then memset ?m _ _ _ else _) =>
        assert (Hbody : code_ok m)
    end.
    { unfold code_ok.
      rewrite memcpy_lookup_lt, memset_lookup_lt, !store8_lookup_ne by lia.
      exact Hc. }
    destruct (0 <? _); [apply memset_zero_code|]; exact Hbody.
  - right. split; [|exact Hr]. apply lookup_1_None in Hn. apply lookup_1_None.
    destruct (0 <? _);
      rewrite ?memset_length, memcpy_length, memset_length, !store8_length;
      exact Hn.
Qed.

Lemma ndisc_fill_redirect_hdr_option_ok skb orig_skb rd_len :
  tx_ok skb -> tx_ok (ndisc_fill_redirect_hdr_option skb orig_skb rd_len).
Proof.
  intros H. unfold ndisc_fill_redirect_hdr_option.
  pose proof (skb_put_ok skb rd_len H) as Hp.
  destruct (skb_put skb rd_len) as [opt skb1]. cbn [fst snd] in Hp.
  unfold tx_ok, set_tx_data. cbn [tx_data tx_room].
  destruct Hp as [[Hc Ho]|[Hn Hr]].
  - left. unfold code_ok.
    rewrite memcpy_lookup_lt, !store8_lookup_ne by lia.
    apply memset_zero_code. exact Hc.
  - right. split; [|exact Hr]. apply lookup_1_None in Hn. apply lookup_1_None.
    rewrite memcpy_length, !store8_length, memset_length. exact Hn.
Qed.

Lemma ip6_nd_hdr_code skb saddr daddr hop len :
  icmp6_code (ip6_nd_hdr skb saddr daddr hop len) = load8 (tx_data skb) 1.
Proof. reflexivity. Qed.

Lemma ip6_nd_hdr_format skb saddr daddr len :
  tx_ok skb ->
  on_link_format (ip6_nd_hdr skb saddr daddr 255 len).
Proof.
  intros H. split; [reflexivity|].
  rewrite ip6_nd_hdr_code. unfold load8. cbn [Z.ltb Z.compare].
  change (Z.to_nat 1) with 1%nat.
  destruct H as [H|[H _]]; [unfold code_ok in H|]; rewrite H; reflexivity.
Qed.

Variable base : list sk_buff.

Lemma tx_inv_ext w w' :
  ndisc_sk w' = ndisc_sk w -> events w' = events w ->
  tx_inv base w -> tx_inv base w'.
Proof.
  unfold tx_inv, emitted. intros -> ->. exact (fun H => H).
Qed.

Lemma tx_inv_emit w e :
  output_of e = None -> tx_inv base w -> tx_inv base (emit w e).
Proof.
  unfold tx_inv, emitted. intros He H. cbn [emit set_events events ndisc_sk].
  cbn [omap list_omap]. rewrite He. exact H.
Qed.

Lemma tx_inv_output w pkt :
  on_link_format pkt -> tx_inv base w -> tx_inv base (emit w (EvOutput pkt)).
Proof.
  unfold tx_inv, emitted. intros Hp [Hs (new & E & Hn)].
  split; [exact Hs|]. exists (pkt :: new). split.
  - cbn [emit set_events events]. cbn [omap list_omap output_of].
    rewrite E. reflexivity.
  - constructor; assumption.
Qed.

Lemma tx_inv_stable_all skb v : ra_stable_all (tx_inv base) skb v.
Proof.
  split.
  - intros w e He. apply tx_inv_emit. exact He.
  - intros w m. apply tx_inv_ext; reflexivity.
  - intros w d _. apply tx_inv_ext; reflexivity.
  - intros w m. apply tx_inv_ext; reflexivity.
Qed.

Lemma ndisc_send_skb_tx f w skb daddr saddr :
  tx_ok skb -> tx_inv base w ->
  tx_inv base (ndisc_send_skb f w skb daddr saddr).
Proof.
  intros Hs Hw. unfold ndisc_send_skb.
  destruct (negb (tx_dst skb) && icmp6_dst_alloc_fails f); [exact Hw|].
  assert (Ho : forall e e', output_of e = None ->
            tx_inv base
              (emit (emit w e)
                 (EvOutput
                    (ip6_nd_hdr
                       (set_tx_data skb
                          (memcpy (tx_data skb) 2
                             (be_bytes 2
                                (csum_ipv6_magic saddr daddr
                                   (Z.of_nat (length (tx_data skb)))
                                   IPPROTO_ICMPV6
                                   (csum_partial (tx_data skb)
                                      (Z.of_nat (length (tx_data skb))) 0)))
                             2))
                       saddr daddr (sk_hop_limit (ndisc_sk w)) e')))).
  { intros e e' He. apply tx_inv_output; [|apply tx_inv_emit; assumption].
    destruct Hw as [-> _]. apply ip6_nd_hdr_format.
    unfold tx_ok, set_tx_data. cbn [tx_data tx_room].
    destruct Hs as [Hc|[Hn Hr]].
    - left. unfold code_ok. rewrite memcpy_lookup_lt by (cbn; lia). exact Hc.
    - right. split; [|exact Hr]. apply lookup_1_None in Hn.
      apply lookup_1_None. rewrite memcpy_length. exact Hn. }
  destruct (output_err f).
  - apply Ho. reflexivity.
  - apply tx_inv_emit; [reflexivity|]. apply tx_inv_emit; [reflexivity|].
    apply Ho. reflexivity.
Qed.

Lemma nd_msg_bytes_code type r s o target :
  code_ok (nd_msg_bytes type r s o target).
Proof. reflexivity. Qed.

Lemma rs_msg_bytes_code type : code_ok (rs_msg_bytes type).
Proof. reflexivity. Qed.

Lemma rd_msg_bytes_code type target dest :
  code_ok (rd_msg_bytes type target dest).
Proof. reflexivity. Qed.

Lemma ndisc_send_na_tx f w dev daddr solicited_addr router solicited override
    inc_opt :
  tx_inv base w ->
  tx_inv base (ndisc_send_na f w dev daddr solicited_addr router solicited
                 override inc_opt).
Proof.
  intros Hw. unfold ndisc_send_na.
  repeat case_match; try exact Hw;
    apply ndisc_send_skb_tx; try exact Hw;
    try apply ndisc_fill_addr_option_ok;
    (eapply skb_put_struct_ok; [eassumption | apply nd_msg_bytes_code]).
Qed.

Lemma ndisc_send_unsol_na_tx f w dev :
  tx_inv base w -> tx_inv base (ndisc_send_unsol_na f w dev).
Proof.
  intros Hw. unfold ndisc_send_unsol_na.
  destruct (idevs w !! ifindex dev); [|exact Hw].
  apply fold_left_inv; [exact Hw|].
  intros w0 ifa. apply ndisc_send_na_tx.
Qed.

Lemma ndisc_send_ns_tx f w dev solicit daddr saddr :
  tx_inv base w -> tx_inv base (ndisc_send_ns f w dev solicit daddr saddr).
Proof.
  intros Hw. unfold ndisc_send_ns.
  repeat case_match; try exact Hw;
    apply ndisc_send_skb_tx; try exact Hw;
    try apply ndisc_fill_addr_option_ok;
    (eapply skb_put_struct_ok; [eassumption | apply nd_msg_bytes_code]).
Qed.

Lemma ndisc_send_rs_tx f w dev saddr daddr :
  tx_inv base w -> tx_inv base (ndisc_send_rs cfg f w dev saddr daddr).
Proof.
  intros Hw. unfold ndisc_send_rs.
  repeat case_match; try exact Hw;
    apply ndisc_send_skb_tx; try exact Hw;
    try apply ndisc_fill_addr_option_ok;
    (eapply skb_put_struct_ok; [eassumption | apply rs_msg_bytes_code]).
Qed.

Lemma neigh_lookup_create_tx f w pkey dev creat :
  tx_inv base w -> tx_inv base (__neigh_lookup f w pkey dev creat).1.
Proof.
  intros Hw.
  destruct (neigh_lookup_create_nd_tbl f w pkey dev creat) as (m & -> & _).
  revert Hw. apply tx_inv_ext; reflexivity.
Qed.

Lemma skb_dst_set_ok b : tx_ok b -> tx_ok (skb_dst_set b).
Proof. exact (fun H => H). Qed.

Lemma ndisc_send_redirect_tx f w skb target :
  tx_inv base w -> tx_inv base (ndisc_send_redirect f w skb target).
Proof.
  intros Hw. unfold ndisc_send_redirect.
  destruct (ipv6_get_lladdr w (skb_dev skb) IFA_F_TENTATIVE) as [i|];
    [|exact Hw].
  destruct (_ && _); [exact Hw|].
  destruct (route_output_fails f); [exact Hw|].
  destruct (xfrm_lookup_fails f); [exact Hw|].
  destruct (rt_is_gateway f); [exact Hw|].
  destruct (negb (xrlim_allow f)); [exact Hw|].
  pose proof (neigh_lookup_create_tx f w target (skb_dev skb) true Hw) as Hn.
  unfold dst_neigh_lookup.
  destruct (__neigh_lookup f w target (skb_dev skb) true) as [w1 neigh].
  cbn [fst] in Hn.
  destruct (nonzero (addr_len (skb_dev skb)));
    [destruct neigh as [n|];
     [destruct (has_flag (nud_state n) NUD_VALID)|exact Hn]|];
    cbv beta iota;
    (destruct (ndisc_alloc_skb f (skb_dev skb) _) as [buff|] eqn:Ea;
     [|assumption]);
    (apply ndisc_send_skb_tx; [|assumption]);
    apply skb_dst_set_ok;
    (destruct (nonzero _); [apply ndisc_fill_redirect_hdr_option_ok|]);
    try apply ndisc_fill_addr_option_ok;
    (eapply skb_put_struct_ok; [exact Ea | apply rd_msg_bytes_code]).
Qed.

Lemma neigh_store_tx w pkey dev n :
  tx_inv base w -> tx_inv base (neigh_store w pkey dev n).
Proof. apply tx_inv_ext; reflexivity. Qed.

Lemma ndisc_solicit_tx f w neigh skb :
  tx_inv base w -> tx_inv base (ndisc_solicit cfg f w neigh skb).
Proof.
  intros Hw. unfold ndisc_solicit.
  destruct (_ <? 0); [apply ndisc_send_ns_tx; exact Hw|].
  destruct (_ <? 0); [|apply ndisc_send_ns_tx; exact Hw].
  destruct (CONFIG_ARPD cfg); [|exact Hw].
  apply tx_inv_emit; [reflexivity | exact Hw].
Qed.

Lemma ndisc_recv_ns_reply_tx f w skb lladdr ifp idev is_router :
  tx_inv base w ->
  tx_inv base (ndisc_recv_ns_reply f w skb lladdr ifp idev is_router).
Proof.
  intros Hw. unfold ndisc_recv_ns_reply.
  destruct (ipv6_addr_any (ipv6_hdr_saddr skb));
    [apply ndisc_send_na_tx; exact Hw|].
  match goal with
  | |- context [__neigh_lookup f ?w0 ?a ?d ?c] =>
      assert (H1 : tx_inv base (__neigh_lookup f w0 a d c).1)
        by (apply neigh_lookup_create_tx, tx_inv_emit; [reflexivity | exact Hw]);
      destruct (__neigh_lookup f w0 a d c) as [w1 neigh]
  end.
  cbn [fst] in H1.
  destruct (_ || _).
  - apply ndisc_send_na_tx. destruct neigh; [apply neigh_store_tx|]; exact H1.
  - destruct neigh; [apply neigh_store_tx|]; exact H1.
Qed.

Lemma ndisc_recv_ns_target_tx f w skb lladdr :
  tx_inv base w -> tx_inv base (ndisc_recv_ns_target f w skb lladdr).
Proof.
  intros Hw. unfold ndisc_recv_ns_target.
  repeat case_match; try exact Hw;
    first [ apply ndisc_recv_ns_reply_tx; exact Hw
          | apply tx_inv_emit; [reflexivity | exact Hw] ].
Qed.

Lemma ndisc_recv_ns_tx f w skb :
  tx_inv base w -> tx_inv base (ndisc_recv_ns cfg f w skb).
Proof.
  intros Hw. unfold ndisc_recv_ns.
  repeat case_match; try exact Hw; apply ndisc_recv_ns_target_tx; exact Hw.
Qed.

Lemma ndisc_recv_na_tx f w skb :
  tx_inv base w -> tx_inv base (ndisc_recv_na cfg f w skb).
Proof.
  intros Hw. unfold ndisc_recv_na, ndisc_recv_na_neigh.
  repeat case_match; try exact Hw;
    first [ apply tx_inv_emit; [reflexivity | exact Hw]
          | revert Hw; apply tx_inv_ext; reflexivity ].
Qed.

Lemma ndisc_recv_rs_tx f w skb :
  tx_inv base w -> tx_inv base (ndisc_recv_rs cfg f w skb).
Proof.
  intros Hw. unfold ndisc_recv_rs.
  destruct (_ <? _); [exact Hw|].
  destruct (idevs w !! _); [|exact Hw].
  destruct (negb _); [exact Hw|].
  destruct (ipv6_addr_any _); [exact Hw|].
  destruct (ndisc_parse_options _ _ _ _); [|exact Hw].
  destruct (ndisc_opt_lladdr _ _); [|exact Hw].
  pose proof (neigh_lookup_create_tx f w (ipv6_hdr_saddr skb) (skb_dev skb)
                true Hw) as H1.
  destruct (__neigh_lookup f w (ipv6_hdr_saddr skb) (skb_dev skb) true)
    as [w1 neigh].
  cbn [fst] in H1. destruct neigh; [apply neigh_store_tx|]; exact H1.
Qed.

Lemma ndisc_redirect_rcv_tx f w skb :
  tx_inv base w -> tx_inv base (ndisc_redirect_rcv cfg f w skb).
Proof.
  intros Hw. unfold ndisc_redirect_rcv.
  repeat case_match; try exact Hw.
Qed.

Lemma ndisc_router_discovery_tx f w skb :
  tx_inv base w -> tx_inv base (ndisc_router_discovery cfg f w skb).
Proof.
  intros Hw. apply ndisc_router_discovery_inv; [|exact Hw].
  intros idev _. apply tx_inv_stable_all.
Qed.

Lemma ndisc_rcv_tx f w skb :
  tx_inv base w -> tx_inv base (ndisc_rcv cfg f w skb).2.
Proof.
  intros Hw. unfold ndisc_rcv.
  repeat case_match; cbn [snd]; try exact Hw;
    first [ apply ndisc_recv_ns_tx | apply ndisc_recv_na_tx
          | apply ndisc_recv_rs_tx | apply ndisc_router_discovery_tx
          | apply ndisc_redirect_rcv_tx ]; exact Hw.
Qed.

Lemma ndisc_netdev_event_tx f w event dev :
  tx_inv base w -> tx_inv base (ndisc_netdev_event f w event dev).2.
Proof.
  intros Hw. unfold ndisc_netdev_event.
  assert (He : forall w0 e1 e2, output_of e1 = None -> output_of e2 = None ->
            tx_inv base w0 -> tx_inv base (emit (emit w0 e1) e2))
    by (intros; repeat apply tx_inv_emit; assumption).
  destruct event; cbn [snd].
  - repeat case_match; cbn [snd];
      try apply ndisc_send_unsol_na_tx; apply He; try reflexivity; exact Hw.
  - apply He; try reflexivity; exact Hw.
  - apply ndisc_send_unsol_na_tx. exact Hw.
  - exact Hw.
Qed.

Lemma ndisc_step_tx w w' :
  ndisc_step cfg w w' -> tx_inv base w -> tx_inv base w'.
Proof.
  intros Hs Hw. destruct Hs.
  - apply ndisc_rcv_tx. exact Hw.
  - apply ndisc_recv_ns_tx. exact Hw.
  - apply ndisc_solicit_tx. exact Hw.
  - apply tx_inv_emit; [reflexivity | exact Hw].
  - apply ndisc_send_ns_tx. exact Hw.
  - apply ndisc_send_rs_tx. exact Hw.
  - apply ndisc_send_redirect_tx. exact Hw.
  - apply ndisc_netdev_event_tx. exact Hw.
Qed.

End Emission.

Lemma be_value_acc n : forall z acc,
  fold_left (fun a b => a * 256 + u8 b) (be_bytes n z) acc
  = acc * 2 ^ (8 * Z.of_nat n) + z mod 2 ^ (8 * Z.of_nat n).
Proof.
  induction n as [|n IH]; intros z acc.
  - cbn [be_bytes fold_left]. change (2 ^ (8 * Z.of_nat 0)) with 1.
    rewrite Z.mod_1_r. lia.
  - cbn [be_bytes fold_left]. rewrite IH, u8_to_byte.
    rewrite Z.shiftr_div_pow2 by lia.
    replace (8 * Z.of_nat (S n)) with (8 * Z.of_nat n + 8) by lia.
    rewrite Z.pow_add_r by lia. change (2 ^ 8) with 256.
    rewrite (Z.rem_mul_r z (2 ^ (8 * Z.of_nat n)) 256) by lia.
    lia.
Qed.

(** The bytes of a number in network order spell it back, up to the width. *)
Lemma be_value_be_bytes n z :
  be_value (be_bytes n z) = z mod 2 ^ (8 * Z.of_nat n).
Proof. unfold be_value. rewrite be_value_acc. lia. Qed.

Section Wire.
Context {K : Collaborators}.

(** With a route at hand, [ndisc_send_skb] hands exactly one packet to the
    output path: it goes from [saddr] to [daddr] with the hop limit of the
    control socket. *)
Lemma ndisc_send_skb_emitted f w skb daddr saddr :
  negb (tx_dst skb) && icmp6_dst_alloc_fails f = false ->
  exists pkt,
    emitted (ndisc_send_skb f w skb daddr saddr) = pkt :: emitted w
    /\ ipv6_hdr_hop_limit pkt = sk_hop_limit (ndisc_sk w) mod 256
    /\ ipv6_hdr_saddr pkt = saddr mod 2 ^ 128
    /\ ipv6_hdr_daddr pkt = daddr mod 2 ^ 128.
Proof.
  intros Hr. unfold ndisc_send_skb. rewrite Hr.
  eexists. split; [destruct (output_err f); reflexivity|].
  split; [|split].
  - unfold ipv6_hdr_hop_limit, ip6_nd_hdr. cbn [skb_data be_bytes app].
    change (load8 ?l 7) with (u8 (to_byte (sk_hop_limit (ndisc_sk w)))).
    apply u8_to_byte.
  - exact (be_value_be_bytes 16 saddr).
  - exact (be_value_be_bytes 16 daddr).
Qed.

(** A solicitation for which the caller names the source address: when the
    buffer and the route are there, one packet leaves, from that address to
    the destination asked for. *)
Lemma ndisc_send_ns_emitted f w dev solicit daddr saddr :
  alloc_skb_fails f = false ->
  icmp6_dst_alloc_fails f = false ->
  exists pkt,
    emitted (ndisc_send_ns f w dev solicit daddr (Some saddr)) = pkt :: emitted w
    /\ ipv6_hdr_hop_limit pkt = sk_hop_limit (ndisc_sk w) mod 256
    /\ ipv6_hdr_saddr pkt = saddr mod 2 ^ 128
    /\ ipv6_hdr_daddr pkt = daddr mod 2 ^ 128.
Proof.
  intros Ha Hd. unfold ndisc_send_ns, ndisc_alloc_skb. rewrite Ha.
  apply ndisc_send_skb_emitted. rewrite Hd. apply andb_false_r.
Qed.

End Wire.

Section EmittedMessages.
Context (cfg : kconfig) {K : Collaborators}.

(** C7.  Once [ndisc_net_init] has set up the control socket, whatever the
    NDP core emits afterwards, in any sequence of activations, carries the
    hop limit 255 and the ICMPv6 code 0.  The padding of address options is
    given by a collaborator and must not be negative. *)
Theorem ndisc_emitted_hop_limit_code (f : faults) (w0 w1 w2 : world)
    (srcprefs : Z) :
  (forall t, 0 <= ndisc_addr_option_pad t) ->
  ndisc_net_init f w0 srcprefs = (0, w1) ->
  rtc (ndisc_step cfg) w1 w2 ->
  exists new,
    emitted w2 = new ++ emitted w1
    /\ Forall (fun pkt => ipv6_hdr_hop_limit pkt = 255 /\ icmp6_code pkt = 0)
         new.
Proof.
  intros Hpad Hinit Hsteps.
  assert (H1 : tx_inv (emitted w1) w1).
  { split.
    - unfold ndisc_net_init in Hinit.
      destruct (Z.ltb_spec (sock_create_err f) 0) as [Hlt|Hge].
      + injection Hinit as He _. lia.
      + injection Hinit as <-. reflexivity.
    - exists []. split; [reflexivity | constructor]. }
  assert (H2 : tx_inv (emitted w1) w2).
  { revert H1. generalize (emitted w1). intros base. clear Hinit.
    induction Hsteps as [|x y z Hxy _ IH]; intros Hx; [exact Hx|].
    apply IH. eapply ndisc_step_tx; eassumption. }
  exact (proj2 H2).
Qed.

End EmittedMessages.

(** The first probe for [peer] on the host after initialisation, with the
    reference collaborators, whose padding is 0 or 6. *)
Lemma ndisc_emitted_hop_limit_code_witness :
  exists new,
    emitted
      (ndisc_solicit Scenario.cfg (K := Scenario.reference) Scenario.no_faults
         (set_ndisc_sk (Scenario.host_with_peer 0)
            {| sk_hop_limit := 255; sk_mc_loop := 0; sk_srcprefs := 0 |})
         (Scenario.peer_entry 0) None)
    = new ++ emitted
               (set_ndisc_sk (Scenario.host_with_peer 0)
                  {| sk_hop_limit := 255; sk_mc_loop := 0; sk_srcprefs := 0 |})
    /\ Forall (fun pkt => ipv6_hdr_hop_limit pkt = 255 /\ icmp6_code pkt = 0)
         new.
Proof.
  apply (ndisc_emitted_hop_limit_code Scenario.cfg (K := Scenario.reference)
           Scenario.no_faults (Scenario.host_with_peer 0) _ _ 0).
  - intros t. simpl. destruct (t =? ARPHRD_INFINIBAND); lia.
  - reflexivity.
  - apply rtc_once. apply step_solicit.
Defined.

(** ** The receive path: what it drops and what it never does *)

Lemma nd_opts_broken_pos mem p len : nd_opts_broken mem p len -> 0 < len.
Proof. induction 1; unfold sizeof_nd_opt_hdr in *; lia. Qed.

Lemma ndisc_parse_options_broken cfg mem opt len :
  nd_opts_broken mem opt len -> ndisc_parse_options cfg mem opt len = None.
Proof.
  intros B. pose proof (nd_opts_broken_pos _ _ _ B) as Hpos.
  unfold ndisc_parse_options.
  destruct (Z.ltb_spec len 0); [reflexivity|].
  destruct (ndisc_parse_loop_spec cfg (Z.to_nat len) mem opt len ndopts_zero)
    as [(nd' & E & T)|(E & _)]; [lia | lia | |].
  - destruct (nd_opts_tiled_not_broken _ _ _ T B).
  - rewrite E. reflexivity.
Qed.

Lemma to_int_u32_range z :
  0 <= z < 4294967296 -> to_int z = z \/ to_int z < 0.
Proof.
  intros H. destruct (to_int_to_u32 z H) as [E|E];
    unfold to_u32 in E; rewrite Z.mod_small in E by lia; auto.
Qed.

(** The option area as a handler measures it: broken options, or a length
    that reads as negative, make the parser return NULL. *)
Lemma ndisc_parse_options_broken_int cfg mem opt len :
  0 <= len < 4294967296 ->
  nd_opts_broken mem opt len ->
  ndisc_parse_options cfg mem opt (to_int len) = None.
Proof.
  intros Hr B. destruct (to_int_u32_range len Hr) as [E|E].
  - rewrite E. apply ndisc_parse_options_broken, B.
  - unfold ndisc_parse_options.
    destruct (Z.ltb_spec (to_int len) 0); [reflexivity | lia].
Qed.

Section ReceiveDrops.
Context (cfg : kconfig) {K : Collaborators}.

Lemma ndisc_recv_ns_malformed f w skb :
  skb_wf skb ->
  nd_opts_broken (skb_data skb) (transport_header skb + sizeof_nd_msg)
    (skb_len skb - sizeof_nd_msg) ->
  ndisc_recv_ns cfg f w skb = w.
Proof.
  intros [Hth Htail] B. pose proof (nd_opts_broken_pos _ _ _ B) as Hpos.
  unfold ndisc_recv_ns.
  destruct (skb_len skb <? sizeof_nd_msg); [reflexivity|].
  destruct (ipv6_addr_is_multicast _); [reflexivity|].
  destruct (_ && _); [reflexivity|].
  unfold skb_len in *.
  replace (skb_tail skb - (transport_header skb + sizeof_nd_msg))
    with (skb_tail skb - transport_header skb - sizeof_nd_msg) by lia.
  unfold to_u32. rewrite Z.mod_small by (unfold sizeof_nd_msg in *; lia).
  rewrite ndisc_parse_options_broken_int;
    [reflexivity | unfold sizeof_nd_msg in *; lia | exact B].
Qed.

Lemma ndisc_recv_na_malformed f w skb :
  skb_wf skb ->
  nd_opts_broken (skb_data skb) (transport_header skb + sizeof_nd_msg)
    (skb_len skb - sizeof_nd_msg) ->
  ndisc_recv_na cfg f w skb = w.
Proof.
  intros [Hth Htail] B. pose proof (nd_opts_broken_pos _ _ _ B) as Hpos.
  unfold ndisc_recv_na.
  destruct (skb_len skb <? sizeof_nd_msg); [reflexivity|].
  destruct (ipv6_addr_is_multicast _); [reflexivity|].
  destruct (_ && _); [reflexivity|].
  unfold skb_len in *.
  replace (skb_tail skb - (transport_header skb + sizeof_nd_msg))
    with (skb_tail skb - transport_header skb - sizeof_nd_msg) by lia.
  unfold to_u32. rewrite Z.mod_small by (unfold sizeof_nd_msg in *; lia).
  rewrite ndisc_parse_options_broken_int;
    [reflexivity | unfold sizeof_nd_msg in *; lia | exact B].
Qed.

Lemma ndisc_recv_rs_malformed f w skb :
  skb_wf skb ->
  nd_opts_broken (skb_data skb) (transport_header skb + sizeof_rs_msg)
    (skb_len skb - sizeof_rs_msg) ->
  ndisc_recv_rs cfg f w skb = w.
Proof.
  intros [Hth Htail] B. pose proof (nd_opts_broken_pos _ _ _ B) as Hpos.
  unfold ndisc_recv_rs.
  destruct (skb_len skb <? sizeof_rs_msg); [reflexivity|].
  destruct (idevs w !! _); [|reflexivity].
  destruct (negb _); [reflexivity|].
  destruct (ipv6_addr_any _); [reflexivity|].
  rewrite ndisc_parse_options_broken_int;
    [reflexivity | unfold skb_len, sizeof_rs_msg in *; lia | exact B].
Qed.

Lemma ndisc_router_discovery_malformed f w skb :
  skb_wf skb ->
  nd_opts_broken (skb_data skb) (transport_header skb + sizeof_ra_msg)
    (skb_len skb - sizeof_ra_msg) ->
  ndisc_router_discovery cfg f w skb = w.
Proof.
  intros [Hth Htail] B. pose proof (nd_opts_broken_pos _ _ _ B) as Hpos.
  unfold ndisc_router_discovery.
  destruct (negb _); [reflexivity|].
  destruct (_ <? 0); [reflexivity|].
  destruct (_ && _); [reflexivity|].
  destruct (idevs w !! _); [|reflexivity].
  rewrite ndisc_parse_options_broken_int;
    [reflexivity | unfold skb_len, sizeof_ra_msg in *; lia | exact B].
Qed.

Lemma ndisc_redirect_rcv_malformed f w skb :
  skb_wf skb ->
  nd_opts_broken (skb_data skb) (transport_header skb + sizeof_rd_msg)
    (skb_len skb - sizeof_rd_msg) ->
  ndisc_redirect_rcv cfg f w skb = w.
Proof.
  intros [Hth Htail] B. pose proof (nd_opts_broken_pos _ _ _ B) as Hpos.
  unfold ndisc_redirect_rcv.
  destruct (_ && _); [reflexivity|].
  destruct (negb _); [reflexivity|].
  unfold skb_len in *.
  replace (skb_tail skb - (transport_header skb + sizeof_rd_msg))
    with (skb_tail skb - transport_header skb - sizeof_rd_msg) by lia.
  unfold to_u32. rewrite Z.mod_small by (unfold sizeof_rd_msg in *; lia).
  rewrite ndisc_parse_options_broken_int;
    [reflexivity | unfold sizeof_rd_msg in *; lia | exact B].
Qed.

(** X1.  A message whose option area is malformed (an option of length
    zero, an option that runs past the end, or a rest too short for an
    option header) is dropped whole, whatever its type: the receive entry
    point leaves the state as it was (in the build without
    [MTK_IPV6_TETHER_NDP_MODE], as everywhere here). *)
Theorem ndisc_rcv_malformed_options_dropped (f : faults) (w : world)
    (skb : sk_buff) :
  skb_wf skb ->
  nd_opts_broken (skb_data skb)
    (transport_header skb + nd_hdr_size (icmp6_type skb))
    (skb_len skb - nd_hdr_size (icmp6_type skb)) ->
  (ndisc_rcv cfg f w skb).2 = w.
Proof.
  intros Hwf B. unfold ndisc_rcv.
  destruct (skb_linearize_fails f); [reflexivity|].
  destruct (negb (_ =? 255)); [reflexivity|].
  destruct (negb (_ =? 0)); [reflexivity|].
  change (icmp6_type (set_cb_flags skb 0)) with (icmp6_type skb).
  unfold nd_hdr_size in B.
  destruct (icmp6_type skb =? NDISC_NEIGHBOUR_SOLICITATION).
  { cbn [snd]. apply ndisc_recv_ns_malformed; assumption. }
  destruct (icmp6_type skb =? NDISC_NEIGHBOUR_ADVERTISEMENT).
  { cbn [snd]. apply ndisc_recv_na_malformed; assumption. }
  destruct (icmp6_type skb =? NDISC_ROUTER_SOLICITATION).
  { cbn [snd]. apply ndisc_recv_rs_malformed; assumption. }
  destruct (icmp6_type skb =? NDISC_ROUTER_ADVERTISEMENT).
  { cbn [snd]. apply ndisc_router_discovery_malformed; assumption. }
  destruct (icmp6_type skb =? NDISC_REDIRECT); [|reflexivity].
  cbn [snd]. apply ndisc_redirect_rcv_malformed; assumption.
Qed.

End ReceiveDrops.

Lemma ndisc_rcv_malformed_options_dropped_witness :
  (ndisc_rcv Scenario.cfg (K := Scenario.reference) Scenario.no_faults
     (Scenario.host 1)
     (Scenario.ns_from Scenario.peer
        (addrconf_addr_solict_mult Scenario.our_lladdr) Scenario.our_lladdr
        (Scenario.bytes [1; 0; 0; 0; 0; 0; 0; 0]))).2
  = Scenario.host 1.
Proof.
  apply (ndisc_rcv_malformed_options_dropped Scenario.cfg
           (K := Scenario.reference)).
  - split; vm_compute; [discriminate | reflexivity].
  - apply broken_zero.
    + vm_compute. discriminate.
    + vm_compute. reflexivity.
Defined.

Section ReceiveEffects.
Context (cfg : kconfig) {K : Collaborators}.

Lemma emitted_ext w w' : events w' = events w -> emitted w' = emitted w.
Proof. unfold emitted. intros ->. reflexivity. Qed.

Lemma emitted_emit w e : output_of e = None -> emitted (emit w e) = emitted w.
Proof.
  intros He. unfold emitted. cbn [emit set_events events].
  cbn [omap list_omap]. rewrite He. reflexivity.
Qed.

Lemma emitted_stable_all (w0 : world) skb v :
  ra_stable_all (fun w' => emitted w' = emitted w0) skb v.
Proof.
  split.
  - intros w e He H. rewrite emitted_emit; assumption.
  - intros w m H. exact H.
  - intros w d _ H. exact H.
  - intros w m H. exact H.
Qed.

Lemma ndisc_router_discovery_silent f w skb :
  emitted (ndisc_router_discovery cfg f w skb) = emitted w.
Proof.
  apply (ndisc_router_discovery_inv cfg (fun w' => emitted w' = emitted w));
    [|reflexivity].
  intros idev _. apply emitted_stable_all.
Qed.

Lemma neigh_lookup_create_events f w pkey dev creat :
  events (__neigh_lookup f w pkey dev creat).1 = events w.
Proof.
  destruct (neigh_lookup_create_nd_tbl f w pkey dev creat) as (m & -> & _).
  reflexivity.
Qed.

Lemma ndisc_recv_na_silent f w skb :
  emitted (ndisc_recv_na cfg f w skb) = emitted w.
Proof.
  unfold ndisc_recv_na, ndisc_recv_na_neigh.
  repeat case_match; reflexivity.
Qed.

Lemma ndisc_recv_rs_frame f w skb :
  exists m,
    ndisc_recv_rs cfg f w skb = set_nd_tbl w m
    /\ forall k, k <> (ipv6_hdr_saddr skb, ifindex (skb_dev skb)) ->
                 m !! k = nd_tbl w !! k.
Proof.
  unfold ndisc_recv_rs.
  pose proof (nd_tbl_frame_refl w (ipv6_hdr_saddr skb, ifindex (skb_dev skb)))
    as Hid.
  destruct (_ <? _); [exact Hid|].
  destruct (idevs w !! _); [|exact Hid].
  destruct (negb _); [exact Hid|].
  destruct (ipv6_addr_any _); [exact Hid|].
  destruct (ndisc_parse_options _ _ _ _); [|exact Hid].
  destruct (ndisc_opt_lladdr _ _); [|exact Hid].
  destruct (neigh_lookup_create_nd_tbl f w (ipv6_hdr_saddr skb) (skb_dev skb)
              true) as (m & Em & Hm).
  destruct (__neigh_lookup f w (ipv6_hdr_saddr skb) (skb_dev skb) true)
    as [w1 neigh].
  cbn [fst] in Em. subst w1.
  destruct neigh; [|exists m; split; [reflexivity | exact Hm]].
  apply nd_tbl_frame_store, Hm.
Qed.

Lemma ndisc_redirect_rcv_silent f w skb :
  emitted (ndisc_redirect_rcv cfg f w skb) = emitted w.
Proof.
  unfold ndisc_redirect_rcv. repeat case_match; reflexivity.
Qed.

(** X2.  Of the five kinds of message, only a neighbour solicitation can
    make the receive path send something: for any other packet the list of
    emitted packets is what it was (the build without
    [MTK_IPV6_TETHER_NDP_MODE] forwards nothing). *)
Theorem ndisc_rcv_emits_only_for_ns (f : faults) (w : world) (skb : sk_buff) :
  icmp6_type skb <> NDISC_NEIGHBOUR_SOLICITATION ->
  emitted (ndisc_rcv cfg f w skb).2 = emitted w.
Proof.
  intros Hty. unfold ndisc_rcv.
  destruct (skb_linearize_fails f); [reflexivity|].
  destruct (negb (_ =? 255)); [reflexivity|].
  destruct (negb (_ =? 0)); [reflexivity|].
  change (icmp6_type (set_cb_flags skb 0)) with (icmp6_type skb).
  destruct (Z.eqb_spec (icmp6_type skb) NDISC_NEIGHBOUR_SOLICITATION);
    [contradiction|].
  destruct (_ =? NDISC_NEIGHBOUR_ADVERTISEMENT);
    [apply ndisc_recv_na_silent|].
  destruct (_ =? NDISC_ROUTER_SOLICITATION).
  { cbn [snd]. destruct (ndisc_recv_rs_frame f w (set_cb_flags skb 0))
      as (m & -> & _). reflexivity. }
  destruct (_ =? NDISC_ROUTER_ADVERTISEMENT);
    [apply ndisc_router_discovery_silent|].
  destruct (_ =? NDISC_REDIRECT); [apply ndisc_redirect_rcv_silent|].
  reflexivity.
Qed.

(** X3.  A neighbour advertisement never adds an entry to the neighbour
    cache (an address is in the cache afterwards exactly if it was before),
    never touches the interface data and sends nothing; the only routes it
    can change is the default router of its sender on the receiving
    interface, which it can only remove. *)
Theorem ndisc_recv_na_adds_nothing (f : faults) (w : world) (skb : sk_buff) :
  (forall k, is_Some (nd_tbl (ndisc_recv_na cfg f w skb) !! k)
             <-> is_Some (nd_tbl w !! k))
  /\ idevs (ndisc_recv_na cfg f w skb) = idevs w
  /\ emitted (ndisc_recv_na cfg f w skb) = emitted w
  /\ (rt6_dflt (ndisc_recv_na cfg f w skb) = rt6_dflt w
      \/ rt6_dflt (ndisc_recv_na cfg f w skb)
         = delete (ipv6_hdr_saddr skb, ifindex (skb_dev skb)) (rt6_dflt w)).
Proof.
  split; [|split; [|split; [apply ndisc_recv_na_silent|]]].
  - intros k. unfold ndisc_recv_na, ndisc_recv_na_neigh, neigh_lookup.
    repeat case_match; try reflexivity;
      cbn [nd_tbl neigh_store ip6_del_rt set_nd_tbl set_rt6_dflt];
      (destruct (decide (k = (nd_msg_target skb, ifindex (skb_dev skb))))
         as [->|Hk];
       [rewrite lookup_insert_eq; split; intros _; eauto
       |rewrite lookup_insert_ne by congruence; reflexivity]).
  - unfold ndisc_recv_na, ndisc_recv_na_neigh.
    repeat case_match; reflexivity.
  - unfold ndisc_recv_na, ndisc_recv_na_neigh.
    repeat case_match; try (left; reflexivity); right; reflexivity.
Qed.

(** X4.  A router solicitation changes at most the neighbour cache entry
    of its sender on the receiving interface, and nothing at all when the
    interface does not forward (a host), has no IPv6 data, or when the source
    is the unspecified address. *)
Theorem ndisc_recv_rs_effect (f : faults) (w : world) (skb : sk_buff) :
  (exists m,
     ndisc_recv_rs cfg f w skb = set_nd_tbl w m
     /\ forall k, k <> (ipv6_hdr_saddr skb, ifindex (skb_dev skb)) ->
                  m !! k = nd_tbl w !! k)
  /\ ((forall idev, idevs w !! ifindex (skb_dev skb) = Some idev ->
                    forwarding (cnf idev) = 0) ->
      ndisc_recv_rs cfg f w skb = w)
  /\ (ipv6_hdr_saddr skb = 0 -> ndisc_recv_rs cfg f w skb = w).
Proof.
  split; [apply ndisc_recv_rs_frame|]. split.
  - intros Hf. unfold ndisc_recv_rs.
    destruct (_ <? _); [reflexivity|].
    destruct (idevs w !! _) as [idev|]; [|reflexivity].
    rewrite (Hf idev eq_refl). reflexivity.
  - intros Hs. unfold ndisc_recv_rs.
    destruct (_ <? _); [reflexivity|].
    destruct (idevs w !! _) as [idev|]; [|reflexivity].
    destruct (negb _); [reflexivity|].
    rewrite Hs. reflexivity.
Qed.

(** X5.  All a received Redirect can do is to be handed, with the
    position of the redirected packet it carries, to the ICMPv6 path; it is
    dropped when its source is not link-local and when it carries no
    redirected header option. *)
Theorem ndisc_redirect_rcv_effect (f : faults) (w : world) (skb : sk_buff) :
  (ndisc_redirect_rcv cfg f w skb = w
   \/ exists ndopts rh,
        ndisc_parse_options cfg (skb_data skb)
          (transport_header skb + sizeof_rd_msg)
          (to_int (to_u32 (skb_tail skb
                           - (transport_header skb + sizeof_rd_msg))))
        = Some ndopts
        /\ nd_opts_rh ndopts = Some rh
        /\ ndisc_redirect_rcv cfg f w skb
           = emit w (EvIcmpv6Notify skb (rh + 8) NDISC_REDIRECT))
  /\ (has_flag (ipv6_addr_type (ipv6_hdr_saddr skb)) IPV6_ADDR_LINKLOCAL = false ->
      ndisc_redirect_rcv cfg f w skb = w)
  /\ (forall ndopts,
        ndisc_parse_options cfg (skb_data skb)
          (transport_header skb + sizeof_rd_msg)
          (to_int (to_u32 (skb_tail skb
                           - (transport_header skb + sizeof_rd_msg))))
        = Some ndopts ->
        nd_opts_rh ndopts = None ->
        ndisc_redirect_rcv cfg f w skb = w).
Proof.
  unfold ndisc_redirect_rcv. split; [|split].
  - destruct (_ && _); [left; reflexivity|].
    destruct (negb _); [left; reflexivity|].
    destruct (ndisc_parse_options _ _ _ _) as [ndopts|]; [|left; reflexivity].
    destruct (nd_opts_rh ndopts) as [rh|] eqn:Erh; [|left; reflexivity].
    destruct (_ <? _); [left; reflexivity|].
    right. exists ndopts, rh. auto.
  - intros H. rewrite H. cbn [negb]. destruct (_ && _); reflexivity.
  - intros ndopts Hp Hrh. rewrite Hp, Hrh.
    destruct (_ && _); [reflexivity|]. destruct (negb _); reflexivity.
Qed.

(** X6.  A neighbour solicitation for a target that is not an address of
    the receiving interface, not an anycast address of ours, and for which
    we do not proxy (the interface does not forward, proxying is off, or
    there is no proxy entry for the target) gets no answer and changes
    nothing. *)
Theorem ndisc_recv_ns_not_ours (f : faults) (w : world) (skb : sk_buff) :
  ipv6_get_ifaddr w (nd_msg_target skb) (skb_dev skb) = None ->
  ipv6_chk_acast_addr w (skb_dev skb) (nd_msg_target skb) = false ->
  (forall idev, idevs w !! ifindex (skb_dev skb) = Some idev ->
     forwarding (cnf idev) = 0
     \/ (proxy_ndp (devconf_all w) = 0 /\ proxy_ndp (cnf idev) = 0)
     \/ __pneigh_lookup w (nd_msg_target skb) (skb_dev skb) = None) ->
  ndisc_recv_ns cfg f w skb = w.
Proof.
  intros Hifa Hac Hpx.
  assert (Ht : forall lladdr, ndisc_recv_ns_target f w skb lladdr = w).
  { intros lladdr. unfold ndisc_recv_ns_target. rewrite Hifa, Hac.
    destruct (idevs w !! _) as [idev|] eqn:Ei; [|reflexivity].
    cbn [negb orb andb].
    destruct (Hpx idev eq_refl) as [H|[[H1 H2]|H]].
    - rewrite H. reflexivity.
    - rewrite H1, H2. cbn. rewrite andb_false_r. reflexivity.
    - unfold pndisc_is_router. rewrite H.
      destruct (nonzero (forwarding (cnf idev)) && _); reflexivity. }
  unfold ndisc_recv_ns. repeat case_match; try reflexivity; apply Ht.
Qed.

(** X7.  A well-formed duplicate address detection probe (source ::,
    solicited-node destination, no source link-layer option) for an address
    of ours that is still tentative or optimistic makes our own detection
    fail, and is not answered: the one effect is the failure handed to the
    address configuration. *)
Theorem ndisc_recv_ns_dad_collision (f : faults) (w : world) (skb : sk_buff)
    (ndopts : ndisc_options) (ifp : inet6_ifaddr) (idev : inet6_dev) :
  sizeof_nd_msg <= skb_len skb ->
  ipv6_addr_is_multicast (nd_msg_target skb) = false ->
  ipv6_addr_any (ipv6_hdr_saddr skb) = true ->
  ipv6_addr_is_solict_mult (ipv6_hdr_daddr skb) = true ->
  ndisc_parse_options cfg (skb_data skb) (transport_header skb + sizeof_nd_msg)
    (to_int (to_u32 (skb_tail skb - (transport_header skb + sizeof_nd_msg))))
  = Some ndopts ->
  nd_opts_src_lladdr ndopts = None ->
  ipv6_get_ifaddr w (nd_msg_target skb) (skb_dev skb) = Some (ifp, idev) ->
  has_flag (ifa_flags ifp) (Z.lor IFA_F_TENTATIVE IFA_F_OPTIMISTIC) = true ->
  ndisc_recv_ns cfg f w skb = emit w (EvDadFailure (ifindex (skb_dev skb)) ifp)
  /\ emitted (ndisc_recv_ns cfg f w skb) = emitted w.
Proof.
  intros Hlen Ht Hdad Hsol Hp Hsl Hifa Hfl.
  assert (E : ndisc_recv_ns cfg f w skb
              = emit w (EvDadFailure (ifindex (skb_dev skb)) ifp)).
  { unfold ndisc_recv_ns.
    destruct (Z.ltb_spec (skb_len skb) sizeof_nd_msg); [lia|].
    rewrite Ht, Hdad, Hsol, Hp, Hsl. cbn [negb andb].
    unfold ndisc_recv_ns_target. rewrite Hifa, Hfl, Hdad. reflexivity. }
  split; [exact E|]. rewrite E. reflexivity.
Qed.

End ReceiveEffects.

Lemma ndisc_rcv_emits_only_for_ns_witness :
  emitted
    (ndisc_rcv Scenario.cfg (K := Scenario.reference) Scenario.no_faults
       (Scenario.host 1) (Scenario.ra_from Scenario.eth0 255 0 1 1800)).2
  = emitted (Scenario.host 1).
Proof.
  apply (ndisc_rcv_emits_only_for_ns Scenario.cfg (K := Scenario.reference)).
  vm_compute. discriminate.
Defined.

(** A router solicitation from [peer] received by the host, which does not
    forward. *)
Lemma ndisc_recv_rs_effect_witness :
  ndisc_recv_rs Scenario.cfg (K := Scenario.reference) Scenario.no_faults
    (Scenario.host 1)
    (Scenario.packet Scenario.eth0 255 Scenario.peer
       in6addr_linklocal_allnodes
       (Scenario.bytes [NDISC_ROUTER_SOLICITATION; 0; 0; 0; 0; 0; 0; 0]
        ++ Scenario.sllao Scenario.peer_mac))
  = Scenario.host 1.
Proof.
  apply (proj1 (proj2 (ndisc_recv_rs_effect Scenario.cfg
                         (K := Scenario.reference) Scenario.no_faults
                         (Scenario.host 1) _))).
  intros idev H. vm_compute in H. injection H as <-. reflexivity.
Defined.

(** A Redirect sent from a global address. *)
Lemma ndisc_redirect_rcv_effect_witness :
  ndisc_redirect_rcv Scenario.cfg (K := Scenario.reference) Scenario.no_faults
    (Scenario.host 1)
    (Scenario.packet Scenario.eth0 255 Scenario.tentative Scenario.our_lladdr
       (rd_msg_bytes NDISC_REDIRECT Scenario.peer Scenario.tentative))
  = Scenario.host 1.
Proof.
  apply (proj1 (proj2 (ndisc_redirect_rcv_effect Scenario.cfg
                         (K := Scenario.reference) Scenario.no_faults
                         (Scenario.host 1) _))).
  vm_compute. reflexivity.
Defined.

(** A solicitation from [peer] for the address of [router], which is not
    ours. *)
Lemma ndisc_recv_ns_not_ours_witness :
  ndisc_recv_ns Scenario.cfg (K := Scenario.reference) Scenario.no_faults
    (Scenario.host 1)
    (Scenario.ns_from Scenario.peer
       (addrconf_addr_solict_mult Scenario.router) Scenario.router
       (Scenario.sllao Scenario.peer_mac))
  = Scenario.host 1.
Proof.
  apply (ndisc_recv_ns_not_ours Scenario.cfg (K := Scenario.reference)).
  - vm_compute. reflexivity.
  - vm_compute. reflexivity.
  - intros idev H. left. vm_compute in H. injection H as <-. reflexivity.
Defined.

(** A probe from another node for the address the host is still testing. *)
Lemma ndisc_recv_ns_dad_collision_witness :
  ndisc_recv_ns Scenario.cfg (K := Scenario.reference) Scenario.no_faults
    (Scenario.host 1)
    (Scenario.ns_from 0 (addrconf_addr_solict_mult Scenario.tentative)
       Scenario.tentative [])
  = emit (Scenario.host 1)
      (EvDadFailure 2 {| ifa_addr := Scenario.tentative;
                         ifa_flags := IFA_F_TENTATIVE |}).
Proof.
  refine (proj1 (ndisc_recv_ns_dad_collision Scenario.cfg
                   (K := Scenario.reference)
                   Scenario.no_faults (Scenario.host 1)
                   (Scenario.ns_from 0
                      (addrconf_addr_solict_mult Scenario.tentative)
                      Scenario.tentative [])
                   ndopts_zero
                   {| ifa_addr := Scenario.tentative;
                      ifa_flags := IFA_F_TENTATIVE |}
                   (Scenario.host_idev 1) _ _ _ _ _ _ _ _)).
  - vm_compute. discriminate.
  - vm_compute. reflexivity.
  - vm_compute. reflexivity.
  - vm_compute. reflexivity.
  - vm_compute. reflexivity.
  - vm_compute. reflexivity.
  - vm_compute. reflexivity.
  - vm_compute. reflexivity.
Defined.

(** ** The packets the emitters build *)

Lemma skb_put_struct_fresh dev (room msg : list byte) :
  (length msg <= length room)%nat ->
  skb_put_struct {| tx_dev := dev; tx_data := []; tx_room := room;
                    tx_dst := false |} msg
  = {| tx_dev := dev; tx_data := msg;
       tx_room := drop (length msg) room; tx_dst := false |}.
Proof.
  intros H. unfold skb_put_struct, skb_put, set_tx_data.
  cbn [tx_data tx_room tx_dev tx_dst app length]. rewrite Nat2Z.id.
  change (Z.of_nat 0) with 0.
  pose proof (memcpy_app (length msg) [] (take (length msg) room) [] msg 0) as E.
  cbn [app] in E. rewrite !app_nil_r in E.
  rewrite E; [| lia | reflexivity | rewrite length_take; lia | lia].
  rewrite take_ge by lia. reflexivity.
Qed.

Section Wire2.
Context (cfg : kconfig) {K : Collaborators}.

Lemma ndisc_send_skb_wire f w skb daddr saddr :
  (4 <= length (tx_data skb))%nat ->
  negb (tx_dst skb) && icmp6_dst_alloc_fails f = false ->
  emitted (ndisc_send_skb f w skb daddr saddr)
  = nd_wire (tx_dev skb) (sk_hop_limit (ndisc_sk w)) saddr daddr (tx_data skb)
    :: emitted w.
Proof.
  intros Hl Hr. unfold ndisc_send_skb. rewrite Hr.
  assert (E : forall ck,
            memcpy (tx_data skb) 2 (be_bytes 2 ck) 2
            = take 2 (tx_data skb) ++ be_bytes 2 ck ++ drop 4 (tx_data skb)).
  { intros ck.
    rewrite <- (take_drop 2 (tx_data skb)) at 1.
    rewrite <- (take_drop 2 (drop 2 (tx_data skb))) at 1.
    rewrite drop_drop. change (2 + 2)%nat with 4%nat.
    rewrite memcpy_app; [reflexivity | lia | | | reflexivity].
    - rewrite length_take. lia.
    - rewrite length_take, length_drop. lia. }
  unfold emitted.
  destruct (output_err f); cbn [emit set_events events omap list_omap output_of];
    unfold nd_wire, ip6_nd_hdr, set_tx_data; cbn [tx_data tx_dev];
    rewrite E; reflexivity.
Qed.

Lemma length_nd_addr_option type pad data space :
  0 <= pad -> Z.of_nat (length data) + pad + 2 <= space ->
  Z.of_nat (length (nd_addr_option type pad data space)) = space.
Proof.
  intros Hp Hs. unfold nd_addr_option.
  rewrite !length_app, !length_replicate. cbn [length]. lia.
Qed.

(** What the three emitters have in common: a fresh buffer, the message put
    in it, the address option behind it when asked for, and the packet
    handed to [ndisc_send_skb]. *)
Lemma ndisc_emit_wire f w dev len (msg : list byte) (inc_opt : bool) type
    daddr saddr skb :
  ndisc_alloc_skb f dev len = Some skb ->
  icmp6_dst_alloc_fails f = false ->
  (4 <= length msg)%nat ->
  Z.of_nat (length msg) + (if inc_opt then ndisc_opt_addr_space dev else 0)
  <= len + needed_tailroom dev ->
  0 <= ndisc_addr_option_pad (dev_type dev) ->
  Z.of_nat (length (dev_addr dev)) = addr_len dev ->
  emitted
    (ndisc_send_skb f w
       (let skb := skb_put_struct skb msg in
        if inc_opt then ndisc_fill_addr_option skb type (dev_addr dev) else skb)
       daddr saddr)
  = nd_wire dev (sk_hop_limit (ndisc_sk w)) saddr daddr
      (msg ++ if inc_opt
              then nd_addr_option type (ndisc_addr_option_pad (dev_type dev))
                     (dev_addr dev) (ndisc_opt_addr_space dev)
              else [])
    :: emitted w.
Proof.
  unfold ndisc_alloc_skb. intros Ha Hd Hm Hroom Hpad Hdev.
  destruct (alloc_skb_fails f); [discriminate|]. injection Ha as <-.
  cbv zeta.
  assert (Hsp : 0 <= ndisc_opt_addr_space dev).
  { unfold ndisc_opt_addr_space.
    pose proof (NDISC_OPT_SPACE_bounds
                  (addr_len dev + ndisc_addr_option_pad (dev_type dev))).
    lia. }
  rewrite skb_put_struct_fresh
    by (rewrite length_map, length_seq; destruct inc_opt; lia).
  destruct inc_opt.
  - set (skb1 := {| tx_dev := dev; tx_data := msg;
                    tx_room := drop (length msg)
                                 (map (heap f)
                                    (seq 0 (Z.to_nat (len + needed_tailroom dev))));
                    tx_dst := false |}).
    assert (Hb : tx_data (ndisc_fill_addr_option skb1 type (dev_addr dev))
                 = msg ++ nd_addr_option type
                            (ndisc_addr_option_pad (dev_type dev))
                            (dev_addr dev) (ndisc_opt_addr_space dev)).
    { apply (ndisc_fill_addr_option_bytes skb1 type (dev_addr dev));
        [exact Hpad | exact Hdev |].
      cbn [skb1 tx_room tx_dev].
      rewrite length_drop, length_map, length_seq. lia. }
    assert (Hdv : tx_dev (ndisc_fill_addr_option skb1 type (dev_addr dev)) = dev)
      by reflexivity.
    assert (Hds : tx_dst (ndisc_fill_addr_option skb1 type (dev_addr dev)) = false)
      by reflexivity.
    rewrite ndisc_send_skb_wire.
    + rewrite Hdv, Hb. reflexivity.
    + rewrite Hb, length_app. lia.
    + rewrite Hds, Hd. reflexivity.
  - rewrite ndisc_send_skb_wire; cbn [tx_data tx_dev tx_dst];
      [rewrite app_nil_r; reflexivity | exact Hm | rewrite Hd; reflexivity].
Qed.

(** The neighbour solicitation as it leaves. *)
Lemma ndisc_send_ns_sent (f : faults) (w : world) (dev : net_device)
    (solicit daddr : in6_addr) (saddr : option in6_addr) (src : in6_addr) :
  alloc_skb_fails f = false ->
  icmp6_dst_alloc_fails f = false ->
  0 <= needed_tailroom dev ->
  0 <= ndisc_addr_option_pad (dev_type dev) ->
  Z.of_nat (length (dev_addr dev)) = addr_len dev ->
  match saddr with
  | Some a => Some a
  | None => ipv6_get_lladdr w dev (Z.lor IFA_F_TENTATIVE IFA_F_OPTIMISTIC)
  end = Some src ->
  emitted (ndisc_send_ns f w dev solicit daddr saddr)
  = nd_wire dev (sk_hop_limit (ndisc_sk w)) src daddr
      (nd_msg_bytes NDISC_NEIGHBOUR_SOLICITATION false false false solicit
       ++ if negb (ipv6_addr_any src) && nonzero (addr_len dev)
          then nd_addr_option ND_OPT_SOURCE_LL_ADDR
                 (ndisc_addr_option_pad (dev_type dev)) (dev_addr dev)
                 (ndisc_opt_addr_space dev)
          else [])
    :: emitted w.
Proof.
  intros Ha Hd Ht Hpad Hdev Hsrc. unfold ndisc_send_ns. rewrite Hsrc.
  replace (if ipv6_addr_any src then false else nonzero (addr_len dev))
    with (negb (ipv6_addr_any src) && nonzero (addr_len dev))
    by (destruct (ipv6_addr_any src); reflexivity).
  destruct (ndisc_alloc_skb f dev _) as [skb|] eqn:Ea;
    [|unfold ndisc_alloc_skb in Ea; rewrite Ha in Ea; discriminate].
  apply (ndisc_emit_wire f w dev _ _ _ _ daddr src skb Ea Hd);
    [cbn; lia | | exact Hpad | exact Hdev].
  change (Z.of_nat (length (nd_msg_bytes NDISC_NEIGHBOUR_SOLICITATION false
                              false false solicit))) with 24.
  unfold sizeof_nd_msg. lia.
Qed.

(** X8.  The neighbour solicitation that leaves, when there is a buffer
    and a route: the IPv6 header from the chosen source to the destination
    asked for with the hop limit of the control socket, the message with the
    address solicited as its target, and behind it the source link-layer
    address option, which is there exactly when the source is not the
    unspecified address and the interface has link-layer addresses.  A
    duplicate address detection probe therefore never carries the option. *)
Theorem ndisc_send_ns_wire (f : faults) (w : world) (dev : net_device)
    (solicit daddr : in6_addr) (saddr : option in6_addr) (src : in6_addr) :
  alloc_skb_fails f = false ->
  icmp6_dst_alloc_fails f = false ->
  0 <= needed_tailroom dev ->
  0 <= ndisc_addr_option_pad (dev_type dev) ->
  Z.of_nat (length (dev_addr dev)) = addr_len dev ->
  match saddr with
  | Some a => Some a
  | None => ipv6_get_lladdr w dev (Z.lor IFA_F_TENTATIVE IFA_F_OPTIMISTIC)
  end = Some src ->
  emitted (ndisc_send_ns f w dev solicit daddr saddr)
  = nd_wire dev (sk_hop_limit (ndisc_sk w)) src daddr
      (nd_msg_bytes NDISC_NEIGHBOUR_SOLICITATION false false false solicit
       ++ if negb (ipv6_addr_any src) && nonzero (addr_len dev)
          then nd_addr_option ND_OPT_SOURCE_LL_ADDR
                 (ndisc_addr_option_pad (dev_type dev)) (dev_addr dev)
                 (ndisc_opt_addr_space dev)
          else [])
    :: emitted w.
Proof.
  exact (ndisc_send_ns_sent f w dev solicit daddr saddr src).
Qed.

(** The neighbour advertisement sent for an address of the interface, as it
    leaves. *)
Lemma ndisc_send_na_own_wire (f : faults) (w : world) (dev : net_device)
    (daddr solicited_addr : in6_addr) (router solicited override inc_opt : bool)
    (ifp : inet6_ifaddr) (idev : inet6_dev) :
  alloc_skb_fails f = false ->
  icmp6_dst_alloc_fails f = false ->
  0 <= needed_tailroom dev ->
  0 <= ndisc_addr_option_pad (dev_type dev) ->
  Z.of_nat (length (dev_addr dev)) = addr_len dev ->
  ipv6_get_ifaddr w solicited_addr dev = Some (ifp, idev) ->
  emitted (ndisc_send_na f w dev daddr solicited_addr router solicited override
             inc_opt)
  = nd_wire dev (sk_hop_limit (ndisc_sk w)) solicited_addr daddr
      (nd_msg_bytes NDISC_NEIGHBOUR_ADVERTISEMENT router solicited
         (override && negb (has_flag (ifa_flags ifp) IFA_F_OPTIMISTIC))
         solicited_addr
       ++ if (inc_opt || nonzero (force_tllao (cnf idev)))
             && nonzero (addr_len dev)
          then nd_addr_option ND_OPT_TARGET_LL_ADDR
                 (ndisc_addr_option_pad (dev_type dev)) (dev_addr dev)
                 (ndisc_opt_addr_space dev)
          else [])
    :: emitted w.
Proof.
  intros Ha Hd Ht Hpad Hdev Hifa. unfold ndisc_send_na. rewrite Hifa.
  replace (if has_flag (ifa_flags ifp) IFA_F_OPTIMISTIC then false else override)
    with (override && negb (has_flag (ifa_flags ifp) IFA_F_OPTIMISTIC))
    by (destruct (has_flag _ _), override; reflexivity).
  replace (if addr_len dev =? 0 then false
           else inc_opt || nonzero (force_tllao (cnf idev)))
    with ((inc_opt || nonzero (force_tllao (cnf idev)))
          && nonzero (addr_len dev))
    by (unfold nonzero at 2; destruct (addr_len dev =? 0);
        [apply andb_false_r | apply andb_true_r]).
  destruct (ndisc_alloc_skb f dev _) as [skb|] eqn:Ea;
    [|unfold ndisc_alloc_skb in Ea; rewrite Ha in Ea; discriminate].
  apply (ndisc_emit_wire f w dev _ _ _ _ daddr solicited_addr skb Ea Hd);
    [cbn; lia | | exact Hpad | exact Hdev].
  match goal with
  | |- Z.of_nat (length (nd_msg_bytes ?t ?r ?s ?o ?a)) + _ <= _ =>
      change (Z.of_nat (length (nd_msg_bytes t r s o a))) with 24
  end.
  unfold sizeof_nd_msg. lia.
Qed.

(** X9.  The neighbour advertisement that leaves for an address of the
    interface: it comes from that address, carries it as its target, has the
    router and solicited flags asked for, and the override flag asked for
    unless the address is optimistic, in which case the flag is clear; the
    target link-layer address option is there when the caller asks for it or
    [force_tllao] is set, and the interface has link-layer addresses. *)
Theorem ndisc_send_na_wire (f : faults) (w : world) (dev : net_device)
    (daddr solicited_addr : in6_addr) (router solicited override inc_opt : bool)
    (ifp : inet6_ifaddr) (idev : inet6_dev) :
  alloc_skb_fails f = false ->
  icmp6_dst_alloc_fails f = false ->
  0 <= needed_tailroom dev ->
  0 <= ndisc_addr_option_pad (dev_type dev) ->
  Z.of_nat (length (dev_addr dev)) = addr_len dev ->
  ipv6_get_ifaddr w solicited_addr dev = Some (ifp, idev) ->
  emitted (ndisc_send_na f w dev daddr solicited_addr router solicited override
             inc_opt)
  = nd_wire dev (sk_hop_limit (ndisc_sk w)) solicited_addr daddr
      (nd_msg_bytes NDISC_NEIGHBOUR_ADVERTISEMENT router solicited
         (override && negb (has_flag (ifa_flags ifp) IFA_F_OPTIMISTIC))
         solicited_addr
       ++ if (inc_opt || nonzero (force_tllao (cnf idev)))
             && nonzero (addr_len dev)
          then nd_addr_option ND_OPT_TARGET_LL_ADDR
                 (ndisc_addr_option_pad (dev_type dev)) (dev_addr dev)
                 (ndisc_opt_addr_space dev)
          else [])
    :: emitted w.
Proof.
  intros Ha Hd Ht Hpad Hdev Hifa.
  exact (ndisc_send_na_own_wire f w dev daddr solicited_addr router solicited
           override inc_opt ifp idev Ha Hd Ht Hpad Hdev Hifa).
Qed.

(** X10.  The router solicitation that leaves: eight bytes of message
    and, behind them, the source link-layer address option when the
    interface has link-layer addresses and, in a kernel built with
    optimistic DAD, the source is an address of the interface that is not
    optimistic. *)
Theorem ndisc_send_rs_wire (f : faults) (w : world) (dev : net_device)
    (saddr daddr : in6_addr) :
  alloc_skb_fails f = false ->
  icmp6_dst_alloc_fails f = false ->
  0 <= needed_tailroom dev ->
  0 <= ndisc_addr_option_pad (dev_type dev) ->
  Z.of_nat (length (dev_addr dev)) = addr_len dev ->
  emitted (ndisc_send_rs cfg f w dev saddr daddr)
  = nd_wire dev (sk_hop_limit (ndisc_sk w)) saddr daddr
      (rs_msg_bytes NDISC_ROUTER_SOLICITATION
       ++ if nonzero (addr_len dev)
             && (negb (CONFIG_IPV6_OPTIMISTIC_DAD cfg)
                 || match ipv6_get_ifaddr w saddr dev with
                    | Some (ifp, _) =>
                        negb (has_flag (ifa_flags ifp) IFA_F_OPTIMISTIC)
                    | None => false
                    end)
          then nd_addr_option ND_OPT_SOURCE_LL_ADDR
                 (ndisc_addr_option_pad (dev_type dev)) (dev_addr dev)
                 (ndisc_opt_addr_space dev)
          else [])
    :: emitted w.
Proof.
  intros Ha Hd Ht Hpad Hdev. unfold ndisc_send_rs.
  match goal with
  | |- context [ndisc_alloc_skb f dev (sizeof_rs_msg + (if ?b then _ else _))] =>
      replace b
        with (nonzero (addr_len dev)
              && (negb (CONFIG_IPV6_OPTIMISTIC_DAD cfg)
                  || match ipv6_get_ifaddr w saddr dev with
                     | Some (ifp, _) =>
                         negb (has_flag (ifa_flags ifp) IFA_F_OPTIMISTIC)
                     | None => false
                     end))
  end.
  2:{ destruct (CONFIG_IPV6_OPTIMISTIC_DAD cfg), (nonzero (addr_len dev));
        cbn [andb orb negb]; reflexivity. }
  destruct (ndisc_alloc_skb f dev _) as [skb|] eqn:Ea;
    [|unfold ndisc_alloc_skb in Ea; rewrite Ha in Ea; discriminate].
  apply (ndisc_emit_wire f w dev _ _ _ _ daddr saddr skb Ea Hd);
    [cbn; lia | | exact Hpad | exact Hdev].
  change (Z.of_nat (length (rs_msg_bytes NDISC_ROUTER_SOLICITATION))) with 8.
  unfold sizeof_rs_msg. lia.
Qed.

(** The accessors of the receive path on a packet laid out as [nd_wire]
    lays it out, for a message of the neighbour solicitation and
    advertisement layout. *)
Lemma nd_wire_fields (dev : net_device) (hop : Z) (saddr daddr : in6_addr)
    (type : Z) (router solicited override : bool) (target : in6_addr)
    (opts : list byte) :
  let pkt := nd_wire dev hop saddr daddr
               (nd_msg_bytes type router solicited override target ++ opts) in
  ipv6_hdr_hop_limit pkt = hop mod 256
  /\ ipv6_hdr_saddr pkt = saddr mod 2 ^ 128
  /\ ipv6_hdr_daddr pkt = daddr mod 2 ^ 128
  /\ icmp6_type pkt = type mod 256
  /\ icmp6_code pkt = 0
  /\ icmp6_router pkt = router
  /\ icmp6_solicited pkt = solicited
  /\ icmp6_override pkt = override
  /\ nd_msg_target pkt = target mod 2 ^ 128
  /\ skb_len pkt = sizeof_nd_msg + Z.of_nat (length opts)
  /\ load_bytes (skb_data pkt) (transport_header pkt + sizeof_nd_msg)
       (length opts) = opts.
Proof.
  cbv zeta. repeat split.
  - exact (u8_to_byte hop).
  - exact (be_value_be_bytes 16 saddr).
  - exact (be_value_be_bytes 16 daddr).
  - exact (u8_to_byte type).
  - destruct router, solicited, override; reflexivity.
  - destruct router, solicited, override; reflexivity.
  - destruct router, solicited, override; reflexivity.
  - exact (be_value_be_bytes 16 target).
  - unfold skb_len, skb_tail, nd_wire, nd_msg_bytes, sizeof_nd_msg.
    cbn [skb_data transport_header be_bytes app take drop length].
    unfold sizeof_ipv6hdr. lia.
  - unfold nd_wire, nd_msg_bytes, load_bytes, sizeof_nd_msg.
    cbn [skb_data transport_header be_bytes app take drop].
    change (Z.to_nat (sizeof_ipv6hdr + 24)) with 64%nat. cbn [drop].
    rewrite drop_0. apply take_ge. lia.
Qed.

Lemma ndisc_send_na_frame f w dev daddr solicited_addr router solicited
    override inc_opt :
  idevs (ndisc_send_na f w dev daddr solicited_addr router solicited override
           inc_opt) = idevs w
  /\ ndisc_sk (ndisc_send_na f w dev daddr solicited_addr router solicited
                 override inc_opt) = ndisc_sk w.
Proof.
  unfold ndisc_send_na, ndisc_send_skb.
  repeat case_match; split; reflexivity.
Qed.

Lemma find_NoDup_addr (l : list inet6_ifaddr) (ifa : inet6_ifaddr) :
  NoDup (map ifa_addr l) -> ifa ∈ l ->
  find (fun a => ifa_addr a =? ifa_addr ifa) l = Some ifa.
Proof.
  induction l as [|x l IH]; intros Hnd Hin.
  - apply elem_of_nil in Hin. destruct Hin.
  - cbn [map] in Hnd. apply NoDup_cons in Hnd. destruct Hnd as [Hx Hnd].
    cbn [find]. apply elem_of_cons in Hin. destruct Hin as [->|Hin].
    + rewrite Z.eqb_refl. reflexivity.
    + destruct (Z.eqb_spec (ifa_addr x) (ifa_addr ifa)) as [E|E].
      * exfalso. apply Hx. rewrite E. apply list_elem_of_fmap_2. exact Hin.
      * apply IH; assumption.
Qed.

Lemma ndisc_send_unsol_na_fold (f : faults) (w0 : world) (dev : net_device)
    (idev : inet6_dev) :
  alloc_skb_fails f = false ->
  icmp6_dst_alloc_fails f = false ->
  0 <= needed_tailroom dev ->
  0 <= ndisc_addr_option_pad (dev_type dev) ->
  Z.of_nat (length (dev_addr dev)) = addr_len dev ->
  idevs w0 !! ifindex dev = Some idev ->
  NoDup (map ifa_addr (addr_list idev)) ->
  forall l w1,
    idevs w1 = idevs w0 -> ndisc_sk w1 = ndisc_sk w0 ->
    (forall x, x ∈ l -> x ∈ addr_list idev) ->
    emitted
      (fold_left
         (fun w ifa =>
            ndisc_send_na f w dev in6addr_linklocal_allnodes (ifa_addr ifa)
              (nonzero (forwarding (cnf idev))) false true true)
         l w1)
    = rev (map
             (fun ifa =>
                nd_wire dev (sk_hop_limit (ndisc_sk w0)) (ifa_addr ifa)
                  in6addr_linklocal_allnodes
                  (nd_msg_bytes NDISC_NEIGHBOUR_ADVERTISEMENT
                     (nonzero (forwarding (cnf idev))) false
                     (negb (has_flag (ifa_flags ifa) IFA_F_OPTIMISTIC))
                     (ifa_addr ifa)
                   ++ if nonzero (addr_len dev)
                      then nd_addr_option ND_OPT_TARGET_LL_ADDR
                             (ndisc_addr_option_pad (dev_type dev))
                             (dev_addr dev) (ndisc_opt_addr_space dev)
                      else []))
             l)
      ++ emitted w1.
Proof.
  intros Ha Hd Ht Hpad Hdev Hi Hnd.
  induction l as [|ifa l IH]; intros w1 Hw1 Hw2 Hall; [reflexivity|].
  cbn [fold_left map rev].
  pose proof (ndisc_send_na_frame f w1 dev in6addr_linklocal_allnodes
                (ifa_addr ifa) (nonzero (forwarding (cnf idev))) false true
                true) as [Hf1 Hf2].
  rewrite IH.
  - rewrite <- app_assoc. cbn [app]. f_equal.
    rewrite (ndisc_send_na_own_wire f w1 dev _ _ _ _ _ _ ifa idev Ha Hd Ht Hpad Hdev).
    + rewrite Hw2. cbn [andb orb]. reflexivity.
    + unfold ipv6_get_ifaddr. rewrite Hw1, Hi.
      rewrite (find_NoDup_addr _ ifa Hnd); [reflexivity|].
      apply Hall. apply elem_of_cons. left. reflexivity.
  - rewrite Hf1. exact Hw1.
  - rewrite Hf2. exact Hw2.
  - intros x Hx. apply Hall. apply elem_of_cons. right. exact Hx.
Qed.

(** X12.  An unsolicited announcement sends one neighbour advertisement
    for each address of the interface, in the order of its address list,
    each to the all-nodes multicast address, unsolicited, with the override
    flag set unless the address is optimistic, the router flag set when the
    interface forwards, and the target link-layer address option when the
    interface has link-layer addresses. *)
Theorem ndisc_send_unsol_na_wire (f : faults) (w : world) (dev : net_device)
    (idev : inet6_dev) :
  alloc_skb_fails f = false ->
  icmp6_dst_alloc_fails f = false ->
  0 <= needed_tailroom dev ->
  0 <= ndisc_addr_option_pad (dev_type dev) ->
  Z.of_nat (length (dev_addr dev)) = addr_len dev ->
  idevs w !! ifindex dev = Some idev ->
  NoDup (map ifa_addr (addr_list idev)) ->
  emitted (ndisc_send_unsol_na f w dev)
  = rev (map
           (fun ifa =>
              nd_wire dev (sk_hop_limit (ndisc_sk w)) (ifa_addr ifa)
                in6addr_linklocal_allnodes
                (nd_msg_bytes NDISC_NEIGHBOUR_ADVERTISEMENT
                   (nonzero (forwarding (cnf idev))) false
                   (negb (has_flag (ifa_flags ifa) IFA_F_OPTIMISTIC))
                   (ifa_addr ifa)
                 ++ if nonzero (addr_len dev)
                    then nd_addr_option ND_OPT_TARGET_LL_ADDR
                           (ndisc_addr_option_pad (dev_type dev))
                           (dev_addr dev) (ndisc_opt_addr_space dev)
                    else []))
           (addr_list idev))
    ++ emitted w.
Proof.
  intros Ha Hd Ht Hpad Hdev Hi Hnd. unfold ndisc_send_unsol_na. rewrite Hi.
  apply (ndisc_send_unsol_na_fold f w dev idev Ha Hd Ht Hpad Hdev Hi Hnd);
    auto.
Qed.

End Wire2.

(** The host soliciting [peer] from its own link-local address. *)
Lemma ndisc_send_ns_wire_witness :
  emitted
    (ndisc_send_ns (K := Scenario.reference) Scenario.no_faults
       (Scenario.host 1) Scenario.eth0 Scenario.peer
       (addrconf_addr_solict_mult Scenario.peer) None)
  = [nd_wire (K := Scenario.reference) Scenario.eth0 255 Scenario.our_lladdr
       (addrconf_addr_solict_mult Scenario.peer)
       (nd_msg_bytes NDISC_NEIGHBOUR_SOLICITATION false false false
          Scenario.peer
        ++ nd_addr_option ND_OPT_SOURCE_LL_ADDR 0
             (dev_addr Scenario.eth0) 8)].
Proof.
  apply (ndisc_send_ns_wire (K := Scenario.reference) Scenario.no_faults
           (Scenario.host 1) Scenario.eth0 Scenario.peer
           (addrconf_addr_solict_mult Scenario.peer) None Scenario.our_lladdr).
  - reflexivity.
  - reflexivity.
  - vm_compute. discriminate.
  - vm_compute. discriminate.
  - reflexivity.
  - vm_compute. reflexivity.
Defined.

(** The host answering [peer] for its own address. *)
Lemma ndisc_send_na_wire_witness :
  emitted
    (ndisc_send_na (K := Scenario.reference) Scenario.no_faults
       (Scenario.host 1) Scenario.eth0 Scenario.peer Scenario.our_lladdr
       false true true true)
  = [nd_wire (K := Scenario.reference) Scenario.eth0 255 Scenario.our_lladdr
       Scenario.peer
       (nd_msg_bytes NDISC_NEIGHBOUR_ADVERTISEMENT false true true
          Scenario.our_lladdr
        ++ nd_addr_option ND_OPT_TARGET_LL_ADDR 0
             (dev_addr Scenario.eth0) 8)].
Proof.
  apply (ndisc_send_na_wire (K := Scenario.reference) Scenario.no_faults
           (Scenario.host 1) Scenario.eth0 Scenario.peer Scenario.our_lladdr
           false true true true
           {| ifa_addr := Scenario.our_lladdr; ifa_flags := 0 |}
           (Scenario.host_idev 1)).
  - reflexivity.
  - reflexivity.
  - vm_compute. discriminate.
  - vm_compute. discriminate.
  - reflexivity.
  - vm_compute. reflexivity.
Defined.

(** The host soliciting routers from its link-local address. *)
Lemma ndisc_send_rs_wire_witness :
  emitted
    (ndisc_send_rs Scenario.cfg (K := Scenario.reference) Scenario.no_faults
       (Scenario.host 1) Scenario.eth0 Scenario.our_lladdr
       0xff020000000000000000000000000002)
  = [nd_wire (K := Scenario.reference) Scenario.eth0 255 Scenario.our_lladdr
       0xff020000000000000000000000000002
       (rs_msg_bytes NDISC_ROUTER_SOLICITATION
        ++ nd_addr_option ND_OPT_SOURCE_LL_ADDR 0
             (dev_addr Scenario.eth0) 8)].
Proof.
  apply (ndisc_send_rs_wire Scenario.cfg (K := Scenario.reference)
           Scenario.no_faults (Scenario.host 1) Scenario.eth0
           Scenario.our_lladdr 0xff020000000000000000000000000002).
  - reflexivity.
  - reflexivity.
  - vm_compute. discriminate.
  - vm_compute. discriminate.
  - reflexivity.
Defined.

(** The host announcing its two addresses on eth0. *)
Lemma ndisc_send_unsol_na_wire_witness :
  length
    (emitted
       (ndisc_send_unsol_na (K := Scenario.reference) Scenario.no_faults
          (Scenario.host 1) Scenario.eth0))
  = 2%nat.
Proof.
  rewrite (ndisc_send_unsol_na_wire (K := Scenario.reference)
             Scenario.no_faults (Scenario.host 1) Scenario.eth0
             (Scenario.host_idev 1)).
  - reflexivity.
  - reflexivity.
  - reflexivity.
  - vm_compute. discriminate.
  - vm_compute. discriminate.
  - reflexivity.
  - vm_compute. reflexivity.
  - simpl. apply NoDup_cons. split; [|apply NoDup_singleton].
    intros H. apply list_elem_of_singleton in H. discriminate H.
Defined.

(** ** Redirects *)

Lemma land_lnot_7 m : Z.land m (Z.lnot 7) = 8 * (m / 8).
Proof.
  rewrite <- Z.ldiff_land. change 7 with (Z.ones 3).
  rewrite Z.ldiff_ones_r by lia.
  rewrite Z.shiftl_mul_pow2, Z.shiftr_div_pow2 by lia.
  change (2 ^ 3) with 8. lia.
Qed.

Lemma rd_len_bounds optlen tail :
  0 <= optlen <= 1200 ->
  let rd_len :=
    Z.land (to_int (Z.min (to_u32 (IPV6_MIN_MTU - sizeof_ipv6hdr - sizeof_rd_msg
                                   - optlen))
                          (to_u32 (tail + 8))))
      (Z.lnot 7) in
  0 <= rd_len <= IPV6_MIN_MTU - sizeof_ipv6hdr - sizeof_rd_msg - optlen
  /\ rd_len <= to_u32 (tail + 8)
  /\ rd_len mod 8 = 0.
Proof.
  intros Ho. cbv zeta. rewrite land_lnot_7.
  unfold IPV6_MIN_MTU, sizeof_ipv6hdr, sizeof_rd_msg, to_u32.
  rewrite (Z.mod_small (1280 - 40 - 40 - optlen)) by lia.
  pose proof (Z.mod_pos_bound (tail + 8) 4294967296 ltac:(lia)) as Hb.
  set (m := Z.min (1280 - 40 - 40 - optlen) ((tail + 8) mod 4294967296)).
  assert (Hm : 0 <= m <= 1200 - optlen /\ m <= (tail + 8) mod 4294967296)
    by (subst m; lia).
  assert (Ei : to_int m = m).
  { unfold to_int. rewrite Z.mod_small by lia. lia. }
  rewrite Ei.
  pose proof (Z.div_mod m 8 ltac:(lia)) as Hd.
  pose proof (Z.mod_pos_bound m 8 ltac:(lia)) as Hr.
  repeat split; try lia.
  rewrite Z.mul_comm. apply Z.mod_mul. lia.
Qed.

Lemma skb_put_data_length skb n :
  (length (tx_data (skb_put skb n).2) <= length (tx_data skb) + Z.to_nat n)%nat.
Proof.
  cbn [skb_put snd tx_data]. rewrite length_app, length_take. lia.
Qed.

Lemma skb_put_struct_length skb msg :
  (length (tx_data (skb_put_struct skb msg))
   <= length (tx_data skb) + length msg)%nat.
Proof.
  unfold skb_put_struct.
  pose proof (skb_put_data_length skb (Z.of_nat (length msg))) as H.
  destruct (skb_put skb (Z.of_nat (length msg))) as [p skb1].
  cbn [snd] in H. cbn [set_tx_data tx_data].
  rewrite memcpy_length. lia.
Qed.

Section Redirect.
Context (cfg : kconfig) {K : Collaborators}.

Lemma ndisc_fill_addr_option_length skb type data :
  (length (tx_data (ndisc_fill_addr_option skb type data))
   <= length (tx_data skb) + Z.to_nat (ndisc_opt_addr_space (tx_dev skb)))%nat.
Proof.
  unfold ndisc_fill_addr_option.
  pose proof (skb_put_data_length skb (ndisc_opt_addr_space (tx_dev skb))) as H.
  destruct (skb_put skb (ndisc_opt_addr_space (tx_dev skb))) as [p skb1].
  cbn [snd] in H. cbn [set_tx_data tx_data].
  destruct (0 <? _);
    rewrite ?memset_length, memcpy_length, memset_length, !store8_length; lia.
Qed.

Lemma ndisc_fill_redirect_hdr_option_length skb orig rd_len :
  (length (tx_data (ndisc_fill_redirect_hdr_option skb orig rd_len))
   <= length (tx_data skb) + Z.to_nat rd_len)%nat.
Proof.
  unfold ndisc_fill_redirect_hdr_option.
  pose proof (skb_put_data_length skb rd_len) as H.
  destruct (skb_put skb rd_len) as [p skb1].
  cbn [snd] in H. cbn [set_tx_data tx_data].
  rewrite memcpy_length, !store8_length, memset_length. lia.
Qed.

Lemma ndisc_fill_addr_option_dev skb type data :
  tx_dev (ndisc_fill_addr_option skb type data) = tx_dev skb.
Proof. reflexivity. Qed.

Lemma skb_put_struct_dev skb msg : tx_dev (skb_put_struct skb msg) = tx_dev skb.
Proof. reflexivity. Qed.

Lemma ndisc_send_skb_sized f w skb daddr saddr :
  negb (tx_dst skb) && icmp6_dst_alloc_fails f = false ->
  exists pkt,
    emitted (ndisc_send_skb f w skb daddr saddr) = pkt :: emitted w
    /\ skb_tail pkt = sizeof_ipv6hdr + Z.of_nat (length (tx_data skb))
    /\ ipv6_hdr_saddr pkt = saddr mod 2 ^ 128
    /\ ipv6_hdr_daddr pkt = daddr mod 2 ^ 128.
Proof.
  intros Hr. unfold ndisc_send_skb. rewrite Hr.
  eexists. split; [destruct (output_err f); reflexivity|].
  split; [|split].
  - unfold skb_tail, ip6_nd_hdr, set_tx_data.
    cbn [skb_data tx_data be_bytes app length].
    rewrite memcpy_length. unfold sizeof_ipv6hdr. lia.
  - exact (be_value_be_bytes 16 saddr).
  - exact (be_value_be_bytes 16 daddr).
Qed.

(** A Redirect is one packet at most; it goes to the source of the packet
    that caused it, and it never exceeds the minimum IPv6 MTU of 1280
    bytes. *)
Lemma ndisc_send_redirect_bounded (f : faults) (w : world)
    (skb : sk_buff) (target : in6_addr) :
  0 <= ndisc_opt_addr_space (skb_dev skb) <= 1200 ->
  emitted (ndisc_send_redirect f w skb target) = emitted w
  \/ exists pkt,
       emitted (ndisc_send_redirect f w skb target) = pkt :: emitted w
       /\ skb_tail pkt <= IPV6_MIN_MTU
       /\ ipv6_hdr_daddr pkt = ipv6_hdr_saddr skb mod 2 ^ 128.
Proof.
  intros Hsp. unfold ndisc_send_redirect.
  destruct (ipv6_get_lladdr w (skb_dev skb) IFA_F_TENTATIVE) as [i|];
    [|left; reflexivity].
  destruct (_ && _); [left; reflexivity|].
  destruct (route_output_fails f); [left; reflexivity|].
  destruct (xfrm_lookup_fails f); [left; reflexivity|].
  destruct (rt_is_gateway f); [left; reflexivity|].
  destruct (negb (xrlim_allow f)); [left; reflexivity|].
  pose proof (neigh_lookup_create_events f w target (skb_dev skb) true) as Hn.
  unfold dst_neigh_lookup.
  destruct (__neigh_lookup f w target (skb_dev skb) true) as [w1 neigh].
  cbn [fst] in Hn. apply emitted_ext in Hn.
  assert (Hsend : forall w2 (ha : option (list byte)) optlen,
            emitted w2 = emitted w ->
            optlen = 0 \/ (optlen = ndisc_opt_addr_space (skb_dev skb)) ->
            (ha = None \/ optlen = ndisc_opt_addr_space (skb_dev skb)) ->
            forall buff,
              ndisc_alloc_skb f (skb_dev skb)
                (sizeof_rd_msg
                 + (optlen
                    + Z.land
                        (to_int
                           (Z.min
                              (to_u32 (IPV6_MIN_MTU - sizeof_ipv6hdr
                                       - sizeof_rd_msg - optlen))
                              (to_u32 (skb_tail skb + 8))))
                        (Z.lnot 7))) = Some buff ->
              exists pkt,
                emitted
                  (ndisc_send_skb f w2
                     (skb_dst_set
                        (if nonzero
                              (Z.land
                                 (to_int
                                    (Z.min
                                       (to_u32 (IPV6_MIN_MTU - sizeof_ipv6hdr
                                                - sizeof_rd_msg - optlen))
                                       (to_u32 (skb_tail skb + 8))))
                                 (Z.lnot 7))
                         then
                           ndisc_fill_redirect_hdr_option
                             match ha with
                             | Some ha0 =>
                                 ndisc_fill_addr_option
                                   (skb_put_struct buff
                                      (rd_msg_bytes NDISC_REDIRECT target
                                         (ipv6_hdr_daddr skb)))
                                   ND_OPT_TARGET_LL_ADDR ha0
                             | None =>
                                 skb_put_struct buff
                                   (rd_msg_bytes NDISC_REDIRECT target
                                      (ipv6_hdr_daddr skb))
                             end skb
                             (Z.land
                                (to_int
                                   (Z.min
                                      (to_u32 (IPV6_MIN_MTU - sizeof_ipv6hdr
                                               - sizeof_rd_msg - optlen))
                                      (to_u32 (skb_tail skb + 8))))
                                (Z.lnot 7))
                         else
                           match ha with
                           | Some ha0 =>
                               ndisc_fill_addr_option
                                 (skb_put_struct buff
                                    (rd_msg_bytes NDISC_REDIRECT target
                                       (ipv6_hdr_daddr skb)))
                                 ND_OPT_TARGET_LL_ADDR ha0
                           | None =>
                               skb_put_struct buff
                                 (rd_msg_bytes NDISC_REDIRECT target
                                    (ipv6_hdr_daddr skb))
                           end))
                     (ipv6_hdr_saddr skb) i)
                = pkt :: emitted w
                /\ skb_tail pkt <= IPV6_MIN_MTU
                /\ ipv6_hdr_daddr pkt = ipv6_hdr_saddr skb mod 2 ^ 128).
  { intros w2 ha optlen Hw2 Ho Hha buff Ea.
    assert (Hbuff : tx_data buff = [] /\ tx_dev buff = skb_dev skb).
    { unfold ndisc_alloc_skb in Ea. destruct (alloc_skb_fails f);
        [discriminate|]. injection Ea as <-. split; reflexivity. }
    destruct Hbuff as [Hb0 Hbd].
    assert (Hol : 0 <= optlen <= 1200) by (destruct Ho; lia).
    pose proof (rd_len_bounds optlen (skb_tail skb) Hol) as Hrd.
    cbv zeta in Hrd.
    set (rd_len := Z.land _ (Z.lnot 7)) in *.
    destruct Hrd as (Hrd1 & _ & _).
    set (msg := rd_msg_bytes NDISC_REDIRECT target (ipv6_hdr_daddr skb)).
    assert (Hmsg : length msg = 40%nat) by reflexivity.
    pose proof (skb_put_struct_length buff msg) as H1.
    rewrite Hb0, Hmsg in H1. cbn [length] in H1.
    set (b1 := match ha with
               | Some ha0 =>
                   ndisc_fill_addr_option (skb_put_struct buff msg)
                     ND_OPT_TARGET_LL_ADDR ha0
               | None => skb_put_struct buff msg
               end).
    assert (H2 : (length (tx_data b1) <= 40 + Z.to_nat optlen)%nat).
    { subst b1. destruct ha as [ha0|]; [|lia].
      pose proof (ndisc_fill_addr_option_length (skb_put_struct buff msg)
                    ND_OPT_TARGET_LL_ADDR ha0) as H.
      rewrite skb_put_struct_dev, Hbd in H.
      destruct Hha as [Hha|Hha]; [discriminate|]. rewrite Hha. lia. }
    set (b2 := if nonzero rd_len
               then ndisc_fill_redirect_hdr_option b1 skb rd_len else b1).
    assert (H3 : (length (tx_data b2) <= 40 + Z.to_nat optlen + Z.to_nat rd_len)%nat).
    { subst b2. destruct (nonzero rd_len); [|lia].
      pose proof (ndisc_fill_redirect_hdr_option_length b1 skb rd_len). lia. }
    destruct (ndisc_send_skb_sized f w2 (skb_dst_set b2) (ipv6_hdr_saddr skb) i)
      as (pkt & E & Hsz & _ & Hda); [reflexivity|].
    exists pkt. rewrite E, Hw2. split; [reflexivity|]. split; [|exact Hda].
    rewrite Hsz. change (tx_data (skb_dst_set b2)) with (tx_data b2).
    unfold IPV6_MIN_MTU, sizeof_ipv6hdr, sizeof_rd_msg in *. lia. }
  destruct (nonzero (addr_len (skb_dev skb))).
  - destruct neigh as [n|]; [|left; exact Hn].
    destruct (has_flag (nud_state n) NUD_VALID); cbv beta iota zeta;
      (destruct (ndisc_alloc_skb f (skb_dev skb) _) as [buff|] eqn:Ea;
       [|left; exact Hn]); right.
    + exact (Hsend w1 (Some (take (Z.to_nat (addr_len (skb_dev skb))) (ha n)))
               (ndisc_opt_addr_space (skb_dev skb)) Hn
               (or_intror eq_refl) (or_intror eq_refl) buff Ea).
    + exact (Hsend w1 None 0 Hn (or_introl eq_refl) (or_introl eq_refl)
               buff Ea).
  - cbv beta iota zeta.
    destruct (ndisc_alloc_skb f (skb_dev skb) _) as [buff|] eqn:Ea;
      [|left; reflexivity].
    right.
    exact (Hsend w None 0 eq_refl (or_introl eq_refl) (or_introl eq_refl)
             buff Ea).
Qed.

Lemma ndisc_parse_options_single mem opt space :
  0 < space -> Z.shiftl (nd_opt_len mem opt) 3 = space ->
  ndisc_parse_options cfg mem opt space
  = Some (ndisc_parse_record cfg mem opt ndopts_zero).
Proof.
  intros Hs Hl. unfold ndisc_parse_options.
  destruct (Z.ltb_spec space 0); [lia|].
  destruct (Z.to_nat space) as [|fuel] eqn:Ef; [lia|].
  cbn [ndisc_parse_loop].
  destruct (Z.eqb_spec space 0); [lia|].
  pose proof (load8_range mem (opt + 1)) as Hr. fold (nd_opt_len mem opt) in Hr.
  rewrite shiftl3 in Hl.
  destruct (Z.ltb_spec space 2); [lia|].
  rewrite shiftl3, Hl. rewrite Z.ltb_irrefl. cbn [orb].
  destruct (Z.eqb_spec space 0); [lia|].
  rewrite Z.sub_diag.
  destruct fuel; reflexivity.
Qed.

Lemma ndisc_fill_redirect_hdr_option_bytes skb orig rd_len :
  8 <= rd_len ->
  rd_len <= Z.of_nat (length (tx_room skb)) ->
  rd_len - 8 <= Z.of_nat (length (skb_data orig)) ->
  tx_data (ndisc_fill_redirect_hdr_option skb orig rd_len)
  = tx_data skb
    ++ [to_byte ND_OPT_REDIRECT_HDR; to_byte (Z.shiftr rd_len 3)]
    ++ replicate 6 (to_byte 0)
    ++ take (Z.to_nat (rd_len - 8)) (skb_data orig).
Proof.
  intros H8 Hroom Horig.
  unfold ndisc_fill_redirect_hdr_option, skb_put.
  cbn [tx_data tx_dev set_tx_data].
  set (d0 := tx_data skb).
  set (R := take (Z.to_nat rd_len) (tx_room skb)).
  assert (HR : length R = Z.to_nat rd_len) by (subst R; rewrite length_take; lia).
  rewrite <- (take_drop 8 R).
  assert (H1 : length (take 8 R) = 8%nat) by (rewrite length_take; lia).
  assert (H2 : length (drop 8 R) = Z.to_nat (rd_len - 8))
    by (rewrite length_drop; lia).
  rewrite (memset_app 8 d0 (take 8 R) (drop 8 R)) by (subst d0; lia).
  cbn [replicate app].
  rewrite store8_app by (subst d0; lia).
  replace (d0 ++ to_byte ND_OPT_REDIRECT_HDR :: to_byte 0 :: to_byte 0
              :: to_byte 0 :: to_byte 0 :: to_byte 0 :: to_byte 0 :: to_byte 0
              :: drop 8 R)
    with ((d0 ++ [to_byte ND_OPT_REDIRECT_HDR]) ++ to_byte 0 :: to_byte 0
              :: to_byte 0 :: to_byte 0 :: to_byte 0 :: to_byte 0 :: to_byte 0
              :: drop 8 R)
    by (rewrite <- app_assoc; reflexivity).
  rewrite store8_app by (rewrite ?length_app; cbn [length]; subst d0; lia).
  replace ((d0 ++ [to_byte ND_OPT_REDIRECT_HDR])
           ++ to_byte (Z.shiftr rd_len 3) :: to_byte 0 :: to_byte 0 :: to_byte 0
              :: to_byte 0 :: to_byte 0 :: to_byte 0 :: drop 8 R)
    with ((d0 ++ [to_byte ND_OPT_REDIRECT_HDR; to_byte (Z.shiftr rd_len 3)]
              ++ replicate 6 (to_byte 0)) ++ drop 8 R ++ [])
    by (rewrite app_nil_r, <- !app_assoc; reflexivity).
  rewrite memcpy_app;
    [| subst d0; lia
     | rewrite !length_app, length_replicate; cbn [length]; subst d0; lia
     | exact H2 | lia].
  rewrite app_nil_r, <- !app_assoc. reflexivity.
Qed.

(** X14.  The redirected header option round-trips: what
    [ndisc_fill_redirect_hdr_option] appends is the option type, the length
    in units of eight, six zero bytes and the start of the offending packet;
    the parser finds it and records it in the slot of redirected headers,
    and eight bytes into the option, where the receive path looks for the
    packet, is what the emitter copied. *)
Theorem ndisc_fill_redirect_hdr_option_roundtrip (skb : tx_skb)
    (orig : sk_buff) (rd_len : Z) :
  8 <= rd_len < 2048 ->
  rd_len mod 8 = 0 ->
  rd_len <= Z.of_nat (length (tx_room skb)) ->
  rd_len - 8 <= Z.of_nat (length (skb_data orig)) ->
  tx_data (ndisc_fill_redirect_hdr_option skb orig rd_len)
  = tx_data skb ++ nd_redirect_hdr_option rd_len (skb_data orig)
  /\ ndisc_parse_options cfg
       (tx_data (ndisc_fill_redirect_hdr_option skb orig rd_len))
       (Z.of_nat (length (tx_data skb))) rd_len
     = Some (set_nd_slot ndopts_zero ND_OPT_REDIRECT_HDR
               (Z.of_nat (length (tx_data skb))))
  /\ nd_opts_rh (set_nd_slot ndopts_zero ND_OPT_REDIRECT_HDR
                   (Z.of_nat (length (tx_data skb))))
     = Some (Z.of_nat (length (tx_data skb)))
  /\ load_bytes (tx_data (ndisc_fill_redirect_hdr_option skb orig rd_len))
       (Z.of_nat (length (tx_data skb)) + 8) (Z.to_nat (rd_len - 8))
     = take (Z.to_nat (rd_len - 8)) (skb_data orig).
Proof.
  intros Hr Hmod Hroom Horig.
  set (opt := Z.of_nat (length (tx_data skb))).
  set (mem := tx_data (ndisc_fill_redirect_hdr_option skb orig rd_len)).
  assert (Hsh : Z.shiftr rd_len 3 = rd_len / 8)
    by (rewrite Z.shiftr_div_pow2 by lia; reflexivity).
  assert (Hmem : mem = tx_data skb ++ nd_redirect_hdr_option rd_len (skb_data orig)).
  { subst mem. rewrite ndisc_fill_redirect_hdr_option_bytes by lia.
    rewrite Hsh. reflexivity. }
  assert (H8 : 8 * (rd_len / 8) = rd_len).
  { pose proof (Z.div_mod rd_len 8 ltac:(lia)). lia. }
  assert (Htype : nd_opt_type mem opt = ND_OPT_REDIRECT_HDR).
  { rewrite Hmem. unfold nd_opt_type.
    rewrite <- (Z.add_0_r opt). rewrite load8_app_r by (subst opt; lia).
    unfold nd_redirect_hdr_option. cbn [app]. rewrite load8_head.
    reflexivity. }
  assert (Hlen : nd_opt_len mem opt = rd_len / 8).
  { rewrite Hmem. unfold nd_opt_len.
    rewrite load8_app_r by (subst opt; lia).
    unfold nd_redirect_hdr_option. cbn [app]. rewrite load8_second, u8_to_byte.
    apply Z.mod_small. split; [apply Z.div_pos; lia|].
    apply Z.div_lt_upper_bound; lia. }
  split; [exact Hmem|]. split; [|split].
  - rewrite (ndisc_parse_options_single mem opt rd_len);
      [| lia | rewrite shiftl3, Hlen; exact H8].
    unfold ndisc_parse_record. rewrite Htype. reflexivity.
  - reflexivity.
  - rewrite Hmem. unfold nd_redirect_hdr_option.
    replace (tx_data skb
             ++ [to_byte ND_OPT_REDIRECT_HDR; to_byte (rd_len / 8)]
             ++ replicate 6 (to_byte 0)
             ++ take (Z.to_nat (rd_len - 8)) (skb_data orig))
      with ((tx_data skb
             ++ [to_byte ND_OPT_REDIRECT_HDR; to_byte (rd_len / 8)]
             ++ replicate 6 (to_byte 0))
             ++ take (Z.to_nat (rd_len - 8)) (skb_data orig) ++ [])
      by (rewrite app_nil_r, <- !app_assoc; reflexivity).
    apply load_bytes_app.
    + rewrite !length_app, length_replicate. cbn [length]. subst opt. lia.
    + rewrite length_take. lia.
Qed.

End Redirect.

(** Sixteen bytes of option for the first eight bytes of a packet. *)
Lemma ndisc_fill_redirect_hdr_option_roundtrip_witness :
  ndisc_parse_options Scenario.cfg
    (tx_data
       (ndisc_fill_redirect_hdr_option
          {| tx_dev := Scenario.eth0;
             tx_data := rd_msg_bytes NDISC_REDIRECT Scenario.router
                          Scenario.peer;
             tx_room := replicate 16 (to_byte 0xa5);
             tx_dst := false |}
          (Scenario.na_from_peer 0x60) 16))
    40 16
  = Some (set_nd_slot ndopts_zero ND_OPT_REDIRECT_HDR 40).
Proof.
  apply (ndisc_fill_redirect_hdr_option_roundtrip Scenario.cfg
           {| tx_dev := Scenario.eth0;
              tx_data := rd_msg_bytes NDISC_REDIRECT Scenario.router
                           Scenario.peer;
              tx_room := replicate 16 (to_byte 0xa5);
              tx_dst := false |}
           (Scenario.na_from_peer 0x60) 16).
  - vm_compute. split; [discriminate | reflexivity].
  - reflexivity.
  - vm_compute. discriminate.
  - vm_compute. discriminate.
Defined.

(** ** What the parser records and what the walks of the RA handler visit *)

Lemma nd_opts_at_head mem p len x l :
  nd_opts_at mem p len (x :: l) ->
  x = p /\ 0 < nd_opt_len mem p
  /\ nd_opts_at mem (p + 8 * nd_opt_len mem p) (len - 8 * nd_opt_len mem p) l.
Proof. inversion 1; subst. repeat split; [lia | assumption]. Qed.

Lemma nd_opts_at_ge mem p len l :
  nd_opts_at mem p len l -> Forall (fun x => p <= x) l.
Proof.
  induction 1 as [|p len l H1 H2 H3 IH]; constructor; [lia|].
  eapply Forall_impl; [exact IH|]. cbn beta. intros; lia.
Qed.

Lemma nd_opts_at_gt mem p len l :
  nd_opts_at mem p len (p :: l) -> Forall (fun x => p < x) l.
Proof.
  intros H. apply nd_opts_at_head in H. destruct H as (_ & Hl & H).
  apply nd_opts_at_ge in H. eapply Forall_impl; [exact H|].
  cbn beta. intros; lia.
Qed.

Lemma nd_opts_at_suffix mem pre : forall p len q rest,
  nd_opts_at mem p len (pre ++ q :: rest) ->
  exists len', nd_opts_at mem q len' (q :: rest).
Proof.
  induction pre as [|x pre IH]; intros p len q rest H.
  - cbn [app] in H. pose proof (nd_opts_at_head _ _ _ _ _ H) as [-> _]. eauto.
  - cbn [app] in H. apply nd_opts_at_head in H. destruct H as (_ & _ & H).
    eapply IH. exact H.
Qed.

Lemma nd_opts_at_functional mem p len l :
  nd_opts_at mem p len l -> forall l', nd_opts_at mem p len l' -> l' = l.
Proof.
  induction 1 as [|p len l H1 H2 H3 IH]; intros l' H'.
  - inversion H'; subst; [reflexivity | unfold sizeof_nd_opt_hdr in *; lia].
  - inversion H'; subst; [unfold sizeof_nd_opt_hdr in *; lia|].
    f_equal. apply IH. assumption.
Qed.

Lemma nd_opts_at_bound mem p len l :
  nd_opts_at mem p len l -> l <> [] ->
  -1 <= p /\ p + 8 * Z.of_nat (length l) - 7 < Z.of_nat (length mem).
Proof.
  induction 1 as [|p len l H1 H2 H3 IH]; intros Hne; [congruence|].
  assert (Hl : 0 < nd_opt_len mem p) by lia.
  pose proof (nd_opt_len_inside mem p Hl) as [Hp Hq].
  split; [exact Hp|].
  destruct l as [|x l].
  - cbn [length]. lia.
  - destruct IH as [_ IH]; [congruence|].
    change (length (p :: x :: l)) with (S (length (x :: l))). lia.
Qed.

Lemma nd_opts_at_length mem p len l :
  nd_opts_at mem p len l -> (length l <= length mem)%nat.
Proof.
  intros H. destruct l as [|x l]; [cbn; lia|].
  apply nd_opts_at_bound in H; [|congruence]. lia.
Qed.

(** The loop shared by [ndisc_next_option] and [ndisc_next_useropt] stops at
    the first later option of the kind looked for, or at the last one
    recorded. *)
Lemma nd_opt_skip_next mem same e q' post : forall pre q len fuel,
  nd_opts_at mem q len (q :: pre ++ q' :: post) ->
  Forall (fun x => same x = false) pre ->
  q' <= e -> (q' < e -> same q' = true) ->
  (length pre < fuel)%nat ->
  nd_opt_skip fuel mem same q e = Some q'.
Proof.
  induction pre as [|x pre IH]; intros q len fuel Hat Hpre Hle Hsel Hf;
    (destruct fuel as [|fuel]; [cbn [length] in Hf; lia|]);
    cbn [nd_opt_skip]; rewrite shiftl3;
    apply nd_opts_at_head in Hat; destruct Hat as (_ & Hl & Hat).
  - cbn [app] in Hat. pose proof (nd_opts_at_head _ _ _ _ _ Hat) as [Ex _].
    rewrite <- Ex.
    destruct (Z.ltb_spec q' e) as [Hlt|Hge]; [|reflexivity].
    rewrite (Hsel Hlt). reflexivity.
  - cbn [app] in Hat. pose proof (nd_opts_at_head _ _ _ _ _ Hat) as [Ex _].
    rewrite <- Ex in Hat |- *.
    pose proof (nd_opts_at_gt _ _ _ _ Hat) as Hgt.
    rewrite Forall_app, Forall_cons in Hgt. destruct Hgt as (_ & Hxq & _).
    apply Forall_cons in Hpre. destruct Hpre as [Hx Hpre].
    destruct (Z.ltb_spec x e); [|lia]. rewrite Hx. cbn [negb andb].
    eapply IH; [exact Hat | exact Hpre | exact Hle | exact Hsel |].
    cbn [length] in Hf. lia.
Qed.

Lemma filter_cons_split {A} (sel : A -> bool) (l : list A) a fl :
  List.filter sel l = a :: fl ->
  exists pre post, l = pre ++ a :: post
    /\ Forall (fun x => sel x = false) pre /\ sel a = true
    /\ fl = List.filter sel post.
Proof.
  induction l as [|x l IH]; cbn [List.filter]; [discriminate|].
  destruct (sel x) eqn:Ex.
  - intros [= -> <-]. exists [], l. repeat split; [constructor | exact Ex].
  - intros E. destruct (IH E) as (pre & post & -> & Hpre & Ha & ->).
    exists (x :: pre), post. repeat split; [constructor; assumption | exact Ha].
Qed.

Lemma filter_subset {A} (sel : A -> bool) (l : list A) x :
  x ∈ List.filter sel l -> x ∈ l.
Proof.
  induction l as [|y l IH]; cbn [List.filter]; [tauto|].
  destruct (sel y).
  - rewrite !elem_of_cons. intros [->|H]; [left; reflexivity | right; auto].
  - rewrite elem_of_cons. auto.
Qed.

Lemma last_elem_of {A} (l : list A) x : last l = Some x -> x ∈ l.
Proof.
  induction l as [|y [|z l] IH]; cbn [last]; [discriminate| |].
  - intros [= ->]. apply elem_of_cons. left. reflexivity.
  - intros H. apply elem_of_cons. right. apply IH. exact H.
Qed.

(** A [for] loop of the RA handler, started at an option of its kind with
    the last option of the kind as its end, visits the options of the kind
    and no other, in the order of the area. *)
Lemma nd_opt_visit_filter mem sel next e F :
  (forall cur, sel cur = true ->
     exists same, (forall x, same x = sel x)
       /\ next (Some cur)
          = if e <=? cur then Some None else
            match nd_opt_skip F mem same cur e with
            | None => None
            | Some c => Some (if (c <=? e) && same c then Some c else None)
            end) ->
  forall n rest q len fuel, (length rest < n)%nat ->
    nd_opts_at mem q len (q :: rest) -> sel q = true ->
    last (q :: List.filter sel rest) = Some e ->
    (length rest < F)%nat -> (length (List.filter sel rest) < fuel)%nat ->
    nd_opt_visit fuel next (Some q) = Some (q :: List.filter sel rest).
Proof.
  intros Hnext. induction n as [|n IH]; intros rest q len fuel Hn Hat Hq Hlast HF Hfuel;
    [lia|].
  destruct fuel as [|fuel]; [lia|]. cbn [nd_opt_visit].
  destruct (Hnext q Hq) as (same & Hsame & ->).
  destruct (List.filter sel rest) as [|q' fl] eqn:Efl.
  - cbn [last] in Hlast. injection Hlast as <-.
    rewrite Z.leb_refl. destruct fuel; reflexivity.
  - destruct (filter_cons_split _ _ _ _ Efl) as (pre & post & -> & Hpre & Hq' & ->).
    change (last (q :: q' :: List.filter sel post))
      with (last (q' :: List.filter sel post)) in Hlast.
    pose proof (nd_opts_at_gt _ _ _ _ Hat) as Hgt.
    rewrite Forall_app, Forall_cons in Hgt. destruct Hgt as (_ & Hqq' & _).
    pose proof (nd_opts_at_head _ _ _ _ _ Hat) as (_ & _ & Hat').
    destruct (nd_opts_at_suffix _ _ _ _ _ _ Hat') as (len' & Hat'').
    assert (Hle : q' <= e).
    { apply last_elem_of in Hlast. apply elem_of_cons in Hlast.
      destruct Hlast as [->|Hin]; [lia|].
      apply filter_subset in Hin.
      pose proof (nd_opts_at_gt _ _ _ _ Hat'') as Hgt.
      rewrite Forall_forall in Hgt. specialize (Hgt _ Hin). lia. }
    destruct (Z.leb_spec e q); [lia|].
    rewrite length_app in Hn, HF. cbn [length] in Hn, HF, Hfuel.
    rewrite (nd_opt_skip_next mem same e q' post pre q len F Hat);
      [| eapply Forall_impl; [exact Hpre|]; cbn beta; intros x Hx;
         rewrite Hsame; exact Hx
       | exact Hle | intros _; rewrite Hsame; exact Hq' | lia].
    rewrite Hsame, Hq'. destruct (Z.leb_spec q' e); [|lia]. cbn [andb].
    rewrite (IH post q' len' fuel); [reflexivity | lia | exact Hat'' | exact Hq'
      | exact Hlast | lia | lia].
Qed.

Lemma nd_opt_visit_first mem sel next F l p len :
  (forall e cur, sel cur = true ->
     exists same, (forall x, same x = sel x)
       /\ next (Some e) (Some cur)
          = if e <=? cur then Some None else
            match nd_opt_skip F mem same cur e with
            | None => None
            | Some c => Some (if (c <=? e) && same c then Some c else None)
            end) ->
  nd_opts_at mem p len l -> (length l <= F)%nat ->
  forall fuel, (length l <= fuel)%nat ->
  nd_opt_visit fuel (next (last (List.filter sel l)))
    (head (List.filter sel l)) = Some (List.filter sel l).
Proof.
  intros Hnext Hat HF fuel Hfuel.
  destruct (List.filter sel l) as [|a fl] eqn:Efl;
    [destruct fuel; reflexivity|].
  destruct (filter_cons_split _ _ _ _ Efl) as (pre & post & -> & Hpre & Ha & ->).
  destruct (nd_opts_at_suffix _ _ _ _ _ _ Hat) as (len' & Hat').
  rewrite length_app in HF, Hfuel. cbn [length] in HF, Hfuel.
  pose proof (List.filter_length_le sel post) as Hlf.
  destruct (last (a :: List.filter sel post)) as [e|] eqn:El.
  - cbn [head].
    apply (nd_opt_visit_filter mem sel (next (Some e)) e F (Hnext e)
             (S (length post)) post a len' fuel);
      [lia | exact Hat' | exact Ha | exact El | lia | lia].
  - exfalso. revert El. generalize (List.filter sel post). intros m.
    clear. revert a. induction m as [|y m IH]; intros a; [discriminate|].
    change (last (a :: y :: m)) with (last (y :: m)). apply IH.
Qed.

Section ParserRecords.
Context (cfg : kconfig).

Lemma ndisc_parse_loop_fold : forall fuel mem p len nd nd',
  ndisc_parse_loop cfg fuel mem p len nd = Some (Some nd') ->
  exists l, nd_opts_at mem p len l
            /\ nd' = fold_left (fun nd q => ndisc_parse_record cfg mem q nd) l nd.
Proof.
  induction fuel as [|fuel IH]; intros mem p len nd nd' E;
    cbn [ndisc_parse_loop] in E.
  - destruct (Z.eqb_spec len 0) as [->|]; [|discriminate].
    injection E as <-. exists []. split; [constructor | reflexivity].
  - destruct (Z.eqb_spec len 0) as [->|Hne].
    { injection E as <-. exists []. split; [constructor | reflexivity]. }
    destruct (Z.ltb_spec len 2); [discriminate|].
    rewrite shiftl3 in E.
    destruct (Z.ltb_spec len (8 * nd_opt_len mem p)); [discriminate|].
    cbn [orb] in E.
    destruct (Z.eqb_spec (8 * nd_opt_len mem p) 0); [discriminate|].
    pose proof (load8_range mem (p + 1)) as Hr. fold (nd_opt_len mem p) in Hr.
    apply IH in E. destruct E as (l & Hl & ->).
    exists (p :: l). split; [|reflexivity].
    constructor; [unfold sizeof_nd_opt_hdr; lia | lia | exact Hl].
Qed.

Lemma ndisc_parse_options_fold mem opt len nd l :
  ndisc_parse_options cfg mem opt len = Some nd ->
  nd_opts_at mem opt len l ->
  nd = fold_left (fun nd q => ndisc_parse_record cfg mem q nd) l ndopts_zero.
Proof.
  unfold ndisc_parse_options. intros E Hl.
  destruct (len <? 0); [discriminate|].
  destruct (ndisc_parse_loop cfg (Z.to_nat len) mem opt len ndopts_zero)
    as [r|] eqn:El; [|discriminate]. subst r.
  apply ndisc_parse_loop_fold in El. destruct El as (l' & Hl' & ->).
  rewrite (nd_opts_at_functional _ _ _ _ Hl l' Hl'). reflexivity.
Qed.

Lemma fold_record_length mem l : forall nd,
  length (nd_opt_array
            (fold_left (fun nd q => ndisc_parse_record cfg mem q nd) l nd))
  = length (nd_opt_array nd).
Proof.
  induction l as [|q l IH]; intros nd; [reflexivity|].
  cbn [fold_left]. rewrite IH. apply ndisc_parse_record_length.
Qed.

(** A singleton slot after one more option: what it held, or the option
    when the slot was empty and the option is of its type. *)
Lemma ndisc_parse_record_slot mem q nd ty :
  is_singleton_opt ty = true ->
  length (nd_opt_array nd) = ND_OPT_ARRAY_MAX ->
  nd_slot (ndisc_parse_record cfg mem q nd) ty
  = match nd_slot nd ty with
    | Some a => Some a
    | None => if nd_opt_type mem q =? ty then Some q else None
    end.
Proof.
  intros Hs Hlen. unfold ndisc_parse_record.
  pose proof (is_singleton_opt_cases ty Hs) as Hty.
  destruct (is_singleton_opt (nd_opt_type mem q)) eqn:E1.
  - pose proof (is_singleton_opt_cases _ E1) as Hq.
    destruct (Z.eqb_spec (nd_opt_type mem q) ty) as [Heq|Hne].
    + rewrite Heq. destruct (nd_slot nd ty) eqn:E; [exact E|].
      apply nd_slot_set. rewrite Hlen.
      unfold ND_OPT_SOURCE_LL_ADDR, ND_OPT_TARGET_LL_ADDR, ND_OPT_MTU,
        ND_OPT_REDIRECT_HDR, ND_OPT_ARRAY_MAX in *. lia.
    + destruct (nd_slot nd (nd_opt_type mem q)).
      * destruct (nd_slot nd ty); reflexivity.
      * rewrite nd_slot_set_ne
          by (unfold ND_OPT_SOURCE_LL_ADDR, ND_OPT_TARGET_LL_ADDR, ND_OPT_MTU,
                ND_OPT_REDIRECT_HDR in *; lia).
        destruct (nd_slot nd ty); reflexivity.
  - assert (Hne : (nd_opt_type mem q =? ty) = false).
    { apply Z.eqb_neq. intros Heq. rewrite Heq, Hs in E1. discriminate. }
    rewrite Hne.
    destruct (Z.eqb_spec (nd_opt_type mem q) ND_OPT_PREFIX_INFO) as [Et|Et].
    + rewrite Et.
      assert (H0 : Z.to_nat ND_OPT_PREFIX_INFO_END <> Z.to_nat ty)
        by (unfold ND_OPT_SOURCE_LL_ADDR, ND_OPT_TARGET_LL_ADDR, ND_OPT_MTU,
              ND_OPT_REDIRECT_HDR, ND_OPT_PREFIX_INFO_END in *; lia).
      assert (H3 : Z.to_nat ND_OPT_PREFIX_INFO <> Z.to_nat ty)
        by (unfold ND_OPT_SOURCE_LL_ADDR, ND_OPT_TARGET_LL_ADDR, ND_OPT_MTU,
              ND_OPT_REDIRECT_HDR, ND_OPT_PREFIX_INFO in *; lia).
      destruct (nd_slot _ ND_OPT_PREFIX_INFO);
        rewrite !nd_slot_set_ne by (first [exact H3 | exact H0]);
        destruct (nd_slot nd ty); reflexivity.
    + destruct (CONFIG_IPV6_ROUTE_INFO cfg && _);
        [|destruct (ndisc_is_useropt mem q)];
        unfold nd_slot; cbn [nd_opt_array];
        destruct (mjoin _); reflexivity.
Qed.

Lemma fold_record_slot mem ty l : forall nd,
  is_singleton_opt ty = true ->
  length (nd_opt_array nd) = ND_OPT_ARRAY_MAX ->
  nd_slot (fold_left (fun nd q => ndisc_parse_record cfg mem q nd) l nd) ty
  = match nd_slot nd ty with
    | Some a => Some a
    | None => head (List.filter (fun q => nd_opt_type mem q =? ty) l)
    end.
Proof.
  induction l as [|q l IH]; intros nd Hs Hlen; cbn [fold_left List.filter].
  - destruct (nd_slot nd ty); reflexivity.
  - rewrite IH by (rewrite ?ndisc_parse_record_length; assumption).
    rewrite ndisc_parse_record_slot by assumption.
    destruct (nd_slot nd ty); [reflexivity|].
    destruct (nd_opt_type mem q =? ty); reflexivity.
Qed.

(** X15.  After a successful parse, the slot of a source or target
    link-layer address, MTU or redirected header option holds the first
    option of that type in the area, and is empty when there is none: later
    options of the same type are ignored. *)
Theorem ndisc_parse_options_first_wins (mem : list byte) (opt len : Z)
    (nd : ndisc_options) (l : list Z) (ty : Z) :
  ndisc_parse_options cfg mem opt len = Some nd ->
  nd_opts_at mem opt len l ->
  is_singleton_opt ty = true ->
  nd_slot nd ty = head (List.filter (fun q => nd_opt_type mem q =? ty) l).
Proof.
  intros Hp Hl Hs. rewrite (ndisc_parse_options_fold mem opt len nd l Hp Hl).
  rewrite fold_record_slot by (assumption || reflexivity).
  replace (nd_slot ndopts_zero ty) with (@None Z); [reflexivity|].
  apply is_singleton_opt_cases in Hs.
  destruct Hs as [E|[E|[E|E]]]; rewrite E; reflexivity.
Qed.

Lemma fold_range_step sel l : forall fl0 : list Z,
  fold_left (nd_range_step sel) l (head fl0, last fl0)
  = (head (fl0 ++ List.filter sel l), last (fl0 ++ List.filter sel l)).
Proof.
  induction l as [|q l IH]; intros fl0; cbn [fold_left List.filter].
  - rewrite app_nil_r. reflexivity.
  - unfold nd_range_step at 2. cbn [fst]. destruct (sel q).
    + replace (match head fl0 with Some a => Some a | None => Some q end, Some q)
        with (head (fl0 ++ [q]), last (fl0 ++ [q])).
      * rewrite IH, <- app_assoc. reflexivity.
      * rewrite last_snoc. destruct fl0; reflexivity.
    + apply IH.
Qed.

(** One more option, seen from each pair of pointers. *)
Lemma ndisc_parse_record_pi mem q nd :
  length (nd_opt_array nd) = ND_OPT_ARRAY_MAX ->
  (nd_opts_pi (ndisc_parse_record cfg mem q nd),
   nd_opts_pi_end (ndisc_parse_record cfg mem q nd))
  = nd_range_step (nd_opt_is_pi mem) (nd_opts_pi nd, nd_opts_pi_end nd) q.
Proof.
  intros Hlen. unfold nd_range_step, nd_opt_is_pi, ndisc_parse_record,
    nd_opts_pi, nd_opts_pi_end. cbn [fst].
  destruct (is_singleton_opt (nd_opt_type mem q)) eqn:E1.
  - pose proof (is_singleton_opt_cases _ E1) as Hq.
    assert (Hne : (nd_opt_type mem q =? ND_OPT_PREFIX_INFO) = false).
    { apply Z.eqb_neq. intros Heq. rewrite Heq in E1. discriminate. }
    rewrite Hne.
    destruct (nd_slot nd (nd_opt_type mem q)); [reflexivity|].
    rewrite !nd_slot_set_ne
      by (unfold ND_OPT_SOURCE_LL_ADDR, ND_OPT_TARGET_LL_ADDR, ND_OPT_MTU,
            ND_OPT_REDIRECT_HDR, ND_OPT_PREFIX_INFO, ND_OPT_PREFIX_INFO_END in *;
          lia).
    reflexivity.
  - destruct (Z.eqb_spec (nd_opt_type mem q) ND_OPT_PREFIX_INFO) as [Et|Et].
    + rewrite Et.
      rewrite (nd_slot_set_ne nd ND_OPT_PREFIX_INFO_END ND_OPT_PREFIX_INFO)
        by (vm_compute; lia).
      destruct (nd_slot nd ND_OPT_PREFIX_INFO) as [a|] eqn:Ea.
      * rewrite nd_slot_set_ne by (vm_compute; lia).
        rewrite nd_slot_set by (rewrite Hlen; vm_compute; lia).
        rewrite Ea. reflexivity.
      * rewrite nd_slot_set
          by (unfold set_nd_slot; cbn [nd_opt_array];
              rewrite length_insert, Hlen; vm_compute; lia).
        rewrite nd_slot_set_ne by (vm_compute; lia).
        rewrite nd_slot_set by (rewrite Hlen; vm_compute; lia).
        reflexivity.
    + destruct (CONFIG_IPV6_ROUTE_INFO cfg && _);
        [|destruct (ndisc_is_useropt mem q)]; reflexivity.
Qed.

Lemma ndisc_parse_record_ri mem q nd :
  (nd_opts_ri (ndisc_parse_record cfg mem q nd),
   nd_opts_ri_end (ndisc_parse_record cfg mem q nd))
  = nd_range_step (nd_opt_is_ri cfg mem) (nd_opts_ri nd, nd_opts_ri_end nd) q.
Proof.
  unfold nd_range_step, nd_opt_is_ri, ndisc_parse_record. cbn [fst].
  destruct (is_singleton_opt (nd_opt_type mem q)) eqn:E1.
  - pose proof (is_singleton_opt_cases _ E1) as Hq.
    assert (Hne : (nd_opt_type mem q =? ND_OPT_ROUTE_INFO) = false).
    { apply Z.eqb_neq. intros Heq. rewrite Heq in E1. discriminate. }
    rewrite Hne, andb_false_r.
    destruct (nd_slot nd (nd_opt_type mem q)); reflexivity.
  - destruct (Z.eqb_spec (nd_opt_type mem q) ND_OPT_PREFIX_INFO) as [Et|Et].
    + rewrite Et. change (ND_OPT_PREFIX_INFO =? ND_OPT_ROUTE_INFO) with false.
      rewrite andb_false_r.
      destruct (nd_slot _ ND_OPT_PREFIX_INFO); reflexivity.
    + destruct (CONFIG_IPV6_ROUTE_INFO cfg && _); [reflexivity|].
      destruct (ndisc_is_useropt mem q); reflexivity.
Qed.

Lemma ndisc_parse_record_useropt mem q nd :
  (nd_useropts (ndisc_parse_record cfg mem q nd),
   nd_useropts_end (ndisc_parse_record cfg mem q nd))
  = nd_range_step (ndisc_is_useropt mem) (nd_useropts nd, nd_useropts_end nd) q.
Proof.
  unfold nd_range_step, ndisc_parse_record. cbn [fst].
  destruct (is_singleton_opt (nd_opt_type mem q)) eqn:E1.
  - pose proof (is_singleton_opt_cases _ E1) as Hq.
    assert (Hne : ndisc_is_useropt mem q = false).
    { unfold ndisc_is_useropt.
      destruct Hq as [E|[E|[E|E]]]; rewrite E; reflexivity. }
    rewrite Hne.
    destruct (nd_slot nd (nd_opt_type mem q)); reflexivity.
  - destruct (Z.eqb_spec (nd_opt_type mem q) ND_OPT_PREFIX_INFO) as [Et|Et].
    + assert (Hne : ndisc_is_useropt mem q = false)
        by (unfold ndisc_is_useropt; rewrite Et; reflexivity).
      rewrite Hne, Et. destruct (nd_slot _ ND_OPT_PREFIX_INFO); reflexivity.
    + destruct (CONFIG_IPV6_ROUTE_INFO cfg) eqn:Ec; cbn [andb].
      * destruct (Z.eqb_spec (nd_opt_type mem q) ND_OPT_ROUTE_INFO) as [Er|Er].
        -- assert (Hne : ndisc_is_useropt mem q = false)
             by (unfold ndisc_is_useropt; rewrite Er; reflexivity).
           rewrite Hne. reflexivity.
        -- destruct (ndisc_is_useropt mem q); reflexivity.
      * destruct (ndisc_is_useropt mem q); reflexivity.
Qed.

Lemma fold_record_ranges mem l : forall nd,
  length (nd_opt_array nd) = ND_OPT_ARRAY_MAX ->
  let nd' := fold_left (fun nd q => ndisc_parse_record cfg mem q nd) l nd in
  (nd_opts_pi nd', nd_opts_pi_end nd')
  = fold_left (nd_range_step (nd_opt_is_pi mem)) l
      (nd_opts_pi nd, nd_opts_pi_end nd)
  /\ (nd_opts_ri nd', nd_opts_ri_end nd')
     = fold_left (nd_range_step (nd_opt_is_ri cfg mem)) l
         (nd_opts_ri nd, nd_opts_ri_end nd)
  /\ (nd_useropts nd', nd_useropts_end nd')
     = fold_left (nd_range_step (ndisc_is_useropt mem)) l
         (nd_useropts nd, nd_useropts_end nd).
Proof.
  induction l as [|q l IH]; intros nd Hlen; cbv zeta; cbn [fold_left].
  - repeat split.
  - rewrite <- ndisc_parse_record_pi, <- ndisc_parse_record_ri,
      <- ndisc_parse_record_useropt by exact Hlen.
    apply IH. rewrite ndisc_parse_record_length. exact Hlen.
Qed.

(** X16.  After a successful parse, each pair of pointers (prefix
    information, route information in a kernel built with it, and the RDNSS
    and DNSSL options passed to user space) holds the first and the last
    option of its kind in the area, or nothing when there is none. *)
Theorem ndisc_parse_options_ranges (mem : list byte) (opt len : Z)
    (nd : ndisc_options) (l : list Z) :
  ndisc_parse_options cfg mem opt len = Some nd ->
  nd_opts_at mem opt len l ->
  nd_opts_pi nd = head (List.filter (nd_opt_is_pi mem) l)
  /\ nd_opts_pi_end nd = last (List.filter (nd_opt_is_pi mem) l)
  /\ nd_opts_ri nd = head (List.filter (nd_opt_is_ri cfg mem) l)
  /\ nd_opts_ri_end nd = last (List.filter (nd_opt_is_ri cfg mem) l)
  /\ nd_useropts nd = head (List.filter (ndisc_is_useropt mem) l)
  /\ nd_useropts_end nd = last (List.filter (ndisc_is_useropt mem) l).
Proof.
  intros Hp Hl. rewrite (ndisc_parse_options_fold mem opt len nd l Hp Hl).
  destruct (fold_record_ranges mem l ndopts_zero eq_refl) as (H1 & H2 & H3).
  cbv zeta in H1, H2, H3.
  change (nd_opts_pi ndopts_zero, nd_opts_pi_end ndopts_zero)
    with (head (@nil Z), last (@nil Z)) in H1.
  change (nd_opts_ri ndopts_zero, nd_opts_ri_end ndopts_zero)
    with (head (@nil Z), last (@nil Z)) in H2.
  change (nd_useropts ndopts_zero, nd_useropts_end ndopts_zero)
    with (head (@nil Z), last (@nil Z)) in H3.
  rewrite fold_range_step in H1, H2, H3. cbn [app] in H1, H2, H3.
  injection H1 as -> ->. injection H2 as -> ->. injection H3 as -> ->.
  repeat split.
Qed.

(** X17.  After a successful parse, the loops of the RA handler over the
    prefix information options, the route information options and the
    options passed to user space visit exactly the options of their kind in
    the area, each once and in the order of the area. *)
Theorem ndisc_parse_options_visits (mem : list byte) (opt len : Z)
    (nd : ndisc_options) (l : list Z) :
  ndisc_parse_options cfg mem opt len = Some nd ->
  nd_opts_at mem opt len l ->
  nd_opts_of_type mem (nd_opts_pi nd) (nd_opts_pi_end nd)
  = List.filter (nd_opt_is_pi mem) l
  /\ nd_opts_of_type mem (nd_opts_ri nd) (nd_opts_ri_end nd)
     = List.filter (nd_opt_is_ri cfg mem) l
  /\ nd_useropts_list mem (nd_useropts nd) (nd_useropts_end nd)
     = List.filter (ndisc_is_useropt mem) l.
Proof.
  intros Hp Hl. rewrite (ndisc_parse_options_fold mem opt len nd l Hp Hl).
  destruct (fold_record_ranges mem l ndopts_zero eq_refl) as (H1 & H2 & H3).
  cbv zeta in H1, H2, H3.
  change (nd_opts_pi ndopts_zero, nd_opts_pi_end ndopts_zero)
    with (head (@nil Z), last (@nil Z)) in H1.
  change (nd_opts_ri ndopts_zero, nd_opts_ri_end ndopts_zero)
    with (head (@nil Z), last (@nil Z)) in H2.
  change (nd_useropts ndopts_zero, nd_useropts_end ndopts_zero)
    with (head (@nil Z), last (@nil Z)) in H3.
  rewrite fold_range_step in H1, H2, H3. cbn [app] in H1, H2, H3.
  injection H1 as -> ->. injection H2 as -> ->. injection H3 as -> ->.
  pose proof (nd_opts_at_length _ _ _ _ Hl) as Hlen.
  unfold nd_opts_of_type, nd_useropts_list.
  split; [|split].
  - rewrite (nd_opt_visit_first mem (nd_opt_is_pi mem)
               (fun e p => ndisc_next_option (length mem) mem p e)
               (length mem) l opt len); [reflexivity | | exact Hl | lia | lia].
    intros e cur Hc. exists (fun p => nd_opt_type mem p =? nd_opt_type mem cur).
    split; [|reflexivity].
    intros x. unfold nd_opt_is_pi in *. apply Z.eqb_eq in Hc. rewrite Hc.
    reflexivity.
  - rewrite (nd_opt_visit_first mem (nd_opt_is_ri cfg mem)
               (fun e p => ndisc_next_option (length mem) mem p e)
               (length mem) l opt len); [reflexivity | | exact Hl | lia | lia].
    intros e cur Hc. exists (fun p => nd_opt_type mem p =? nd_opt_type mem cur).
    split; [|reflexivity].
    intros x. unfold nd_opt_is_ri in *. apply andb_true_iff in Hc.
    destruct Hc as [-> Hc]. apply Z.eqb_eq in Hc. rewrite Hc. reflexivity.
  - rewrite (nd_opt_visit_first mem (ndisc_is_useropt mem)
               (fun e p => ndisc_next_useropt (length mem) mem p e)
               (length mem) l opt len); [reflexivity | | exact Hl | lia | lia].
    intros e cur Hc. exists (ndisc_is_useropt mem).
    split; [reflexivity|reflexivity].
Qed.

End ParserRecords.

Lemma ra_option_area_opts :
  nd_opts_at Scenario.ra_option_area 0 56 [0; 8; 16; 24; 32; 40; 48].
Proof.
  repeat (apply opts_at_cons; [vm_compute; discriminate
                              | split; vm_compute; [reflexivity | discriminate]
                              |]).
  apply opts_at_nil.
Qed.

Lemma ndisc_parse_options_first_wins_witness :
  exists nd,
    ndisc_parse_options Scenario.cfg Scenario.ra_option_area 0 56 = Some nd
    /\ nd_slot nd ND_OPT_SOURCE_LL_ADDR
       = head (List.filter
                 (fun q => nd_opt_type Scenario.ra_option_area q
                           =? ND_OPT_SOURCE_LL_ADDR)
                 [0; 8; 16; 24; 32; 40; 48]).
Proof.
  eexists. split; [vm_compute; reflexivity|].
  apply (ndisc_parse_options_first_wins Scenario.cfg Scenario.ra_option_area
           0 56 _ [0; 8; 16; 24; 32; 40; 48] ND_OPT_SOURCE_LL_ADDR);
    [vm_compute; reflexivity | exact ra_option_area_opts | reflexivity].
Defined.

Lemma ndisc_parse_options_ranges_witness :
  exists nd,
    ndisc_parse_options Scenario.cfg Scenario.ra_option_area 0 56 = Some nd
    /\ nd_opts_pi nd = Some 8 /\ nd_opts_pi_end nd = Some 32
    /\ nd_opts_ri nd = Some 40 /\ nd_opts_ri_end nd = Some 40
    /\ nd_useropts nd = Some 24 /\ nd_useropts_end nd = Some 48.
Proof.
  eexists. split; [vm_compute; reflexivity|].
  exact (ndisc_parse_options_ranges Scenario.cfg Scenario.ra_option_area
           0 56 _ [0; 8; 16; 24; 32; 40; 48] eq_refl ra_option_area_opts).
Defined.

Lemma ndisc_parse_options_visits_witness :
  exists nd,
    ndisc_parse_options Scenario.cfg Scenario.ra_option_area 0 56 = Some nd
    /\ nd_opts_of_type Scenario.ra_option_area (nd_opts_pi nd) (nd_opts_pi_end nd)
       = [8; 32]
    /\ nd_opts_of_type Scenario.ra_option_area (nd_opts_ri nd) (nd_opts_ri_end nd)
       = [40]
    /\ nd_useropts_list Scenario.ra_option_area (nd_useropts nd)
         (nd_useropts_end nd) = [24; 48].
Proof.
  eexists. split; [vm_compute; reflexivity|].
  exact (ndisc_parse_options_visits Scenario.cfg Scenario.ra_option_area
           0 56 _ [0; 8; 16; 24; 32; 40; 48] eq_refl ra_option_area_opts).
Defined.

(** ** Solicitations that are answered *)

Lemma has_flag_lor_false v a b :
  has_flag v (Z.lor a b) = false ->
  has_flag v a = false /\ has_flag v b = false.
Proof.
  unfold has_flag, nonzero. rewrite Z.land_lor_distr_r.
  destruct (Z.eqb_spec (Z.lor (Z.land v a) (Z.land v b)) 0) as [E|]; [|discriminate].
  intros _. apply Z.lor_eq_0_iff in E. destruct E as [-> ->]. split; reflexivity.
Qed.

Section Answered.
Context (cfg : kconfig) {K : Collaborators}.

Lemma neigh_lookup_create_emit f w e pkey dev creat :
  __neigh_lookup f (emit w e) pkey dev creat
  = (emit (__neigh_lookup f w pkey dev creat).1 e,
     (__neigh_lookup f w pkey dev creat).2).
Proof.
  unfold __neigh_lookup, neigh_create, neigh_lookup.
  change (nd_tbl (emit w e)) with (nd_tbl w).
  destruct (nd_tbl w !! (pkey, ifindex dev)); [reflexivity|].
  destruct creat; [|reflexivity].
  destruct (neigh_create_fails f); [reflexivity|].
  change (ndisc_constructor (emit w e) (neigh_alloc pkey dev))
    with (ndisc_constructor w (neigh_alloc pkey dev)).
  destruct (ndisc_constructor w (neigh_alloc pkey dev)) as [err n].
  destruct (err <? 0); reflexivity.
Qed.

Lemma ndisc_send_na_nd_tbl f w dev daddr solicited_addr router solicited
    override inc_opt :
  nd_tbl (ndisc_send_na f w dev daddr solicited_addr router solicited override
            inc_opt) = nd_tbl w.
Proof.
  unfold ndisc_send_na, ndisc_send_skb.
  repeat case_match; reflexivity.
Qed.

(** A solicitation that reaches the reply: the cache entry of its source and
    the advertisement sent. *)
Lemma ndisc_recv_ns_reply_sent (f : faults) (w : world) (skb : sk_buff)
    (ndopts : ndisc_options) (lladdr : option Z) (ifp : inet6_ifaddr)
    (idev : inet6_dev) (n : neighbour) :
  let dev := skb_dev skb in
  let saddr := ipv6_hdr_saddr skb in
  let target := nd_msg_target skb in
  let inc := ipv6_addr_is_multicast (ipv6_hdr_daddr skb) in
  sizeof_nd_msg <= skb_len skb ->
  ipv6_addr_is_multicast target = false ->
  ipv6_addr_any saddr = false ->
  ndisc_parse_options cfg (skb_data skb) (transport_header skb + sizeof_nd_msg)
    (to_int (to_u32 (skb_tail skb - (transport_header skb + sizeof_nd_msg))))
  = Some ndopts ->
  ndisc_opt_lladdr skb (nd_opts_src_lladdr ndopts) = Some lladdr ->
  ipv6_get_ifaddr w target dev = Some (ifp, idev) ->
  (has_flag (ifa_flags ifp) (Z.lor IFA_F_TENTATIVE IFA_F_OPTIMISTIC) = true ->
   has_flag (ifa_flags ifp) IFA_F_OPTIMISTIC = true) ->
  (__neigh_lookup f w saddr dev
     (negb inc || bool_decide (is_Some lladdr) || (addr_len dev =? 0))).2
  = Some n ->
  alloc_skb_fails f = false ->
  icmp6_dst_alloc_fails f = false ->
  0 <= needed_tailroom dev ->
  0 <= ndisc_addr_option_pad (dev_type dev) ->
  Z.of_nat (length (dev_addr dev)) = addr_len dev ->
  nd_tbl (ndisc_recv_ns cfg f w skb) !! (saddr, ifindex dev)
  = Some (neigh_update n (lladdr_bytes skb lladdr) NUD_STALE
            (Z.lor NEIGH_UPDATE_F_WEAK_OVERRIDE NEIGH_UPDATE_F_OVERRIDE))
  /\ emitted (ndisc_recv_ns cfg f w skb)
     = nd_wire dev (sk_hop_limit (ndisc_sk w)) target saddr
         (nd_msg_bytes NDISC_NEIGHBOUR_ADVERTISEMENT
            (nonzero (forwarding (cnf idev))) true
            (inc && negb (has_flag (ifa_flags ifp) IFA_F_OPTIMISTIC)) target
          ++ if (inc || nonzero (force_tllao (cnf idev)))
                && nonzero (addr_len dev)
             then nd_addr_option ND_OPT_TARGET_LL_ADDR
                    (ndisc_addr_option_pad (dev_type dev)) (dev_addr dev)
                    (ndisc_opt_addr_space dev)
             else [])
       :: emitted w.
Proof.
  intros dev saddr target inc Hlen Ht Hdad Hp Hll Hifa Hfl Hn Ha Hd Htr Hpad Hdev.
  assert (Hreply : ndisc_recv_ns cfg f w skb
                   = ndisc_recv_ns_reply f w skb lladdr (Some ifp) idev (-1)).
  { unfold ndisc_recv_ns.
    destruct (Z.ltb_spec (skb_len skb) sizeof_nd_msg); [lia|].
    fold target saddr dev. rewrite Ht, Hdad, Hp. cbn [andb].
    assert (Htg : ndisc_recv_ns_target f w skb lladdr
                  = ndisc_recv_ns_reply f w skb lladdr (Some ifp) idev (-1)).
    { unfold ndisc_recv_ns_target. fold target saddr dev.
      rewrite Hifa, Hdad.
      destruct (has_flag (ifa_flags ifp) (Z.lor _ _)) eqn:E; [|reflexivity].
      rewrite (Hfl eq_refl). reflexivity. }
    unfold ndisc_opt_lladdr in Hll. fold dev in Hll.
    destruct (nd_opts_src_lladdr ndopts) as [p|].
    - destruct (ndisc_opt_addr_data (skb_data skb) p dev) as [l|];
        [|discriminate].
      injection Hll as <-. exact Htg.
    - injection Hll as <-. exact Htg. }
  rewrite Hreply. unfold ndisc_recv_ns_reply.
  fold target saddr dev inc. rewrite Hdad.
  change (-1 <? 0) with true. cbv beta iota.
  rewrite neigh_lookup_create_emit.
  destruct (neigh_lookup_create_nd_tbl f w saddr dev
              (negb inc || bool_decide (is_Some lladdr) || (addr_len dev =? 0)))
    as (m & Em & _).
  destruct (__neigh_lookup f w saddr dev _) as [w1 r]. cbn [fst snd] in *.
  subst r w1. rewrite !bool_decide_eq_true_2 by eauto. cbn [orb andb].
  split.
  - rewrite ndisc_send_na_nd_tbl. unfold neigh_store. cbn [nd_tbl set_nd_tbl].
    apply lookup_insert_eq.
  - match goal with
    | |- emitted (ndisc_send_na _ ?w2 _ _ _ _ _ _ _) = _ =>
        rewrite (ndisc_send_na_own_wire f w2 dev saddr target
                   (nonzero (forwarding (cnf idev))) true inc inc ifp idev
                   Ha Hd Htr Hpad Hdev Hifa)
    end.
    reflexivity.
Qed.

(** X18.  A well-formed duplicate address detection probe (source ::,
    solicited-node destination, no source link-layer option) for an address
    of ours that is neither tentative nor optimistic is defended: one
    neighbour advertisement leaves for the all-nodes address, from the
    address probed and with it as target, the solicited flag clear and the
    override flag set, the router flag telling whether the interface
    forwards, and our link-layer address in a target option when the
    interface has one. *)
Theorem ndisc_recv_ns_dad_defended (f : faults) (w : world) (skb : sk_buff)
    (ndopts : ndisc_options) (ifp : inet6_ifaddr) (idev : inet6_dev) :
  sizeof_nd_msg <= skb_len skb ->
  ipv6_addr_is_multicast (nd_msg_target skb) = false ->
  ipv6_addr_any (ipv6_hdr_saddr skb) = true ->
  ipv6_addr_is_solict_mult (ipv6_hdr_daddr skb) = true ->
  ndisc_parse_options cfg (skb_data skb) (transport_header skb + sizeof_nd_msg)
    (to_int (to_u32 (skb_tail skb - (transport_header skb + sizeof_nd_msg))))
  = Some ndopts ->
  nd_opts_src_lladdr ndopts = None ->
  ipv6_get_ifaddr w (nd_msg_target skb) (skb_dev skb) = Some (ifp, idev) ->
  has_flag (ifa_flags ifp) (Z.lor IFA_F_TENTATIVE IFA_F_OPTIMISTIC) = false ->
  alloc_skb_fails f = false ->
  icmp6_dst_alloc_fails f = false ->
  0 <= needed_tailroom (skb_dev skb) ->
  0 <= ndisc_addr_option_pad (dev_type (skb_dev skb)) ->
  Z.of_nat (length (dev_addr (skb_dev skb))) = addr_len (skb_dev skb) ->
  emitted (ndisc_recv_ns cfg f w skb)
  = nd_wire (skb_dev skb) (sk_hop_limit (ndisc_sk w)) (nd_msg_target skb)
      in6addr_linklocal_allnodes
      (nd_msg_bytes NDISC_NEIGHBOUR_ADVERTISEMENT
         (nonzero (forwarding (cnf idev))) false true (nd_msg_target skb)
       ++ if nonzero (addr_len (skb_dev skb))
          then nd_addr_option ND_OPT_TARGET_LL_ADDR
                 (ndisc_addr_option_pad (dev_type (skb_dev skb)))
                 (dev_addr (skb_dev skb)) (ndisc_opt_addr_space (skb_dev skb))
          else [])
    :: emitted w.
Proof.
  intros Hlen Ht Hdad Hsol Hp Hsl Hifa Hfl Ha Hd Htr Hpad Hdev.
  unfold ndisc_recv_ns.
  destruct (Z.ltb_spec (skb_len skb) sizeof_nd_msg); [lia|].
  rewrite Ht, Hdad, Hsol, Hp, Hsl. cbn [negb andb].
  unfold ndisc_recv_ns_target. rewrite Hifa, Hfl.
  unfold ndisc_recv_ns_reply. rewrite Hdad.
  change (-1 <? 0) with true. cbv beta iota.
  rewrite (ndisc_send_na_own_wire f w (skb_dev skb) in6addr_linklocal_allnodes
             (nd_msg_target skb) (nonzero (forwarding (cnf idev))) false
             (bool_decide (is_Some (Some ifp))) true ifp idev
             Ha Hd Htr Hpad Hdev Hifa).
  destruct (has_flag_lor_false _ _ _ Hfl) as [_ ->].
  rewrite bool_decide_eq_true_2 by eauto. reflexivity.
Qed.

(** X19.  A well-formed solicitation from a specified source for an address
    of ours that is not merely tentative, when the source has a cache entry
    or one can be made: the entry of the source is updated to STALE with the
    link-layer address of the message, and one neighbour advertisement leaves
    for the source with the solicited flag set; it has the override flag and
    carries our link-layer address when the solicitation came to a multicast
    destination (and the address is not optimistic, for the flag). *)
Theorem ndisc_recv_ns_answered (f : faults) (w : world) (skb : sk_buff)
    (ndopts : ndisc_options) (lladdr : option Z) (ifp : inet6_ifaddr)
    (idev : inet6_dev) (n : neighbour) :
  let dev := skb_dev skb in
  let saddr := ipv6_hdr_saddr skb in
  let target := nd_msg_target skb in
  let inc := ipv6_addr_is_multicast (ipv6_hdr_daddr skb) in
  sizeof_nd_msg <= skb_len skb ->
  ipv6_addr_is_multicast target = false ->
  ipv6_addr_any saddr = false ->
  ndisc_parse_options cfg (skb_data skb) (transport_header skb + sizeof_nd_msg)
    (to_int (to_u32 (skb_tail skb - (transport_header skb + sizeof_nd_msg))))
  = Some ndopts ->
  ndisc_opt_lladdr skb (nd_opts_src_lladdr ndopts) = Some lladdr ->
  ipv6_get_ifaddr w target dev = Some (ifp, idev) ->
  (has_flag (ifa_flags ifp) (Z.lor IFA_F_TENTATIVE IFA_F_OPTIMISTIC) = true ->
   has_flag (ifa_flags ifp) IFA_F_OPTIMISTIC = true) ->
  (__neigh_lookup f w saddr dev
     (negb inc || bool_decide (is_Some lladdr) || (addr_len dev =? 0))).2
  = Some n ->
  alloc_skb_fails f = false ->
  icmp6_dst_alloc_fails f = false ->
  0 <= needed_tailroom dev ->
  0 <= ndisc_addr_option_pad (dev_type dev) ->
  Z.of_nat (length (dev_addr dev)) = addr_len dev ->
  nd_tbl (ndisc_recv_ns cfg f w skb) !! (saddr, ifindex dev)
  = Some (neigh_update n (lladdr_bytes skb lladdr) NUD_STALE
            (Z.lor NEIGH_UPDATE_F_WEAK_OVERRIDE NEIGH_UPDATE_F_OVERRIDE))
  /\ emitted (ndisc_recv_ns cfg f w skb)
     = nd_wire dev (sk_hop_limit (ndisc_sk w)) target saddr
         (nd_msg_bytes NDISC_NEIGHBOUR_ADVERTISEMENT
            (nonzero (forwarding (cnf idev))) true
            (inc && negb (has_flag (ifa_flags ifp) IFA_F_OPTIMISTIC)) target
          ++ if (inc || nonzero (force_tllao (cnf idev)))
                && nonzero (addr_len dev)
             then nd_addr_option ND_OPT_TARGET_LL_ADDR
                    (ndisc_addr_option_pad (dev_type dev)) (dev_addr dev)
                    (ndisc_opt_addr_space dev)
             else [])
       :: emitted w.
Proof.
  exact (ndisc_recv_ns_reply_sent f w skb ndopts lladdr ifp idev n).
Qed.

End Answered.

Lemma ndisc_recv_ns_dad_defended_witness :
  emitted
    (ndisc_recv_ns Scenario.cfg (K := Scenario.reference) Scenario.no_faults
       (Scenario.host 1)
       (Scenario.ns_from 0 (addrconf_addr_solict_mult Scenario.our_lladdr)
          Scenario.our_lladdr []))
  = [nd_wire (K := Scenario.reference) Scenario.eth0 255 Scenario.our_lladdr
       in6addr_linklocal_allnodes
       (nd_msg_bytes NDISC_NEIGHBOUR_ADVERTISEMENT false false true
          Scenario.our_lladdr
        ++ nd_addr_option ND_OPT_TARGET_LL_ADDR 0
             (dev_addr Scenario.eth0) 8)].
Proof.
  refine (ndisc_recv_ns_dad_defended Scenario.cfg (K := Scenario.reference)
            Scenario.no_faults (Scenario.host 1)
            (Scenario.ns_from 0 (addrconf_addr_solict_mult Scenario.our_lladdr)
               Scenario.our_lladdr [])
            ndopts_zero
            {| ifa_addr := Scenario.our_lladdr; ifa_flags := 0 |}
            (Scenario.host_idev 1) _ _ _ _ _ _ _ _ _ _ _ _ _).
  - vm_compute. discriminate.
  - vm_compute. reflexivity.
  - vm_compute. reflexivity.
  - vm_compute. reflexivity.
  - vm_compute. reflexivity.
  - vm_compute. reflexivity.
  - vm_compute. reflexivity.
  - vm_compute. reflexivity.
  - vm_compute. reflexivity.
  - vm_compute. reflexivity.
  - vm_compute. discriminate.
  - vm_compute. discriminate.
  - vm_compute. reflexivity.
Defined.

Lemma ndisc_recv_ns_answered_witness :
  let skb := Scenario.ns_from Scenario.peer Scenario.our_lladdr
               Scenario.our_lladdr (Scenario.sllao Scenario.peer_mac) in
  let w' := ndisc_recv_ns Scenario.cfg (K := Scenario.reference)
              Scenario.no_faults (Scenario.host_with_peer 0) skb in
  nd_tbl w' !! (Scenario.peer, 2)
  = Some (neigh_update (Collaborators := Scenario.reference)
            (Scenario.peer_entry 0)
            (Some (Scenario.bytes Scenario.peer_mac)) NUD_STALE
            (Z.lor NEIGH_UPDATE_F_WEAK_OVERRIDE NEIGH_UPDATE_F_OVERRIDE))
  /\ emitted w'
     = [nd_wire (K := Scenario.reference) Scenario.eth0 255 Scenario.our_lladdr
          Scenario.peer
          (nd_msg_bytes NDISC_NEIGHBOUR_ADVERTISEMENT false true false
             Scenario.our_lladdr)].
Proof.
  refine (ndisc_recv_ns_answered Scenario.cfg (K := Scenario.reference)
            Scenario.no_faults (Scenario.host_with_peer 0)
            (Scenario.ns_from Scenario.peer Scenario.our_lladdr
               Scenario.our_lladdr (Scenario.sllao Scenario.peer_mac))
            (set_nd_slot ndopts_zero ND_OPT_SOURCE_LL_ADDR 64)
            (Some 66)
            {| ifa_addr := Scenario.our_lladdr; ifa_flags := 0 |}
            (Scenario.host_idev 1) (Scenario.peer_entry 0)
            _ _ _ _ _ _ _ _ _ _ _ _ _).
  - vm_compute. discriminate.
  - vm_compute. reflexivity.
  - vm_compute. reflexivity.
  - vm_compute. reflexivity.
  - vm_compute. reflexivity.
  - vm_compute. reflexivity.
  - vm_compute. discriminate.
  - vm_compute. reflexivity.
  - vm_compute. reflexivity.
  - vm_compute. reflexivity.
  - vm_compute. discriminate.
  - vm_compute. discriminate.
  - vm_compute. reflexivity.
Defined.

(** ** The constructor of cache entries *)

Section Constructor.
Context {K : Collaborators}.

(** X20.  The constructor of a cache entry fails with -EINVAL, leaving the
    entry as it was, exactly when the device has no IPv6 data.  Otherwise it
    returns 0, keeps the key, the device and the flags, points the entry at
    the parameters of its interface, and leaves it with operations and an
    output function that agree with its state: the connected output of the
    operations when the state is valid, their resolving output otherwise.
    An entry for a multicast address, or on a device without link-layer
    header, or on a NOARP, loopback or point-to-point device, is in the
    state NOARP; any other keeps its state. *)
Theorem ndisc_constructor_consistent (w : world) (neigh : neighbour) :
  let dev := n_dev neigh in
  let r := ndisc_constructor w neigh in
  match idevs w !! ifindex dev with
  | None => r = (- EINVAL, neigh)
  | Some _ =>
      r.1 = 0
      /\ primary_key r.2 = primary_key neigh /\ n_dev r.2 = dev
      /\ n_flags r.2 = n_flags neigh /\ n_probes r.2 = n_probes neigh
      /\ n_parms r.2 = Some (ifindex dev)
      /\ (exists ops,
            n_ops r.2 = Some ops
            /\ n_output r.2 = if has_flag (nud_state r.2) NUD_VALID
                              then ops_connected_output ops
                              else ops_output ops)
      /\ nud_state r.2
         = if negb (header_ops dev)
              || ipv6_addr_is_multicast (primary_key neigh)
              || has_flag (dev_flags dev) (Z.lor IFF_NOARP IFF_LOOPBACK)
              || has_flag (dev_flags dev) IFF_POINTOPOINT
           then NUD_NOARP else nud_state neigh
  end.
Proof.
  cbv zeta. unfold ndisc_constructor.
  destruct (idevs w !! ifindex (n_dev neigh)); [|reflexivity].
  destruct (header_ops (n_dev neigh)); cbn [negb orb].
  - destruct (ipv6_addr_is_multicast (primary_key neigh)); cbn [orb];
      [|destruct (has_flag (dev_flags (n_dev neigh)) (Z.lor _ _)); cbn [orb];
        [|destruct (has_flag (dev_flags (n_dev neigh)) IFF_POINTOPOINT)]];
      cbn [fst snd primary_key n_dev n_flags n_probes n_parms n_ops n_output
           nud_state];
      repeat split; eexists; split; reflexivity.
  - cbn [fst snd primary_key n_dev n_flags n_probes n_parms n_ops n_output
         nud_state].
    repeat split. exists ndisc_direct_ops. split; [reflexivity|].
    destruct (has_flag NUD_NOARP NUD_VALID); reflexivity.
Qed.

End Constructor.

(** ** Device events *)

Section DeviceEvents.
Context (cfg : kconfig) {K : Collaborators}.

(** X21.  The handler of device events always answers NOTIFY_DONE.  It
    announces the addresses of the interface, with one unsolicited neighbour
    advertisement each, when asked to notify the peers, and when the
    link-layer address changed and [ndisc_notify] is set for the interface;
    an interface going down, an address change without [ndisc_notify] and
    any other event send nothing. *)
Theorem ndisc_netdev_event_announces (f : faults) (w : world)
    (event : netdev_event) (dev : net_device) (idev : inet6_dev) :
  alloc_skb_fails f = false ->
  icmp6_dst_alloc_fails f = false ->
  0 <= needed_tailroom dev ->
  0 <= ndisc_addr_option_pad (dev_type dev) ->
  Z.of_nat (length (dev_addr dev)) = addr_len dev ->
  idevs w !! ifindex dev = Some idev ->
  NoDup (map ifa_addr (addr_list idev)) ->
  (ndisc_netdev_event f w event dev).1 = NOTIFY_DONE
  /\ emitted (ndisc_netdev_event f w event dev).2
     = (if match event with
           | NETDEV_NOTIFY_PEERS => true
           | NETDEV_CHANGEADDR => nonzero (ndisc_notify (cnf idev))
           | _ => false
           end
        then rev (map
                    (fun ifa =>
                       nd_wire dev (sk_hop_limit (ndisc_sk w)) (ifa_addr ifa)
                         in6addr_linklocal_allnodes
                         (nd_msg_bytes NDISC_NEIGHBOUR_ADVERTISEMENT
                            (nonzero (forwarding (cnf idev))) false
                            (negb (has_flag (ifa_flags ifa) IFA_F_OPTIMISTIC))
                            (ifa_addr ifa)
                          ++ if nonzero (addr_len dev)
                             then nd_addr_option ND_OPT_TARGET_LL_ADDR
                                    (ndisc_addr_option_pad (dev_type dev))
                                    (dev_addr dev) (ndisc_opt_addr_space dev)
                             else []))
                    (addr_list idev))
        else [])
       ++ emitted w.
Proof.
  intros Ha Hd Ht Hpad Hdev Hi Hnd.
  assert (Hs : forall w1, idevs w1 = idevs w -> ndisc_sk w1 = ndisc_sk w ->
            emitted (ndisc_send_unsol_na f w1 dev)
            = rev (map
                     (fun ifa =>
                        nd_wire dev (sk_hop_limit (ndisc_sk w)) (ifa_addr ifa)
                          in6addr_linklocal_allnodes
                          (nd_msg_bytes NDISC_NEIGHBOUR_ADVERTISEMENT
                             (nonzero (forwarding (cnf idev))) false
                             (negb (has_flag (ifa_flags ifa) IFA_F_OPTIMISTIC))
                             (ifa_addr ifa)
                           ++ if nonzero (addr_len dev)
                              then nd_addr_option ND_OPT_TARGET_LL_ADDR
                                     (ndisc_addr_option_pad (dev_type dev))
                                     (dev_addr dev) (ndisc_opt_addr_space dev)
                              else []))
                     (addr_list idev))
              ++ emitted w1).
  { intros w1 H1 H2. unfold ndisc_send_unsol_na. rewrite H1, Hi.
    apply (ndisc_send_unsol_na_fold f w dev idev Ha Hd Ht Hpad Hdev Hi Hnd);
      auto. }
  unfold ndisc_netdev_event. destruct event; cbn [fst snd].
  - change (idevs (emit (emit w (EvNeighChangeaddr (ifindex dev))) EvFib6RunGc))
      with (idevs w).
    rewrite Hi. destruct (nonzero (ndisc_notify (cnf idev))); cbn [fst snd].
    + split; [reflexivity|]. rewrite Hs by reflexivity. reflexivity.
    + split; reflexivity.
  - split; reflexivity.
  - split; [reflexivity|]. apply Hs; reflexivity.
  - split; reflexivity.
Qed.

End DeviceEvents.

(** ** What a received message leaves alone *)

Section Untouched.
Context (cfg : kconfig) {K : Collaborators}.
Variable P : world -> Prop.
Hypothesis Pe : forall w e, P w -> P (emit w e).
Hypothesis Pn : forall w m, P w -> P (set_nd_tbl w m).
Hypothesis Pr : forall w m, P w -> P (set_rt6_dflt w m).

Lemma ndisc_send_skb_keeps f w skb daddr saddr :
  P w -> P (ndisc_send_skb f w skb daddr saddr).
Proof.
  intros Hw. unfold ndisc_send_skb. repeat case_match; auto.
Qed.

Lemma ndisc_send_na_keeps f w dev daddr solicited_addr router solicited
    override inc_opt :
  P w ->
  P (ndisc_send_na f w dev daddr solicited_addr router solicited override
       inc_opt).
Proof.
  intros Hw. unfold ndisc_send_na.
  repeat case_match; try exact Hw; apply ndisc_send_skb_keeps; exact Hw.
Qed.

Lemma neigh_lookup_create_keeps f w pkey dev creat :
  P w -> P (__neigh_lookup f w pkey dev creat).1.
Proof.
  intros Hw.
  destruct (neigh_lookup_create_nd_tbl f w pkey dev creat) as (m & -> & _).
  apply Pn. exact Hw.
Qed.

Lemma ndisc_recv_ns_reply_keeps f w skb lladdr ifp idev is_router :
  P w -> P (ndisc_recv_ns_reply f w skb lladdr ifp idev is_router).
Proof.
  intros Hw. unfold ndisc_recv_ns_reply.
  destruct (ipv6_addr_any (ipv6_hdr_saddr skb));
    [apply ndisc_send_na_keeps; exact Hw|].
  match goal with
  | |- context [__neigh_lookup f ?w0 ?a ?d ?c] =>
      assert (H1 : P (__neigh_lookup f w0 a d c).1)
        by (apply neigh_lookup_create_keeps, Pe; exact Hw);
      destruct (__neigh_lookup f w0 a d c) as [w1 neigh]
  end.
  cbn [fst] in H1.
  destruct (_ || _).
  - apply ndisc_send_na_keeps. destruct neigh; [apply Pn|]; exact H1.
  - destruct neigh; [apply Pn|]; exact H1.
Qed.

Lemma ndisc_recv_ns_keeps f w skb :
  P w -> P (ndisc_recv_ns cfg f w skb).
Proof.
  intros Hw.
  assert (Ht : forall lladdr, P (ndisc_recv_ns_target f w skb lladdr)).
  { intros lladdr. unfold ndisc_recv_ns_target.
    repeat case_match; try exact Hw;
      first [ apply ndisc_recv_ns_reply_keeps; exact Hw | apply Pe; exact Hw ]. }
  unfold ndisc_recv_ns. repeat case_match; try exact Hw; apply Ht.
Qed.

Lemma ndisc_recv_na_keeps f w skb :
  P w -> P (ndisc_recv_na cfg f w skb).
Proof.
  intros Hw. unfold ndisc_recv_na, ndisc_recv_na_neigh.
  repeat case_match; try exact Hw;
    first [ apply Pe; exact Hw
          | apply Pr, Pn; exact Hw
          | apply Pn; exact Hw ].
Qed.

Lemma ndisc_recv_rs_keeps f w skb :
  P w -> P (ndisc_recv_rs cfg f w skb).
Proof.
  intros Hw. unfold ndisc_recv_rs.
  destruct (_ <? _); [exact Hw|].
  destruct (idevs w !! _); [|exact Hw].
  destruct (negb _); [exact Hw|].
  destruct (ipv6_addr_any _); [exact Hw|].
  destruct (ndisc_parse_options _ _ _ _); [|exact Hw].
  destruct (ndisc_opt_lladdr _ _); [|exact Hw].
  pose proof (neigh_lookup_create_keeps f w (ipv6_hdr_saddr skb) (skb_dev skb)
                true Hw) as H1.
  destruct (__neigh_lookup f w (ipv6_hdr_saddr skb) (skb_dev skb) true)
    as [w1 neigh].
  cbn [fst] in H1. destruct neigh; [apply Pn|]; exact H1.
Qed.

Lemma ndisc_redirect_rcv_keeps f w skb :
  P w -> P (ndisc_redirect_rcv cfg f w skb).
Proof.
  intros Hw. unfold ndisc_redirect_rcv.
  repeat case_match; try exact Hw; apply Pe; exact Hw.
Qed.

(** A property that moreover survives the writes of the data of the
    receiving interface survives any received message. *)
Lemma ndisc_rcv_keeps f w skb :
  (forall w d, P w -> P (idev_store w (skb_dev skb) d)) ->
  P w -> P (ndisc_rcv cfg f w skb).2.
Proof.
  intros Pi Hw. unfold ndisc_rcv.
  repeat case_match; cbn [snd]; try exact Hw;
    first [ apply ndisc_recv_ns_keeps | apply ndisc_recv_na_keeps
          | apply ndisc_recv_rs_keeps | apply ndisc_redirect_rcv_keeps
          | idtac ]; try exact Hw.
  apply ndisc_router_discovery_inv; [|exact Hw].
  intros idev _. split.
  - intros w0 e _. apply Pe.
  - exact Pn.
  - intros w0 d _. apply (Pi w0 d).
  - exact Pr.
Qed.

(** Without the writes of the interface data, it survives any message but a
    router advertisement. *)
Lemma ndisc_rcv_keeps_not_ra f w skb :
  icmp6_type skb <> NDISC_ROUTER_ADVERTISEMENT ->
  P w -> P (ndisc_rcv cfg f w skb).2.
Proof.
  intros Hty Hw. unfold ndisc_rcv.
  change (icmp6_type (set_cb_flags skb 0)) with (icmp6_type skb).
  destruct (Z.eqb_spec (icmp6_type skb) NDISC_ROUTER_ADVERTISEMENT) as [E|_];
    [contradiction|].
  repeat case_match; cbn [snd]; try exact Hw;
    first [ apply ndisc_recv_ns_keeps | apply ndisc_recv_na_keeps
          | apply ndisc_recv_rs_keeps | apply ndisc_redirect_rcv_keeps ];
    exact Hw.
Qed.

End Untouched.

Section Untouched2.
Context (cfg : kconfig) {K : Collaborators}.

(** X22.  Whatever message is received, the handlers leave the control
    socket, the configuration common to all interfaces, the anycast
    addresses, the proxy entries and the clock as they were, and write the
    data of no interface but the receiving one; and only a router
    advertisement makes them write the data of that one.  What the handlers
    ask of the address and routing code is recorded as a request and is not
    part of this. *)
Theorem ndisc_rcv_untouched (f : faults) (w : world) (skb : sk_buff) :
  let w' := (ndisc_rcv cfg f w skb).2 in
  ndisc_sk w' = ndisc_sk w
  /\ devconf_all w' = devconf_all w
  /\ ac_list w' = ac_list w
  /\ pneigh w' = pneigh w
  /\ jiffies w' = jiffies w
  /\ (forall i, i <> ifindex (skb_dev skb) -> idevs w' !! i = idevs w !! i)
  /\ (icmp6_type skb <> NDISC_ROUTER_ADVERTISEMENT -> idevs w' = idevs w).
Proof.
  cbv zeta.
  pose (P := fun w' : world =>
               ndisc_sk w' = ndisc_sk w
               /\ devconf_all w' = devconf_all w
               /\ ac_list w' = ac_list w
               /\ pneigh w' = pneigh w
               /\ jiffies w' = jiffies w
               /\ (forall i, i <> ifindex (skb_dev skb) ->
                     idevs w' !! i = idevs w !! i)).
  assert (HP : P (ndisc_rcv cfg f w skb).2).
  { apply ndisc_rcv_keeps; unfold P.
    - intros w0 e H. exact H.
    - intros w0 m H. exact H.
    - intros w0 m H. exact H.
    - intros w0 d (H1 & H2 & H3 & H4 & H5 & H6).
      repeat split; try assumption.
      intros i Hi. cbn [idev_store idevs set_idevs].
      unfold idev_store. cbn [idevs set_idevs].
      rewrite lookup_insert_ne by congruence. apply H6. exact Hi.
    - repeat split. }
  destruct HP as (H1 & H2 & H3 & H4 & H5 & H6).
  repeat split; try assumption.
  intros Hty.
  apply (ndisc_rcv_keeps_not_ra cfg (fun w' => idevs w' = idevs w));
    [intros w0 e H; exact H | intros w0 m H; exact H | intros w0 m H; exact H
    | exact Hty | reflexivity].
Qed.

End Untouched2.

Lemma ndisc_netdev_event_announces_witness :
  length
    (emitted
       (ndisc_netdev_event (K := Scenario.reference) Scenario.no_faults
          (Scenario.host 1) NETDEV_NOTIFY_PEERS Scenario.eth0).2)
  = 2%nat.
Proof.
  assert (Hnd : NoDup (map ifa_addr (addr_list (Scenario.host_idev 1)))).
  { simpl. apply NoDup_cons. split; [|apply NoDup_singleton].
    intros H. apply list_elem_of_singleton in H. discriminate H. }
  assert (H0 : 0 <= 0) by lia.
  exact (f_equal length
           (proj2 (ndisc_netdev_event_announces (K := Scenario.reference)
                     Scenario.no_faults (Scenario.host 1) NETDEV_NOTIFY_PEERS
                     Scenario.eth0 (Scenario.host_idev 1)
                     eq_refl eq_refl H0 H0 eq_refl eq_refl Hnd))).
Defined.

(** ** Router advertisements: the data of the interface *)

Lemma be_value_bound (bs : list byte) :
  0 <= be_value bs < 256 ^ Z.of_nat (length bs).
Proof.
  unfold be_value.
  assert (H : forall acc n, 0 <= acc < 256 ^ Z.of_nat n ->
            0 <= fold_left (fun a b => a * 256 + u8 b) bs acc
              < 256 ^ Z.of_nat (n + length bs)).
  { induction bs as [|b bs IH]; intros acc n Hacc; cbn [fold_left length].
    - rewrite Nat.add_0_r. exact Hacc.
    - replace (n + S (length bs))%nat with (S n + length bs)%nat by lia.
      apply IH. pose proof (u8_range b).
      rewrite Nat2Z.inj_succ, Z.pow_succ_r by lia. nia. }
  apply (H 0 0%nat). cbn. lia.
Qed.

Lemma to_u32_to_int z : to_u32 (to_int z) = to_u32 z.
Proof.
  unfold to_u32, to_int.
  rewrite Zminus_mod_idemp_l.
  replace (z + 2147483648 - 2147483648) with z by lia. reflexivity.
Qed.

Lemma load_bytes_length mem p n : (length (load_bytes mem p n) <= n)%nat.
Proof. unfold load_bytes. rewrite length_take. lia. Qed.

Section RaIdev.
Context (cfg : kconfig) {K : Collaborators}.
Variables (skb : sk_buff) (d0 : inet6_dev).

Lemma ra_idev_kept_emit w e :
  ra_idev_kept skb d0 w -> ra_idev_kept skb d0 (emit w e).
Proof. intros H. exact H. Qed.

Lemma ra_idev_kept_nd_tbl w m :
  ra_idev_kept skb d0 w -> ra_idev_kept skb d0 (set_nd_tbl w m).
Proof. intros H. exact H. Qed.

Lemma ra_idev_kept_rt6 w m :
  ra_idev_kept skb d0 w -> ra_idev_kept skb d0 (set_rt6_dflt w m).
Proof. intros H. exact H. Qed.

Lemma ra_idev_kept_store w d :
  ra_idev_ok skb d0 d -> ra_idev_kept skb d0 (idev_store w (skb_dev skb) d).
Proof.
  intros H. exists d. split; [|exact H].
  unfold idev_store. cbn [idevs set_idevs]. apply lookup_insert_eq.
Qed.

Lemma ra_idev_kept_lookup f w pkey dev creat :
  ra_idev_kept skb d0 w ->
  ra_idev_kept skb d0 (__neigh_lookup f w pkey dev creat).1.
Proof.
  intros Hw.
  destruct (neigh_lookup_create_nd_tbl f w pkey dev creat) as (m & -> & _).
  exact Hw.
Qed.

Lemma ndisc_ra_neigh_kept f w ndopts neigh :
  ra_idev_kept skb d0 w ->
  ra_idev_kept skb d0 (ndisc_ra_neigh f w skb ndopts neigh).1.
Proof.
  intros Hw. unfold ndisc_ra_neigh.
  destruct neigh as [n|].
  - destruct (ndisc_opt_lladdr skb (nd_opts_src_lladdr ndopts)); exact Hw.
  - pose proof (ra_idev_kept_lookup f w (ipv6_hdr_saddr skb) (skb_dev skb) true
                  Hw) as H1.
    destruct (__neigh_lookup f w (ipv6_hdr_saddr skb) (skb_dev skb) true)
      as [w1 [n|]]; cbn [fst] in *; [|exact H1].
    destruct (ndisc_opt_lladdr skb (nd_opts_src_lladdr ndopts)); exact H1.
Qed.

Lemma ndisc_ra_route_info_kept w ndopts d :
  ra_idev_kept skb d0 w ->
  ra_idev_kept skb d0 (ndisc_ra_route_info cfg w skb ndopts d).
Proof.
  intros Hw. unfold ndisc_ra_route_info.
  repeat case_match; try exact Hw.
  apply fold_left_inv; [exact Hw|].
  intros a b Ha. repeat case_match; exact Ha.
Qed.

Lemma ndisc_ra_prefix_info_kept w ndopts d :
  ra_idev_kept skb d0 w ->
  ra_idev_kept skb d0 (ndisc_ra_prefix_info w skb ndopts d).
Proof.
  intros Hw. unfold ndisc_ra_prefix_info.
  repeat case_match; try exact Hw.
  apply fold_left_inv; [exact Hw|].
  intros a b Ha. exact Ha.
Qed.

Lemma ndisc_ra_mtu_kept w ndopts d rt :
  ra_idev_ok skb d0 d -> ra_idev_kept skb d0 w ->
  ra_idev_kept skb d0 (ndisc_ra_mtu w skb ndopts d rt).1
  /\ ra_idev_ok skb d0 (ndisc_ra_mtu w skb ndopts d rt).2.
Proof.
  intros Hd Hw. unfold ndisc_ra_mtu.
  destruct (nd_opts_mtu ndopts) as [p|]; [|split; assumption].
  set (mtu := be_value (load_bytes (skb_data skb) (p + 4) 4)).
  assert (Hm : 0 <= mtu < 4294967296).
  { pose proof (be_value_bound (load_bytes (skb_data skb) (p + 4) 4)) as Hb.
    pose proof (load_bytes_length (skb_data skb) (p + 4) 4) as Hl.
    fold mtu in Hb.
    assert (256 ^ Z.of_nat (length (load_bytes (skb_data skb) (p + 4) 4))
            <= 256 ^ 4) by (apply Z.pow_le_mono_r; lia).
    lia. }
  destruct (Z.ltb_spec mtu IPV6_MIN_MTU); [split; assumption|].
  destruct (Z.ltb_spec (dev_mtu (skb_dev skb)) mtu); [split; assumption|].
  cbn [orb].
  destruct (negb _); [|split; assumption].
  assert (Hd' : ra_idev_ok skb d0 (set_cnf d (set_mtu6 (cnf d) (to_int mtu)))).
  { unfold ra_idev_ok in *. cbn [cnf set_cnf set_mtu6 addr_list forwarding
      accept_ra accept_ra_pinfo accept_ra_rtr_pref accept_ra_rt_info_max_plen
      proxy_ndp force_tllao ndisc_notify accept_ra_defrtr mtu6 hop_limit].
    destruct Hd as (H1 & H2 & H3 & H4 & H5 & H6 & H7 & H8 & H9 & H10 & _ & H12).
    repeat split; try assumption.
    right. rewrite to_u32_to_int. unfold to_u32. rewrite Z.mod_small by lia.
    lia. }
  cbn [fst snd]. split; [|exact Hd'].
  apply ra_idev_kept_emit.
  destruct rt; [apply ra_idev_kept_rt6|]; apply ra_idev_kept_store; exact Hd'.
Qed.

Lemma ra_idev_ok_info_flag d k :
  ra_idev_ok skb d0 d ->
  ra_idev_ok skb d0 (set_cnf d (set_ra_info_flag (cnf d) k)).
Proof. intros H. exact H. Qed.

Lemma ndisc_ra_info_flag_kept w d :
  ra_idev_ok skb d0 d ->
  ra_idev_kept skb d0 (ndisc_ra_info_flag w skb d).1
  /\ ra_idev_ok skb d0 (ndisc_ra_info_flag w skb d).2.
Proof.
  intros Hd. unfold ndisc_ra_info_flag. cbn [fst snd].
  match goal with
  | |- ra_idev_kept _ _ (idev_store _ _ ?d') /\ _ =>
      assert (Hd' : ra_idev_ok skb d0 d')
  end.
  { cbv zeta. repeat case_match; repeat apply ra_idev_ok_info_flag; exact Hd. }
  split; [apply ra_idev_kept_store|]; exact Hd'.
Qed.

Lemma ndisc_ra_useropts_kept f w ndopts d :
  ra_idev_ok skb d0 d -> ra_idev_kept skb d0 w ->
  ra_idev_kept skb d0 (ndisc_ra_useropts cfg f w skb ndopts d).1
  /\ ra_idev_ok skb d0 (ndisc_ra_useropts cfg f w skb ndopts d).2.
Proof.
  intros Hd Hw. unfold ndisc_ra_useropts.
  apply (fold_left_inv
           (fun s : world * inet6_dev =>
              ra_idev_kept skb d0 s.1 /\ ra_idev_ok skb d0 s.2)).
  - split; assumption.
  - intros [w1 d1] p [H1 H2]. cbn [fst snd] in *.
    assert (H3 : ra_idev_kept skb d0 (ndisc_ra_useropt f w1 skb p)).
    { unfold ndisc_ra_useropt. repeat case_match; exact H1. }
    case_match; cbn [fst snd]; split; try assumption.
    apply ra_idev_kept_store. apply ra_idev_ok_info_flag. exact H2.
Qed.

Lemma ndisc_ra_options_kept f w ndopts d rt neigh :
  ra_idev_ok skb d0 d -> ra_idev_kept skb d0 w ->
  ra_idev_kept skb d0 (ndisc_ra_options cfg f w skb ndopts d rt neigh).
Proof.
  intros Hd Hw. unfold ndisc_ra_options.
  pose proof (ndisc_ra_neigh_kept f w ndopts neigh Hw) as H1.
  destruct (ndisc_ra_neigh f w skb ndopts neigh) as [w1 go]. cbn [fst] in H1.
  destruct go; cbn [negb]; [|exact H1].
  destruct (ipv6_accept_ra d); cbn [negb]; [|exact H1].
  assert (H2 : ra_idev_kept skb d0
                 (if CONFIG_IPV6_ROUTE_INFO cfg
                  then ndisc_ra_route_info cfg w1 skb ndopts d else w1)).
  { destruct (CONFIG_IPV6_ROUTE_INFO cfg);
      [apply ndisc_ra_route_info_kept|]; exact H1. }
  destruct (CONFIG_IPV6_NDISC_NODETYPE cfg
            && (ndisc_nodetype skb =? NDISC_NODETYPE_NODEFAULT)); [exact H2|].
  apply ndisc_ra_prefix_info_kept with (ndopts := ndopts) (d := d) in H2.
  destruct (ndisc_ra_mtu_kept _ ndopts d rt Hd H2) as [H3 Hd3].
  destruct (ndisc_ra_mtu _ skb ndopts d rt) as [w3 d3]. cbn [fst snd] in *.
  assert (H4 : ra_idev_kept skb d0
                 (if MTK_DHCPV6C_WIFI cfg then ndisc_ra_info_flag w3 skb d3
                  else (w3, d3)).1
               /\ ra_idev_ok skb d0
                    (if MTK_DHCPV6C_WIFI cfg
                     then ndisc_ra_info_flag w3 skb d3
                     else (w3, d3)).2).
  { destruct (MTK_DHCPV6C_WIFI cfg);
      [apply ndisc_ra_info_flag_kept; assumption | split; assumption]. }
  destruct (if MTK_DHCPV6C_WIFI cfg then ndisc_ra_info_flag w3 skb d3
            else (w3, d3)) as [w4 d4].
  cbn [fst snd] in H4. destruct H4 as [H4 Hd4].
  apply ndisc_ra_useropts_kept; assumption.
Qed.

Lemma ndisc_ra_retrans_kept w d :
  ra_idev_ok skb d0 d -> ra_idev_kept skb d0 w ->
  ra_idev_kept skb d0 (ndisc_ra_retrans cfg w skb d).1
  /\ ra_idev_ok skb d0 (ndisc_ra_retrans cfg w skb d).2.
Proof.
  intros Hd Hw. unfold ndisc_ra_retrans.
  case_match; cbn [fst snd]; split; try exact Hd; try exact Hw.
  apply ra_idev_kept_emit, ra_idev_kept_store. exact Hd.
Qed.

Lemma ndisc_ra_reachable_kept w d :
  ra_idev_ok skb d0 d -> ra_idev_kept skb d0 w ->
  ra_idev_kept skb d0 (ndisc_ra_reachable cfg w skb d).1
  /\ ra_idev_ok skb d0 (ndisc_ra_reachable cfg w skb d).2.
Proof.
  intros Hd Hw. unfold ndisc_ra_reachable.
  repeat case_match; cbn [fst snd]; split; try exact Hd; try exact Hw.
  all: apply ra_idev_kept_emit, ra_idev_kept_store; exact Hd.
Qed.

Lemma ndisc_ra_timers_kept f w ndopts d rt neigh :
  ra_idev_ok skb d0 d -> ra_idev_kept skb d0 w ->
  ra_idev_kept skb d0 (ndisc_ra_timers cfg f w skb ndopts d rt neigh).
Proof.
  intros Hd Hw. unfold ndisc_ra_timers.
  destruct (ndisc_ra_retrans_kept w d Hd Hw) as [H1 Hd1].
  destruct (ndisc_ra_retrans cfg w skb d) as [w1 d1]. cbn [fst snd] in *.
  destruct (ndisc_ra_reachable_kept w1 d1 Hd1 H1) as [H2 Hd2].
  destruct (ndisc_ra_reachable cfg w1 skb d1) as [w2 d2]. cbn [fst snd] in *.
  apply ndisc_ra_options_kept; assumption.
Qed.

Lemma ra_idev_ok_hop_limit d :
  ra_idev_ok skb d0 d -> nonzero (icmp6_hop_limit skb) = true ->
  ra_idev_ok skb d0 (set_cnf d (set_hop_limit (cnf d) (icmp6_hop_limit skb))).
Proof.
  intros (H1 & H2 & H3 & H4 & H5 & H6 & H7 & H8 & H9 & H10 & H11 & _) Hnz.
  unfold ra_idev_ok. cbn [cnf set_cnf set_hop_limit addr_list forwarding
    accept_ra accept_ra_pinfo accept_ra_rtr_pref accept_ra_rt_info_max_plen
    proxy_ndp force_tllao ndisc_notify accept_ra_defrtr mtu6 hop_limit].
  repeat split; try assumption.
  right. split; [reflexivity|]. unfold nonzero in Hnz.
  destruct (Z.eqb_spec (icmp6_hop_limit skb) 0); [discriminate | assumption].
Qed.

Lemma ndisc_ra_defrtr_kept f w d :
  ra_idev_ok skb d0 d -> ra_idev_kept skb d0 w ->
  match ndisc_ra_defrtr cfg f w skb d with
  | inl w' => ra_idev_kept skb d0 w'
  | inr (w', d', _, _) => ra_idev_kept skb d0 w' /\ ra_idev_ok skb d0 d'
  end.
Proof.
  intros Hd Hw. unfold ndisc_ra_defrtr, dst_neigh_lookup.
  assert (Hn : forall w0, ra_idev_kept skb d0 w0 ->
            ra_idev_kept skb d0
              (__neigh_lookup f w0 (ipv6_hdr_saddr skb) (skb_dev skb) true).1)
    by (intros; apply ra_idev_kept_lookup; assumption).
  assert (H1 : ra_idev_kept skb d0
                 (match rt6_get_dflt_router w (ipv6_hdr_saddr skb) (skb_dev skb)
                  with
                  | Some _ => __neigh_lookup f w (ipv6_hdr_saddr skb)
                                (skb_dev skb) true
                  | None => (w, None)
                  end).1).
  { destruct (rt6_get_dflt_router w _ _); [apply Hn|]; exact Hw. }
  destruct (match rt6_get_dflt_router w (ipv6_hdr_saddr skb) (skb_dev skb) with
            | Some _ => __neigh_lookup f w (ipv6_hdr_saddr skb) (skb_dev skb)
                          true
            | None => (w, None)
            end) as [w1 neigh1].
  cbn [fst] in H1.
  destruct (bool_decide (is_Some (rt6_get_dflt_router w _ _))
            && negb (bool_decide (is_Some neigh1))); [exact H1|].
  assert (Hst : forall (w0 : world) m,
            ra_idev_ok skb d0 (set_cnf d (set_hop_limit (cnf d)
                                            (icmp6_hop_limit skb))) ->
            idevs w0 = <[ifindex (skb_dev skb) :=
                           set_cnf d (set_hop_limit (cnf d)
                                        (icmp6_hop_limit skb))]> m ->
            ra_idev_kept skb d0 w0).
  { intros w0 m Hd' E. eexists. split; [|exact Hd'].
    rewrite E. apply lookup_insert_eq. }
  destruct (rt6_get_dflt_router w _ _) as [r|].
  - destruct (icmp6_rt_lifetime skb =? 0).
    + destruct (nonzero (icmp6_rt_lifetime skb)).
      * unfold rt6_add_dflt_router.
        destruct (rt6_add_fails f); [exact H1|].
        match goal with
        | |- context [__neigh_lookup f ?w2 _ _ true] =>
            pose proof (Hn w2 H1) as H2;
            destruct (__neigh_lookup f w2 (ipv6_hdr_saddr skb) (skb_dev skb)
                        true) as [w3 [n3|]]
        end; cbn [fst] in H2; [|exact H2].
        destruct (nonzero (icmp6_hop_limit skb)) eqn:Hnz;
          [ pose proof (ra_idev_ok_hop_limit d Hd Hnz) as Hd';
            split; [|exact Hd']; eapply Hst; [exact Hd' | reflexivity]
          | split; [exact H2 | exact Hd] ].
      * destruct (nonzero (icmp6_hop_limit skb)) eqn:Hnz;
          [ pose proof (ra_idev_ok_hop_limit d Hd Hnz) as Hd';
            split; [|exact Hd']; eapply Hst; [exact Hd' | reflexivity]
          | split; [exact H1 | exact Hd] ].
    + destruct (nonzero (icmp6_hop_limit skb)) eqn:Hnz;
        [ pose proof (ra_idev_ok_hop_limit d Hd Hnz) as Hd';
          split; [|exact Hd']; eapply Hst; [exact Hd' | reflexivity]
        | split; [exact H1 | exact Hd] ].
  - destruct (nonzero (icmp6_rt_lifetime skb)).
    + unfold rt6_add_dflt_router.
      destruct (rt6_add_fails f); [exact H1|].
      match goal with
      | |- context [__neigh_lookup f ?w2 _ _ true] =>
          pose proof (Hn w2 H1) as H2;
          destruct (__neigh_lookup f w2 (ipv6_hdr_saddr skb) (skb_dev skb)
                      true) as [w3 [n3|]]
      end; cbn [fst] in H2; [|exact H2].
      destruct (nonzero (icmp6_hop_limit skb)) eqn:Hnz;
        [ pose proof (ra_idev_ok_hop_limit d Hd Hnz) as Hd';
          split; [|exact Hd']; eapply Hst; [exact Hd' | reflexivity]
        | split; [exact H2 | exact Hd] ].
    + destruct (nonzero (icmp6_hop_limit skb)) eqn:Hnz;
        [ pose proof (ra_idev_ok_hop_limit d Hd Hnz) as Hd';
          split; [|exact Hd']; eapply Hst; [exact Hd' | reflexivity]
        | split; [exact H1 | exact Hd] ].
Qed.

Lemma ra_idev_ok_if_flags d :
  ra_idev_ok skb d0 d -> ra_idev_ok skb d0 (ndisc_ra_if_flags skb d).
Proof.
  intros (H1 & H2 & H3 & H4 & H5 & H6 & H7 & H8 & H9 & H10 & H11 & H12).
  unfold ndisc_ra_if_flags, ra_idev_ok.
  repeat case_match;
    cbn [cnf set_cnf set_if_flags set_accept_ra_defrtr addr_list forwarding
         accept_ra accept_ra_pinfo accept_ra_rtr_pref
         accept_ra_rt_info_max_plen proxy_ndp force_tllao ndisc_notify
         accept_ra_defrtr mtu6 hop_limit];
    repeat split; try assumption; right; reflexivity.
Qed.

Lemma ndisc_ra_linkparms_kept f w ndopts d :
  ra_idev_ok skb d0 d -> ra_idev_kept skb d0 w ->
  ra_idev_kept skb d0 (ndisc_ra_linkparms cfg f w skb ndopts d).
Proof.
  intros Hd Hw. unfold ndisc_ra_linkparms.
  pose proof (ra_idev_ok_if_flags d Hd) as Hd1.
  set (d1 := ndisc_ra_if_flags skb d) in *.
  assert (H1 : ra_idev_kept skb d0 (idev_store w (skb_dev skb) d1))
    by (apply ra_idev_kept_store; exact Hd1).
  destruct (negb (nonzero (accept_ra_defrtr (cnf d1)))).
  { apply ndisc_ra_timers_kept; assumption. }
  destruct (ipv6_chk_addr _ _ None).
  { apply ndisc_ra_timers_kept; assumption. }
  pose proof (ndisc_ra_defrtr_kept f (idev_store w (skb_dev skb) d1) d1 Hd1 H1)
    as H2.
  destruct (ndisc_ra_defrtr cfg f (idev_store w (skb_dev skb) d1) skb d1)
    as [w2|[[[w2 d2] rt2] neigh2]].
  - exact H2.
  - destruct H2 as [H2 Hd2]. apply ndisc_ra_timers_kept; assumption.
Qed.

Lemma ra_idev_ok_refl : ra_idev_ok skb d0 d0.
Proof. unfold ra_idev_ok. repeat split; left; reflexivity. Qed.

End RaIdev.

Section RaIdev2.
Context (cfg : kconfig) {K : Collaborators}.

(** X23.  What the handler of a router advertisement itself can do to the
    data of the interface it arrives on (prefixes and routes are handed on
    as requests to the address and routing code): whatever the message
    carries, the interface keeps its data, with
    the same addresses and the same switches ([forwarding], [accept_ra],
    [accept_ra_pinfo], [accept_ra_rtr_pref], [accept_ra_rt_info_max_plen],
    [proxy_ndp], [force_tllao], [ndisc_notify]); [accept_ra_defrtr] is as
    before or cleared; the MTU is as before or lies between the IPv6 minimum
    of 1280 and the MTU of the device; the hop limit is as before or the
    non-zero hop limit advertised. *)
Theorem ndisc_router_discovery_idev (f : faults) (w : world) (skb : sk_buff)
    (d0 : inet6_dev) :
  idevs w !! ifindex (skb_dev skb) = Some d0 ->
  exists d,
    idevs (ndisc_router_discovery cfg f w skb) !! ifindex (skb_dev skb) = Some d
    /\ ra_idev_ok skb d0 d.
Proof.
  intros Hi.
  assert (Hw : ra_idev_kept skb d0 w)
    by (exists d0; split; [exact Hi | apply ra_idev_ok_refl]).
  change (ra_idev_kept skb d0 (ndisc_router_discovery cfg f w skb)).
  unfold ndisc_router_discovery. rewrite Hi.
  repeat case_match; try exact Hw;
    first [ apply ndisc_ra_options_kept | apply ndisc_ra_linkparms_kept ];
    first [ apply ra_idev_ok_refl | exact Hw ].
Qed.

End RaIdev2.

Lemma ndisc_router_discovery_idev_witness :
  exists d,
    idevs (ndisc_router_discovery Scenario.cfg (K := Scenario.reference)
             Scenario.no_faults (Scenario.host 1)
             (Scenario.ra_from Scenario.eth0 255 0 1 1800)) !! 2
    = Some d
    /\ ra_idev_ok (Scenario.ra_from Scenario.eth0 255 0 1 1800)
         (Scenario.host_idev 1) d.
Proof.
  apply (ndisc_router_discovery_idev Scenario.cfg (K := Scenario.reference)
           Scenario.no_faults (Scenario.host 1)
           (Scenario.ra_from Scenario.eth0 255 0 1 1800)
           (Scenario.host_idev 1)).
  vm_compute. reflexivity.
Defined.

(** ** Start and end of the protocol *)

(** X24.  Starting from nothing registered: when [ndisc_init] succeeds, the
    per-namespace operations, the neighbour table and the notifier are
    registered, the sysctl entries too in a kernel with [CONFIG_SYSCTL], and
    [ndisc_cleanup] then leaves nothing registered.  When it fails, it
    answers the error code of the registration that failed and leaves
    neither the per-namespace operations, nor the sysctl entries, nor the
    notifier registered; but the neighbour table it has initialised after
    the first registration stays initialised. *)
Theorem ndisc_init_unwinds (CONFIG_SYSCTL : bool) (e : init_faults) :
  let r := ndisc_init CONFIG_SYSCTL e nd_registry_none in
  if r.1 =? 0
  then r.2 = {| pernet_subsys := true; neigh_table := true;
                neigh_sysctl := CONFIG_SYSCTL; netdevice_notifier := true |}
       /\ ndisc_cleanup CONFIG_SYSCTL r.2 = nd_registry_none
  else pernet_subsys r.2 = false /\ neigh_sysctl r.2 = false
       /\ netdevice_notifier r.2 = false
       /\ neigh_table r.2 = negb (nonzero (register_pernet_subsys_err e))
       /\ (r.1 = register_pernet_subsys_err e
           \/ (CONFIG_SYSCTL = true /\ r.1 = neigh_sysctl_register_err e)
           \/ r.1 = register_netdevice_notifier_err e).
Proof.
  cbv zeta. unfold ndisc_init, nonzero.
  destruct (Z.eqb_spec (register_pernet_subsys_err e) 0) as [E1|E1];
    cbn [negb].
  - destruct CONFIG_SYSCTL.
    + destruct (Z.eqb_spec (neigh_sysctl_register_err e) 0) as [E2|E2];
        cbn [negb].
      * destruct (Z.eqb_spec (register_netdevice_notifier_err e) 0)
          as [E3|E3]; cbn [negb fst snd].
        -- rewrite E3. cbn. split; reflexivity.
        -- destruct (Z.eqb_spec (register_netdevice_notifier_err e) 0);
             [contradiction|]. cbn. auto 10.
      * cbn [fst snd].
        destruct (Z.eqb_spec (neigh_sysctl_register_err e) 0);
          [contradiction|]. cbn. auto 10.
    + destruct (Z.eqb_spec (register_netdevice_notifier_err e) 0)
        as [E3|E3]; cbn [negb fst snd].
      * rewrite E3. cbn. split; reflexivity.
      * destruct (Z.eqb_spec (register_netdevice_notifier_err e) 0);
          [contradiction|]. cbn. auto 10.
  - cbn [fst snd].
    destruct (Z.eqb_spec (register_pernet_subsys_err e) 0); [contradiction|].
    cbn. auto 10.
Qed.

(** ** The warning for the deprecated sysctl names *)

Lemma strcmp_refl s : strcmp s s = 0.
Proof.
  induction s as [|c s IH]; [reflexivity|].
  cbn [strcmp]. rewrite Ascii.eqb_refl. exact IH.
Qed.

Lemma ndisc_warn_calls_count calls : forall st,
  0 <= warned st <= 5 ->
  0 <= warned (ndisc_warn_calls st calls).1 <= 5
  /\ Z.of_nat (length (ndisc_warn_calls st calls).2)
     = warned (ndisc_warn_calls st calls).1 - warned st.
Proof.
  induction calls as [|[[[comm procname] func] dev_name] rest IH]; intros st Hst.
  - cbn. lia.
  - cbn [ndisc_warn_calls]. unfold ndisc_warn_deprecated_sysctl.
    destruct (nonzero (strcmp (warncomm st) comm)); cbn [andb].
    + destruct (Z.ltb_spec (warned st) 5) as [Hlt|Hge].
      * assert (Hw : to_int (warned st + 1) = warned st + 1).
        { unfold to_int. rewrite Z.mod_small by lia. lia. }
        rewrite Hw.
        specialize (IH {| warncomm := comm; warned := warned st + 1 |}).
        cbn [warned] in IH. specialize (IH ltac:(lia)).
        destruct (ndisc_warn_calls _ rest) as [st' msgs].
        cbn [fst snd length] in *. lia.
      * specialize (IH st Hst).
        destruct (ndisc_warn_calls st rest) as [st' msgs].
        cbn [fst snd] in *. exact IH.
    + specialize (IH st Hst).
      destruct (ndisc_warn_calls st rest) as [st' msgs].
      cbn [fst snd] in *. exact IH.
Qed.

(** X25.  However often and by whichever processes the deprecated sysctl
    names are used, at most five warnings are ever printed; and a process
    that has just been warned is not warned again by its next call. *)
Theorem ndisc_warn_deprecated_sysctl_limit
    (calls : list (string * string * string * string))
    (st : sysctl_warn) (comm procname func dev_name : string)
    (m : deprecated_warning) :
  (length (ndisc_warn_calls sysctl_warn_init calls).2 <= 5)%nat
  /\ ((ndisc_warn_deprecated_sysctl st comm procname func dev_name).2 = Some m ->
      forall procname' func' dev_name',
        (ndisc_warn_deprecated_sysctl
           (ndisc_warn_deprecated_sysctl st comm procname func dev_name).1
           comm procname' func' dev_name').2 = None).
Proof.
  split.
  - destruct (ndisc_warn_calls_count calls sysctl_warn_init) as [H1 H2];
      [cbn; lia|].
    change (warned sysctl_warn_init) with 0 in H2. lia.
  - unfold ndisc_warn_deprecated_sysctl.
    destruct (nonzero (strcmp (warncomm st) comm) && (warned st <? 5));
      [|discriminate].
    intros _ procname' func' dev_name'. cbn [fst snd warncomm].
    rewrite strcmp_refl. reflexivity.
Qed.

(** ** A solicitation sent by one host and answered by another *)

Section Exchange.
Context (cfg : kconfig) {K : Collaborators}.

(** An address option behind any bytes is found by the parser and read back
    by a device of the same kind of link. *)
Lemma nd_addr_option_parsed (pre : list byte) (type : Z) (data : list byte)
    (dev : net_device) :
  type = ND_OPT_SOURCE_LL_ADDR \/ type = ND_OPT_TARGET_LL_ADDR ->
  0 <= ndisc_addr_option_pad (dev_type dev) ->
  Z.of_nat (length data) = addr_len dev ->
  ndisc_opt_addr_space dev < 2048 ->
  let pad := ndisc_addr_option_pad (dev_type dev) in
  let space := ndisc_opt_addr_space dev in
  let opt := Z.of_nat (length pre) in
  let mem := pre ++ nd_addr_option type pad data space in
  ndisc_parse_options cfg mem opt space = Some (set_nd_slot ndopts_zero type opt)
  /\ ndisc_opt_addr_data mem opt dev = Some (opt + sizeof_nd_opt_hdr + pad)
  /\ lladdr_at mem (opt + sizeof_nd_opt_hdr + pad) dev = data.
Proof.
  intros Hty Hpad Hdata Hfit pad space opt mem.
  assert (Hsp : addr_len dev + pad + 2 <= space < addr_len dev + pad + 10
                /\ space mod 8 = 0).
  { subst space. unfold ndisc_opt_addr_space. fold pad.
    apply NDISC_OPT_SPACE_bounds. lia. }
  destruct Hsp as [Hsp Hmod].
  assert (Hsp8 : 8 * (space / 8) = space).
  { pose proof (Z.div_mod space 8 ltac:(lia)). lia. }
  assert (Htype : nd_opt_type mem opt = type).
  { subst mem. unfold nd_opt_type.
    rewrite <- (Z.add_0_r opt). rewrite load8_app_r by (subst opt; lia).
    unfold nd_addr_option. cbn [app]. rewrite load8_head, u8_to_byte.
    destruct Hty as [-> | ->]; reflexivity. }
  assert (Hlen : nd_opt_len mem opt = space / 8).
  { subst mem. unfold nd_opt_len.
    rewrite load8_app_r by (subst opt; lia).
    unfold nd_addr_option. cbn [app]. rewrite load8_second, u8_to_byte.
    apply Z.mod_small. split; [apply Z.div_pos; lia | lia]. }
  assert (Hl : Z.shiftl (nd_opt_len mem opt) 3 = space).
  { rewrite shiftl3, Hlen. exact Hsp8. }
  split; [|split].
  - rewrite (ndisc_parse_options_single cfg mem opt space) by (lia || exact Hl).
    unfold ndisc_parse_record. rewrite Htype.
    destruct Hty as [-> | ->]; reflexivity.
  - unfold ndisc_opt_addr_data. rewrite Hl. fold space.
    rewrite Z.eqb_refl. reflexivity.
  - subst mem. unfold lladdr_at, nd_addr_option.
    change ([to_byte type; to_byte (space / 8)]
            ++ replicate (Z.to_nat pad) (to_byte 0) ++ data ++
            replicate (Z.to_nat (space - 2 - pad - Z.of_nat (length data)))
              (to_byte 0))
      with (([to_byte type; to_byte (space / 8)]
            ++ replicate (Z.to_nat pad) (to_byte 0)) ++ data ++
            replicate (Z.to_nat (space - 2 - pad - Z.of_nat (length data)))
              (to_byte 0)).
    rewrite (app_assoc pre).
    apply load_bytes_app.
    + rewrite !length_app, length_replicate. cbn.
      unfold sizeof_nd_opt_hdr. subst opt. lia.
    + lia.
Qed.

(** The options of a neighbour solicitation or advertisement on the wire
    start at byte 64 of the packet. *)
Lemma nd_wire_options dev hop saddr daddr type r s o target opts :
  exists pre,
    length pre = 64%nat
    /\ skb_data (nd_wire dev hop saddr daddr
                   (nd_msg_bytes type r s o target ++ opts))
       = pre ++ opts.
Proof.
  exists (take 64 (skb_data (nd_wire dev hop saddr daddr
                              (nd_msg_bytes type r s o target ++ opts)))).
  unfold nd_wire, nd_msg_bytes.
  cbn [skb_data be_bytes app take drop length]. split; reflexivity.
Qed.

Lemma to_int_u32_small z : 0 <= z < 2147483648 -> to_int (to_u32 z) = z.
Proof.
  intros H. unfold to_int, to_u32.
  rewrite (Z.mod_small z) by lia. rewrite Z.mod_small by lia. lia.
Qed.

(** X26.  A solicitation sent by one host is understood and answered by
    another host on the same kind of link that holds the target: the packet
    [ndisc_send_ns] emits from a specified source, received by
    [ndisc_rcv] on the other host, passes its checks; the receiver enters
    the link-layer address of the sending interface, read from the source
    link-layer address option, into its cache entry for the source, and
    sends a solicited neighbour advertisement for the target back to the
    source. *)
Theorem ndisc_ns_exchange (fA fB : faults) (wA wB : world)
    (devA devB : net_device) (target daddr : in6_addr)
    (saddr : option in6_addr) (src : in6_addr) (ptype : Z)
    (ifp : inet6_ifaddr) (idev : inet6_dev) (n : neighbour) :
  alloc_skb_fails fA = false ->
  icmp6_dst_alloc_fails fA = false ->
  0 <= needed_tailroom devA ->
  0 <= ndisc_addr_option_pad (dev_type devA) ->
  Z.of_nat (length (dev_addr devA)) = addr_len devA ->
  0 < addr_len devA ->
  ndisc_opt_addr_space devA < 2048 ->
  match saddr with
  | Some a => Some a
  | None => ipv6_get_lladdr wA devA (Z.lor IFA_F_TENTATIVE IFA_F_OPTIMISTIC)
  end = Some src ->
  sk_hop_limit (ndisc_sk wA) = 255 ->
  0 < src < 2 ^ 128 ->
  0 <= target < 2 ^ 128 ->
  0 <= daddr < 2 ^ 128 ->
  dev_type devB = dev_type devA ->
  addr_len devB = addr_len devA ->
  skb_linearize_fails fB = false ->
  ipv6_addr_is_multicast target = false ->
  ipv6_get_ifaddr wB target devB = Some (ifp, idev) ->
  (has_flag (ifa_flags ifp) (Z.lor IFA_F_TENTATIVE IFA_F_OPTIMISTIC) = true ->
   has_flag (ifa_flags ifp) IFA_F_OPTIMISTIC = true) ->
  (__neigh_lookup fB wB src devB true).2 = Some n ->
  alloc_skb_fails fB = false ->
  icmp6_dst_alloc_fails fB = false ->
  0 <= needed_tailroom devB ->
  Z.of_nat (length (dev_addr devB)) = addr_len devB ->
  exists pkt,
    emitted (ndisc_send_ns fA wA devA target daddr saddr) = pkt :: emitted wA
    /\ nd_tbl (ndisc_rcv cfg fB wB (nd_received devB ptype pkt)).2
         !! (src, ifindex devB)
       = Some (neigh_update n (Some (dev_addr devA)) NUD_STALE
                 (Z.lor NEIGH_UPDATE_F_WEAK_OVERRIDE NEIGH_UPDATE_F_OVERRIDE))
    /\ emitted (ndisc_rcv cfg fB wB (nd_received devB ptype pkt)).2
       = nd_wire devB (sk_hop_limit (ndisc_sk wB)) target src
           (nd_msg_bytes NDISC_NEIGHBOUR_ADVERTISEMENT
              (nonzero (forwarding (cnf idev))) true
              (ipv6_addr_is_multicast daddr
               && negb (has_flag (ifa_flags ifp) IFA_F_OPTIMISTIC)) target
            ++ if ipv6_addr_is_multicast daddr
                  || nonzero (force_tllao (cnf idev))
               then nd_addr_option ND_OPT_TARGET_LL_ADDR
                      (ndisc_addr_option_pad (dev_type devB)) (dev_addr devB)
                      (ndisc_opt_addr_space devB)
               else [])
         :: emitted wB.
Proof.
  intros HaA HdA HtA HpadA HdevA HlenA HspA Hsrc Hhop Hs Ht Hd Hty Hal Hlin
         Hmc Hifa Hfl Hn HaB HdB HtB HdevB.
  pose proof (ndisc_send_ns_sent fA wA devA target daddr saddr src
                HaA HdA HtA HpadA HdevA Hsrc) as Hsent.
  assert (Hany : ipv6_addr_any src = false)
    by (unfold ipv6_addr_any; apply Z.eqb_neq; lia).
  assert (Hnz : nonzero (addr_len devA) = true)
    by (unfold nonzero; destruct (Z.eqb_spec (addr_len devA) 0); [lia|reflexivity]).
  rewrite Hany, Hnz, Hhop in Hsent. cbn [negb andb] in Hsent.
  set (opt := nd_addr_option ND_OPT_SOURCE_LL_ADDR
                (ndisc_addr_option_pad (dev_type devA)) (dev_addr devA)
                (ndisc_opt_addr_space devA)) in *.
  set (pkt := nd_wire devA 255 src daddr
                (nd_msg_bytes NDISC_NEIGHBOUR_SOLICITATION false false false
                   target ++ opt)) in *.
  exists pkt. split; [exact Hsent|].
  set (skb := set_cb_flags (nd_received devB ptype pkt) 0).
  assert (Hspace : ndisc_opt_addr_space devB = ndisc_opt_addr_space devA)
    by (unfold ndisc_opt_addr_space; rewrite Hty, Hal; reflexivity).
  assert (Hlopt : Z.of_nat (length opt) = ndisc_opt_addr_space devA).
  { subst opt. apply length_nd_addr_option; [exact HpadA|].
    destruct (NDISC_OPT_SPACE_bounds
                (addr_len devA + ndisc_addr_option_pad (dev_type devA)))
      as [Hb _]; [lia|].
    unfold ndisc_opt_addr_space. lia. }
  (* what the receive path reads in the packet *)
  assert (Hhl : ipv6_hdr_hop_limit (nd_received devB ptype pkt) = 255)
    by exact (u8_to_byte 255).
  assert (Hcode : icmp6_code (nd_received devB ptype pkt) = 0) by reflexivity.
  assert (Htype : icmp6_type skb = NDISC_NEIGHBOUR_SOLICITATION)
    by exact (u8_to_byte NDISC_NEIGHBOUR_SOLICITATION).
  assert (Hsa : ipv6_hdr_saddr skb = src).
  { transitivity (src mod 2 ^ 128); [exact (be_value_be_bytes 16 src)|].
    apply Z.mod_small. lia. }
  assert (Hda : ipv6_hdr_daddr skb = daddr).
  { transitivity (daddr mod 2 ^ 128); [exact (be_value_be_bytes 16 daddr)|].
    apply Z.mod_small. lia. }
  assert (Htg : nd_msg_target skb = target).
  { transitivity (target mod 2 ^ 128); [exact (be_value_be_bytes 16 target)|].
    apply Z.mod_small. lia. }
  destruct (nd_wire_options devA 255 src daddr NDISC_NEIGHBOUR_SOLICITATION
              false false false target opt) as (pre & Hpre & Hdata).
  fold pkt in Hdata.
  assert (Hmem : skb_data skb = pre ++ opt) by exact Hdata.
  assert (Htail : skb_tail skb = 64 + ndisc_opt_addr_space devA).
  { unfold skb_tail. rewrite Hmem, length_app. lia. }
  assert (Hth : transport_header skb = 40) by reflexivity.
  assert (Hdv : skb_dev skb = devB) by reflexivity.
  destruct (nd_addr_option_parsed pre ND_OPT_SOURCE_LL_ADDR (dev_addr devA) devB)
    as (Hparse & Hdata_at & Hll);
    [left; reflexivity | rewrite Hty; exact HpadA | lia | lia |].
  cbv zeta in Hparse, Hdata_at, Hll.
  rewrite Hty, Hspace, Hpre in Hparse, Hdata_at, Hll.
  fold opt in Hparse, Hdata_at, Hll. rewrite <- Hmem in Hparse, Hdata_at, Hll.
  change (Z.of_nat 64) with 64 in Hparse, Hdata_at, Hll.
  (* the receive entry point hands the packet to the solicitation handler *)
  assert (Hrcv : (ndisc_rcv cfg fB wB (nd_received devB ptype pkt)).2
                 = ndisc_recv_ns cfg fB wB skb).
  { unfold ndisc_rcv. rewrite Hlin, Hhl, Hcode. cbn [negb Z.eqb].
    fold skb. rewrite Htype. reflexivity. }
  rewrite Hrcv.
  pose proof (ndisc_recv_ns_reply_sent cfg fB wB skb
                (set_nd_slot ndopts_zero ND_OPT_SOURCE_LL_ADDR 64)
                (Some (64 + sizeof_nd_opt_hdr
                       + ndisc_addr_option_pad (dev_type devA)))
                ifp idev n) as H.
  cbv zeta in H. rewrite Hsa, Hda, Htg, Hdv, Htail, Hth in H.
  replace (64 + ndisc_opt_addr_space devA - (40 + sizeof_nd_msg))
    with (ndisc_opt_addr_space devA) in H by (unfold sizeof_nd_msg; lia).
  destruct (NDISC_OPT_SPACE_bounds
              (addr_len devA + ndisc_addr_option_pad (dev_type devA)))
    as [Hb _]; [lia|].
  fold (ndisc_opt_addr_space devA) in Hb.
  rewrite to_int_u32_small in H by lia.
  rewrite bool_decide_eq_true_2 in H by eauto.
  rewrite orb_true_r in H. cbn [orb] in H.
  assert (P1 : sizeof_nd_msg <= skb_len skb)
    by (unfold skb_len; rewrite Htail, Hth; unfold sizeof_nd_msg; lia).
  assert (P2 : ndisc_opt_lladdr skb
                 (nd_opts_src_lladdr
                    (set_nd_slot ndopts_zero ND_OPT_SOURCE_LL_ADDR 64))
               = Some (Some (64 + sizeof_nd_opt_hdr
                             + ndisc_addr_option_pad (dev_type devA)))).
  { unfold ndisc_opt_lladdr.
    change (nd_opts_src_lladdr
              (set_nd_slot ndopts_zero ND_OPT_SOURCE_LL_ADDR 64))
      with (Some 64).
    rewrite Hdv, Hdata_at. reflexivity. }
  assert (P3 : Z.of_nat (length (dev_addr devB)) = addr_len devB) by exact HdevB.
  assert (P4 : 0 <= ndisc_addr_option_pad (dev_type devB))
    by (rewrite Hty; exact HpadA).
  destruct (H P1 Hmc Hany Hparse P2 Hifa Hfl Hn HaB HdB HtB P4 P3) as [H1 H2].
  split.
  - rewrite H1. unfold lladdr_bytes. cbn [fmap option_fmap option_map].
    rewrite Hdv, Hll. reflexivity.
  - rewrite H2. rewrite Hal, Hnz, andb_true_r. reflexivity.
Qed.

End Exchange.

(** [peer] asks for the link-local address of the host, and the host, which
    knows [peer], answers. *)
Lemma ndisc_ns_exchange_witness :
  exists pkt,
    emitted
      (ndisc_send_ns (K := Scenario.reference) Scenario.no_faults
         (Scenario.host 1) Scenario.eth0 Scenario.our_lladdr
         Scenario.our_lladdr (Some Scenario.peer))
    = pkt :: emitted (Scenario.host 1)
    /\ nd_tbl
         (ndisc_rcv Scenario.cfg (K := Scenario.reference) Scenario.no_faults
            (Scenario.host_with_peer 0)
            (nd_received Scenario.eth0 PACKET_HOST pkt)).2
         !! (Scenario.peer, ifindex Scenario.eth0)
       = Some (neigh_update (Collaborators := Scenario.reference)
                 (Scenario.peer_entry 0) (Some (dev_addr Scenario.eth0))
                 NUD_STALE
                 (Z.lor NEIGH_UPDATE_F_WEAK_OVERRIDE NEIGH_UPDATE_F_OVERRIDE))
    /\ emitted
         (ndisc_rcv Scenario.cfg (K := Scenario.reference) Scenario.no_faults
            (Scenario.host_with_peer 0)
            (nd_received Scenario.eth0 PACKET_HOST pkt)).2
       = [nd_wire (K := Scenario.reference) Scenario.eth0 255
            Scenario.our_lladdr Scenario.peer
            (nd_msg_bytes NDISC_NEIGHBOUR_ADVERTISEMENT false true false
               Scenario.our_lladdr)].
Proof.
  refine (ndisc_ns_exchange Scenario.cfg (K := Scenario.reference)
            Scenario.no_faults Scenario.no_faults
            (Scenario.host 1) (Scenario.host_with_peer 0)
            Scenario.eth0 Scenario.eth0 Scenario.our_lladdr
            Scenario.our_lladdr (Some Scenario.peer) Scenario.peer
            PACKET_HOST
            {| ifa_addr := Scenario.our_lladdr; ifa_flags := 0 |}
            (Scenario.host_idev 1) (Scenario.peer_entry 0)
            _ _ _ _ _ _ _ _ _ _ _ _ _ _ _ _ _ _ _ _ _ _ _).
  - vm_compute. reflexivity.
  - vm_compute. reflexivity.
  - vm_compute. discriminate.
  - vm_compute. discriminate.
  - vm_compute. reflexivity.
  - vm_compute. reflexivity.
  - vm_compute. reflexivity.
  - vm_compute. reflexivity.
  - vm_compute. reflexivity.
  - vm_compute. split; [reflexivity | reflexivity].
  - vm_compute. split; [discriminate | reflexivity].
  - vm_compute. split; [discriminate | reflexivity].
  - vm_compute. reflexivity.
  - vm_compute. reflexivity.
  - vm_compute. reflexivity.
  - vm_compute. reflexivity.
  - vm_compute. reflexivity.
  - vm_compute. discriminate.
  - vm_compute. reflexivity.
  - vm_compute. reflexivity.
  - vm_compute. reflexivity.
  - vm_compute. discriminate.
  - vm_compute. reflexivity.
Defined.

(** ** The reachability driver: what leaves *)

Section Solicit.
Context (cfg : kconfig) {K : Collaborators}.


End Solicit.


(** ** The Redirect as it leaves *)

Lemma rd_len_eq optlen tail :
  0 <= optlen <= 1200 ->
  Z.land (to_int (Z.min (to_u32 (IPV6_MIN_MTU - sizeof_ipv6hdr - sizeof_rd_msg
                                 - optlen))
                        (to_u32 (tail + 8))))
    (Z.lnot 7)
  = 8 * (Z.min (IPV6_MIN_MTU - sizeof_ipv6hdr - sizeof_rd_msg - optlen)
           (to_u32 (tail + 8)) / 8).
Proof.
  intros Ho. rewrite land_lnot_7.
  unfold IPV6_MIN_MTU, sizeof_ipv6hdr, sizeof_rd_msg, to_u32.
  rewrite (Z.mod_small (1280 - 40 - 40 - optlen)) by lia.
  pose proof (Z.mod_pos_bound (tail + 8) 4294967296 ltac:(lia)) as Hb.
  set (m := Z.min (1280 - 40 - 40 - optlen) ((tail + 8) mod 4294967296)).
  assert (Hm : 0 <= m <= 1200) by (subst m; lia).
  unfold to_int. rewrite (Z.mod_small (m + 2147483648)) by lia.
  f_equal. f_equal. lia.
Qed.

Section RedirectWire.
Context (cfg : kconfig) {K : Collaborators}.

Lemma neigh_lookup_create_sk f w pkey dev creat :
  ndisc_sk (__neigh_lookup f w pkey dev creat).1 = ndisc_sk w.
Proof.
  destruct (neigh_lookup_create_nd_tbl f w pkey dev creat) as (m & -> & _).
  reflexivity.
Qed.

(** The buffer of a Redirect once filled: the message, the target
    link-layer address option when there is an address to put in it, and
    the redirected header option when there is room for one. *)
Lemma ndisc_redirect_buffer f dev (msg : list byte) (ha : option (list byte))
    (orig : sk_buff) (optlen rd_len : Z) buff :
  ndisc_alloc_skb f dev (Z.of_nat (length msg) + (optlen + rd_len)) = Some buff ->
  0 <= needed_tailroom dev ->
  0 <= ndisc_addr_option_pad (dev_type dev) ->
  match ha with
  | Some a => Z.of_nat (length a) = addr_len dev
              /\ optlen = ndisc_opt_addr_space dev
  | None => optlen = 0
  end ->
  0 <= optlen ->
  rd_len = 0 \/ 8 <= rd_len ->
  rd_len - 8 <= Z.of_nat (length (skb_data orig)) ->
  let b1 := skb_put_struct buff msg in
  let b2 := match ha with
            | Some a => ndisc_fill_addr_option b1 ND_OPT_TARGET_LL_ADDR a
            | None => b1
            end in
  let b3 := if nonzero rd_len
            then ndisc_fill_redirect_hdr_option b2 orig rd_len
            else b2 in
  tx_dev b3 = dev
  /\ tx_data b3
     = msg
       ++ match ha with
          | Some a =>
              nd_addr_option ND_OPT_TARGET_LL_ADDR
                (ndisc_addr_option_pad (dev_type dev)) a
                (ndisc_opt_addr_space dev)
          | None => []
          end
       ++ if rd_len =? 0 then []
          else [to_byte ND_OPT_REDIRECT_HDR; to_byte (Z.shiftr rd_len 3)]
               ++ replicate 6 (to_byte 0)
               ++ take (Z.to_nat (rd_len - 8)) (skb_data orig).
Proof.
  unfold ndisc_alloc_skb. intros Ea Ht Hpad Hha Ho Hrd Horig.
  destruct (alloc_skb_fails f); [discriminate|]. injection Ea as <-.
  cbv zeta.
  set (room := map (heap f)
                 (seq 0 (Z.to_nat (Z.of_nat (length msg) + (optlen + rd_len)
                                   + needed_tailroom dev)))).
  assert (Hroom : Z.of_nat (length room)
                  = Z.of_nat (length msg) + (optlen + rd_len)
                    + needed_tailroom dev).
  { subst room. rewrite length_map, length_seq. lia. }
  rewrite skb_put_struct_fresh by lia.
  set (b1 := {| tx_dev := dev; tx_data := msg;
                tx_room := drop (length msg) room; tx_dst := false |}).
  set (b2 := match ha with
             | Some a => ndisc_fill_addr_option b1 ND_OPT_TARGET_LL_ADDR a
             | None => b1
             end).
  assert (H2 : tx_dev b2 = dev
               /\ tx_data b2
                  = msg ++ match ha with
                           | Some a =>
                               nd_addr_option ND_OPT_TARGET_LL_ADDR
                                 (ndisc_addr_option_pad (dev_type dev)) a
                                 (ndisc_opt_addr_space dev)
                           | None => []
                           end
               /\ Z.of_nat (length (tx_room b2)) = rd_len + needed_tailroom dev).
  { subst b2. destruct ha as [a|].
    - destruct Hha as [Hl Hop]. split; [reflexivity|]. split.
      + apply (ndisc_fill_addr_option_bytes b1 ND_OPT_TARGET_LL_ADDR a);
          [exact Hpad | exact Hl |].
        cbn [b1 tx_room tx_dev]. rewrite length_drop. lia.
      + unfold ndisc_fill_addr_option, skb_put.
        cbn [b1 tx_room tx_dev set_tx_data]. rewrite !length_drop. lia.
    - split; [reflexivity|]. split; [rewrite app_nil_r; reflexivity|].
      cbn [b1 tx_room]. rewrite length_drop. lia. }
  destruct H2 as (Hd2 & Hb2 & Hr2).
  unfold nonzero. destruct (Z.eqb_spec rd_len 0) as [E0|E0]; cbn [negb].
  - split; [exact Hd2|]. rewrite Hb2, app_nil_r. reflexivity.
  - split; [exact Hd2|].
    rewrite ndisc_fill_redirect_hdr_option_bytes by lia.
    rewrite Hb2, <- app_assoc. reflexivity.
Qed.

(** X13.  A Redirect is one packet at most; it goes to the source of the
    packet that caused it and never exceeds the minimum IPv6 MTU of 1280
    bytes.  When it is sent (there is a link-local address to send from,
    the target is acceptable, a route and a buffer can be had, the rate
    limit allows it and the neighbour entry of the target can be had), it
    is the message with the target and the destination of the offending
    packet, the target link-layer address option when the interface has
    link-layer addresses and the entry of the target is valid, and the
    redirected header option: eight bytes of option header and the start of
    the offending packet, the whole option being the smaller of what is left
    of 1280 bytes after the headers and the address option and of the
    length of the packet plus eight, rounded down to a multiple of eight;
    when that is zero the option is left out. *)
Theorem ndisc_send_redirect_fits_min_mtu (f : faults) (w : world)
    (skb : sk_buff) (target : in6_addr) :
  let dev := skb_dev skb in
  0 <= ndisc_opt_addr_space dev <= 1200 ->
  (emitted (ndisc_send_redirect f w skb target) = emitted w
   \/ exists pkt,
        emitted (ndisc_send_redirect f w skb target) = pkt :: emitted w
        /\ skb_tail pkt <= IPV6_MIN_MTU
        /\ ipv6_hdr_daddr pkt = ipv6_hdr_saddr skb mod 2 ^ 128)
  /\ forall (saddr_buf : in6_addr) (neigh : neighbour),
       let with_opt :=
         nonzero (addr_len dev) && has_flag (nud_state neigh) NUD_VALID in
       let optlen := if with_opt then ndisc_opt_addr_space dev else 0 in
       let rd_len :=
         8 * (Z.min (IPV6_MIN_MTU - sizeof_ipv6hdr - sizeof_rd_msg - optlen)
                (to_u32 (skb_tail skb + 8)) / 8) in
       ipv6_get_lladdr w dev IFA_F_TENTATIVE = Some saddr_buf ->
       negb (ipv6_addr_equal (ipv6_hdr_daddr skb) target)
       && negb (ipv6_addr_type target
                =? Z.lor IPV6_ADDR_UNICAST IPV6_ADDR_LINKLOCAL) = false ->
       route_output_fails f = false ->
       xfrm_lookup_fails f = false ->
       rt_is_gateway f = false ->
       xrlim_allow f = true ->
       alloc_skb_fails f = false ->
       (nonzero (addr_len dev) = true ->
        (dst_neigh_lookup f w dev target).2 = Some neigh) ->
       0 <= addr_len dev <= Z.of_nat (length (ha neigh)) ->
       0 <= needed_tailroom dev ->
       0 <= ndisc_addr_option_pad (dev_type dev) ->
       emitted (ndisc_send_redirect f w skb target)
       = nd_wire dev (sk_hop_limit (ndisc_sk w)) saddr_buf (ipv6_hdr_saddr skb)
           (rd_msg_bytes NDISC_REDIRECT target (ipv6_hdr_daddr skb)
            ++ (if with_opt
                then nd_addr_option ND_OPT_TARGET_LL_ADDR
                       (ndisc_addr_option_pad (dev_type dev))
                       (take (Z.to_nat (addr_len dev)) (ha neigh))
                       (ndisc_opt_addr_space dev)
                else [])
            ++ (if rd_len =? 0 then []
                else nd_redirect_hdr_option rd_len (skb_data skb)))
         :: emitted w
       /\ rd_len mod 8 = 0
       /\ rd_len <= skb_tail skb + 8
       /\ sizeof_ipv6hdr + sizeof_rd_msg + optlen + rd_len <= IPV6_MIN_MTU
       /\ (8 <= IPV6_MIN_MTU - sizeof_ipv6hdr - sizeof_rd_msg - optlen ->
           skb_tail skb + 8 < 4294967296 -> 8 <= rd_len).
Proof.
  cbv zeta. intros Hsp. split; [exact (ndisc_send_redirect_bounded f w skb target Hsp)|].
  intros saddr_buf neigh Hll Hgate Hro Hxf Hgw Hxr Hal Hn Hha Ht Hpad.
  set (dev := skb_dev skb) in *.
  set (with_opt := nonzero (addr_len dev) && has_flag (nud_state neigh) NUD_VALID).
  set (optlen := if with_opt then ndisc_opt_addr_space dev else 0).
  assert (Hol : 0 <= optlen <= 1200) by (subst optlen; destruct with_opt; lia).
  set (rd_len := 8 * (Z.min (IPV6_MIN_MTU - sizeof_ipv6hdr - sizeof_rd_msg - optlen)
                        (to_u32 (skb_tail skb + 8)) / 8)).
  assert (Htl : 0 <= skb_tail skb) by (unfold skb_tail; lia).
  assert (Hu : 0 <= to_u32 (skb_tail skb + 8) <= skb_tail skb + 8).
  { unfold to_u32. split; [apply Z.mod_pos_bound; lia|].
    apply Z.mod_le; lia. }
  set (m := Z.min (IPV6_MIN_MTU - sizeof_ipv6hdr - sizeof_rd_msg - optlen)
              (to_u32 (skb_tail skb + 8))) in *.
  assert (Hm : 0 <= m) by (subst m; unfold IPV6_MIN_MTU, sizeof_ipv6hdr, sizeof_rd_msg; lia).
  pose proof (Z.div_mod m 8 ltac:(lia)) as Hdm.
  pose proof (Z.mod_pos_bound m 8 ltac:(lia)) as Hmb.
  assert (Hr8 : rd_len mod 8 = 0).
  { subst rd_len. rewrite Z.mul_comm. apply Z.mod_mul. lia. }
  assert (Hrle : 0 <= rd_len <= m) by (subst rd_len; lia).
  assert (Hrd : rd_len = 0 \/ 8 <= rd_len) by (subst rd_len; lia).
  assert (Hm1 : m <= IPV6_MIN_MTU - sizeof_ipv6hdr - sizeof_rd_msg - optlen)
    by (subst m; apply Z.le_min_l).
  assert (Hm2 : m <= to_u32 (skb_tail skb + 8)) by (subst m; apply Z.le_min_r).
  split; [|split; [exact Hr8|split; [lia|split]]].
  2:{ lia. }
  2:{ intros H8 Hw.
      assert (8 <= m).
      { subst m. apply Z.min_glb; [exact H8|].
        unfold to_u32. rewrite Z.mod_small by lia. lia. }
      subst rd_len. lia. }
  unfold ndisc_send_redirect. fold dev. rewrite Hll, Hgate, Hro, Hxf, Hgw, Hxr.
  cbn [negb].
  assert (Hsend : forall w1 (a : option (list byte)),
            events w1 = events w -> ndisc_sk w1 = ndisc_sk w ->
            match a with
            | Some a0 => with_opt = true
                         /\ a0 = take (Z.to_nat (addr_len dev)) (ha neigh)
            | None => with_opt = false
            end ->
            emitted
              match ndisc_alloc_skb f dev
                      (sizeof_rd_msg
                       + (optlen
                          + Z.land
                              (to_int
                                 (Z.min
                                    (to_u32 (IPV6_MIN_MTU - sizeof_ipv6hdr
                                             - sizeof_rd_msg - optlen))
                                    (to_u32 (skb_tail skb + 8))))
                              (Z.lnot 7))) with
              | Some buff =>
                  ndisc_send_skb f w1
                    (skb_dst_set
                       (if nonzero
                             (Z.land
                                (to_int
                                   (Z.min
                                      (to_u32 (IPV6_MIN_MTU - sizeof_ipv6hdr
                                               - sizeof_rd_msg - optlen))
                                      (to_u32 (skb_tail skb + 8))))
                                (Z.lnot 7))
                        then
                          ndisc_fill_redirect_hdr_option
                            match a with
                            | Some ha0 =>
                                ndisc_fill_addr_option
                                  (skb_put_struct buff
                                     (rd_msg_bytes NDISC_REDIRECT target
                                        (ipv6_hdr_daddr skb)))
                                  ND_OPT_TARGET_LL_ADDR ha0
                            | None =>
                                skb_put_struct buff
                                  (rd_msg_bytes NDISC_REDIRECT target
                                     (ipv6_hdr_daddr skb))
                            end skb
                            (Z.land
                               (to_int
                                  (Z.min
                                     (to_u32 (IPV6_MIN_MTU - sizeof_ipv6hdr
                                              - sizeof_rd_msg - optlen))
                                     (to_u32 (skb_tail skb + 8))))
                               (Z.lnot 7))
                        else
                          match a with
                          | Some ha0 =>
                              ndisc_fill_addr_option
                                (skb_put_struct buff
                                   (rd_msg_bytes NDISC_REDIRECT target
                                      (ipv6_hdr_daddr skb)))
                                ND_OPT_TARGET_LL_ADDR ha0
                          | None =>
                              skb_put_struct buff
                                (rd_msg_bytes NDISC_REDIRECT target
                                   (ipv6_hdr_daddr skb))
                          end))
                    (ipv6_hdr_saddr skb) saddr_buf
              | None => w1
              end
            = nd_wire dev (sk_hop_limit (ndisc_sk w)) saddr_buf
                (ipv6_hdr_saddr skb)
                (rd_msg_bytes NDISC_REDIRECT target (ipv6_hdr_daddr skb)
                 ++ (if with_opt
                     then nd_addr_option ND_OPT_TARGET_LL_ADDR
                            (ndisc_addr_option_pad (dev_type dev))
                            (take (Z.to_nat (addr_len dev)) (ha neigh))
                            (ndisc_opt_addr_space dev)
                     else [])
                 ++ (if rd_len =? 0 then []
                     else nd_redirect_hdr_option rd_len (skb_data skb)))
              :: emitted w).
  { intros w1 a Hev Hsk Ha.
    rewrite (rd_len_eq optlen (skb_tail skb) Hol). fold m. fold rd_len.
    destruct (ndisc_alloc_skb f dev _) as [buff|] eqn:Ea;
      [|unfold ndisc_alloc_skb in Ea; rewrite Hal in Ea; discriminate].
    set (msg := rd_msg_bytes NDISC_REDIRECT target (ipv6_hdr_daddr skb)) in *.
    assert (Hmsg : Z.of_nat (length msg) = sizeof_rd_msg) by reflexivity.
    destruct (ndisc_redirect_buffer f dev msg a skb optlen rd_len buff)
      as [Hdv Hdt].
    - rewrite Hmsg. exact Ea.
    - exact Ht.
    - exact Hpad.
    - destruct a as [a0|].
      + destruct Ha as [Hw ->]. split.
        * rewrite length_take. lia.
        * subst optlen. rewrite Hw. reflexivity.
      + subst optlen. rewrite Ha. reflexivity.
    - lia.
    - exact Hrd.
    - unfold skb_tail in *. lia.
    - cbv zeta in Hdv, Hdt.
      rewrite ndisc_send_skb_wire.
      + change (tx_dev (skb_dst_set ?b)) with (tx_dev b).
        change (tx_data (skb_dst_set ?b)) with (tx_data b).
        rewrite Hdv, Hdt, Hsk, (emitted_ext _ _ Hev).
        f_equal. f_equal. f_equal.
        assert (Hsh : Z.shiftr rd_len 3 = rd_len / 8)
          by (rewrite Z.shiftr_div_pow2 by lia; reflexivity).
        rewrite Hsh. unfold nd_redirect_hdr_option.
        f_equal. destruct a as [a0|].
        * destruct Ha as [-> ->]. reflexivity.
        * rewrite Ha. reflexivity.
      + change (tx_data (skb_dst_set ?b)) with (tx_data b).
        rewrite Hdt, length_app. change (length msg) with 40%nat. lia.
      + reflexivity. }
  unfold dst_neigh_lookup in *.
  destruct (nonzero (addr_len dev)) eqn:Enz.
  - specialize (Hn eq_refl).
    pose proof (neigh_lookup_create_events f w target dev true) as Hev.
    pose proof (neigh_lookup_create_sk f w target dev true) as Hsk.
    destruct (__neigh_lookup f w target dev true) as [w1 n].
    cbn [fst snd] in Hn, Hev, Hsk. subst n.
    destruct (has_flag (nud_state neigh) NUD_VALID) eqn:Ev; cbv beta iota zeta.
    + replace (ndisc_opt_addr_space dev) with optlen at 1 2 3 4
        by (subst optlen with_opt; rewrite ?Enz, ?Ev; reflexivity).
      apply (Hsend w1 (Some (take (Z.to_nat (addr_len dev)) (ha neigh))) Hev Hsk).
      split; [subst with_opt; rewrite ?Enz, ?Ev; reflexivity | reflexivity].
    + replace 0 with optlen at 1 2 3 4
        by (subst optlen with_opt; rewrite ?Enz, ?Ev; reflexivity).
      apply (Hsend w1 None Hev Hsk).
      subst with_opt; rewrite ?Enz, ?Ev; reflexivity.
  - cbv beta iota zeta.
    apply (Hsend w None eq_refl eq_refl).
    subst with_opt; rewrite ?Enz; reflexivity.
Qed.

End RedirectWire.
(** The host, asked to tell [router] that [peer] is the better next hop for
    a packet of 72 bytes it forwarded: the Redirect that leaves carries 80
    bytes of redirected header option, and no address option since the
    entry of [peer] is still being resolved. *)
Lemma ndisc_send_redirect_fits_min_mtu_witness :
  emitted
    (ndisc_send_redirect (K := Scenario.reference) Scenario.no_faults
       (Scenario.host_with_peer 0)
       (Scenario.na_from Scenario.router Scenario.peer 0x60) Scenario.peer)
  = [nd_wire (K := Scenario.reference) Scenario.eth0 255 Scenario.our_lladdr
       Scenario.router
       (rd_msg_bytes NDISC_REDIRECT Scenario.peer Scenario.our_lladdr
        ++ nd_redirect_hdr_option 80
             (skb_data (Scenario.na_from Scenario.router Scenario.peer 0x60)))].
Proof.
  refine (proj1 (proj2 (ndisc_send_redirect_fits_min_mtu
                          (K := Scenario.reference) Scenario.no_faults
                          (Scenario.host_with_peer 0)
                          (Scenario.na_from Scenario.router Scenario.peer 0x60)
                          Scenario.peer _)
                   Scenario.our_lladdr (Scenario.peer_entry 0)
                   _ _ _ _ _ _ _ _ _ _ _)).
  - vm_compute. split; discriminate.
  - vm_compute. reflexivity.
  - vm_compute. reflexivity.
  - vm_compute. reflexivity.
  - vm_compute. reflexivity.
  - vm_compute. reflexivity.
  - vm_compute. reflexivity.
  - vm_compute. reflexivity.
  - intros _. vm_compute. reflexivity.
  - vm_compute. split; discriminate.
  - vm_compute. discriminate.
  - vm_compute. discriminate.
Defined.

(** ** A neighbour advertisement, written and read back *)

Section Decode.
Context (cfg : kconfig) {K : Collaborators}.

(** X11.  Decoding undoes encoding.  The neighbour advertisement that
    [ndisc_send_na] sends for an address of the interface, read with the
    accessors of the receive path, has the hop limit of the control socket,
    comes from the address advertised, goes to the destination asked for,
    is of type 136 with code 0, carries the router and solicited flags asked
    for and the override flag asked for unless the address is optimistic,
    and has the address as its target; its options start behind the 24
    bytes of the message and are what the emitter put there, and when the
    target link-layer address option is among them the parser of the
    receive path finds it and the link-layer address read from it is the one
    of the sending interface. *)
Theorem ndisc_send_na_decodes (f : faults) (w : world) (dev : net_device)
    (daddr solicited_addr : in6_addr) (router solicited override inc_opt : bool)
    (ifp : inet6_ifaddr) (idev : inet6_dev) :
  let with_opt :=
    (inc_opt || nonzero (force_tllao (cnf idev))) && nonzero (addr_len dev) in
  let opts :=
    if with_opt
    then nd_addr_option ND_OPT_TARGET_LL_ADDR
           (ndisc_addr_option_pad (dev_type dev)) (dev_addr dev)
           (ndisc_opt_addr_space dev)
    else [] in
  alloc_skb_fails f = false ->
  icmp6_dst_alloc_fails f = false ->
  0 <= needed_tailroom dev ->
  0 <= ndisc_addr_option_pad (dev_type dev) ->
  Z.of_nat (length (dev_addr dev)) = addr_len dev ->
  ipv6_get_ifaddr w solicited_addr dev = Some (ifp, idev) ->
  exists pkt,
    emitted (ndisc_send_na f w dev daddr solicited_addr router solicited
               override inc_opt)
    = pkt :: emitted w
    /\ skb_dev pkt = dev
    /\ ipv6_hdr_hop_limit pkt = sk_hop_limit (ndisc_sk w) mod 256
    /\ ipv6_hdr_saddr pkt = solicited_addr mod 2 ^ 128
    /\ ipv6_hdr_daddr pkt = daddr mod 2 ^ 128
    /\ icmp6_type pkt = NDISC_NEIGHBOUR_ADVERTISEMENT
    /\ icmp6_code pkt = 0
    /\ icmp6_router pkt = router
    /\ icmp6_solicited pkt = solicited
    /\ icmp6_override pkt
       = override && negb (has_flag (ifa_flags ifp) IFA_F_OPTIMISTIC)
    /\ nd_msg_target pkt = solicited_addr mod 2 ^ 128
    /\ skb_len pkt = sizeof_nd_msg + Z.of_nat (length opts)
    /\ load_bytes (skb_data pkt) (transport_header pkt + sizeof_nd_msg)
         (length opts) = opts
    /\ (with_opt = true -> ndisc_opt_addr_space dev < 2048 ->
        ndisc_parse_options cfg (skb_data pkt)
          (transport_header pkt + sizeof_nd_msg)
          (to_int (to_u32 (skb_tail pkt
                           - (transport_header pkt + sizeof_nd_msg))))
        = Some (set_nd_slot ndopts_zero ND_OPT_TARGET_LL_ADDR
                  (transport_header pkt + sizeof_nd_msg))
        /\ ((fun p => lladdr_at (skb_data pkt) p dev) <$>
              ndisc_opt_addr_data (skb_data pkt)
                (transport_header pkt + sizeof_nd_msg) dev)
           = Some (dev_addr dev)).
Proof.
  cbv zeta. intros Ha Hd Ht Hpad Hdev Hifa.
  eexists. split.
  { exact (ndisc_send_na_own_wire f w dev daddr solicited_addr router solicited
             override inc_opt ifp idev Ha Hd Ht Hpad Hdev Hifa). }
  set (o := override && negb (has_flag (ifa_flags ifp) IFA_F_OPTIMISTIC)).
  set (with_opt := (inc_opt || nonzero (force_tllao (cnf idev)))
                   && nonzero (addr_len dev)).
  set (opts := if with_opt
               then nd_addr_option ND_OPT_TARGET_LL_ADDR
                      (ndisc_addr_option_pad (dev_type dev)) (dev_addr dev)
                      (ndisc_opt_addr_space dev)
               else []).
  pose proof (nd_wire_fields dev (sk_hop_limit (ndisc_sk w)) solicited_addr
                daddr NDISC_NEIGHBOUR_ADVERTISEMENT router solicited o
                solicited_addr opts) as F.
  cbv zeta in F.
  destruct F as (F1 & F2 & F3 & F4 & F5 & F6 & F7 & F8 & F9 & F10 & F11).
  split; [reflexivity|].
  split; [exact F1|]. split; [exact F2|]. split; [exact F3|].
  split; [exact F4|]. split; [exact F5|]. split; [exact F6|].
  split; [exact F7|]. split; [exact F8|]. split; [exact F9|].
  split; [exact F10|]. split; [exact F11|].
  intros Hw Hsp.
  set (pkt := nd_wire dev (sk_hop_limit (ndisc_sk w)) solicited_addr daddr
                (nd_msg_bytes NDISC_NEIGHBOUR_ADVERTISEMENT router solicited o
                   solicited_addr ++ opts)) in *.
  destruct (nd_wire_options dev (sk_hop_limit (ndisc_sk w)) solicited_addr
              daddr NDISC_NEIGHBOUR_ADVERTISEMENT router solicited o
              solicited_addr opts) as (pre & Hpre & Hdata).
  fold pkt in Hdata.
  assert (Hopts : opts = nd_addr_option ND_OPT_TARGET_LL_ADDR
                           (ndisc_addr_option_pad (dev_type dev)) (dev_addr dev)
                           (ndisc_opt_addr_space dev))
    by (subst opts; rewrite Hw; reflexivity).
  assert (Hb : addr_len dev + ndisc_addr_option_pad (dev_type dev) + 2
               <= ndisc_opt_addr_space dev).
  { unfold ndisc_opt_addr_space.
    destruct (NDISC_OPT_SPACE_bounds
                (addr_len dev + ndisc_addr_option_pad (dev_type dev)))
      as [Hb _]; lia. }
  assert (Hlo : Z.of_nat (length opts) = ndisc_opt_addr_space dev).
  { rewrite Hopts. apply length_nd_addr_option; lia. }
  assert (Hth : transport_header pkt + sizeof_nd_msg = Z.of_nat (length pre)).
  { rewrite Hpre. reflexivity. }
  assert (Htail : skb_tail pkt - (transport_header pkt + sizeof_nd_msg)
                  = ndisc_opt_addr_space dev).
  { unfold skb_len in F10. lia. }
  destruct (nd_addr_option_parsed cfg pre ND_OPT_TARGET_LL_ADDR (dev_addr dev)
              dev (or_intror eq_refl) Hpad Hdev Hsp) as (P1 & P2 & P3).
  rewrite Htail, to_int_u32_small by lia.
  rewrite Hdata, Hopts, Hth. split; [exact P1|].
  rewrite P2. cbn [fmap option_fmap option_map]. rewrite P3. reflexivity.
Qed.

End Decode.

(** The advertisement the host sends to [peer] for its link-local address,
    solicited and overriding, with its link-layer address. *)
Lemma ndisc_send_na_decodes_witness :
  exists pkt,
    emitted
      (ndisc_send_na (K := Scenario.reference) Scenario.no_faults
         (Scenario.host 1) Scenario.eth0 Scenario.peer Scenario.our_lladdr
         false true true true)
    = [pkt]
    /\ ipv6_hdr_saddr pkt = Scenario.our_lladdr
    /\ ipv6_hdr_daddr pkt = Scenario.peer
    /\ icmp6_type pkt = NDISC_NEIGHBOUR_ADVERTISEMENT
    /\ icmp6_solicited pkt = true
    /\ icmp6_override pkt = true
    /\ nd_msg_target pkt = Scenario.our_lladdr
    /\ ((fun p => lladdr_at (skb_data pkt) p Scenario.eth0) <$>
          ndisc_opt_addr_data (K := Scenario.reference) (skb_data pkt)
            (transport_header pkt + sizeof_nd_msg) Scenario.eth0)
       = Some (dev_addr Scenario.eth0).
Proof.
  destruct (ndisc_send_na_decodes Scenario.cfg (K := Scenario.reference)
              Scenario.no_faults (Scenario.host 1) Scenario.eth0 Scenario.peer
              Scenario.our_lladdr false true true true
              {| ifa_addr := Scenario.our_lladdr; ifa_flags := 0 |}
              (Scenario.host_idev 1))
    as (pkt & E & _ & _ & Hs & Hd & Hty & _ & _ & Hso & Hov & Htg & _ & _ & Hop).
  - vm_compute. reflexivity.
  - vm_compute. reflexivity.
  - vm_compute. discriminate.
  - vm_compute. discriminate.
  - vm_compute. reflexivity.
  - vm_compute. reflexivity.
  - exists pkt. split; [exact E|]. split; [exact Hs|]. split; [exact Hd|].
    split; [exact Hty|]. split; [exact Hso|]. split; [exact Hov|].
    split; [exact Htg|].
    destruct Hop as [_ Hop]; [vm_compute; reflexivity | vm_compute; reflexivity|].
    exact Hop.
Defined.
